(** * Verification of the string-utils module (mod.ts)

    A shallow embedding of the [StringUtils] object of [src/mod.ts]:
    JavaScript strings are sequences of UTF-16 code units, the built-in
    string methods the module calls ([normalize("NFD")], [toLowerCase],
    [toUpperCase], [trim], [replace] with a regular expression, [split],
    [charAt], [slice], [substring], [padEnd], [repeat], [join], [toSorted])
    are written out as the ECMAScript standard and the Unicode Character
    Database (version 14.0.0) define them, and every function of the module
    that the verified properties mention is translated line by line on top
    of them.  [reveal], which waits and writes to the standard output, is
    not embedded.

    The functions are called as methods of [StringUtils], as the module
    asks.  What is left to the host is a parameter: the collation of
    [localeCompare], the members of [Object.prototype], which every record
    inherits, and the greatest length of a string, which the numbers of
    spaces of [spaceString] can go beyond; the strings of the other functions are
    taken to fit it.  The examples take the host to
    be V8, whose messages the exceptions have.  Numbers are the binary64
    values of IEEE 754, and their strings those of Number::toString; an
    array is a reference into a store; a record is the list of its own
    properties, and reading a property looks for it in the record and then
    in the prototype.  An exception is a value that a call completes with:
    what [table] throws before its [try] block is thrown, and what it
    throws inside comes back as a string.

    The file has the embedding first, then the definitions the properties
    are stated with, then the properties: the regular expression engine,
    [stripCliColors], [validate] and [normalizeArray], [table], sorting,
    [toLowerCase], strict normalization, the idempotence of [normalize]
    and [isAnagram]; then the other functions of the module, from
    [reverseString] to the lines of [table]. *)

From Stdlib Require Import String Ascii DecimalString.
From Stdlib Require Import ZArith List Bool Lia Permutation Sorted.
From Stdlib Require Import QArith Qround Qabs SpecFloat.
Set Warnings "-register-all".
Import ListNotations.
Local Open Scope Z_scope.

(** ** Strings *)

(** A JavaScript string: its UTF-16 code units, each in [0, 0xFFFF]. *)
Definition jsstring : Type := list Z.

(** The code unit of an ASCII character, and the string of an ASCII
    literal. *)
Definition unit_of_ascii (a : ascii) : Z := Z.of_N (N_of_ascii a).

Definition js (s : string) : jsstring := map unit_of_ascii (list_ascii_of_string s).

(** [str.length] *)
Definition len (s : jsstring) : Z := Z.of_nat (length s).

(** ** Unicode character data *)

(** The full canonical decomposition of every code point that has one
    (UnicodeData.txt, field 5, expanded until no code point of the result has
    a decomposition); the Hangul syllables, which are decomposed
    arithmetically, are not listed. *)
Definition canonical_decomposition_table : list (Z * list Z) :=
  [ (0xC0, [0x41; 0x300]); (0xC1, [0x41; 0x301]); (0xC2, [0x41; 0x302]); (0xC3, [0x41; 0x303]);
    (0xC4, [0x41; 0x308]); (0xC5, [0x41; 0x30A]); (0xC7, [0x43; 0x327]); (0xC8, [0x45; 0x300]);
    (0xC9, [0x45; 0x301]); (0xCA, [0x45; 0x302]); (0xCB, [0x45; 0x308]); (0xCC, [0x49; 0x300]);
    (0xCD, [0x49; 0x301]); (0xCE, [0x49; 0x302]); (0xCF, [0x49; 0x308]); (0xD1, [0x4E; 0x303]);
    (0xD2, [0x4F; 0x300]); (0xD3, [0x4F; 0x301]); (0xD4, [0x4F; 0x302]); (0xD5, [0x4F; 0x303]);
    (0xD6, [0x4F; 0x308]); (0xD9, [0x55; 0x300]); (0xDA, [0x55; 0x301]); (0xDB, [0x55; 0x302]);
    (0xDC, [0x55; 0x308]); (0xDD, [0x59; 0x301]); (0xE0, [0x61; 0x300]); (0xE1, [0x61; 0x301]);
    (0xE2, [0x61; 0x302]); (0xE3, [0x61; 0x303]); (0xE4, [0x61; 0x308]); (0xE5, [0x61; 0x30A]);
    (0xE7, [0x63; 0x327]); (0xE8, [0x65; 0x300]); (0xE9, [0x65; 0x301]); (0xEA, [0x65; 0x302]);
    (0xEB, [0x65; 0x308]); (0xEC, [0x69; 0x300]); (0xED, [0x69; 0x301]); (0xEE, [0x69; 0x302]);
    (0xEF, [0x69; 0x308]); (0xF1, [0x6E; 0x303]); (0xF2, [0x6F; 0x300]); (0xF3, [0x6F; 0x301]);
    (0xF4, [0x6F; 0x302]); (0xF5, [0x6F; 0x303]); (0xF6, [0x6F; 0x308]); (0xF9, [0x75; 0x300]);
    (0xFA, [0x75; 0x301]); (0xFB, [0x75; 0x302]); (0xFC, [0x75; 0x308]); (0xFD, [0x79; 0x301]);
    (0xFF, [0x79; 0x308]); (0x100, [0x41; 0x304]); (0x101, [0x61; 0x304]); (0x102, [0x41; 0x306]);
    (0x103, [0x61; 0x306]); (0x104, [0x41; 0x328]); (0x105, [0x61; 0x328]); (0x106, [0x43; 0x301]);
    (0x107, [0x63; 0x301]); (0x108, [0x43; 0x302]); (0x109, [0x63; 0x302]); (0x10A, [0x43; 0x307]);
    (0x10B, [0x63; 0x307]); (0x10C, [0x43; 0x30C]); (0x10D, [0x63; 0x30C]); (0x10E, [0x44; 0x30C]);
    (0x10F, [0x64; 0x30C]); (0x112, [0x45; 0x304]); (0x113, [0x65; 0x304]); (0x114, [0x45; 0x306]);
    (0x115, [0x65; 0x306]); (0x116, [0x45; 0x307]); (0x117, [0x65; 0x307]); (0x118, [0x45; 0x328]);
    (0x119, [0x65; 0x328]); (0x11A, [0x45; 0x30C]); (0x11B, [0x65; 0x30C]); (0x11C, [0x47; 0x302]);
    (0x11D, [0x67; 0x302]); (0x11E, [0x47; 0x306]); (0x11F, [0x67; 0x306]); (0x120, [0x47; 0x307]);
    (0x121, [0x67; 0x307]); (0x122, [0x47; 0x327]); (0x123, [0x67; 0x327]); (0x124, [0x48; 0x302]);
    (0x125, [0x68; 0x302]); (0x128, [0x49; 0x303]); (0x129, [0x69; 0x303]); (0x12A, [0x49; 0x304]);
    (0x12B, [0x69; 0x304]); (0x12C, [0x49; 0x306]); (0x12D, [0x69; 0x306]); (0x12E, [0x49; 0x328]);
    (0x12F, [0x69; 0x328]); (0x130, [0x49; 0x307]); (0x134, [0x4A; 0x302]); (0x135, [0x6A; 0x302]);
    (0x136, [0x4B; 0x327]); (0x137, [0x6B; 0x327]); (0x139, [0x4C; 0x301]); (0x13A, [0x6C; 0x301]);
    (0x13B, [0x4C; 0x327]); (0x13C, [0x6C; 0x327]); (0x13D, [0x4C; 0x30C]); (0x13E, [0x6C; 0x30C]);
    (0x143, [0x4E; 0x301]); (0x144, [0x6E; 0x301]); (0x145, [0x4E; 0x327]); (0x146, [0x6E; 0x327]);
    (0x147, [0x4E; 0x30C]); (0x148, [0x6E; 0x30C]); (0x14C, [0x4F; 0x304]); (0x14D, [0x6F; 0x304]);
    (0x14E, [0x4F; 0x306]); (0x14F, [0x6F; 0x306]); (0x150, [0x4F; 0x30B]); (0x151, [0x6F; 0x30B]);
    (0x154, [0x52; 0x301]); (0x155, [0x72; 0x301]); (0x156, [0x52; 0x327]); (0x157, [0x72; 0x327]);
    (0x158, [0x52; 0x30C]); (0x159, [0x72; 0x30C]); (0x15A, [0x53; 0x301]); (0x15B, [0x73; 0x301]);
    (0x15C, [0x53; 0x302]); (0x15D, [0x73; 0x302]); (0x15E, [0x53; 0x327]); (0x15F, [0x73; 0x327]);
    (0x160, [0x53; 0x30C]); (0x161, [0x73; 0x30C]); (0x162, [0x54; 0x327]); (0x163, [0x74; 0x327]);
    (0x164, [0x54; 0x30C]); (0x165, [0x74; 0x30C]); (0x168, [0x55; 0x303]); (0x169, [0x75; 0x303]);
    (0x16A, [0x55; 0x304]); (0x16B, [0x75; 0x304]); (0x16C, [0x55; 0x306]); (0x16D, [0x75; 0x306]);
    (0x16E, [0x55; 0x30A]); (0x16F, [0x75; 0x30A]); (0x170, [0x55; 0x30B]); (0x171, [0x75; 0x30B]);
    (0x172, [0x55; 0x328]); (0x173, [0x75; 0x328]); (0x174, [0x57; 0x302]); (0x175, [0x77; 0x302]);
    (0x176, [0x59; 0x302]); (0x177, [0x79; 0x302]); (0x178, [0x59; 0x308]); (0x179, [0x5A; 0x301]);
    (0x17A, [0x7A; 0x301]); (0x17B, [0x5A; 0x307]); (0x17C, [0x7A; 0x307]); (0x17D, [0x5A; 0x30C]);
    (0x17E, [0x7A; 0x30C]); (0x1A0, [0x4F; 0x31B]); (0x1A1, [0x6F; 0x31B]); (0x1AF, [0x55; 0x31B]);
    (0x1B0, [0x75; 0x31B]); (0x1CD, [0x41; 0x30C]); (0x1CE, [0x61; 0x30C]); (0x1CF, [0x49; 0x30C]);
    (0x1D0, [0x69; 0x30C]); (0x1D1, [0x4F; 0x30C]); (0x1D2, [0x6F; 0x30C]); (0x1D3, [0x55; 0x30C]);
    (0x1D4, [0x75; 0x30C]); (0x1D5, [0x55; 0x308; 0x304]); (0x1D6, [0x75; 0x308; 0x304]); (0x1D7,
    [0x55; 0x308; 0x301]); (0x1D8, [0x75; 0x308; 0x301]); (0x1D9, [0x55; 0x308; 0x30C]); (0x1DA,
    [0x75; 0x308; 0x30C]); (0x1DB, [0x55; 0x308; 0x300]); (0x1DC, [0x75; 0x308; 0x300]); (0x1DE,
    [0x41; 0x308; 0x304]); (0x1DF, [0x61; 0x308; 0x304]); (0x1E0, [0x41; 0x307; 0x304]); (0x1E1,
    [0x61; 0x307; 0x304]); (0x1E2, [0xC6; 0x304]); (0x1E3, [0xE6; 0x304]); (0x1E6, [0x47; 0x30C]);
    (0x1E7, [0x67; 0x30C]); (0x1E8, [0x4B; 0x30C]); (0x1E9, [0x6B; 0x30C]); (0x1EA, [0x4F; 0x328]);
    (0x1EB, [0x6F; 0x328]); (0x1EC, [0x4F; 0x328; 0x304]); (0x1ED, [0x6F; 0x328; 0x304]); (0x1EE,
    [0x1B7; 0x30C]); (0x1EF, [0x292; 0x30C]); (0x1F0, [0x6A; 0x30C]); (0x1F4, [0x47; 0x301]);
    (0x1F5, [0x67; 0x301]); (0x1F8, [0x4E; 0x300]); (0x1F9, [0x6E; 0x300]); (0x1FA, [0x41; 0x30A;
    0x301]); (0x1FB, [0x61; 0x30A; 0x301]); (0x1FC, [0xC6; 0x301]); (0x1FD, [0xE6; 0x301]); (0x1FE,
    [0xD8; 0x301]); (0x1FF, [0xF8; 0x301]); (0x200, [0x41; 0x30F]); (0x201, [0x61; 0x30F]); (0x202,
    [0x41; 0x311]); (0x203, [0x61; 0x311]); (0x204, [0x45; 0x30F]); (0x205, [0x65; 0x30F]); (0x206,
    [0x45; 0x311]); (0x207, [0x65; 0x311]); (0x208, [0x49; 0x30F]); (0x209, [0x69; 0x30F]); (0x20A,
    [0x49; 0x311]); (0x20B, [0x69; 0x311]); (0x20C, [0x4F; 0x30F]); (0x20D, [0x6F; 0x30F]); (0x20E,
    [0x4F; 0x311]); (0x20F, [0x6F; 0x311]); (0x210, [0x52; 0x30F]); (0x211, [0x72; 0x30F]); (0x212,
    [0x52; 0x311]); (0x213, [0x72; 0x311]); (0x214, [0x55; 0x30F]); (0x215, [0x75; 0x30F]); (0x216,
    [0x55; 0x311]); (0x217, [0x75; 0x311]); (0x218, [0x53; 0x326]); (0x219, [0x73; 0x326]); (0x21A,
    [0x54; 0x326]); (0x21B, [0x74; 0x326]); (0x21E, [0x48; 0x30C]); (0x21F, [0x68; 0x30C]); (0x226,
    [0x41; 0x307]); (0x227, [0x61; 0x307]); (0x228, [0x45; 0x327]); (0x229, [0x65; 0x327]); (0x22A,
    [0x4F; 0x308; 0x304]); (0x22B, [0x6F; 0x308; 0x304]); (0x22C, [0x4F; 0x303; 0x304]); (0x22D,
    [0x6F; 0x303; 0x304]); (0x22E, [0x4F; 0x307]); (0x22F, [0x6F; 0x307]); (0x230, [0x4F; 0x307;
    0x304]); (0x231, [0x6F; 0x307; 0x304]); (0x232, [0x59; 0x304]); (0x233, [0x79; 0x304]); (0x340,
    [0x300]); (0x341, [0x301]); (0x343, [0x313]); (0x344, [0x308; 0x301]); (0x374, [0x2B9]); (0x37E,
    [0x3B]); (0x385, [0xA8; 0x301]); (0x386, [0x391; 0x301]); (0x387, [0xB7]); (0x388, [0x395;
    0x301]); (0x389, [0x397; 0x301]); (0x38A, [0x399; 0x301]); (0x38C, [0x39F; 0x301]); (0x38E,
    [0x3A5; 0x301]); (0x38F, [0x3A9; 0x301]); (0x390, [0x3B9; 0x308; 0x301]); (0x3AA, [0x399;
    0x308]); (0x3AB, [0x3A5; 0x308]); (0x3AC, [0x3B1; 0x301]); (0x3AD, [0x3B5; 0x301]); (0x3AE,
    [0x3B7; 0x301]); (0x3AF, [0x3B9; 0x301]); (0x3B0, [0x3C5; 0x308; 0x301]); (0x3CA, [0x3B9;
    0x308]); (0x3CB, [0x3C5; 0x308]); (0x3CC, [0x3BF; 0x301]); (0x3CD, [0x3C5; 0x301]); (0x3CE,
    [0x3C9; 0x301]); (0x3D3, [0x3D2; 0x301]); (0x3D4, [0x3D2; 0x308]); (0x400, [0x415; 0x300]);
    (0x401, [0x415; 0x308]); (0x403, [0x413; 0x301]); (0x407, [0x406; 0x308]); (0x40C, [0x41A;
    0x301]); (0x40D, [0x418; 0x300]); (0x40E, [0x423; 0x306]); (0x419, [0x418; 0x306]); (0x439,
    [0x438; 0x306]); (0x450, [0x435; 0x300]); (0x451, [0x435; 0x308]); (0x453, [0x433; 0x301]);
    (0x457, [0x456; 0x308]); (0x45C, [0x43A; 0x301]); (0x45D, [0x438; 0x300]); (0x45E, [0x443;
    0x306]); (0x476, [0x474; 0x30F]); (0x477, [0x475; 0x30F]); (0x4C1, [0x416; 0x306]); (0x4C2,
    [0x436; 0x306]); (0x4D0, [0x410; 0x306]); (0x4D1, [0x430; 0x306]); (0x4D2, [0x410; 0x308]);
    (0x4D3, [0x430; 0x308]); (0x4D6, [0x415; 0x306]); (0x4D7, [0x435; 0x306]); (0x4DA, [0x4D8;
    0x308]); (0x4DB, [0x4D9; 0x308]); (0x4DC, [0x416; 0x308]); (0x4DD, [0x436; 0x308]); (0x4DE,
    [0x417; 0x308]); (0x4DF, [0x437; 0x308]); (0x4E2, [0x418; 0x304]); (0x4E3, [0x438; 0x304]);
    (0x4E4, [0x418; 0x308]); (0x4E5, [0x438; 0x308]); (0x4E6, [0x41E; 0x308]); (0x4E7, [0x43E;
    0x308]); (0x4EA, [0x4E8; 0x308]); (0x4EB, [0x4E9; 0x308]); (0x4EC, [0x42D; 0x308]); (0x4ED,
    [0x44D; 0x308]); (0x4EE, [0x423; 0x304]); (0x4EF, [0x443; 0x304]); (0x4F0, [0x423; 0x308]);
    (0x4F1, [0x443; 0x308]); (0x4F2, [0x423; 0x30B]); (0x4F3, [0x443; 0x30B]); (0x4F4, [0x427;
    0x308]); (0x4F5, [0x447; 0x308]); (0x4F8, [0x42B; 0x308]); (0x4F9, [0x44B; 0x308]); (0x622,
    [0x627; 0x653]); (0x623, [0x627; 0x654]); (0x624, [0x648; 0x654]); (0x625, [0x627; 0x655]);
    (0x626, [0x64A; 0x654]); (0x6C0, [0x6D5; 0x654]); (0x6C2, [0x6C1; 0x654]); (0x6D3, [0x6D2;
    0x654]); (0x929, [0x928; 0x93C]); (0x931, [0x930; 0x93C]); (0x934, [0x933; 0x93C]); (0x958,
    [0x915; 0x93C]); (0x959, [0x916; 0x93C]); (0x95A, [0x917; 0x93C]); (0x95B, [0x91C; 0x93C]);
    (0x95C, [0x921; 0x93C]); (0x95D, [0x922; 0x93C]); (0x95E, [0x92B; 0x93C]); (0x95F, [0x92F;
    0x93C]); (0x9CB, [0x9C7; 0x9BE]); (0x9CC, [0x9C7; 0x9D7]); (0x9DC, [0x9A1; 0x9BC]); (0x9DD,
    [0x9A2; 0x9BC]); (0x9DF, [0x9AF; 0x9BC]); (0xA33, [0xA32; 0xA3C]); (0xA36, [0xA38; 0xA3C]);
    (0xA59, [0xA16; 0xA3C]); (0xA5A, [0xA17; 0xA3C]); (0xA5B, [0xA1C; 0xA3C]); (0xA5E, [0xA2B;
    0xA3C]); (0xB48, [0xB47; 0xB56]); (0xB4B, [0xB47; 0xB3E]); (0xB4C, [0xB47; 0xB57]); (0xB5C,
    [0xB21; 0xB3C]); (0xB5D, [0xB22; 0xB3C]); (0xB94, [0xB92; 0xBD7]); (0xBCA, [0xBC6; 0xBBE]);
    (0xBCB, [0xBC7; 0xBBE]); (0xBCC, [0xBC6; 0xBD7]); (0xC48, [0xC46; 0xC56]); (0xCC0, [0xCBF;
    0xCD5]); (0xCC7, [0xCC6; 0xCD5]); (0xCC8, [0xCC6; 0xCD6]); (0xCCA, [0xCC6; 0xCC2]); (0xCCB,
    [0xCC6; 0xCC2; 0xCD5]); (0xD4A, [0xD46; 0xD3E]); (0xD4B, [0xD47; 0xD3E]); (0xD4C, [0xD46;
    0xD57]); (0xDDA, [0xDD9; 0xDCA]); (0xDDC, [0xDD9; 0xDCF]); (0xDDD, [0xDD9; 0xDCF; 0xDCA]);
    (0xDDE, [0xDD9; 0xDDF]); (0xF43, [0xF42; 0xFB7]); (0xF4D, [0xF4C; 0xFB7]); (0xF52, [0xF51;
    0xFB7]); (0xF57, [0xF56; 0xFB7]); (0xF5C, [0xF5B; 0xFB7]); (0xF69, [0xF40; 0xFB5]); (0xF73,
    [0xF71; 0xF72]); (0xF75, [0xF71; 0xF74]); (0xF76, [0xFB2; 0xF80]); (0xF78, [0xFB3; 0xF80]);
    (0xF81, [0xF71; 0xF80]); (0xF93, [0xF92; 0xFB7]); (0xF9D, [0xF9C; 0xFB7]); (0xFA2, [0xFA1;
    0xFB7]); (0xFA7, [0xFA6; 0xFB7]); (0xFAC, [0xFAB; 0xFB7]); (0xFB9, [0xF90; 0xFB5]); (0x1026,
    [0x1025; 0x102E]); (0x1B06, [0x1B05; 0x1B35]); (0x1B08, [0x1B07; 0x1B35]); (0x1B0A, [0x1B09;
    0x1B35]); (0x1B0C, [0x1B0B; 0x1B35]); (0x1B0E, [0x1B0D; 0x1B35]); (0x1B12, [0x1B11; 0x1B35]);
    (0x1B3B, [0x1B3A; 0x1B35]); (0x1B3D, [0x1B3C; 0x1B35]); (0x1B40, [0x1B3E; 0x1B35]); (0x1B41,
    [0x1B3F; 0x1B35]); (0x1B43, [0x1B42; 0x1B35]); (0x1E00, [0x41; 0x325]); (0x1E01, [0x61; 0x325]);
    (0x1E02, [0x42; 0x307]); (0x1E03, [0x62; 0x307]); (0x1E04, [0x42; 0x323]); (0x1E05, [0x62;
    0x323]); (0x1E06, [0x42; 0x331]); (0x1E07, [0x62; 0x331]); (0x1E08, [0x43; 0x327; 0x301]);
    (0x1E09, [0x63; 0x327; 0x301]); (0x1E0A, [0x44; 0x307]); (0x1E0B, [0x64; 0x307]); (0x1E0C,
    [0x44; 0x323]); (0x1E0D, [0x64; 0x323]); (0x1E0E, [0x44; 0x331]); (0x1E0F, [0x64; 0x331]);
    (0x1E10, [0x44; 0x327]); (0x1E11, [0x64; 0x327]); (0x1E12, [0x44; 0x32D]); (0x1E13, [0x64;
    0x32D]); (0x1E14, [0x45; 0x304; 0x300]); (0x1E15, [0x65; 0x304; 0x300]); (0x1E16, [0x45; 0x304;
    0x301]); (0x1E17, [0x65; 0x304; 0x301]); (0x1E18, [0x45; 0x32D]); (0x1E19, [0x65; 0x32D]);
    (0x1E1A, [0x45; 0x330]); (0x1E1B, [0x65; 0x330]); (0x1E1C, [0x45; 0x327; 0x306]); (0x1E1D,
    [0x65; 0x327; 0x306]); (0x1E1E, [0x46; 0x307]); (0x1E1F, [0x66; 0x307]); (0x1E20, [0x47;
    0x304]); (0x1E21, [0x67; 0x304]); (0x1E22, [0x48; 0x307]); (0x1E23, [0x68; 0x307]); (0x1E24,
    [0x48; 0x323]); (0x1E25, [0x68; 0x323]); (0x1E26, [0x48; 0x308]); (0x1E27, [0x68; 0x308]);
    (0x1E28, [0x48; 0x327]); (0x1E29, [0x68; 0x327]); (0x1E2A, [0x48; 0x32E]); (0x1E2B, [0x68;
    0x32E]); (0x1E2C, [0x49; 0x330]); (0x1E2D, [0x69; 0x330]); (0x1E2E, [0x49; 0x308; 0x301]);
    (0x1E2F, [0x69; 0x308; 0x301]); (0x1E30, [0x4B; 0x301]); (0x1E31, [0x6B; 0x301]); (0x1E32,
    [0x4B; 0x323]); (0x1E33, [0x6B; 0x323]); (0x1E34, [0x4B; 0x331]); (0x1E35, [0x6B; 0x331]);
    (0x1E36, [0x4C; 0x323]); (0x1E37, [0x6C; 0x323]); (0x1E38, [0x4C; 0x323; 0x304]); (0x1E39,
    [0x6C; 0x323; 0x304]); (0x1E3A, [0x4C; 0x331]); (0x1E3B, [0x6C; 0x331]); (0x1E3C, [0x4C;
    0x32D]); (0x1E3D, [0x6C; 0x32D]); (0x1E3E, [0x4D; 0x301]); (0x1E3F, [0x6D; 0x301]); (0x1E40,
    [0x4D; 0x307]); (0x1E41, [0x6D; 0x307]); (0x1E42, [0x4D; 0x323]); (0x1E43, [0x6D; 0x323]);
    (0x1E44, [0x4E; 0x307]); (0x1E45, [0x6E; 0x307]); (0x1E46, [0x4E; 0x323]); (0x1E47, [0x6E;
    0x323]); (0x1E48, [0x4E; 0x331]); (0x1E49, [0x6E; 0x331]); (0x1E4A, [0x4E; 0x32D]); (0x1E4B,
    [0x6E; 0x32D]); (0x1E4C, [0x4F; 0x303; 0x301]); (0x1E4D, [0x6F; 0x303; 0x301]); (0x1E4E, [0x4F;
    0x303; 0x308]); (0x1E4F, [0x6F; 0x303; 0x308]); (0x1E50, [0x4F; 0x304; 0x300]); (0x1E51, [0x6F;
    0x304; 0x300]); (0x1E52, [0x4F; 0x304; 0x301]); (0x1E53, [0x6F; 0x304; 0x301]); (0x1E54, [0x50;
    0x301]); (0x1E55, [0x70; 0x301]); (0x1E56, [0x50; 0x307]); (0x1E57, [0x70; 0x307]); (0x1E58,
    [0x52; 0x307]); (0x1E59, [0x72; 0x307]); (0x1E5A, [0x52; 0x323]); (0x1E5B, [0x72; 0x323]);
    (0x1E5C, [0x52; 0x323; 0x304]); (0x1E5D, [0x72; 0x323; 0x304]); (0x1E5E, [0x52; 0x331]);
    (0x1E5F, [0x72; 0x331]); (0x1E60, [0x53; 0x307]); (0x1E61, [0x73; 0x307]); (0x1E62, [0x53;
    0x323]); (0x1E63, [0x73; 0x323]); (0x1E64, [0x53; 0x301; 0x307]); (0x1E65, [0x73; 0x301;
    0x307]); (0x1E66, [0x53; 0x30C; 0x307]); (0x1E67, [0x73; 0x30C; 0x307]); (0x1E68, [0x53; 0x323;
    0x307]); (0x1E69, [0x73; 0x323; 0x307]); (0x1E6A, [0x54; 0x307]); (0x1E6B, [0x74; 0x307]);
    (0x1E6C, [0x54; 0x323]); (0x1E6D, [0x74; 0x323]); (0x1E6E, [0x54; 0x331]); (0x1E6F, [0x74;
    0x331]); (0x1E70, [0x54; 0x32D]); (0x1E71, [0x74; 0x32D]); (0x1E72, [0x55; 0x324]); (0x1E73,
    [0x75; 0x324]); (0x1E74, [0x55; 0x330]); (0x1E75, [0x75; 0x330]); (0x1E76, [0x55; 0x32D]);
    (0x1E77, [0x75; 0x32D]); (0x1E78, [0x55; 0x303; 0x301]); (0x1E79, [0x75; 0x303; 0x301]);
    (0x1E7A, [0x55; 0x304; 0x308]); (0x1E7B, [0x75; 0x304; 0x308]); (0x1E7C, [0x56; 0x303]);
    (0x1E7D, [0x76; 0x303]); (0x1E7E, [0x56; 0x323]); (0x1E7F, [0x76; 0x323]); (0x1E80, [0x57;
    0x300]); (0x1E81, [0x77; 0x300]); (0x1E82, [0x57; 0x301]); (0x1E83, [0x77; 0x301]); (0x1E84,
    [0x57; 0x308]); (0x1E85, [0x77; 0x308]); (0x1E86, [0x57; 0x307]); (0x1E87, [0x77; 0x307]);
    (0x1E88, [0x57; 0x323]); (0x1E89, [0x77; 0x323]); (0x1E8A, [0x58; 0x307]); (0x1E8B, [0x78;
    0x307]); (0x1E8C, [0x58; 0x308]); (0x1E8D, [0x78; 0x308]); (0x1E8E, [0x59; 0x307]); (0x1E8F,
    [0x79; 0x307]); (0x1E90, [0x5A; 0x302]); (0x1E91, [0x7A; 0x302]); (0x1E92, [0x5A; 0x323]);
    (0x1E93, [0x7A; 0x323]); (0x1E94, [0x5A; 0x331]); (0x1E95, [0x7A; 0x331]); (0x1E96, [0x68;
    0x331]); (0x1E97, [0x74; 0x308]); (0x1E98, [0x77; 0x30A]); (0x1E99, [0x79; 0x30A]); (0x1E9B,
    [0x17F; 0x307]); (0x1EA0, [0x41; 0x323]); (0x1EA1, [0x61; 0x323]); (0x1EA2, [0x41; 0x309]);
    (0x1EA3, [0x61; 0x309]); (0x1EA4, [0x41; 0x302; 0x301]); (0x1EA5, [0x61; 0x302; 0x301]);
    (0x1EA6, [0x41; 0x302; 0x300]); (0x1EA7, [0x61; 0x302; 0x300]); (0x1EA8, [0x41; 0x302; 0x309]);
    (0x1EA9, [0x61; 0x302; 0x309]); (0x1EAA, [0x41; 0x302; 0x303]); (0x1EAB, [0x61; 0x302; 0x303]);
    (0x1EAC, [0x41; 0x323; 0x302]); (0x1EAD, [0x61; 0x323; 0x302]); (0x1EAE, [0x41; 0x306; 0x301]);
    (0x1EAF, [0x61; 0x306; 0x301]); (0x1EB0, [0x41; 0x306; 0x300]); (0x1EB1, [0x61; 0x306; 0x300]);
    (0x1EB2, [0x41; 0x306; 0x309]); (0x1EB3, [0x61; 0x306; 0x309]); (0x1EB4, [0x41; 0x306; 0x303]);
    (0x1EB5, [0x61; 0x306; 0x303]); (0x1EB6, [0x41; 0x323; 0x306]); (0x1EB7, [0x61; 0x323; 0x306]);
    (0x1EB8, [0x45; 0x323]); (0x1EB9, [0x65; 0x323]); (0x1EBA, [0x45; 0x309]); (0x1EBB, [0x65;
    0x309]); (0x1EBC, [0x45; 0x303]); (0x1EBD, [0x65; 0x303]); (0x1EBE, [0x45; 0x302; 0x301]);
    (0x1EBF, [0x65; 0x302; 0x301]); (0x1EC0, [0x45; 0x302; 0x300]); (0x1EC1, [0x65; 0x302; 0x300]);
    (0x1EC2, [0x45; 0x302; 0x309]); (0x1EC3, [0x65; 0x302; 0x309]); (0x1EC4, [0x45; 0x302; 0x303]);
    (0x1EC5, [0x65; 0x302; 0x303]); (0x1EC6, [0x45; 0x323; 0x302]); (0x1EC7, [0x65; 0x323; 0x302]);
    (0x1EC8, [0x49; 0x309]); (0x1EC9, [0x69; 0x309]); (0x1ECA, [0x49; 0x323]); (0x1ECB, [0x69;
    0x323]); (0x1ECC, [0x4F; 0x323]); (0x1ECD, [0x6F; 0x323]); (0x1ECE, [0x4F; 0x309]); (0x1ECF,
    [0x6F; 0x309]); (0x1ED0, [0x4F; 0x302; 0x301]); (0x1ED1, [0x6F; 0x302; 0x301]); (0x1ED2, [0x4F;
    0x302; 0x300]); (0x1ED3, [0x6F; 0x302; 0x300]); (0x1ED4, [0x4F; 0x302; 0x309]); (0x1ED5, [0x6F;
    0x302; 0x309]); (0x1ED6, [0x4F; 0x302; 0x303]); (0x1ED7, [0x6F; 0x302; 0x303]); (0x1ED8, [0x4F;
    0x323; 0x302]); (0x1ED9, [0x6F; 0x323; 0x302]); (0x1EDA, [0x4F; 0x31B; 0x301]); (0x1EDB, [0x6F;
    0x31B; 0x301]); (0x1EDC, [0x4F; 0x31B; 0x300]); (0x1EDD, [0x6F; 0x31B; 0x300]); (0x1EDE, [0x4F;
    0x31B; 0x309]); (0x1EDF, [0x6F; 0x31B; 0x309]); (0x1EE0, [0x4F; 0x31B; 0x303]); (0x1EE1, [0x6F;
    0x31B; 0x303]); (0x1EE2, [0x4F; 0x31B; 0x323]); (0x1EE3, [0x6F; 0x31B; 0x323]); (0x1EE4, [0x55;
    0x323]); (0x1EE5, [0x75; 0x323]); (0x1EE6, [0x55; 0x309]); (0x1EE7, [0x75; 0x309]); (0x1EE8,
    [0x55; 0x31B; 0x301]); (0x1EE9, [0x75; 0x31B; 0x301]); (0x1EEA, [0x55; 0x31B; 0x300]); (0x1EEB,
    [0x75; 0x31B; 0x300]); (0x1EEC, [0x55; 0x31B; 0x309]); (0x1EED, [0x75; 0x31B; 0x309]); (0x1EEE,
    [0x55; 0x31B; 0x303]); (0x1EEF, [0x75; 0x31B; 0x303]); (0x1EF0, [0x55; 0x31B; 0x323]); (0x1EF1,
    [0x75; 0x31B; 0x323]); (0x1EF2, [0x59; 0x300]); (0x1EF3, [0x79; 0x300]); (0x1EF4, [0x59;
    0x323]); (0x1EF5, [0x79; 0x323]); (0x1EF6, [0x59; 0x309]); (0x1EF7, [0x79; 0x309]); (0x1EF8,
    [0x59; 0x303]); (0x1EF9, [0x79; 0x303]); (0x1F00, [0x3B1; 0x313]); (0x1F01, [0x3B1; 0x314]);
    (0x1F02, [0x3B1; 0x313; 0x300]); (0x1F03, [0x3B1; 0x314; 0x300]); (0x1F04, [0x3B1; 0x313;
    0x301]); (0x1F05, [0x3B1; 0x314; 0x301]); (0x1F06, [0x3B1; 0x313; 0x342]); (0x1F07, [0x3B1;
    0x314; 0x342]); (0x1F08, [0x391; 0x313]); (0x1F09, [0x391; 0x314]); (0x1F0A, [0x391; 0x313;
    0x300]); (0x1F0B, [0x391; 0x314; 0x300]); (0x1F0C, [0x391; 0x313; 0x301]); (0x1F0D, [0x391;
    0x314; 0x301]); (0x1F0E, [0x391; 0x313; 0x342]); (0x1F0F, [0x391; 0x314; 0x342]); (0x1F10,
    [0x3B5; 0x313]); (0x1F11, [0x3B5; 0x314]); (0x1F12, [0x3B5; 0x313; 0x300]); (0x1F13, [0x3B5;
    0x314; 0x300]); (0x1F14, [0x3B5; 0x313; 0x301]); (0x1F15, [0x3B5; 0x314; 0x301]); (0x1F18,
    [0x395; 0x313]); (0x1F19, [0x395; 0x314]); (0x1F1A, [0x395; 0x313; 0x300]); (0x1F1B, [0x395;
    0x314; 0x300]); (0x1F1C, [0x395; 0x313; 0x301]); (0x1F1D, [0x395; 0x314; 0x301]); (0x1F20,
    [0x3B7; 0x313]); (0x1F21, [0x3B7; 0x314]); (0x1F22, [0x3B7; 0x313; 0x300]); (0x1F23, [0x3B7;
    0x314; 0x300]); (0x1F24, [0x3B7; 0x313; 0x301]); (0x1F25, [0x3B7; 0x314; 0x301]); (0x1F26,
    [0x3B7; 0x313; 0x342]); (0x1F27, [0x3B7; 0x314; 0x342]); (0x1F28, [0x397; 0x313]); (0x1F29,
    [0x397; 0x314]); (0x1F2A, [0x397; 0x313; 0x300]); (0x1F2B, [0x397; 0x314; 0x300]); (0x1F2C,
    [0x397; 0x313; 0x301]); (0x1F2D, [0x397; 0x314; 0x301]); (0x1F2E, [0x397; 0x313; 0x342]);
    (0x1F2F, [0x397; 0x314; 0x342]); (0x1F30, [0x3B9; 0x313]); (0x1F31, [0x3B9; 0x314]); (0x1F32,
    [0x3B9; 0x313; 0x300]); (0x1F33, [0x3B9; 0x314; 0x300]); (0x1F34, [0x3B9; 0x313; 0x301]);
    (0x1F35, [0x3B9; 0x314; 0x301]); (0x1F36, [0x3B9; 0x313; 0x342]); (0x1F37, [0x3B9; 0x314;
    0x342]); (0x1F38, [0x399; 0x313]); (0x1F39, [0x399; 0x314]); (0x1F3A, [0x399; 0x313; 0x300]);
    (0x1F3B, [0x399; 0x314; 0x300]); (0x1F3C, [0x399; 0x313; 0x301]); (0x1F3D, [0x399; 0x314;
    0x301]); (0x1F3E, [0x399; 0x313; 0x342]); (0x1F3F, [0x399; 0x314; 0x342]); (0x1F40, [0x3BF;
    0x313]); (0x1F41, [0x3BF; 0x314]); (0x1F42, [0x3BF; 0x313; 0x300]); (0x1F43, [0x3BF; 0x314;
    0x300]); (0x1F44, [0x3BF; 0x313; 0x301]); (0x1F45, [0x3BF; 0x314; 0x301]); (0x1F48, [0x39F;
    0x313]); (0x1F49, [0x39F; 0x314]); (0x1F4A, [0x39F; 0x313; 0x300]); (0x1F4B, [0x39F; 0x314;
    0x300]); (0x1F4C, [0x39F; 0x313; 0x301]); (0x1F4D, [0x39F; 0x314; 0x301]); (0x1F50, [0x3C5;
    0x313]); (0x1F51, [0x3C5; 0x314]); (0x1F52, [0x3C5; 0x313; 0x300]); (0x1F53, [0x3C5; 0x314;
    0x300]); (0x1F54, [0x3C5; 0x313; 0x301]); (0x1F55, [0x3C5; 0x314; 0x301]); (0x1F56, [0x3C5;
    0x313; 0x342]); (0x1F57, [0x3C5; 0x314; 0x342]); (0x1F59, [0x3A5; 0x314]); (0x1F5B, [0x3A5;
    0x314; 0x300]); (0x1F5D, [0x3A5; 0x314; 0x301]); (0x1F5F, [0x3A5; 0x314; 0x342]); (0x1F60,
    [0x3C9; 0x313]); (0x1F61, [0x3C9; 0x314]); (0x1F62, [0x3C9; 0x313; 0x300]); (0x1F63, [0x3C9;
    0x314; 0x300]); (0x1F64, [0x3C9; 0x313; 0x301]); (0x1F65, [0x3C9; 0x314; 0x301]); (0x1F66,
    [0x3C9; 0x313; 0x342]); (0x1F67, [0x3C9; 0x314; 0x342]); (0x1F68, [0x3A9; 0x313]); (0x1F69,
    [0x3A9; 0x314]); (0x1F6A, [0x3A9; 0x313; 0x300]); (0x1F6B, [0x3A9; 0x314; 0x300]); (0x1F6C,
    [0x3A9; 0x313; 0x301]); (0x1F6D, [0x3A9; 0x314; 0x301]); (0x1F6E, [0x3A9; 0x313; 0x342]);
    (0x1F6F, [0x3A9; 0x314; 0x342]); (0x1F70, [0x3B1; 0x300]); (0x1F71, [0x3B1; 0x301]); (0x1F72,
    [0x3B5; 0x300]); (0x1F73, [0x3B5; 0x301]); (0x1F74, [0x3B7; 0x300]); (0x1F75, [0x3B7; 0x301]);
    (0x1F76, [0x3B9; 0x300]); (0x1F77, [0x3B9; 0x301]); (0x1F78, [0x3BF; 0x300]); (0x1F79, [0x3BF;
    0x301]); (0x1F7A, [0x3C5; 0x300]); (0x1F7B, [0x3C5; 0x301]); (0x1F7C, [0x3C9; 0x300]); (0x1F7D,
    [0x3C9; 0x301]); (0x1F80, [0x3B1; 0x313; 0x345]); (0x1F81, [0x3B1; 0x314; 0x345]); (0x1F82,
    [0x3B1; 0x313; 0x300; 0x345]); (0x1F83, [0x3B1; 0x314; 0x300; 0x345]); (0x1F84, [0x3B1; 0x313;
    0x301; 0x345]); (0x1F85, [0x3B1; 0x314; 0x301; 0x345]); (0x1F86, [0x3B1; 0x313; 0x342; 0x345]);
    (0x1F87, [0x3B1; 0x314; 0x342; 0x345]); (0x1F88, [0x391; 0x313; 0x345]); (0x1F89, [0x391; 0x314;
    0x345]); (0x1F8A, [0x391; 0x313; 0x300; 0x345]); (0x1F8B, [0x391; 0x314; 0x300; 0x345]);
    (0x1F8C, [0x391; 0x313; 0x301; 0x345]); (0x1F8D, [0x391; 0x314; 0x301; 0x345]); (0x1F8E, [0x391;
    0x313; 0x342; 0x345]); (0x1F8F, [0x391; 0x314; 0x342; 0x345]); (0x1F90, [0x3B7; 0x313; 0x345]);
    (0x1F91, [0x3B7; 0x314; 0x345]); (0x1F92, [0x3B7; 0x313; 0x300; 0x345]); (0x1F93, [0x3B7; 0x314;
    0x300; 0x345]); (0x1F94, [0x3B7; 0x313; 0x301; 0x345]); (0x1F95, [0x3B7; 0x314; 0x301; 0x345]);
    (0x1F96, [0x3B7; 0x313; 0x342; 0x345]); (0x1F97, [0x3B7; 0x314; 0x342; 0x345]); (0x1F98, [0x397;
    0x313; 0x345]); (0x1F99, [0x397; 0x314; 0x345]); (0x1F9A, [0x397; 0x313; 0x300; 0x345]);
    (0x1F9B, [0x397; 0x314; 0x300; 0x345]); (0x1F9C, [0x397; 0x313; 0x301; 0x345]); (0x1F9D, [0x397;
    0x314; 0x301; 0x345]); (0x1F9E, [0x397; 0x313; 0x342; 0x345]); (0x1F9F, [0x397; 0x314; 0x342;
    0x345]); (0x1FA0, [0x3C9; 0x313; 0x345]); (0x1FA1, [0x3C9; 0x314; 0x345]); (0x1FA2, [0x3C9;
    0x313; 0x300; 0x345]); (0x1FA3, [0x3C9; 0x314; 0x300; 0x345]); (0x1FA4, [0x3C9; 0x313; 0x301;
    0x345]); (0x1FA5, [0x3C9; 0x314; 0x301; 0x345]); (0x1FA6, [0x3C9; 0x313; 0x342; 0x345]);
    (0x1FA7, [0x3C9; 0x314; 0x342; 0x345]); (0x1FA8, [0x3A9; 0x313; 0x345]); (0x1FA9, [0x3A9; 0x314;
    0x345]); (0x1FAA, [0x3A9; 0x313; 0x300; 0x345]); (0x1FAB, [0x3A9; 0x314; 0x300; 0x345]);
    (0x1FAC, [0x3A9; 0x313; 0x301; 0x345]); (0x1FAD, [0x3A9; 0x314; 0x301; 0x345]); (0x1FAE, [0x3A9;
    0x313; 0x342; 0x345]); (0x1FAF, [0x3A9; 0x314; 0x342; 0x345]); (0x1FB0, [0x3B1; 0x306]);
    (0x1FB1, [0x3B1; 0x304]); (0x1FB2, [0x3B1; 0x300; 0x345]); (0x1FB3, [0x3B1; 0x345]); (0x1FB4,
    [0x3B1; 0x301; 0x345]); (0x1FB6, [0x3B1; 0x342]); (0x1FB7, [0x3B1; 0x342; 0x345]); (0x1FB8,
    [0x391; 0x306]); (0x1FB9, [0x391; 0x304]); (0x1FBA, [0x391; 0x300]); (0x1FBB, [0x391; 0x301]);
    (0x1FBC, [0x391; 0x345]); (0x1FBE, [0x3B9]); (0x1FC1, [0xA8; 0x342]); (0x1FC2, [0x3B7; 0x300;
    0x345]); (0x1FC3, [0x3B7; 0x345]); (0x1FC4, [0x3B7; 0x301; 0x345]); (0x1FC6, [0x3B7; 0x342]);
    (0x1FC7, [0x3B7; 0x342; 0x345]); (0x1FC8, [0x395; 0x300]); (0x1FC9, [0x395; 0x301]); (0x1FCA,
    [0x397; 0x300]); (0x1FCB, [0x397; 0x301]); (0x1FCC, [0x397; 0x345]); (0x1FCD, [0x1FBF; 0x300]);
    (0x1FCE, [0x1FBF; 0x301]); (0x1FCF, [0x1FBF; 0x342]); (0x1FD0, [0x3B9; 0x306]); (0x1FD1, [0x3B9;
    0x304]); (0x1FD2, [0x3B9; 0x308; 0x300]); (0x1FD3, [0x3B9; 0x308; 0x301]); (0x1FD6, [0x3B9;
    0x342]); (0x1FD7, [0x3B9; 0x308; 0x342]); (0x1FD8, [0x399; 0x306]); (0x1FD9, [0x399; 0x304]);
    (0x1FDA, [0x399; 0x300]); (0x1FDB, [0x399; 0x301]); (0x1FDD, [0x1FFE; 0x300]); (0x1FDE, [0x1FFE;
    0x301]); (0x1FDF, [0x1FFE; 0x342]); (0x1FE0, [0x3C5; 0x306]); (0x1FE1, [0x3C5; 0x304]); (0x1FE2,
    [0x3C5; 0x308; 0x300]); (0x1FE3, [0x3C5; 0x308; 0x301]); (0x1FE4, [0x3C1; 0x313]); (0x1FE5,
    [0x3C1; 0x314]); (0x1FE6, [0x3C5; 0x342]); (0x1FE7, [0x3C5; 0x308; 0x342]); (0x1FE8, [0x3A5;
    0x306]); (0x1FE9, [0x3A5; 0x304]); (0x1FEA, [0x3A5; 0x300]); (0x1FEB, [0x3A5; 0x301]); (0x1FEC,
    [0x3A1; 0x314]); (0x1FED, [0xA8; 0x300]); (0x1FEE, [0xA8; 0x301]); (0x1FEF, [0x60]); (0x1FF2,
    [0x3C9; 0x300; 0x345]); (0x1FF3, [0x3C9; 0x345]); (0x1FF4, [0x3C9; 0x301; 0x345]); (0x1FF6,
    [0x3C9; 0x342]); (0x1FF7, [0x3C9; 0x342; 0x345]); (0x1FF8, [0x39F; 0x300]); (0x1FF9, [0x39F;
    0x301]); (0x1FFA, [0x3A9; 0x300]); (0x1FFB, [0x3A9; 0x301]); (0x1FFC, [0x3A9; 0x345]); (0x1FFD,
    [0xB4]); (0x2000, [0x2002]); (0x2001, [0x2003]); (0x2126, [0x3A9]); (0x212A, [0x4B]); (0x212B,
    [0x41; 0x30A]); (0x219A, [0x2190; 0x338]); (0x219B, [0x2192; 0x338]); (0x21AE, [0x2194; 0x338]);
    (0x21CD, [0x21D0; 0x338]); (0x21CE, [0x21D4; 0x338]); (0x21CF, [0x21D2; 0x338]); (0x2204,
    [0x2203; 0x338]); (0x2209, [0x2208; 0x338]); (0x220C, [0x220B; 0x338]); (0x2224, [0x2223;
    0x338]); (0x2226, [0x2225; 0x338]); (0x2241, [0x223C; 0x338]); (0x2244, [0x2243; 0x338]);
    (0x2247, [0x2245; 0x338]); (0x2249, [0x2248; 0x338]); (0x2260, [0x3D; 0x338]); (0x2262, [0x2261;
    0x338]); (0x226D, [0x224D; 0x338]); (0x226E, [0x3C; 0x338]); (0x226F, [0x3E; 0x338]); (0x2270,
    [0x2264; 0x338]); (0x2271, [0x2265; 0x338]); (0x2274, [0x2272; 0x338]); (0x2275, [0x2273;
    0x338]); (0x2278, [0x2276; 0x338]); (0x2279, [0x2277; 0x338]); (0x2280, [0x227A; 0x338]);
    (0x2281, [0x227B; 0x338]); (0x2284, [0x2282; 0x338]); (0x2285, [0x2283; 0x338]); (0x2288,
    [0x2286; 0x338]); (0x2289, [0x2287; 0x338]); (0x22AC, [0x22A2; 0x338]); (0x22AD, [0x22A8;
    0x338]); (0x22AE, [0x22A9; 0x338]); (0x22AF, [0x22AB; 0x338]); (0x22E0, [0x227C; 0x338]);
    (0x22E1, [0x227D; 0x338]); (0x22E2, [0x2291; 0x338]); (0x22E3, [0x2292; 0x338]); (0x22EA,
    [0x22B2; 0x338]); (0x22EB, [0x22B3; 0x338]); (0x22EC, [0x22B4; 0x338]); (0x22ED, [0x22B5;
    0x338]); (0x2329, [0x3008]); (0x232A, [0x3009]); (0x2ADC, [0x2ADD; 0x338]); (0x304C, [0x304B;
    0x3099]); (0x304E, [0x304D; 0x3099]); (0x3050, [0x304F; 0x3099]); (0x3052, [0x3051; 0x3099]);
    (0x3054, [0x3053; 0x3099]); (0x3056, [0x3055; 0x3099]); (0x3058, [0x3057; 0x3099]); (0x305A,
    [0x3059; 0x3099]); (0x305C, [0x305B; 0x3099]); (0x305E, [0x305D; 0x3099]); (0x3060, [0x305F;
    0x3099]); (0x3062, [0x3061; 0x3099]); (0x3065, [0x3064; 0x3099]); (0x3067, [0x3066; 0x3099]);
    (0x3069, [0x3068; 0x3099]); (0x3070, [0x306F; 0x3099]); (0x3071, [0x306F; 0x309A]); (0x3073,
    [0x3072; 0x3099]); (0x3074, [0x3072; 0x309A]); (0x3076, [0x3075; 0x3099]); (0x3077, [0x3075;
    0x309A]); (0x3079, [0x3078; 0x3099]); (0x307A, [0x3078; 0x309A]); (0x307C, [0x307B; 0x3099]);
    (0x307D, [0x307B; 0x309A]); (0x3094, [0x3046; 0x3099]); (0x309E, [0x309D; 0x3099]); (0x30AC,
    [0x30AB; 0x3099]); (0x30AE, [0x30AD; 0x3099]); (0x30B0, [0x30AF; 0x3099]); (0x30B2, [0x30B1;
    0x3099]); (0x30B4, [0x30B3; 0x3099]); (0x30B6, [0x30B5; 0x3099]); (0x30B8, [0x30B7; 0x3099]);
    (0x30BA, [0x30B9; 0x3099]); (0x30BC, [0x30BB; 0x3099]); (0x30BE, [0x30BD; 0x3099]); (0x30C0,
    [0x30BF; 0x3099]); (0x30C2, [0x30C1; 0x3099]); (0x30C5, [0x30C4; 0x3099]); (0x30C7, [0x30C6;
    0x3099]); (0x30C9, [0x30C8; 0x3099]); (0x30D0, [0x30CF; 0x3099]); (0x30D1, [0x30CF; 0x309A]);
    (0x30D3, [0x30D2; 0x3099]); (0x30D4, [0x30D2; 0x309A]); (0x30D6, [0x30D5; 0x3099]); (0x30D7,
    [0x30D5; 0x309A]); (0x30D9, [0x30D8; 0x3099]); (0x30DA, [0x30D8; 0x309A]); (0x30DC, [0x30DB;
    0x3099]); (0x30DD, [0x30DB; 0x309A]); (0x30F4, [0x30A6; 0x3099]); (0x30F7, [0x30EF; 0x3099]);
    (0x30F8, [0x30F0; 0x3099]); (0x30F9, [0x30F1; 0x3099]); (0x30FA, [0x30F2; 0x3099]); (0x30FE,
    [0x30FD; 0x3099]); (0xF900, [0x8C48]); (0xF901, [0x66F4]); (0xF902, [0x8ECA]); (0xF903,
    [0x8CC8]); (0xF904, [0x6ED1]); (0xF905, [0x4E32]); (0xF906, [0x53E5]); (0xF907, [0x9F9C]);
    (0xF908, [0x9F9C]); (0xF909, [0x5951]); (0xF90A, [0x91D1]); (0xF90B, [0x5587]); (0xF90C,
    [0x5948]); (0xF90D, [0x61F6]); (0xF90E, [0x7669]); (0xF90F, [0x7F85]); (0xF910, [0x863F]);
    (0xF911, [0x87BA]); (0xF912, [0x88F8]); (0xF913, [0x908F]); (0xF914, [0x6A02]); (0xF915,
    [0x6D1B]); (0xF916, [0x70D9]); (0xF917, [0x73DE]); (0xF918, [0x843D]); (0xF919, [0x916A]);
    (0xF91A, [0x99F1]); (0xF91B, [0x4E82]); (0xF91C, [0x5375]); (0xF91D, [0x6B04]); (0xF91E,
    [0x721B]); (0xF91F, [0x862D]); (0xF920, [0x9E1E]); (0xF921, [0x5D50]); (0xF922, [0x6FEB]);
    (0xF923, [0x85CD]); (0xF924, [0x8964]); (0xF925, [0x62C9]); (0xF926, [0x81D8]); (0xF927,
    [0x881F]); (0xF928, [0x5ECA]); (0xF929, [0x6717]); (0xF92A, [0x6D6A]); (0xF92B, [0x72FC]);
    (0xF92C, [0x90CE]); (0xF92D, [0x4F86]); (0xF92E, [0x51B7]); (0xF92F, [0x52DE]); (0xF930,
    [0x64C4]); (0xF931, [0x6AD3]); (0xF932, [0x7210]); (0xF933, [0x76E7]); (0xF934, [0x8001]);
    (0xF935, [0x8606]); (0xF936, [0x865C]); (0xF937, [0x8DEF]); (0xF938, [0x9732]); (0xF939,
    [0x9B6F]); (0xF93A, [0x9DFA]); (0xF93B, [0x788C]); (0xF93C, [0x797F]); (0xF93D, [0x7DA0]);
    (0xF93E, [0x83C9]); (0xF93F, [0x9304]); (0xF940, [0x9E7F]); (0xF941, [0x8AD6]); (0xF942,
    [0x58DF]); (0xF943, [0x5F04]); (0xF944, [0x7C60]); (0xF945, [0x807E]); (0xF946, [0x7262]);
    (0xF947, [0x78CA]); (0xF948, [0x8CC2]); (0xF949, [0x96F7]); (0xF94A, [0x58D8]); (0xF94B,
    [0x5C62]); (0xF94C, [0x6A13]); (0xF94D, [0x6DDA]); (0xF94E, [0x6F0F]); (0xF94F, [0x7D2F]);
    (0xF950, [0x7E37]); (0xF951, [0x964B]); (0xF952, [0x52D2]); (0xF953, [0x808B]); (0xF954,
    [0x51DC]); (0xF955, [0x51CC]); (0xF956, [0x7A1C]); (0xF957, [0x7DBE]); (0xF958, [0x83F1]);
    (0xF959, [0x9675]); (0xF95A, [0x8B80]); (0xF95B, [0x62CF]); (0xF95C, [0x6A02]); (0xF95D,
    [0x8AFE]); (0xF95E, [0x4E39]); (0xF95F, [0x5BE7]); (0xF960, [0x6012]); (0xF961, [0x7387]);
    (0xF962, [0x7570]); (0xF963, [0x5317]); (0xF964, [0x78FB]); (0xF965, [0x4FBF]); (0xF966,
    [0x5FA9]); (0xF967, [0x4E0D]); (0xF968, [0x6CCC]); (0xF969, [0x6578]); (0xF96A, [0x7D22]);
    (0xF96B, [0x53C3]); (0xF96C, [0x585E]); (0xF96D, [0x7701]); (0xF96E, [0x8449]); (0xF96F,
    [0x8AAA]); (0xF970, [0x6BBA]); (0xF971, [0x8FB0]); (0xF972, [0x6C88]); (0xF973, [0x62FE]);
    (0xF974, [0x82E5]); (0xF975, [0x63A0]); (0xF976, [0x7565]); (0xF977, [0x4EAE]); (0xF978,
    [0x5169]); (0xF979, [0x51C9]); (0xF97A, [0x6881]); (0xF97B, [0x7CE7]); (0xF97C, [0x826F]);
    (0xF97D, [0x8AD2]); (0xF97E, [0x91CF]); (0xF97F, [0x52F5]); (0xF980, [0x5442]); (0xF981,
    [0x5973]); (0xF982, [0x5EEC]); (0xF983, [0x65C5]); (0xF984, [0x6FFE]); (0xF985, [0x792A]);
    (0xF986, [0x95AD]); (0xF987, [0x9A6A]); (0xF988, [0x9E97]); (0xF989, [0x9ECE]); (0xF98A,
    [0x529B]); (0xF98B, [0x66C6]); (0xF98C, [0x6B77]); (0xF98D, [0x8F62]); (0xF98E, [0x5E74]);
    (0xF98F, [0x6190]); (0xF990, [0x6200]); (0xF991, [0x649A]); (0xF992, [0x6F23]); (0xF993,
    [0x7149]); (0xF994, [0x7489]); (0xF995, [0x79CA]); (0xF996, [0x7DF4]); (0xF997, [0x806F]);
    (0xF998, [0x8F26]); (0xF999, [0x84EE]); (0xF99A, [0x9023]); (0xF99B, [0x934A]); (0xF99C,
    [0x5217]); (0xF99D, [0x52A3]); (0xF99E, [0x54BD]); (0xF99F, [0x70C8]); (0xF9A0, [0x88C2]);
    (0xF9A1, [0x8AAA]); (0xF9A2, [0x5EC9]); (0xF9A3, [0x5FF5]); (0xF9A4, [0x637B]); (0xF9A5,
    [0x6BAE]); (0xF9A6, [0x7C3E]); (0xF9A7, [0x7375]); (0xF9A8, [0x4EE4]); (0xF9A9, [0x56F9]);
    (0xF9AA, [0x5BE7]); (0xF9AB, [0x5DBA]); (0xF9AC, [0x601C]); (0xF9AD, [0x73B2]); (0xF9AE,
    [0x7469]); (0xF9AF, [0x7F9A]); (0xF9B0, [0x8046]); (0xF9B1, [0x9234]); (0xF9B2, [0x96F6]);
    (0xF9B3, [0x9748]); (0xF9B4, [0x9818]); (0xF9B5, [0x4F8B]); (0xF9B6, [0x79AE]); (0xF9B7,
    [0x91B4]); (0xF9B8, [0x96B8]); (0xF9B9, [0x60E1]); (0xF9BA, [0x4E86]); (0xF9BB, [0x50DA]);
    (0xF9BC, [0x5BEE]); (0xF9BD, [0x5C3F]); (0xF9BE, [0x6599]); (0xF9BF, [0x6A02]); (0xF9C0,
    [0x71CE]); (0xF9C1, [0x7642]); (0xF9C2, [0x84FC]); (0xF9C3, [0x907C]); (0xF9C4, [0x9F8D]);
    (0xF9C5, [0x6688]); (0xF9C6, [0x962E]); (0xF9C7, [0x5289]); (0xF9C8, [0x677B]); (0xF9C9,
    [0x67F3]); (0xF9CA, [0x6D41]); (0xF9CB, [0x6E9C]); (0xF9CC, [0x7409]); (0xF9CD, [0x7559]);
    (0xF9CE, [0x786B]); (0xF9CF, [0x7D10]); (0xF9D0, [0x985E]); (0xF9D1, [0x516D]); (0xF9D2,
    [0x622E]); (0xF9D3, [0x9678]); (0xF9D4, [0x502B]); (0xF9D5, [0x5D19]); (0xF9D6, [0x6DEA]);
    (0xF9D7, [0x8F2A]); (0xF9D8, [0x5F8B]); (0xF9D9, [0x6144]); (0xF9DA, [0x6817]); (0xF9DB,
    [0x7387]); (0xF9DC, [0x9686]); (0xF9DD, [0x5229]); (0xF9DE, [0x540F]); (0xF9DF, [0x5C65]);
    (0xF9E0, [0x6613]); (0xF9E1, [0x674E]); (0xF9E2, [0x68A8]); (0xF9E3, [0x6CE5]); (0xF9E4,
    [0x7406]); (0xF9E5, [0x75E2]); (0xF9E6, [0x7F79]); (0xF9E7, [0x88CF]); (0xF9E8, [0x88E1]);
    (0xF9E9, [0x91CC]); (0xF9EA, [0x96E2]); (0xF9EB, [0x533F]); (0xF9EC, [0x6EBA]); (0xF9ED,
    [0x541D]); (0xF9EE, [0x71D0]); (0xF9EF, [0x7498]); (0xF9F0, [0x85FA]); (0xF9F1, [0x96A3]);
    (0xF9F2, [0x9C57]); (0xF9F3, [0x9E9F]); (0xF9F4, [0x6797]); (0xF9F5, [0x6DCB]); (0xF9F6,
    [0x81E8]); (0xF9F7, [0x7ACB]); (0xF9F8, [0x7B20]); (0xF9F9, [0x7C92]); (0xF9FA, [0x72C0]);
    (0xF9FB, [0x7099]); (0xF9FC, [0x8B58]); (0xF9FD, [0x4EC0]); (0xF9FE, [0x8336]); (0xF9FF,
    [0x523A]); (0xFA00, [0x5207]); (0xFA01, [0x5EA6]); (0xFA02, [0x62D3]); (0xFA03, [0x7CD6]);
    (0xFA04, [0x5B85]); (0xFA05, [0x6D1E]); (0xFA06, [0x66B4]); (0xFA07, [0x8F3B]); (0xFA08,
    [0x884C]); (0xFA09, [0x964D]); (0xFA0A, [0x898B]); (0xFA0B, [0x5ED3]); (0xFA0C, [0x5140]);
    (0xFA0D, [0x55C0]); (0xFA10, [0x585A]); (0xFA12, [0x6674]); (0xFA15, [0x51DE]); (0xFA16,
    [0x732A]); (0xFA17, [0x76CA]); (0xFA18, [0x793C]); (0xFA19, [0x795E]); (0xFA1A, [0x7965]);
    (0xFA1B, [0x798F]); (0xFA1C, [0x9756]); (0xFA1D, [0x7CBE]); (0xFA1E, [0x7FBD]); (0xFA20,
    [0x8612]); (0xFA22, [0x8AF8]); (0xFA25, [0x9038]); (0xFA26, [0x90FD]); (0xFA2A, [0x98EF]);
    (0xFA2B, [0x98FC]); (0xFA2C, [0x9928]); (0xFA2D, [0x9DB4]); (0xFA2E, [0x90DE]); (0xFA2F,
    [0x96B7]); (0xFA30, [0x4FAE]); (0xFA31, [0x50E7]); (0xFA32, [0x514D]); (0xFA33, [0x52C9]);
    (0xFA34, [0x52E4]); (0xFA35, [0x5351]); (0xFA36, [0x559D]); (0xFA37, [0x5606]); (0xFA38,
    [0x5668]); (0xFA39, [0x5840]); (0xFA3A, [0x58A8]); (0xFA3B, [0x5C64]); (0xFA3C, [0x5C6E]);
    (0xFA3D, [0x6094]); (0xFA3E, [0x6168]); (0xFA3F, [0x618E]); (0xFA40, [0x61F2]); (0xFA41,
    [0x654F]); (0xFA42, [0x65E2]); (0xFA43, [0x6691]); (0xFA44, [0x6885]); (0xFA45, [0x6D77]);
    (0xFA46, [0x6E1A]); (0xFA47, [0x6F22]); (0xFA48, [0x716E]); (0xFA49, [0x722B]); (0xFA4A,
    [0x7422]); (0xFA4B, [0x7891]); (0xFA4C, [0x793E]); (0xFA4D, [0x7949]); (0xFA4E, [0x7948]);
    (0xFA4F, [0x7950]); (0xFA50, [0x7956]); (0xFA51, [0x795D]); (0xFA52, [0x798D]); (0xFA53,
    [0x798E]); (0xFA54, [0x7A40]); (0xFA55, [0x7A81]); (0xFA56, [0x7BC0]); (0xFA57, [0x7DF4]);
    (0xFA58, [0x7E09]); (0xFA59, [0x7E41]); (0xFA5A, [0x7F72]); (0xFA5B, [0x8005]); (0xFA5C,
    [0x81ED]); (0xFA5D, [0x8279]); (0xFA5E, [0x8279]); (0xFA5F, [0x8457]); (0xFA60, [0x8910]);
    (0xFA61, [0x8996]); (0xFA62, [0x8B01]); (0xFA63, [0x8B39]); (0xFA64, [0x8CD3]); (0xFA65,
    [0x8D08]); (0xFA66, [0x8FB6]); (0xFA67, [0x9038]); (0xFA68, [0x96E3]); (0xFA69, [0x97FF]);
    (0xFA6A, [0x983B]); (0xFA6B, [0x6075]); (0xFA6C, [0x242EE]); (0xFA6D, [0x8218]); (0xFA70,
    [0x4E26]); (0xFA71, [0x51B5]); (0xFA72, [0x5168]); (0xFA73, [0x4F80]); (0xFA74, [0x5145]);
    (0xFA75, [0x5180]); (0xFA76, [0x52C7]); (0xFA77, [0x52FA]); (0xFA78, [0x559D]); (0xFA79,
    [0x5555]); (0xFA7A, [0x5599]); (0xFA7B, [0x55E2]); (0xFA7C, [0x585A]); (0xFA7D, [0x58B3]);
    (0xFA7E, [0x5944]); (0xFA7F, [0x5954]); (0xFA80, [0x5A62]); (0xFA81, [0x5B28]); (0xFA82,
    [0x5ED2]); (0xFA83, [0x5ED9]); (0xFA84, [0x5F69]); (0xFA85, [0x5FAD]); (0xFA86, [0x60D8]);
    (0xFA87, [0x614E]); (0xFA88, [0x6108]); (0xFA89, [0x618E]); (0xFA8A, [0x6160]); (0xFA8B,
    [0x61F2]); (0xFA8C, [0x6234]); (0xFA8D, [0x63C4]); (0xFA8E, [0x641C]); (0xFA8F, [0x6452]);
    (0xFA90, [0x6556]); (0xFA91, [0x6674]); (0xFA92, [0x6717]); (0xFA93, [0x671B]); (0xFA94,
    [0x6756]); (0xFA95, [0x6B79]); (0xFA96, [0x6BBA]); (0xFA97, [0x6D41]); (0xFA98, [0x6EDB]);
    (0xFA99, [0x6ECB]); (0xFA9A, [0x6F22]); (0xFA9B, [0x701E]); (0xFA9C, [0x716E]); (0xFA9D,
    [0x77A7]); (0xFA9E, [0x7235]); (0xFA9F, [0x72AF]); (0xFAA0, [0x732A]); (0xFAA1, [0x7471]);
    (0xFAA2, [0x7506]); (0xFAA3, [0x753B]); (0xFAA4, [0x761D]); (0xFAA5, [0x761F]); (0xFAA6,
    [0x76CA]); (0xFAA7, [0x76DB]); (0xFAA8, [0x76F4]); (0xFAA9, [0x774A]); (0xFAAA, [0x7740]);
    (0xFAAB, [0x78CC]); (0xFAAC, [0x7AB1]); (0xFAAD, [0x7BC0]); (0xFAAE, [0x7C7B]); (0xFAAF,
    [0x7D5B]); (0xFAB0, [0x7DF4]); (0xFAB1, [0x7F3E]); (0xFAB2, [0x8005]); (0xFAB3, [0x8352]);
    (0xFAB4, [0x83EF]); (0xFAB5, [0x8779]); (0xFAB6, [0x8941]); (0xFAB7, [0x8986]); (0xFAB8,
    [0x8996]); (0xFAB9, [0x8ABF]); (0xFABA, [0x8AF8]); (0xFABB, [0x8ACB]); (0xFABC, [0x8B01]);
    (0xFABD, [0x8AFE]); (0xFABE, [0x8AED]); (0xFABF, [0x8B39]); (0xFAC0, [0x8B8A]); (0xFAC1,
    [0x8D08]); (0xFAC2, [0x8F38]); (0xFAC3, [0x9072]); (0xFAC4, [0x9199]); (0xFAC5, [0x9276]);
    (0xFAC6, [0x967C]); (0xFAC7, [0x96E3]); (0xFAC8, [0x9756]); (0xFAC9, [0x97DB]); (0xFACA,
    [0x97FF]); (0xFACB, [0x980B]); (0xFACC, [0x983B]); (0xFACD, [0x9B12]); (0xFACE, [0x9F9C]);
    (0xFACF, [0x2284A]); (0xFAD0, [0x22844]); (0xFAD1, [0x233D5]); (0xFAD2, [0x3B9D]); (0xFAD3,
    [0x4018]); (0xFAD4, [0x4039]); (0xFAD5, [0x25249]); (0xFAD6, [0x25CD0]); (0xFAD7, [0x27ED3]);
    (0xFAD8, [0x9F43]); (0xFAD9, [0x9F8E]); (0xFB1D, [0x5D9; 0x5B4]); (0xFB1F, [0x5F2; 0x5B7]);
    (0xFB2A, [0x5E9; 0x5C1]); (0xFB2B, [0x5E9; 0x5C2]); (0xFB2C, [0x5E9; 0x5BC; 0x5C1]); (0xFB2D,
    [0x5E9; 0x5BC; 0x5C2]); (0xFB2E, [0x5D0; 0x5B7]); (0xFB2F, [0x5D0; 0x5B8]); (0xFB30, [0x5D0;
    0x5BC]); (0xFB31, [0x5D1; 0x5BC]); (0xFB32, [0x5D2; 0x5BC]); (0xFB33, [0x5D3; 0x5BC]); (0xFB34,
    [0x5D4; 0x5BC]); (0xFB35, [0x5D5; 0x5BC]); (0xFB36, [0x5D6; 0x5BC]); (0xFB38, [0x5D8; 0x5BC]);
    (0xFB39, [0x5D9; 0x5BC]); (0xFB3A, [0x5DA; 0x5BC]); (0xFB3B, [0x5DB; 0x5BC]); (0xFB3C, [0x5DC;
    0x5BC]); (0xFB3E, [0x5DE; 0x5BC]); (0xFB40, [0x5E0; 0x5BC]); (0xFB41, [0x5E1; 0x5BC]); (0xFB43,
    [0x5E3; 0x5BC]); (0xFB44, [0x5E4; 0x5BC]); (0xFB46, [0x5E6; 0x5BC]); (0xFB47, [0x5E7; 0x5BC]);
    (0xFB48, [0x5E8; 0x5BC]); (0xFB49, [0x5E9; 0x5BC]); (0xFB4A, [0x5EA; 0x5BC]); (0xFB4B, [0x5D5;
    0x5B9]); (0xFB4C, [0x5D1; 0x5BF]); (0xFB4D, [0x5DB; 0x5BF]); (0xFB4E, [0x5E4; 0x5BF]); (0x1109A,
    [0x11099; 0x110BA]); (0x1109C, [0x1109B; 0x110BA]); (0x110AB, [0x110A5; 0x110BA]); (0x1112E,
    [0x11131; 0x11127]); (0x1112F, [0x11132; 0x11127]); (0x1134B, [0x11347; 0x1133E]); (0x1134C,
    [0x11347; 0x11357]); (0x114BB, [0x114B9; 0x114BA]); (0x114BC, [0x114B9; 0x114B0]); (0x114BE,
    [0x114B9; 0x114BD]); (0x115BA, [0x115B8; 0x115AF]); (0x115BB, [0x115B9; 0x115AF]); (0x11938,
    [0x11935; 0x11930]); (0x1D15E, [0x1D157; 0x1D165]); (0x1D15F, [0x1D158; 0x1D165]); (0x1D160,
    [0x1D158; 0x1D165; 0x1D16E]); (0x1D161, [0x1D158; 0x1D165; 0x1D16F]); (0x1D162, [0x1D158;
    0x1D165; 0x1D170]); (0x1D163, [0x1D158; 0x1D165; 0x1D171]); (0x1D164, [0x1D158; 0x1D165;
    0x1D172]); (0x1D1BB, [0x1D1B9; 0x1D165]); (0x1D1BC, [0x1D1BA; 0x1D165]); (0x1D1BD, [0x1D1B9;
    0x1D165; 0x1D16E]); (0x1D1BE, [0x1D1BA; 0x1D165; 0x1D16E]); (0x1D1BF, [0x1D1B9; 0x1D165;
    0x1D16F]); (0x1D1C0, [0x1D1BA; 0x1D165; 0x1D16F]); (0x2F800, [0x4E3D]); (0x2F801, [0x4E38]);
    (0x2F802, [0x4E41]); (0x2F803, [0x20122]); (0x2F804, [0x4F60]); (0x2F805, [0x4FAE]); (0x2F806,
    [0x4FBB]); (0x2F807, [0x5002]); (0x2F808, [0x507A]); (0x2F809, [0x5099]); (0x2F80A, [0x50E7]);
    (0x2F80B, [0x50CF]); (0x2F80C, [0x349E]); (0x2F80D, [0x2063A]); (0x2F80E, [0x514D]); (0x2F80F,
    [0x5154]); (0x2F810, [0x5164]); (0x2F811, [0x5177]); (0x2F812, [0x2051C]); (0x2F813, [0x34B9]);
    (0x2F814, [0x5167]); (0x2F815, [0x518D]); (0x2F816, [0x2054B]); (0x2F817, [0x5197]); (0x2F818,
    [0x51A4]); (0x2F819, [0x4ECC]); (0x2F81A, [0x51AC]); (0x2F81B, [0x51B5]); (0x2F81C, [0x291DF]);
    (0x2F81D, [0x51F5]); (0x2F81E, [0x5203]); (0x2F81F, [0x34DF]); (0x2F820, [0x523B]); (0x2F821,
    [0x5246]); (0x2F822, [0x5272]); (0x2F823, [0x5277]); (0x2F824, [0x3515]); (0x2F825, [0x52C7]);
    (0x2F826, [0x52C9]); (0x2F827, [0x52E4]); (0x2F828, [0x52FA]); (0x2F829, [0x5305]); (0x2F82A,
    [0x5306]); (0x2F82B, [0x5317]); (0x2F82C, [0x5349]); (0x2F82D, [0x5351]); (0x2F82E, [0x535A]);
    (0x2F82F, [0x5373]); (0x2F830, [0x537D]); (0x2F831, [0x537F]); (0x2F832, [0x537F]); (0x2F833,
    [0x537F]); (0x2F834, [0x20A2C]); (0x2F835, [0x7070]); (0x2F836, [0x53CA]); (0x2F837, [0x53DF]);
    (0x2F838, [0x20B63]); (0x2F839, [0x53EB]); (0x2F83A, [0x53F1]); (0x2F83B, [0x5406]); (0x2F83C,
    [0x549E]); (0x2F83D, [0x5438]); (0x2F83E, [0x5448]); (0x2F83F, [0x5468]); (0x2F840, [0x54A2]);
    (0x2F841, [0x54F6]); (0x2F842, [0x5510]); (0x2F843, [0x5553]); (0x2F844, [0x5563]); (0x2F845,
    [0x5584]); (0x2F846, [0x5584]); (0x2F847, [0x5599]); (0x2F848, [0x55AB]); (0x2F849, [0x55B3]);
    (0x2F84A, [0x55C2]); (0x2F84B, [0x5716]); (0x2F84C, [0x5606]); (0x2F84D, [0x5717]); (0x2F84E,
    [0x5651]); (0x2F84F, [0x5674]); (0x2F850, [0x5207]); (0x2F851, [0x58EE]); (0x2F852, [0x57CE]);
    (0x2F853, [0x57F4]); (0x2F854, [0x580D]); (0x2F855, [0x578B]); (0x2F856, [0x5832]); (0x2F857,
    [0x5831]); (0x2F858, [0x58AC]); (0x2F859, [0x214E4]); (0x2F85A, [0x58F2]); (0x2F85B, [0x58F7]);
    (0x2F85C, [0x5906]); (0x2F85D, [0x591A]); (0x2F85E, [0x5922]); (0x2F85F, [0x5962]); (0x2F860,
    [0x216A8]); (0x2F861, [0x216EA]); (0x2F862, [0x59EC]); (0x2F863, [0x5A1B]); (0x2F864, [0x5A27]);
    (0x2F865, [0x59D8]); (0x2F866, [0x5A66]); (0x2F867, [0x36EE]); (0x2F868, [0x36FC]); (0x2F869,
    [0x5B08]); (0x2F86A, [0x5B3E]); (0x2F86B, [0x5B3E]); (0x2F86C, [0x219C8]); (0x2F86D, [0x5BC3]);
    (0x2F86E, [0x5BD8]); (0x2F86F, [0x5BE7]); (0x2F870, [0x5BF3]); (0x2F871, [0x21B18]); (0x2F872,
    [0x5BFF]); (0x2F873, [0x5C06]); (0x2F874, [0x5F53]); (0x2F875, [0x5C22]); (0x2F876, [0x3781]);
    (0x2F877, [0x5C60]); (0x2F878, [0x5C6E]); (0x2F879, [0x5CC0]); (0x2F87A, [0x5C8D]); (0x2F87B,
    [0x21DE4]); (0x2F87C, [0x5D43]); (0x2F87D, [0x21DE6]); (0x2F87E, [0x5D6E]); (0x2F87F, [0x5D6B]);
    (0x2F880, [0x5D7C]); (0x2F881, [0x5DE1]); (0x2F882, [0x5DE2]); (0x2F883, [0x382F]); (0x2F884,
    [0x5DFD]); (0x2F885, [0x5E28]); (0x2F886, [0x5E3D]); (0x2F887, [0x5E69]); (0x2F888, [0x3862]);
    (0x2F889, [0x22183]); (0x2F88A, [0x387C]); (0x2F88B, [0x5EB0]); (0x2F88C, [0x5EB3]); (0x2F88D,
    [0x5EB6]); (0x2F88E, [0x5ECA]); (0x2F88F, [0x2A392]); (0x2F890, [0x5EFE]); (0x2F891, [0x22331]);
    (0x2F892, [0x22331]); (0x2F893, [0x8201]); (0x2F894, [0x5F22]); (0x2F895, [0x5F22]); (0x2F896,
    [0x38C7]); (0x2F897, [0x232B8]); (0x2F898, [0x261DA]); (0x2F899, [0x5F62]); (0x2F89A, [0x5F6B]);
    (0x2F89B, [0x38E3]); (0x2F89C, [0x5F9A]); (0x2F89D, [0x5FCD]); (0x2F89E, [0x5FD7]); (0x2F89F,
    [0x5FF9]); (0x2F8A0, [0x6081]); (0x2F8A1, [0x393A]); (0x2F8A2, [0x391C]); (0x2F8A3, [0x6094]);
    (0x2F8A4, [0x226D4]); (0x2F8A5, [0x60C7]); (0x2F8A6, [0x6148]); (0x2F8A7, [0x614C]); (0x2F8A8,
    [0x614E]); (0x2F8A9, [0x614C]); (0x2F8AA, [0x617A]); (0x2F8AB, [0x618E]); (0x2F8AC, [0x61B2]);
    (0x2F8AD, [0x61A4]); (0x2F8AE, [0x61AF]); (0x2F8AF, [0x61DE]); (0x2F8B0, [0x61F2]); (0x2F8B1,
    [0x61F6]); (0x2F8B2, [0x6210]); (0x2F8B3, [0x621B]); (0x2F8B4, [0x625D]); (0x2F8B5, [0x62B1]);
    (0x2F8B6, [0x62D4]); (0x2F8B7, [0x6350]); (0x2F8B8, [0x22B0C]); (0x2F8B9, [0x633D]); (0x2F8BA,
    [0x62FC]); (0x2F8BB, [0x6368]); (0x2F8BC, [0x6383]); (0x2F8BD, [0x63E4]); (0x2F8BE, [0x22BF1]);
    (0x2F8BF, [0x6422]); (0x2F8C0, [0x63C5]); (0x2F8C1, [0x63A9]); (0x2F8C2, [0x3A2E]); (0x2F8C3,
    [0x6469]); (0x2F8C4, [0x647E]); (0x2F8C5, [0x649D]); (0x2F8C6, [0x6477]); (0x2F8C7, [0x3A6C]);
    (0x2F8C8, [0x654F]); (0x2F8C9, [0x656C]); (0x2F8CA, [0x2300A]); (0x2F8CB, [0x65E3]); (0x2F8CC,
    [0x66F8]); (0x2F8CD, [0x6649]); (0x2F8CE, [0x3B19]); (0x2F8CF, [0x6691]); (0x2F8D0, [0x3B08]);
    (0x2F8D1, [0x3AE4]); (0x2F8D2, [0x5192]); (0x2F8D3, [0x5195]); (0x2F8D4, [0x6700]); (0x2F8D5,
    [0x669C]); (0x2F8D6, [0x80AD]); (0x2F8D7, [0x43D9]); (0x2F8D8, [0x6717]); (0x2F8D9, [0x671B]);
    (0x2F8DA, [0x6721]); (0x2F8DB, [0x675E]); (0x2F8DC, [0x6753]); (0x2F8DD, [0x233C3]); (0x2F8DE,
    [0x3B49]); (0x2F8DF, [0x67FA]); (0x2F8E0, [0x6785]); (0x2F8E1, [0x6852]); (0x2F8E2, [0x6885]);
    (0x2F8E3, [0x2346D]); (0x2F8E4, [0x688E]); (0x2F8E5, [0x681F]); (0x2F8E6, [0x6914]); (0x2F8E7,
    [0x3B9D]); (0x2F8E8, [0x6942]); (0x2F8E9, [0x69A3]); (0x2F8EA, [0x69EA]); (0x2F8EB, [0x6AA8]);
    (0x2F8EC, [0x236A3]); (0x2F8ED, [0x6ADB]); (0x2F8EE, [0x3C18]); (0x2F8EF, [0x6B21]); (0x2F8F0,
    [0x238A7]); (0x2F8F1, [0x6B54]); (0x2F8F2, [0x3C4E]); (0x2F8F3, [0x6B72]); (0x2F8F4, [0x6B9F]);
    (0x2F8F5, [0x6BBA]); (0x2F8F6, [0x6BBB]); (0x2F8F7, [0x23A8D]); (0x2F8F8, [0x21D0B]); (0x2F8F9,
    [0x23AFA]); (0x2F8FA, [0x6C4E]); (0x2F8FB, [0x23CBC]); (0x2F8FC, [0x6CBF]); (0x2F8FD, [0x6CCD]);
    (0x2F8FE, [0x6C67]); (0x2F8FF, [0x6D16]); (0x2F900, [0x6D3E]); (0x2F901, [0x6D77]); (0x2F902,
    [0x6D41]); (0x2F903, [0x6D69]); (0x2F904, [0x6D78]); (0x2F905, [0x6D85]); (0x2F906, [0x23D1E]);
    (0x2F907, [0x6D34]); (0x2F908, [0x6E2F]); (0x2F909, [0x6E6E]); (0x2F90A, [0x3D33]); (0x2F90B,
    [0x6ECB]); (0x2F90C, [0x6EC7]); (0x2F90D, [0x23ED1]); (0x2F90E, [0x6DF9]); (0x2F90F, [0x6F6E]);
    (0x2F910, [0x23F5E]); (0x2F911, [0x23F8E]); (0x2F912, [0x6FC6]); (0x2F913, [0x7039]); (0x2F914,
    [0x701E]); (0x2F915, [0x701B]); (0x2F916, [0x3D96]); (0x2F917, [0x704A]); (0x2F918, [0x707D]);
    (0x2F919, [0x7077]); (0x2F91A, [0x70AD]); (0x2F91B, [0x20525]); (0x2F91C, [0x7145]); (0x2F91D,
    [0x24263]); (0x2F91E, [0x719C]); (0x2F91F, [0x243AB]); (0x2F920, [0x7228]); (0x2F921, [0x7235]);
    (0x2F922, [0x7250]); (0x2F923, [0x24608]); (0x2F924, [0x7280]); (0x2F925, [0x7295]); (0x2F926,
    [0x24735]); (0x2F927, [0x24814]); (0x2F928, [0x737A]); (0x2F929, [0x738B]); (0x2F92A, [0x3EAC]);
    (0x2F92B, [0x73A5]); (0x2F92C, [0x3EB8]); (0x2F92D, [0x3EB8]); (0x2F92E, [0x7447]); (0x2F92F,
    [0x745C]); (0x2F930, [0x7471]); (0x2F931, [0x7485]); (0x2F932, [0x74CA]); (0x2F933, [0x3F1B]);
    (0x2F934, [0x7524]); (0x2F935, [0x24C36]); (0x2F936, [0x753E]); (0x2F937, [0x24C92]); (0x2F938,
    [0x7570]); (0x2F939, [0x2219F]); (0x2F93A, [0x7610]); (0x2F93B, [0x24FA1]); (0x2F93C,
    [0x24FB8]); (0x2F93D, [0x25044]); (0x2F93E, [0x3FFC]); (0x2F93F, [0x4008]); (0x2F940, [0x76F4]);
    (0x2F941, [0x250F3]); (0x2F942, [0x250F2]); (0x2F943, [0x25119]); (0x2F944, [0x25133]);
    (0x2F945, [0x771E]); (0x2F946, [0x771F]); (0x2F947, [0x771F]); (0x2F948, [0x774A]); (0x2F949,
    [0x4039]); (0x2F94A, [0x778B]); (0x2F94B, [0x4046]); (0x2F94C, [0x4096]); (0x2F94D, [0x2541D]);
    (0x2F94E, [0x784E]); (0x2F94F, [0x788C]); (0x2F950, [0x78CC]); (0x2F951, [0x40E3]); (0x2F952,
    [0x25626]); (0x2F953, [0x7956]); (0x2F954, [0x2569A]); (0x2F955, [0x256C5]); (0x2F956,
    [0x798F]); (0x2F957, [0x79EB]); (0x2F958, [0x412F]); (0x2F959, [0x7A40]); (0x2F95A, [0x7A4A]);
    (0x2F95B, [0x7A4F]); (0x2F95C, [0x2597C]); (0x2F95D, [0x25AA7]); (0x2F95E, [0x25AA7]); (0x2F95F,
    [0x7AEE]); (0x2F960, [0x4202]); (0x2F961, [0x25BAB]); (0x2F962, [0x7BC6]); (0x2F963, [0x7BC9]);
    (0x2F964, [0x4227]); (0x2F965, [0x25C80]); (0x2F966, [0x7CD2]); (0x2F967, [0x42A0]); (0x2F968,
    [0x7CE8]); (0x2F969, [0x7CE3]); (0x2F96A, [0x7D00]); (0x2F96B, [0x25F86]); (0x2F96C, [0x7D63]);
    (0x2F96D, [0x4301]); (0x2F96E, [0x7DC7]); (0x2F96F, [0x7E02]); (0x2F970, [0x7E45]); (0x2F971,
    [0x4334]); (0x2F972, [0x26228]); (0x2F973, [0x26247]); (0x2F974, [0x4359]); (0x2F975,
    [0x262D9]); (0x2F976, [0x7F7A]); (0x2F977, [0x2633E]); (0x2F978, [0x7F95]); (0x2F979, [0x7FFA]);
    (0x2F97A, [0x8005]); (0x2F97B, [0x264DA]); (0x2F97C, [0x26523]); (0x2F97D, [0x8060]); (0x2F97E,
    [0x265A8]); (0x2F97F, [0x8070]); (0x2F980, [0x2335F]); (0x2F981, [0x43D5]); (0x2F982, [0x80B2]);
    (0x2F983, [0x8103]); (0x2F984, [0x440B]); (0x2F985, [0x813E]); (0x2F986, [0x5AB5]); (0x2F987,
    [0x267A7]); (0x2F988, [0x267B5]); (0x2F989, [0x23393]); (0x2F98A, [0x2339C]); (0x2F98B,
    [0x8201]); (0x2F98C, [0x8204]); (0x2F98D, [0x8F9E]); (0x2F98E, [0x446B]); (0x2F98F, [0x8291]);
    (0x2F990, [0x828B]); (0x2F991, [0x829D]); (0x2F992, [0x52B3]); (0x2F993, [0x82B1]); (0x2F994,
    [0x82B3]); (0x2F995, [0x82BD]); (0x2F996, [0x82E6]); (0x2F997, [0x26B3C]); (0x2F998, [0x82E5]);
    (0x2F999, [0x831D]); (0x2F99A, [0x8363]); (0x2F99B, [0x83AD]); (0x2F99C, [0x8323]); (0x2F99D,
    [0x83BD]); (0x2F99E, [0x83E7]); (0x2F99F, [0x8457]); (0x2F9A0, [0x8353]); (0x2F9A1, [0x83CA]);
    (0x2F9A2, [0x83CC]); (0x2F9A3, [0x83DC]); (0x2F9A4, [0x26C36]); (0x2F9A5, [0x26D6B]); (0x2F9A6,
    [0x26CD5]); (0x2F9A7, [0x452B]); (0x2F9A8, [0x84F1]); (0x2F9A9, [0x84F3]); (0x2F9AA, [0x8516]);
    (0x2F9AB, [0x273CA]); (0x2F9AC, [0x8564]); (0x2F9AD, [0x26F2C]); (0x2F9AE, [0x455D]); (0x2F9AF,
    [0x4561]); (0x2F9B0, [0x26FB1]); (0x2F9B1, [0x270D2]); (0x2F9B2, [0x456B]); (0x2F9B3, [0x8650]);
    (0x2F9B4, [0x865C]); (0x2F9B5, [0x8667]); (0x2F9B6, [0x8669]); (0x2F9B7, [0x86A9]); (0x2F9B8,
    [0x8688]); (0x2F9B9, [0x870E]); (0x2F9BA, [0x86E2]); (0x2F9BB, [0x8779]); (0x2F9BC, [0x8728]);
    (0x2F9BD, [0x876B]); (0x2F9BE, [0x8786]); (0x2F9BF, [0x45D7]); (0x2F9C0, [0x87E1]); (0x2F9C1,
    [0x8801]); (0x2F9C2, [0x45F9]); (0x2F9C3, [0x8860]); (0x2F9C4, [0x8863]); (0x2F9C5, [0x27667]);
    (0x2F9C6, [0x88D7]); (0x2F9C7, [0x88DE]); (0x2F9C8, [0x4635]); (0x2F9C9, [0x88FA]); (0x2F9CA,
    [0x34BB]); (0x2F9CB, [0x278AE]); (0x2F9CC, [0x27966]); (0x2F9CD, [0x46BE]); (0x2F9CE, [0x46C7]);
    (0x2F9CF, [0x8AA0]); (0x2F9D0, [0x8AED]); (0x2F9D1, [0x8B8A]); (0x2F9D2, [0x8C55]); (0x2F9D3,
    [0x27CA8]); (0x2F9D4, [0x8CAB]); (0x2F9D5, [0x8CC1]); (0x2F9D6, [0x8D1B]); (0x2F9D7, [0x8D77]);
    (0x2F9D8, [0x27F2F]); (0x2F9D9, [0x20804]); (0x2F9DA, [0x8DCB]); (0x2F9DB, [0x8DBC]); (0x2F9DC,
    [0x8DF0]); (0x2F9DD, [0x208DE]); (0x2F9DE, [0x8ED4]); (0x2F9DF, [0x8F38]); (0x2F9E0, [0x285D2]);
    (0x2F9E1, [0x285ED]); (0x2F9E2, [0x9094]); (0x2F9E3, [0x90F1]); (0x2F9E4, [0x9111]); (0x2F9E5,
    [0x2872E]); (0x2F9E6, [0x911B]); (0x2F9E7, [0x9238]); (0x2F9E8, [0x92D7]); (0x2F9E9, [0x92D8]);
    (0x2F9EA, [0x927C]); (0x2F9EB, [0x93F9]); (0x2F9EC, [0x9415]); (0x2F9ED, [0x28BFA]); (0x2F9EE,
    [0x958B]); (0x2F9EF, [0x4995]); (0x2F9F0, [0x95B7]); (0x2F9F1, [0x28D77]); (0x2F9F2, [0x49E6]);
    (0x2F9F3, [0x96C3]); (0x2F9F4, [0x5DB2]); (0x2F9F5, [0x9723]); (0x2F9F6, [0x29145]); (0x2F9F7,
    [0x2921A]); (0x2F9F8, [0x4A6E]); (0x2F9F9, [0x4A76]); (0x2F9FA, [0x97E0]); (0x2F9FB, [0x2940A]);
    (0x2F9FC, [0x4AB2]); (0x2F9FD, [0x29496]); (0x2F9FE, [0x980B]); (0x2F9FF, [0x980B]); (0x2FA00,
    [0x9829]); (0x2FA01, [0x295B6]); (0x2FA02, [0x98E2]); (0x2FA03, [0x4B33]); (0x2FA04, [0x9929]);
    (0x2FA05, [0x99A7]); (0x2FA06, [0x99C2]); (0x2FA07, [0x99FE]); (0x2FA08, [0x4BCE]); (0x2FA09,
    [0x29B30]); (0x2FA0A, [0x9B12]); (0x2FA0B, [0x9C40]); (0x2FA0C, [0x9CFD]); (0x2FA0D, [0x4CCE]);
    (0x2FA0E, [0x4CED]); (0x2FA0F, [0x9D67]); (0x2FA10, [0x2A0CE]); (0x2FA11, [0x4CF8]); (0x2FA12,
    [0x2A105]); (0x2FA13, [0x2A20E]); (0x2FA14, [0x2A291]); (0x2FA15, [0x9EBB]); (0x2FA16,
    [0x4D56]); (0x2FA17, [0x9EF9]); (0x2FA18, [0x9EFE]); (0x2FA19, [0x9F05]); (0x2FA1A, [0x9F0F]);
    (0x2FA1B, [0x9F16]); (0x2FA1C, [0x9F3B]); (0x2FA1D, [0x2A600]) ].

(** The canonical combining classes (UnicodeData.txt, field 3): [(first, last,
    class)] for every range of code points whose class is not zero. *)
Definition combining_class_table : list (Z * Z * Z) :=
  [ (0x300, 0x314, 230); (0x315, 0x315, 232); (0x316, 0x319, 220); (0x31A, 0x31A, 232); (0x31B,
    0x31B, 216); (0x31C, 0x320, 220); (0x321, 0x322, 202); (0x323, 0x326, 220); (0x327, 0x328, 202);
    (0x329, 0x333, 220); (0x334, 0x338, 1); (0x339, 0x33C, 220); (0x33D, 0x344, 230); (0x345, 0x345,
    240); (0x346, 0x346, 230); (0x347, 0x349, 220); (0x34A, 0x34C, 230); (0x34D, 0x34E, 220);
    (0x350, 0x352, 230); (0x353, 0x356, 220); (0x357, 0x357, 230); (0x358, 0x358, 232); (0x359,
    0x35A, 220); (0x35B, 0x35B, 230); (0x35C, 0x35C, 233); (0x35D, 0x35E, 234); (0x35F, 0x35F, 233);
    (0x360, 0x361, 234); (0x362, 0x362, 233); (0x363, 0x36F, 230); (0x483, 0x487, 230); (0x591,
    0x591, 220); (0x592, 0x595, 230); (0x596, 0x596, 220); (0x597, 0x599, 230); (0x59A, 0x59A, 222);
    (0x59B, 0x59B, 220); (0x59C, 0x5A1, 230); (0x5A2, 0x5A7, 220); (0x5A8, 0x5A9, 230); (0x5AA,
    0x5AA, 220); (0x5AB, 0x5AC, 230); (0x5AD, 0x5AD, 222); (0x5AE, 0x5AE, 228); (0x5AF, 0x5AF, 230);
    (0x5B0, 0x5B0, 10); (0x5B1, 0x5B1, 11); (0x5B2, 0x5B2, 12); (0x5B3, 0x5B3, 13); (0x5B4, 0x5B4,
    14); (0x5B5, 0x5B5, 15); (0x5B6, 0x5B6, 16); (0x5B7, 0x5B7, 17); (0x5B8, 0x5B8, 18); (0x5B9,
    0x5BA, 19); (0x5BB, 0x5BB, 20); (0x5BC, 0x5BC, 21); (0x5BD, 0x5BD, 22); (0x5BF, 0x5BF, 23);
    (0x5C1, 0x5C1, 24); (0x5C2, 0x5C2, 25); (0x5C4, 0x5C4, 230); (0x5C5, 0x5C5, 220); (0x5C7, 0x5C7,
    18); (0x610, 0x617, 230); (0x618, 0x618, 30); (0x619, 0x619, 31); (0x61A, 0x61A, 32); (0x64B,
    0x64B, 27); (0x64C, 0x64C, 28); (0x64D, 0x64D, 29); (0x64E, 0x64E, 30); (0x64F, 0x64F, 31);
    (0x650, 0x650, 32); (0x651, 0x651, 33); (0x652, 0x652, 34); (0x653, 0x654, 230); (0x655, 0x656,
    220); (0x657, 0x65B, 230); (0x65C, 0x65C, 220); (0x65D, 0x65E, 230); (0x65F, 0x65F, 220);
    (0x670, 0x670, 35); (0x6D6, 0x6DC, 230); (0x6DF, 0x6E2, 230); (0x6E3, 0x6E3, 220); (0x6E4,
    0x6E4, 230); (0x6E7, 0x6E8, 230); (0x6EA, 0x6EA, 220); (0x6EB, 0x6EC, 230); (0x6ED, 0x6ED, 220);
    (0x711, 0x711, 36); (0x730, 0x730, 230); (0x731, 0x731, 220); (0x732, 0x733, 230); (0x734,
    0x734, 220); (0x735, 0x736, 230); (0x737, 0x739, 220); (0x73A, 0x73A, 230); (0x73B, 0x73C, 220);
    (0x73D, 0x73D, 230); (0x73E, 0x73E, 220); (0x73F, 0x741, 230); (0x742, 0x742, 220); (0x743,
    0x743, 230); (0x744, 0x744, 220); (0x745, 0x745, 230); (0x746, 0x746, 220); (0x747, 0x747, 230);
    (0x748, 0x748, 220); (0x749, 0x74A, 230); (0x7EB, 0x7F1, 230); (0x7F2, 0x7F2, 220); (0x7F3,
    0x7F3, 230); (0x7FD, 0x7FD, 220); (0x816, 0x819, 230); (0x81B, 0x823, 230); (0x825, 0x827, 230);
    (0x829, 0x82D, 230); (0x859, 0x85B, 220); (0x898, 0x898, 230); (0x899, 0x89B, 220); (0x89C,
    0x89F, 230); (0x8CA, 0x8CE, 230); (0x8CF, 0x8D3, 220); (0x8D4, 0x8E1, 230); (0x8E3, 0x8E3, 220);
    (0x8E4, 0x8E5, 230); (0x8E6, 0x8E6, 220); (0x8E7, 0x8E8, 230); (0x8E9, 0x8E9, 220); (0x8EA,
    0x8EC, 230); (0x8ED, 0x8EF, 220); (0x8F0, 0x8F0, 27); (0x8F1, 0x8F1, 28); (0x8F2, 0x8F2, 29);
    (0x8F3, 0x8F5, 230); (0x8F6, 0x8F6, 220); (0x8F7, 0x8F8, 230); (0x8F9, 0x8FA, 220); (0x8FB,
    0x8FF, 230); (0x93C, 0x93C, 7); (0x94D, 0x94D, 9); (0x951, 0x951, 230); (0x952, 0x952, 220);
    (0x953, 0x954, 230); (0x9BC, 0x9BC, 7); (0x9CD, 0x9CD, 9); (0x9FE, 0x9FE, 230); (0xA3C, 0xA3C,
    7); (0xA4D, 0xA4D, 9); (0xABC, 0xABC, 7); (0xACD, 0xACD, 9); (0xB3C, 0xB3C, 7); (0xB4D, 0xB4D,
    9); (0xBCD, 0xBCD, 9); (0xC3C, 0xC3C, 7); (0xC4D, 0xC4D, 9); (0xC55, 0xC55, 84); (0xC56, 0xC56,
    91); (0xCBC, 0xCBC, 7); (0xCCD, 0xCCD, 9); (0xD3B, 0xD3C, 9); (0xD4D, 0xD4D, 9); (0xDCA, 0xDCA,
    9); (0xE38, 0xE39, 103); (0xE3A, 0xE3A, 9); (0xE48, 0xE4B, 107); (0xEB8, 0xEB9, 118); (0xEBA,
    0xEBA, 9); (0xEC8, 0xECB, 122); (0xF18, 0xF19, 220); (0xF35, 0xF35, 220); (0xF37, 0xF37, 220);
    (0xF39, 0xF39, 216); (0xF71, 0xF71, 129); (0xF72, 0xF72, 130); (0xF74, 0xF74, 132); (0xF7A,
    0xF7D, 130); (0xF80, 0xF80, 130); (0xF82, 0xF83, 230); (0xF84, 0xF84, 9); (0xF86, 0xF87, 230);
    (0xFC6, 0xFC6, 220); (0x1037, 0x1037, 7); (0x1039, 0x103A, 9); (0x108D, 0x108D, 220); (0x135D,
    0x135F, 230); (0x1714, 0x1715, 9); (0x1734, 0x1734, 9); (0x17D2, 0x17D2, 9); (0x17DD, 0x17DD,
    230); (0x18A9, 0x18A9, 228); (0x1939, 0x1939, 222); (0x193A, 0x193A, 230); (0x193B, 0x193B,
    220); (0x1A17, 0x1A17, 230); (0x1A18, 0x1A18, 220); (0x1A60, 0x1A60, 9); (0x1A75, 0x1A7C, 230);
    (0x1A7F, 0x1A7F, 220); (0x1AB0, 0x1AB4, 230); (0x1AB5, 0x1ABA, 220); (0x1ABB, 0x1ABC, 230);
    (0x1ABD, 0x1ABD, 220); (0x1ABF, 0x1AC0, 220); (0x1AC1, 0x1AC2, 230); (0x1AC3, 0x1AC4, 220);
    (0x1AC5, 0x1AC9, 230); (0x1ACA, 0x1ACA, 220); (0x1ACB, 0x1ACE, 230); (0x1B34, 0x1B34, 7);
    (0x1B44, 0x1B44, 9); (0x1B6B, 0x1B6B, 230); (0x1B6C, 0x1B6C, 220); (0x1B6D, 0x1B73, 230);
    (0x1BAA, 0x1BAB, 9); (0x1BE6, 0x1BE6, 7); (0x1BF2, 0x1BF3, 9); (0x1C37, 0x1C37, 7); (0x1CD0,
    0x1CD2, 230); (0x1CD4, 0x1CD4, 1); (0x1CD5, 0x1CD9, 220); (0x1CDA, 0x1CDB, 230); (0x1CDC,
    0x1CDF, 220); (0x1CE0, 0x1CE0, 230); (0x1CE2, 0x1CE8, 1); (0x1CED, 0x1CED, 220); (0x1CF4,
    0x1CF4, 230); (0x1CF8, 0x1CF9, 230); (0x1DC0, 0x1DC1, 230); (0x1DC2, 0x1DC2, 220); (0x1DC3,
    0x1DC9, 230); (0x1DCA, 0x1DCA, 220); (0x1DCB, 0x1DCC, 230); (0x1DCD, 0x1DCD, 234); (0x1DCE,
    0x1DCE, 214); (0x1DCF, 0x1DCF, 220); (0x1DD0, 0x1DD0, 202); (0x1DD1, 0x1DF5, 230); (0x1DF6,
    0x1DF6, 232); (0x1DF7, 0x1DF8, 228); (0x1DF9, 0x1DF9, 220); (0x1DFA, 0x1DFA, 218); (0x1DFB,
    0x1DFB, 230); (0x1DFC, 0x1DFC, 233); (0x1DFD, 0x1DFD, 220); (0x1DFE, 0x1DFE, 230); (0x1DFF,
    0x1DFF, 220); (0x20D0, 0x20D1, 230); (0x20D2, 0x20D3, 1); (0x20D4, 0x20D7, 230); (0x20D8,
    0x20DA, 1); (0x20DB, 0x20DC, 230); (0x20E1, 0x20E1, 230); (0x20E5, 0x20E6, 1); (0x20E7, 0x20E7,
    230); (0x20E8, 0x20E8, 220); (0x20E9, 0x20E9, 230); (0x20EA, 0x20EB, 1); (0x20EC, 0x20EF, 220);
    (0x20F0, 0x20F0, 230); (0x2CEF, 0x2CF1, 230); (0x2D7F, 0x2D7F, 9); (0x2DE0, 0x2DFF, 230);
    (0x302A, 0x302A, 218); (0x302B, 0x302B, 228); (0x302C, 0x302C, 232); (0x302D, 0x302D, 222);
    (0x302E, 0x302F, 224); (0x3099, 0x309A, 8); (0xA66F, 0xA66F, 230); (0xA674, 0xA67D, 230);
    (0xA69E, 0xA69F, 230); (0xA6F0, 0xA6F1, 230); (0xA806, 0xA806, 9); (0xA82C, 0xA82C, 9); (0xA8C4,
    0xA8C4, 9); (0xA8E0, 0xA8F1, 230); (0xA92B, 0xA92D, 220); (0xA953, 0xA953, 9); (0xA9B3, 0xA9B3,
    7); (0xA9C0, 0xA9C0, 9); (0xAAB0, 0xAAB0, 230); (0xAAB2, 0xAAB3, 230); (0xAAB4, 0xAAB4, 220);
    (0xAAB7, 0xAAB8, 230); (0xAABE, 0xAABF, 230); (0xAAC1, 0xAAC1, 230); (0xAAF6, 0xAAF6, 9);
    (0xABED, 0xABED, 9); (0xFB1E, 0xFB1E, 26); (0xFE20, 0xFE26, 230); (0xFE27, 0xFE2D, 220);
    (0xFE2E, 0xFE2F, 230); (0x101FD, 0x101FD, 220); (0x102E0, 0x102E0, 220); (0x10376, 0x1037A,
    230); (0x10A0D, 0x10A0D, 220); (0x10A0F, 0x10A0F, 230); (0x10A38, 0x10A38, 230); (0x10A39,
    0x10A39, 1); (0x10A3A, 0x10A3A, 220); (0x10A3F, 0x10A3F, 9); (0x10AE5, 0x10AE5, 230); (0x10AE6,
    0x10AE6, 220); (0x10D24, 0x10D27, 230); (0x10EAB, 0x10EAC, 230); (0x10F46, 0x10F47, 220);
    (0x10F48, 0x10F4A, 230); (0x10F4B, 0x10F4B, 220); (0x10F4C, 0x10F4C, 230); (0x10F4D, 0x10F50,
    220); (0x10F82, 0x10F82, 230); (0x10F83, 0x10F83, 220); (0x10F84, 0x10F84, 230); (0x10F85,
    0x10F85, 220); (0x11046, 0x11046, 9); (0x11070, 0x11070, 9); (0x1107F, 0x1107F, 9); (0x110B9,
    0x110B9, 9); (0x110BA, 0x110BA, 7); (0x11100, 0x11102, 230); (0x11133, 0x11134, 9); (0x11173,
    0x11173, 7); (0x111C0, 0x111C0, 9); (0x111CA, 0x111CA, 7); (0x11235, 0x11235, 9); (0x11236,
    0x11236, 7); (0x112E9, 0x112E9, 7); (0x112EA, 0x112EA, 9); (0x1133B, 0x1133C, 7); (0x1134D,
    0x1134D, 9); (0x11366, 0x1136C, 230); (0x11370, 0x11374, 230); (0x11442, 0x11442, 9); (0x11446,
    0x11446, 7); (0x1145E, 0x1145E, 230); (0x114C2, 0x114C2, 9); (0x114C3, 0x114C3, 7); (0x115BF,
    0x115BF, 9); (0x115C0, 0x115C0, 7); (0x1163F, 0x1163F, 9); (0x116B6, 0x116B6, 9); (0x116B7,
    0x116B7, 7); (0x1172B, 0x1172B, 9); (0x11839, 0x11839, 9); (0x1183A, 0x1183A, 7); (0x1193D,
    0x1193E, 9); (0x11943, 0x11943, 7); (0x119E0, 0x119E0, 9); (0x11A34, 0x11A34, 9); (0x11A47,
    0x11A47, 9); (0x11A99, 0x11A99, 9); (0x11C3F, 0x11C3F, 9); (0x11D42, 0x11D42, 7); (0x11D44,
    0x11D45, 9); (0x11D97, 0x11D97, 9); (0x16AF0, 0x16AF4, 1); (0x16B30, 0x16B36, 230); (0x16FF0,
    0x16FF1, 6); (0x1BC9E, 0x1BC9E, 1); (0x1D165, 0x1D166, 216); (0x1D167, 0x1D169, 1); (0x1D16D,
    0x1D16D, 226); (0x1D16E, 0x1D172, 216); (0x1D17B, 0x1D182, 220); (0x1D185, 0x1D189, 230);
    (0x1D18A, 0x1D18B, 220); (0x1D1AA, 0x1D1AD, 230); (0x1D242, 0x1D244, 230); (0x1E000, 0x1E006,
    230); (0x1E008, 0x1E018, 230); (0x1E01B, 0x1E021, 230); (0x1E023, 0x1E024, 230); (0x1E026,
    0x1E02A, 230); (0x1E130, 0x1E136, 230); (0x1E2AE, 0x1E2AE, 230); (0x1E2EC, 0x1E2EF, 230);
    (0x1E8D0, 0x1E8D6, 220); (0x1E944, 0x1E949, 230); (0x1E94A, 0x1E94A, 7) ].

(** The lowercase mapping of every code point that has one (UnicodeData.txt,
    field 13, and the unconditional lines of SpecialCasing.txt). *)
Definition lowercase_table : list (Z * list Z) :=
  [ (0x41, [0x61]); (0x42, [0x62]); (0x43, [0x63]); (0x44, [0x64]); (0x45, [0x65]); (0x46, [0x66]);
    (0x47, [0x67]); (0x48, [0x68]); (0x49, [0x69]); (0x4A, [0x6A]); (0x4B, [0x6B]); (0x4C, [0x6C]);
    (0x4D, [0x6D]); (0x4E, [0x6E]); (0x4F, [0x6F]); (0x50, [0x70]); (0x51, [0x71]); (0x52, [0x72]);
    (0x53, [0x73]); (0x54, [0x74]); (0x55, [0x75]); (0x56, [0x76]); (0x57, [0x77]); (0x58, [0x78]);
    (0x59, [0x79]); (0x5A, [0x7A]); (0xC0, [0xE0]); (0xC1, [0xE1]); (0xC2, [0xE2]); (0xC3, [0xE3]);
    (0xC4, [0xE4]); (0xC5, [0xE5]); (0xC6, [0xE6]); (0xC7, [0xE7]); (0xC8, [0xE8]); (0xC9, [0xE9]);
    (0xCA, [0xEA]); (0xCB, [0xEB]); (0xCC, [0xEC]); (0xCD, [0xED]); (0xCE, [0xEE]); (0xCF, [0xEF]);
    (0xD0, [0xF0]); (0xD1, [0xF1]); (0xD2, [0xF2]); (0xD3, [0xF3]); (0xD4, [0xF4]); (0xD5, [0xF5]);
    (0xD6, [0xF6]); (0xD8, [0xF8]); (0xD9, [0xF9]); (0xDA, [0xFA]); (0xDB, [0xFB]); (0xDC, [0xFC]);
    (0xDD, [0xFD]); (0xDE, [0xFE]); (0x100, [0x101]); (0x102, [0x103]); (0x104, [0x105]); (0x106,
    [0x107]); (0x108, [0x109]); (0x10A, [0x10B]); (0x10C, [0x10D]); (0x10E, [0x10F]); (0x110,
    [0x111]); (0x112, [0x113]); (0x114, [0x115]); (0x116, [0x117]); (0x118, [0x119]); (0x11A,
    [0x11B]); (0x11C, [0x11D]); (0x11E, [0x11F]); (0x120, [0x121]); (0x122, [0x123]); (0x124,
    [0x125]); (0x126, [0x127]); (0x128, [0x129]); (0x12A, [0x12B]); (0x12C, [0x12D]); (0x12E,
    [0x12F]); (0x130, [0x69; 0x307]); (0x132, [0x133]); (0x134, [0x135]); (0x136, [0x137]); (0x139,
    [0x13A]); (0x13B, [0x13C]); (0x13D, [0x13E]); (0x13F, [0x140]); (0x141, [0x142]); (0x143,
    [0x144]); (0x145, [0x146]); (0x147, [0x148]); (0x14A, [0x14B]); (0x14C, [0x14D]); (0x14E,
    [0x14F]); (0x150, [0x151]); (0x152, [0x153]); (0x154, [0x155]); (0x156, [0x157]); (0x158,
    [0x159]); (0x15A, [0x15B]); (0x15C, [0x15D]); (0x15E, [0x15F]); (0x160, [0x161]); (0x162,
    [0x163]); (0x164, [0x165]); (0x166, [0x167]); (0x168, [0x169]); (0x16A, [0x16B]); (0x16C,
    [0x16D]); (0x16E, [0x16F]); (0x170, [0x171]); (0x172, [0x173]); (0x174, [0x175]); (0x176,
    [0x177]); (0x178, [0xFF]); (0x179, [0x17A]); (0x17B, [0x17C]); (0x17D, [0x17E]); (0x181,
    [0x253]); (0x182, [0x183]); (0x184, [0x185]); (0x186, [0x254]); (0x187, [0x188]); (0x189,
    [0x256]); (0x18A, [0x257]); (0x18B, [0x18C]); (0x18E, [0x1DD]); (0x18F, [0x259]); (0x190,
    [0x25B]); (0x191, [0x192]); (0x193, [0x260]); (0x194, [0x263]); (0x196, [0x269]); (0x197,
    [0x268]); (0x198, [0x199]); (0x19C, [0x26F]); (0x19D, [0x272]); (0x19F, [0x275]); (0x1A0,
    [0x1A1]); (0x1A2, [0x1A3]); (0x1A4, [0x1A5]); (0x1A6, [0x280]); (0x1A7, [0x1A8]); (0x1A9,
    [0x283]); (0x1AC, [0x1AD]); (0x1AE, [0x288]); (0x1AF, [0x1B0]); (0x1B1, [0x28A]); (0x1B2,
    [0x28B]); (0x1B3, [0x1B4]); (0x1B5, [0x1B6]); (0x1B7, [0x292]); (0x1B8, [0x1B9]); (0x1BC,
    [0x1BD]); (0x1C4, [0x1C6]); (0x1C5, [0x1C6]); (0x1C7, [0x1C9]); (0x1C8, [0x1C9]); (0x1CA,
    [0x1CC]); (0x1CB, [0x1CC]); (0x1CD, [0x1CE]); (0x1CF, [0x1D0]); (0x1D1, [0x1D2]); (0x1D3,
    [0x1D4]); (0x1D5, [0x1D6]); (0x1D7, [0x1D8]); (0x1D9, [0x1DA]); (0x1DB, [0x1DC]); (0x1DE,
    [0x1DF]); (0x1E0, [0x1E1]); (0x1E2, [0x1E3]); (0x1E4, [0x1E5]); (0x1E6, [0x1E7]); (0x1E8,
    [0x1E9]); (0x1EA, [0x1EB]); (0x1EC, [0x1ED]); (0x1EE, [0x1EF]); (0x1F1, [0x1F3]); (0x1F2,
    [0x1F3]); (0x1F4, [0x1F5]); (0x1F6, [0x195]); (0x1F7, [0x1BF]); (0x1F8, [0x1F9]); (0x1FA,
    [0x1FB]); (0x1FC, [0x1FD]); (0x1FE, [0x1FF]); (0x200, [0x201]); (0x202, [0x203]); (0x204,
    [0x205]); (0x206, [0x207]); (0x208, [0x209]); (0x20A, [0x20B]); (0x20C, [0x20D]); (0x20E,
    [0x20F]); (0x210, [0x211]); (0x212, [0x213]); (0x214, [0x215]); (0x216, [0x217]); (0x218,
    [0x219]); (0x21A, [0x21B]); (0x21C, [0x21D]); (0x21E, [0x21F]); (0x220, [0x19E]); (0x222,
    [0x223]); (0x224, [0x225]); (0x226, [0x227]); (0x228, [0x229]); (0x22A, [0x22B]); (0x22C,
    [0x22D]); (0x22E, [0x22F]); (0x230, [0x231]); (0x232, [0x233]); (0x23A, [0x2C65]); (0x23B,
    [0x23C]); (0x23D, [0x19A]); (0x23E, [0x2C66]); (0x241, [0x242]); (0x243, [0x180]); (0x244,
    [0x289]); (0x245, [0x28C]); (0x246, [0x247]); (0x248, [0x249]); (0x24A, [0x24B]); (0x24C,
    [0x24D]); (0x24E, [0x24F]); (0x370, [0x371]); (0x372, [0x373]); (0x376, [0x377]); (0x37F,
    [0x3F3]); (0x386, [0x3AC]); (0x388, [0x3AD]); (0x389, [0x3AE]); (0x38A, [0x3AF]); (0x38C,
    [0x3CC]); (0x38E, [0x3CD]); (0x38F, [0x3CE]); (0x391, [0x3B1]); (0x392, [0x3B2]); (0x393,
    [0x3B3]); (0x394, [0x3B4]); (0x395, [0x3B5]); (0x396, [0x3B6]); (0x397, [0x3B7]); (0x398,
    [0x3B8]); (0x399, [0x3B9]); (0x39A, [0x3BA]); (0x39B, [0x3BB]); (0x39C, [0x3BC]); (0x39D,
    [0x3BD]); (0x39E, [0x3BE]); (0x39F, [0x3BF]); (0x3A0, [0x3C0]); (0x3A1, [0x3C1]); (0x3A3,
    [0x3C3]); (0x3A4, [0x3C4]); (0x3A5, [0x3C5]); (0x3A6, [0x3C6]); (0x3A7, [0x3C7]); (0x3A8,
    [0x3C8]); (0x3A9, [0x3C9]); (0x3AA, [0x3CA]); (0x3AB, [0x3CB]); (0x3CF, [0x3D7]); (0x3D8,
    [0x3D9]); (0x3DA, [0x3DB]); (0x3DC, [0x3DD]); (0x3DE, [0x3DF]); (0x3E0, [0x3E1]); (0x3E2,
    [0x3E3]); (0x3E4, [0x3E5]); (0x3E6, [0x3E7]); (0x3E8, [0x3E9]); (0x3EA, [0x3EB]); (0x3EC,
    [0x3ED]); (0x3EE, [0x3EF]); (0x3F4, [0x3B8]); (0x3F7, [0x3F8]); (0x3F9, [0x3F2]); (0x3FA,
    [0x3FB]); (0x3FD, [0x37B]); (0x3FE, [0x37C]); (0x3FF, [0x37D]); (0x400, [0x450]); (0x401,
    [0x451]); (0x402, [0x452]); (0x403, [0x453]); (0x404, [0x454]); (0x405, [0x455]); (0x406,
    [0x456]); (0x407, [0x457]); (0x408, [0x458]); (0x409, [0x459]); (0x40A, [0x45A]); (0x40B,
    [0x45B]); (0x40C, [0x45C]); (0x40D, [0x45D]); (0x40E, [0x45E]); (0x40F, [0x45F]); (0x410,
    [0x430]); (0x411, [0x431]); (0x412, [0x432]); (0x413, [0x433]); (0x414, [0x434]); (0x415,
    [0x435]); (0x416, [0x436]); (0x417, [0x437]); (0x418, [0x438]); (0x419, [0x439]); (0x41A,
    [0x43A]); (0x41B, [0x43B]); (0x41C, [0x43C]); (0x41D, [0x43D]); (0x41E, [0x43E]); (0x41F,
    [0x43F]); (0x420, [0x440]); (0x421, [0x441]); (0x422, [0x442]); (0x423, [0x443]); (0x424,
    [0x444]); (0x425, [0x445]); (0x426, [0x446]); (0x427, [0x447]); (0x428, [0x448]); (0x429,
    [0x449]); (0x42A, [0x44A]); (0x42B, [0x44B]); (0x42C, [0x44C]); (0x42D, [0x44D]); (0x42E,
    [0x44E]); (0x42F, [0x44F]); (0x460, [0x461]); (0x462, [0x463]); (0x464, [0x465]); (0x466,
    [0x467]); (0x468, [0x469]); (0x46A, [0x46B]); (0x46C, [0x46D]); (0x46E, [0x46F]); (0x470,
    [0x471]); (0x472, [0x473]); (0x474, [0x475]); (0x476, [0x477]); (0x478, [0x479]); (0x47A,
    [0x47B]); (0x47C, [0x47D]); (0x47E, [0x47F]); (0x480, [0x481]); (0x48A, [0x48B]); (0x48C,
    [0x48D]); (0x48E, [0x48F]); (0x490, [0x491]); (0x492, [0x493]); (0x494, [0x495]); (0x496,
    [0x497]); (0x498, [0x499]); (0x49A, [0x49B]); (0x49C, [0x49D]); (0x49E, [0x49F]); (0x4A0,
    [0x4A1]); (0x4A2, [0x4A3]); (0x4A4, [0x4A5]); (0x4A6, [0x4A7]); (0x4A8, [0x4A9]); (0x4AA,
    [0x4AB]); (0x4AC, [0x4AD]); (0x4AE, [0x4AF]); (0x4B0, [0x4B1]); (0x4B2, [0x4B3]); (0x4B4,
    [0x4B5]); (0x4B6, [0x4B7]); (0x4B8, [0x4B9]); (0x4BA, [0x4BB]); (0x4BC, [0x4BD]); (0x4BE,
    [0x4BF]); (0x4C0, [0x4CF]); (0x4C1, [0x4C2]); (0x4C3, [0x4C4]); (0x4C5, [0x4C6]); (0x4C7,
    [0x4C8]); (0x4C9, [0x4CA]); (0x4CB, [0x4CC]); (0x4CD, [0x4CE]); (0x4D0, [0x4D1]); (0x4D2,
    [0x4D3]); (0x4D4, [0x4D5]); (0x4D6, [0x4D7]); (0x4D8, [0x4D9]); (0x4DA, [0x4DB]); (0x4DC,
    [0x4DD]); (0x4DE, [0x4DF]); (0x4E0, [0x4E1]); (0x4E2, [0x4E3]); (0x4E4, [0x4E5]); (0x4E6,
    [0x4E7]); (0x4E8, [0x4E9]); (0x4EA, [0x4EB]); (0x4EC, [0x4ED]); (0x4EE, [0x4EF]); (0x4F0,
    [0x4F1]); (0x4F2, [0x4F3]); (0x4F4, [0x4F5]); (0x4F6, [0x4F7]); (0x4F8, [0x4F9]); (0x4FA,
    [0x4FB]); (0x4FC, [0x4FD]); (0x4FE, [0x4FF]); (0x500, [0x501]); (0x502, [0x503]); (0x504,
    [0x505]); (0x506, [0x507]); (0x508, [0x509]); (0x50A, [0x50B]); (0x50C, [0x50D]); (0x50E,
    [0x50F]); (0x510, [0x511]); (0x512, [0x513]); (0x514, [0x515]); (0x516, [0x517]); (0x518,
    [0x519]); (0x51A, [0x51B]); (0x51C, [0x51D]); (0x51E, [0x51F]); (0x520, [0x521]); (0x522,
    [0x523]); (0x524, [0x525]); (0x526, [0x527]); (0x528, [0x529]); (0x52A, [0x52B]); (0x52C,
    [0x52D]); (0x52E, [0x52F]); (0x531, [0x561]); (0x532, [0x562]); (0x533, [0x563]); (0x534,
    [0x564]); (0x535, [0x565]); (0x536, [0x566]); (0x537, [0x567]); (0x538, [0x568]); (0x539,
    [0x569]); (0x53A, [0x56A]); (0x53B, [0x56B]); (0x53C, [0x56C]); (0x53D, [0x56D]); (0x53E,
    [0x56E]); (0x53F, [0x56F]); (0x540, [0x570]); (0x541, [0x571]); (0x542, [0x572]); (0x543,
    [0x573]); (0x544, [0x574]); (0x545, [0x575]); (0x546, [0x576]); (0x547, [0x577]); (0x548,
    [0x578]); (0x549, [0x579]); (0x54A, [0x57A]); (0x54B, [0x57B]); (0x54C, [0x57C]); (0x54D,
    [0x57D]); (0x54E, [0x57E]); (0x54F, [0x57F]); (0x550, [0x580]); (0x551, [0x581]); (0x552,
    [0x582]); (0x553, [0x583]); (0x554, [0x584]); (0x555, [0x585]); (0x556, [0x586]); (0x10A0,
    [0x2D00]); (0x10A1, [0x2D01]); (0x10A2, [0x2D02]); (0x10A3, [0x2D03]); (0x10A4, [0x2D04]);
    (0x10A5, [0x2D05]); (0x10A6, [0x2D06]); (0x10A7, [0x2D07]); (0x10A8, [0x2D08]); (0x10A9,
    [0x2D09]); (0x10AA, [0x2D0A]); (0x10AB, [0x2D0B]); (0x10AC, [0x2D0C]); (0x10AD, [0x2D0D]);
    (0x10AE, [0x2D0E]); (0x10AF, [0x2D0F]); (0x10B0, [0x2D10]); (0x10B1, [0x2D11]); (0x10B2,
    [0x2D12]); (0x10B3, [0x2D13]); (0x10B4, [0x2D14]); (0x10B5, [0x2D15]); (0x10B6, [0x2D16]);
    (0x10B7, [0x2D17]); (0x10B8, [0x2D18]); (0x10B9, [0x2D19]); (0x10BA, [0x2D1A]); (0x10BB,
    [0x2D1B]); (0x10BC, [0x2D1C]); (0x10BD, [0x2D1D]); (0x10BE, [0x2D1E]); (0x10BF, [0x2D1F]);
    (0x10C0, [0x2D20]); (0x10C1, [0x2D21]); (0x10C2, [0x2D22]); (0x10C3, [0x2D23]); (0x10C4,
    [0x2D24]); (0x10C5, [0x2D25]); (0x10C7, [0x2D27]); (0x10CD, [0x2D2D]); (0x13A0, [0xAB70]);
    (0x13A1, [0xAB71]); (0x13A2, [0xAB72]); (0x13A3, [0xAB73]); (0x13A4, [0xAB74]); (0x13A5,
    [0xAB75]); (0x13A6, [0xAB76]); (0x13A7, [0xAB77]); (0x13A8, [0xAB78]); (0x13A9, [0xAB79]);
    (0x13AA, [0xAB7A]); (0x13AB, [0xAB7B]); (0x13AC, [0xAB7C]); (0x13AD, [0xAB7D]); (0x13AE,
    [0xAB7E]); (0x13AF, [0xAB7F]); (0x13B0, [0xAB80]); (0x13B1, [0xAB81]); (0x13B2, [0xAB82]);
    (0x13B3, [0xAB83]); (0x13B4, [0xAB84]); (0x13B5, [0xAB85]); (0x13B6, [0xAB86]); (0x13B7,
    [0xAB87]); (0x13B8, [0xAB88]); (0x13B9, [0xAB89]); (0x13BA, [0xAB8A]); (0x13BB, [0xAB8B]);
    (0x13BC, [0xAB8C]); (0x13BD, [0xAB8D]); (0x13BE, [0xAB8E]); (0x13BF, [0xAB8F]); (0x13C0,
    [0xAB90]); (0x13C1, [0xAB91]); (0x13C2, [0xAB92]); (0x13C3, [0xAB93]); (0x13C4, [0xAB94]);
    (0x13C5, [0xAB95]); (0x13C6, [0xAB96]); (0x13C7, [0xAB97]); (0x13C8, [0xAB98]); (0x13C9,
    [0xAB99]); (0x13CA, [0xAB9A]); (0x13CB, [0xAB9B]); (0x13CC, [0xAB9C]); (0x13CD, [0xAB9D]);
    (0x13CE, [0xAB9E]); (0x13CF, [0xAB9F]); (0x13D0, [0xABA0]); (0x13D1, [0xABA1]); (0x13D2,
    [0xABA2]); (0x13D3, [0xABA3]); (0x13D4, [0xABA4]); (0x13D5, [0xABA5]); (0x13D6, [0xABA6]);
    (0x13D7, [0xABA7]); (0x13D8, [0xABA8]); (0x13D9, [0xABA9]); (0x13DA, [0xABAA]); (0x13DB,
    [0xABAB]); (0x13DC, [0xABAC]); (0x13DD, [0xABAD]); (0x13DE, [0xABAE]); (0x13DF, [0xABAF]);
    (0x13E0, [0xABB0]); (0x13E1, [0xABB1]); (0x13E2, [0xABB2]); (0x13E3, [0xABB3]); (0x13E4,
    [0xABB4]); (0x13E5, [0xABB5]); (0x13E6, [0xABB6]); (0x13E7, [0xABB7]); (0x13E8, [0xABB8]);
    (0x13E9, [0xABB9]); (0x13EA, [0xABBA]); (0x13EB, [0xABBB]); (0x13EC, [0xABBC]); (0x13ED,
    [0xABBD]); (0x13EE, [0xABBE]); (0x13EF, [0xABBF]); (0x13F0, [0x13F8]); (0x13F1, [0x13F9]);
    (0x13F2, [0x13FA]); (0x13F3, [0x13FB]); (0x13F4, [0x13FC]); (0x13F5, [0x13FD]); (0x1C90,
    [0x10D0]); (0x1C91, [0x10D1]); (0x1C92, [0x10D2]); (0x1C93, [0x10D3]); (0x1C94, [0x10D4]);
    (0x1C95, [0x10D5]); (0x1C96, [0x10D6]); (0x1C97, [0x10D7]); (0x1C98, [0x10D8]); (0x1C99,
    [0x10D9]); (0x1C9A, [0x10DA]); (0x1C9B, [0x10DB]); (0x1C9C, [0x10DC]); (0x1C9D, [0x10DD]);
    (0x1C9E, [0x10DE]); (0x1C9F, [0x10DF]); (0x1CA0, [0x10E0]); (0x1CA1, [0x10E1]); (0x1CA2,
    [0x10E2]); (0x1CA3, [0x10E3]); (0x1CA4, [0x10E4]); (0x1CA5, [0x10E5]); (0x1CA6, [0x10E6]);
    (0x1CA7, [0x10E7]); (0x1CA8, [0x10E8]); (0x1CA9, [0x10E9]); (0x1CAA, [0x10EA]); (0x1CAB,
    [0x10EB]); (0x1CAC, [0x10EC]); (0x1CAD, [0x10ED]); (0x1CAE, [0x10EE]); (0x1CAF, [0x10EF]);
    (0x1CB0, [0x10F0]); (0x1CB1, [0x10F1]); (0x1CB2, [0x10F2]); (0x1CB3, [0x10F3]); (0x1CB4,
    [0x10F4]); (0x1CB5, [0x10F5]); (0x1CB6, [0x10F6]); (0x1CB7, [0x10F7]); (0x1CB8, [0x10F8]);
    (0x1CB9, [0x10F9]); (0x1CBA, [0x10FA]); (0x1CBD, [0x10FD]); (0x1CBE, [0x10FE]); (0x1CBF,
    [0x10FF]); (0x1E00, [0x1E01]); (0x1E02, [0x1E03]); (0x1E04, [0x1E05]); (0x1E06, [0x1E07]);
    (0x1E08, [0x1E09]); (0x1E0A, [0x1E0B]); (0x1E0C, [0x1E0D]); (0x1E0E, [0x1E0F]); (0x1E10,
    [0x1E11]); (0x1E12, [0x1E13]); (0x1E14, [0x1E15]); (0x1E16, [0x1E17]); (0x1E18, [0x1E19]);
    (0x1E1A, [0x1E1B]); (0x1E1C, [0x1E1D]); (0x1E1E, [0x1E1F]); (0x1E20, [0x1E21]); (0x1E22,
    [0x1E23]); (0x1E24, [0x1E25]); (0x1E26, [0x1E27]); (0x1E28, [0x1E29]); (0x1E2A, [0x1E2B]);
    (0x1E2C, [0x1E2D]); (0x1E2E, [0x1E2F]); (0x1E30, [0x1E31]); (0x1E32, [0x1E33]); (0x1E34,
    [0x1E35]); (0x1E36, [0x1E37]); (0x1E38, [0x1E39]); (0x1E3A, [0x1E3B]); (0x1E3C, [0x1E3D]);
    (0x1E3E, [0x1E3F]); (0x1E40, [0x1E41]); (0x1E42, [0x1E43]); (0x1E44, [0x1E45]); (0x1E46,
    [0x1E47]); (0x1E48, [0x1E49]); (0x1E4A, [0x1E4B]); (0x1E4C, [0x1E4D]); (0x1E4E, [0x1E4F]);
    (0x1E50, [0x1E51]); (0x1E52, [0x1E53]); (0x1E54, [0x1E55]); (0x1E56, [0x1E57]); (0x1E58,
    [0x1E59]); (0x1E5A, [0x1E5B]); (0x1E5C, [0x1E5D]); (0x1E5E, [0x1E5F]); (0x1E60, [0x1E61]);
    (0x1E62, [0x1E63]); (0x1E64, [0x1E65]); (0x1E66, [0x1E67]); (0x1E68, [0x1E69]); (0x1E6A,
    [0x1E6B]); (0x1E6C, [0x1E6D]); (0x1E6E, [0x1E6F]); (0x1E70, [0x1E71]); (0x1E72, [0x1E73]);
    (0x1E74, [0x1E75]); (0x1E76, [0x1E77]); (0x1E78, [0x1E79]); (0x1E7A, [0x1E7B]); (0x1E7C,
    [0x1E7D]); (0x1E7E, [0x1E7F]); (0x1E80, [0x1E81]); (0x1E82, [0x1E83]); (0x1E84, [0x1E85]);
    (0x1E86, [0x1E87]); (0x1E88, [0x1E89]); (0x1E8A, [0x1E8B]); (0x1E8C, [0x1E8D]); (0x1E8E,
    [0x1E8F]); (0x1E90, [0x1E91]); (0x1E92, [0x1E93]); (0x1E94, [0x1E95]); (0x1E9E, [0xDF]);
    (0x1EA0, [0x1EA1]); (0x1EA2, [0x1EA3]); (0x1EA4, [0x1EA5]); (0x1EA6, [0x1EA7]); (0x1EA8,
    [0x1EA9]); (0x1EAA, [0x1EAB]); (0x1EAC, [0x1EAD]); (0x1EAE, [0x1EAF]); (0x1EB0, [0x1EB1]);
    (0x1EB2, [0x1EB3]); (0x1EB4, [0x1EB5]); (0x1EB6, [0x1EB7]); (0x1EB8, [0x1EB9]); (0x1EBA,
    [0x1EBB]); (0x1EBC, [0x1EBD]); (0x1EBE, [0x1EBF]); (0x1EC0, [0x1EC1]); (0x1EC2, [0x1EC3]);
    (0x1EC4, [0x1EC5]); (0x1EC6, [0x1EC7]); (0x1EC8, [0x1EC9]); (0x1ECA, [0x1ECB]); (0x1ECC,
    [0x1ECD]); (0x1ECE, [0x1ECF]); (0x1ED0, [0x1ED1]); (0x1ED2, [0x1ED3]); (0x1ED4, [0x1ED5]);
    (0x1ED6, [0x1ED7]); (0x1ED8, [0x1ED9]); (0x1EDA, [0x1EDB]); (0x1EDC, [0x1EDD]); (0x1EDE,
    [0x1EDF]); (0x1EE0, [0x1EE1]); (0x1EE2, [0x1EE3]); (0x1EE4, [0x1EE5]); (0x1EE6, [0x1EE7]);
    (0x1EE8, [0x1EE9]); (0x1EEA, [0x1EEB]); (0x1EEC, [0x1EED]); (0x1EEE, [0x1EEF]); (0x1EF0,
    [0x1EF1]); (0x1EF2, [0x1EF3]); (0x1EF4, [0x1EF5]); (0x1EF6, [0x1EF7]); (0x1EF8, [0x1EF9]);
    (0x1EFA, [0x1EFB]); (0x1EFC, [0x1EFD]); (0x1EFE, [0x1EFF]); (0x1F08, [0x1F00]); (0x1F09,
    [0x1F01]); (0x1F0A, [0x1F02]); (0x1F0B, [0x1F03]); (0x1F0C, [0x1F04]); (0x1F0D, [0x1F05]);
    (0x1F0E, [0x1F06]); (0x1F0F, [0x1F07]); (0x1F18, [0x1F10]); (0x1F19, [0x1F11]); (0x1F1A,
    [0x1F12]); (0x1F1B, [0x1F13]); (0x1F1C, [0x1F14]); (0x1F1D, [0x1F15]); (0x1F28, [0x1F20]);
    (0x1F29, [0x1F21]); (0x1F2A, [0x1F22]); (0x1F2B, [0x1F23]); (0x1F2C, [0x1F24]); (0x1F2D,
    [0x1F25]); (0x1F2E, [0x1F26]); (0x1F2F, [0x1F27]); (0x1F38, [0x1F30]); (0x1F39, [0x1F31]);
    (0x1F3A, [0x1F32]); (0x1F3B, [0x1F33]); (0x1F3C, [0x1F34]); (0x1F3D, [0x1F35]); (0x1F3E,
    [0x1F36]); (0x1F3F, [0x1F37]); (0x1F48, [0x1F40]); (0x1F49, [0x1F41]); (0x1F4A, [0x1F42]);
    (0x1F4B, [0x1F43]); (0x1F4C, [0x1F44]); (0x1F4D, [0x1F45]); (0x1F59, [0x1F51]); (0x1F5B,
    [0x1F53]); (0x1F5D, [0x1F55]); (0x1F5F, [0x1F57]); (0x1F68, [0x1F60]); (0x1F69, [0x1F61]);
    (0x1F6A, [0x1F62]); (0x1F6B, [0x1F63]); (0x1F6C, [0x1F64]); (0x1F6D, [0x1F65]); (0x1F6E,
    [0x1F66]); (0x1F6F, [0x1F67]); (0x1F88, [0x1F80]); (0x1F89, [0x1F81]); (0x1F8A, [0x1F82]);
    (0x1F8B, [0x1F83]); (0x1F8C, [0x1F84]); (0x1F8D, [0x1F85]); (0x1F8E, [0x1F86]); (0x1F8F,
    [0x1F87]); (0x1F98, [0x1F90]); (0x1F99, [0x1F91]); (0x1F9A, [0x1F92]); (0x1F9B, [0x1F93]);
    (0x1F9C, [0x1F94]); (0x1F9D, [0x1F95]); (0x1F9E, [0x1F96]); (0x1F9F, [0x1F97]); (0x1FA8,
    [0x1FA0]); (0x1FA9, [0x1FA1]); (0x1FAA, [0x1FA2]); (0x1FAB, [0x1FA3]); (0x1FAC, [0x1FA4]);
    (0x1FAD, [0x1FA5]); (0x1FAE, [0x1FA6]); (0x1FAF, [0x1FA7]); (0x1FB8, [0x1FB0]); (0x1FB9,
    [0x1FB1]); (0x1FBA, [0x1F70]); (0x1FBB, [0x1F71]); (0x1FBC, [0x1FB3]); (0x1FC8, [0x1F72]);
    (0x1FC9, [0x1F73]); (0x1FCA, [0x1F74]); (0x1FCB, [0x1F75]); (0x1FCC, [0x1FC3]); (0x1FD8,
    [0x1FD0]); (0x1FD9, [0x1FD1]); (0x1FDA, [0x1F76]); (0x1FDB, [0x1F77]); (0x1FE8, [0x1FE0]);
    (0x1FE9, [0x1FE1]); (0x1FEA, [0x1F7A]); (0x1FEB, [0x1F7B]); (0x1FEC, [0x1FE5]); (0x1FF8,
    [0x1F78]); (0x1FF9, [0x1F79]); (0x1FFA, [0x1F7C]); (0x1FFB, [0x1F7D]); (0x1FFC, [0x1FF3]);
    (0x2126, [0x3C9]); (0x212A, [0x6B]); (0x212B, [0xE5]); (0x2132, [0x214E]); (0x2160, [0x2170]);
    (0x2161, [0x2171]); (0x2162, [0x2172]); (0x2163, [0x2173]); (0x2164, [0x2174]); (0x2165,
    [0x2175]); (0x2166, [0x2176]); (0x2167, [0x2177]); (0x2168, [0x2178]); (0x2169, [0x2179]);
    (0x216A, [0x217A]); (0x216B, [0x217B]); (0x216C, [0x217C]); (0x216D, [0x217D]); (0x216E,
    [0x217E]); (0x216F, [0x217F]); (0x2183, [0x2184]); (0x24B6, [0x24D0]); (0x24B7, [0x24D1]);
    (0x24B8, [0x24D2]); (0x24B9, [0x24D3]); (0x24BA, [0x24D4]); (0x24BB, [0x24D5]); (0x24BC,
    [0x24D6]); (0x24BD, [0x24D7]); (0x24BE, [0x24D8]); (0x24BF, [0x24D9]); (0x24C0, [0x24DA]);
    (0x24C1, [0x24DB]); (0x24C2, [0x24DC]); (0x24C3, [0x24DD]); (0x24C4, [0x24DE]); (0x24C5,
    [0x24DF]); (0x24C6, [0x24E0]); (0x24C7, [0x24E1]); (0x24C8, [0x24E2]); (0x24C9, [0x24E3]);
    (0x24CA, [0x24E4]); (0x24CB, [0x24E5]); (0x24CC, [0x24E6]); (0x24CD, [0x24E7]); (0x24CE,
    [0x24E8]); (0x24CF, [0x24E9]); (0x2C00, [0x2C30]); (0x2C01, [0x2C31]); (0x2C02, [0x2C32]);
    (0x2C03, [0x2C33]); (0x2C04, [0x2C34]); (0x2C05, [0x2C35]); (0x2C06, [0x2C36]); (0x2C07,
    [0x2C37]); (0x2C08, [0x2C38]); (0x2C09, [0x2C39]); (0x2C0A, [0x2C3A]); (0x2C0B, [0x2C3B]);
    (0x2C0C, [0x2C3C]); (0x2C0D, [0x2C3D]); (0x2C0E, [0x2C3E]); (0x2C0F, [0x2C3F]); (0x2C10,
    [0x2C40]); (0x2C11, [0x2C41]); (0x2C12, [0x2C42]); (0x2C13, [0x2C43]); (0x2C14, [0x2C44]);
    (0x2C15, [0x2C45]); (0x2C16, [0x2C46]); (0x2C17, [0x2C47]); (0x2C18, [0x2C48]); (0x2C19,
    [0x2C49]); (0x2C1A, [0x2C4A]); (0x2C1B, [0x2C4B]); (0x2C1C, [0x2C4C]); (0x2C1D, [0x2C4D]);
    (0x2C1E, [0x2C4E]); (0x2C1F, [0x2C4F]); (0x2C20, [0x2C50]); (0x2C21, [0x2C51]); (0x2C22,
    [0x2C52]); (0x2C23, [0x2C53]); (0x2C24, [0x2C54]); (0x2C25, [0x2C55]); (0x2C26, [0x2C56]);
    (0x2C27, [0x2C57]); (0x2C28, [0x2C58]); (0x2C29, [0x2C59]); (0x2C2A, [0x2C5A]); (0x2C2B,
    [0x2C5B]); (0x2C2C, [0x2C5C]); (0x2C2D, [0x2C5D]); (0x2C2E, [0x2C5E]); (0x2C2F, [0x2C5F]);
    (0x2C60, [0x2C61]); (0x2C62, [0x26B]); (0x2C63, [0x1D7D]); (0x2C64, [0x27D]); (0x2C67,
    [0x2C68]); (0x2C69, [0x2C6A]); (0x2C6B, [0x2C6C]); (0x2C6D, [0x251]); (0x2C6E, [0x271]);
    (0x2C6F, [0x250]); (0x2C70, [0x252]); (0x2C72, [0x2C73]); (0x2C75, [0x2C76]); (0x2C7E, [0x23F]);
    (0x2C7F, [0x240]); (0x2C80, [0x2C81]); (0x2C82, [0x2C83]); (0x2C84, [0x2C85]); (0x2C86,
    [0x2C87]); (0x2C88, [0x2C89]); (0x2C8A, [0x2C8B]); (0x2C8C, [0x2C8D]); (0x2C8E, [0x2C8F]);
    (0x2C90, [0x2C91]); (0x2C92, [0x2C93]); (0x2C94, [0x2C95]); (0x2C96, [0x2C97]); (0x2C98,
    [0x2C99]); (0x2C9A, [0x2C9B]); (0x2C9C, [0x2C9D]); (0x2C9E, [0x2C9F]); (0x2CA0, [0x2CA1]);
    (0x2CA2, [0x2CA3]); (0x2CA4, [0x2CA5]); (0x2CA6, [0x2CA7]); (0x2CA8, [0x2CA9]); (0x2CAA,
    [0x2CAB]); (0x2CAC, [0x2CAD]); (0x2CAE, [0x2CAF]); (0x2CB0, [0x2CB1]); (0x2CB2, [0x2CB3]);
    (0x2CB4, [0x2CB5]); (0x2CB6, [0x2CB7]); (0x2CB8, [0x2CB9]); (0x2CBA, [0x2CBB]); (0x2CBC,
    [0x2CBD]); (0x2CBE, [0x2CBF]); (0x2CC0, [0x2CC1]); (0x2CC2, [0x2CC3]); (0x2CC4, [0x2CC5]);
    (0x2CC6, [0x2CC7]); (0x2CC8, [0x2CC9]); (0x2CCA, [0x2CCB]); (0x2CCC, [0x2CCD]); (0x2CCE,
    [0x2CCF]); (0x2CD0, [0x2CD1]); (0x2CD2, [0x2CD3]); (0x2CD4, [0x2CD5]); (0x2CD6, [0x2CD7]);
    (0x2CD8, [0x2CD9]); (0x2CDA, [0x2CDB]); (0x2CDC, [0x2CDD]); (0x2CDE, [0x2CDF]); (0x2CE0,
    [0x2CE1]); (0x2CE2, [0x2CE3]); (0x2CEB, [0x2CEC]); (0x2CED, [0x2CEE]); (0x2CF2, [0x2CF3]);
    (0xA640, [0xA641]); (0xA642, [0xA643]); (0xA644, [0xA645]); (0xA646, [0xA647]); (0xA648,
    [0xA649]); (0xA64A, [0xA64B]); (0xA64C, [0xA64D]); (0xA64E, [0xA64F]); (0xA650, [0xA651]);
    (0xA652, [0xA653]); (0xA654, [0xA655]); (0xA656, [0xA657]); (0xA658, [0xA659]); (0xA65A,
    [0xA65B]); (0xA65C, [0xA65D]); (0xA65E, [0xA65F]); (0xA660, [0xA661]); (0xA662, [0xA663]);
    (0xA664, [0xA665]); (0xA666, [0xA667]); (0xA668, [0xA669]); (0xA66A, [0xA66B]); (0xA66C,
    [0xA66D]); (0xA680, [0xA681]); (0xA682, [0xA683]); (0xA684, [0xA685]); (0xA686, [0xA687]);
    (0xA688, [0xA689]); (0xA68A, [0xA68B]); (0xA68C, [0xA68D]); (0xA68E, [0xA68F]); (0xA690,
    [0xA691]); (0xA692, [0xA693]); (0xA694, [0xA695]); (0xA696, [0xA697]); (0xA698, [0xA699]);
    (0xA69A, [0xA69B]); (0xA722, [0xA723]); (0xA724, [0xA725]); (0xA726, [0xA727]); (0xA728,
    [0xA729]); (0xA72A, [0xA72B]); (0xA72C, [0xA72D]); (0xA72E, [0xA72F]); (0xA732, [0xA733]);
    (0xA734, [0xA735]); (0xA736, [0xA737]); (0xA738, [0xA739]); (0xA73A, [0xA73B]); (0xA73C,
    [0xA73D]); (0xA73E, [0xA73F]); (0xA740, [0xA741]); (0xA742, [0xA743]); (0xA744, [0xA745]);
    (0xA746, [0xA747]); (0xA748, [0xA749]); (0xA74A, [0xA74B]); (0xA74C, [0xA74D]); (0xA74E,
    [0xA74F]); (0xA750, [0xA751]); (0xA752, [0xA753]); (0xA754, [0xA755]); (0xA756, [0xA757]);
    (0xA758, [0xA759]); (0xA75A, [0xA75B]); (0xA75C, [0xA75D]); (0xA75E, [0xA75F]); (0xA760,
    [0xA761]); (0xA762, [0xA763]); (0xA764, [0xA765]); (0xA766, [0xA767]); (0xA768, [0xA769]);
    (0xA76A, [0xA76B]); (0xA76C, [0xA76D]); (0xA76E, [0xA76F]); (0xA779, [0xA77A]); (0xA77B,
    [0xA77C]); (0xA77D, [0x1D79]); (0xA77E, [0xA77F]); (0xA780, [0xA781]); (0xA782, [0xA783]);
    (0xA784, [0xA785]); (0xA786, [0xA787]); (0xA78B, [0xA78C]); (0xA78D, [0x265]); (0xA790,
    [0xA791]); (0xA792, [0xA793]); (0xA796, [0xA797]); (0xA798, [0xA799]); (0xA79A, [0xA79B]);
    (0xA79C, [0xA79D]); (0xA79E, [0xA79F]); (0xA7A0, [0xA7A1]); (0xA7A2, [0xA7A3]); (0xA7A4,
    [0xA7A5]); (0xA7A6, [0xA7A7]); (0xA7A8, [0xA7A9]); (0xA7AA, [0x266]); (0xA7AB, [0x25C]);
    (0xA7AC, [0x261]); (0xA7AD, [0x26C]); (0xA7AE, [0x26A]); (0xA7B0, [0x29E]); (0xA7B1, [0x287]);
    (0xA7B2, [0x29D]); (0xA7B3, [0xAB53]); (0xA7B4, [0xA7B5]); (0xA7B6, [0xA7B7]); (0xA7B8,
    [0xA7B9]); (0xA7BA, [0xA7BB]); (0xA7BC, [0xA7BD]); (0xA7BE, [0xA7BF]); (0xA7C0, [0xA7C1]);
    (0xA7C2, [0xA7C3]); (0xA7C4, [0xA794]); (0xA7C5, [0x282]); (0xA7C6, [0x1D8E]); (0xA7C7,
    [0xA7C8]); (0xA7C9, [0xA7CA]); (0xA7D0, [0xA7D1]); (0xA7D6, [0xA7D7]); (0xA7D8, [0xA7D9]);
    (0xA7F5, [0xA7F6]); (0xFF21, [0xFF41]); (0xFF22, [0xFF42]); (0xFF23, [0xFF43]); (0xFF24,
    [0xFF44]); (0xFF25, [0xFF45]); (0xFF26, [0xFF46]); (0xFF27, [0xFF47]); (0xFF28, [0xFF48]);
    (0xFF29, [0xFF49]); (0xFF2A, [0xFF4A]); (0xFF2B, [0xFF4B]); (0xFF2C, [0xFF4C]); (0xFF2D,
    [0xFF4D]); (0xFF2E, [0xFF4E]); (0xFF2F, [0xFF4F]); (0xFF30, [0xFF50]); (0xFF31, [0xFF51]);
    (0xFF32, [0xFF52]); (0xFF33, [0xFF53]); (0xFF34, [0xFF54]); (0xFF35, [0xFF55]); (0xFF36,
    [0xFF56]); (0xFF37, [0xFF57]); (0xFF38, [0xFF58]); (0xFF39, [0xFF59]); (0xFF3A, [0xFF5A]);
    (0x10400, [0x10428]); (0x10401, [0x10429]); (0x10402, [0x1042A]); (0x10403, [0x1042B]);
    (0x10404, [0x1042C]); (0x10405, [0x1042D]); (0x10406, [0x1042E]); (0x10407, [0x1042F]);
    (0x10408, [0x10430]); (0x10409, [0x10431]); (0x1040A, [0x10432]); (0x1040B, [0x10433]);
    (0x1040C, [0x10434]); (0x1040D, [0x10435]); (0x1040E, [0x10436]); (0x1040F, [0x10437]);
    (0x10410, [0x10438]); (0x10411, [0x10439]); (0x10412, [0x1043A]); (0x10413, [0x1043B]);
    (0x10414, [0x1043C]); (0x10415, [0x1043D]); (0x10416, [0x1043E]); (0x10417, [0x1043F]);
    (0x10418, [0x10440]); (0x10419, [0x10441]); (0x1041A, [0x10442]); (0x1041B, [0x10443]);
    (0x1041C, [0x10444]); (0x1041D, [0x10445]); (0x1041E, [0x10446]); (0x1041F, [0x10447]);
    (0x10420, [0x10448]); (0x10421, [0x10449]); (0x10422, [0x1044A]); (0x10423, [0x1044B]);
    (0x10424, [0x1044C]); (0x10425, [0x1044D]); (0x10426, [0x1044E]); (0x10427, [0x1044F]);
    (0x104B0, [0x104D8]); (0x104B1, [0x104D9]); (0x104B2, [0x104DA]); (0x104B3, [0x104DB]);
    (0x104B4, [0x104DC]); (0x104B5, [0x104DD]); (0x104B6, [0x104DE]); (0x104B7, [0x104DF]);
    (0x104B8, [0x104E0]); (0x104B9, [0x104E1]); (0x104BA, [0x104E2]); (0x104BB, [0x104E3]);
    (0x104BC, [0x104E4]); (0x104BD, [0x104E5]); (0x104BE, [0x104E6]); (0x104BF, [0x104E7]);
    (0x104C0, [0x104E8]); (0x104C1, [0x104E9]); (0x104C2, [0x104EA]); (0x104C3, [0x104EB]);
    (0x104C4, [0x104EC]); (0x104C5, [0x104ED]); (0x104C6, [0x104EE]); (0x104C7, [0x104EF]);
    (0x104C8, [0x104F0]); (0x104C9, [0x104F1]); (0x104CA, [0x104F2]); (0x104CB, [0x104F3]);
    (0x104CC, [0x104F4]); (0x104CD, [0x104F5]); (0x104CE, [0x104F6]); (0x104CF, [0x104F7]);
    (0x104D0, [0x104F8]); (0x104D1, [0x104F9]); (0x104D2, [0x104FA]); (0x104D3, [0x104FB]);
    (0x10570, [0x10597]); (0x10571, [0x10598]); (0x10572, [0x10599]); (0x10573, [0x1059A]);
    (0x10574, [0x1059B]); (0x10575, [0x1059C]); (0x10576, [0x1059D]); (0x10577, [0x1059E]);
    (0x10578, [0x1059F]); (0x10579, [0x105A0]); (0x1057A, [0x105A1]); (0x1057C, [0x105A3]);
    (0x1057D, [0x105A4]); (0x1057E, [0x105A5]); (0x1057F, [0x105A6]); (0x10580, [0x105A7]);
    (0x10581, [0x105A8]); (0x10582, [0x105A9]); (0x10583, [0x105AA]); (0x10584, [0x105AB]);
    (0x10585, [0x105AC]); (0x10586, [0x105AD]); (0x10587, [0x105AE]); (0x10588, [0x105AF]);
    (0x10589, [0x105B0]); (0x1058A, [0x105B1]); (0x1058C, [0x105B3]); (0x1058D, [0x105B4]);
    (0x1058E, [0x105B5]); (0x1058F, [0x105B6]); (0x10590, [0x105B7]); (0x10591, [0x105B8]);
    (0x10592, [0x105B9]); (0x10594, [0x105BB]); (0x10595, [0x105BC]); (0x10C80, [0x10CC0]);
    (0x10C81, [0x10CC1]); (0x10C82, [0x10CC2]); (0x10C83, [0x10CC3]); (0x10C84, [0x10CC4]);
    (0x10C85, [0x10CC5]); (0x10C86, [0x10CC6]); (0x10C87, [0x10CC7]); (0x10C88, [0x10CC8]);
    (0x10C89, [0x10CC9]); (0x10C8A, [0x10CCA]); (0x10C8B, [0x10CCB]); (0x10C8C, [0x10CCC]);
    (0x10C8D, [0x10CCD]); (0x10C8E, [0x10CCE]); (0x10C8F, [0x10CCF]); (0x10C90, [0x10CD0]);
    (0x10C91, [0x10CD1]); (0x10C92, [0x10CD2]); (0x10C93, [0x10CD3]); (0x10C94, [0x10CD4]);
    (0x10C95, [0x10CD5]); (0x10C96, [0x10CD6]); (0x10C97, [0x10CD7]); (0x10C98, [0x10CD8]);
    (0x10C99, [0x10CD9]); (0x10C9A, [0x10CDA]); (0x10C9B, [0x10CDB]); (0x10C9C, [0x10CDC]);
    (0x10C9D, [0x10CDD]); (0x10C9E, [0x10CDE]); (0x10C9F, [0x10CDF]); (0x10CA0, [0x10CE0]);
    (0x10CA1, [0x10CE1]); (0x10CA2, [0x10CE2]); (0x10CA3, [0x10CE3]); (0x10CA4, [0x10CE4]);
    (0x10CA5, [0x10CE5]); (0x10CA6, [0x10CE6]); (0x10CA7, [0x10CE7]); (0x10CA8, [0x10CE8]);
    (0x10CA9, [0x10CE9]); (0x10CAA, [0x10CEA]); (0x10CAB, [0x10CEB]); (0x10CAC, [0x10CEC]);
    (0x10CAD, [0x10CED]); (0x10CAE, [0x10CEE]); (0x10CAF, [0x10CEF]); (0x10CB0, [0x10CF0]);
    (0x10CB1, [0x10CF1]); (0x10CB2, [0x10CF2]); (0x118A0, [0x118C0]); (0x118A1, [0x118C1]);
    (0x118A2, [0x118C2]); (0x118A3, [0x118C3]); (0x118A4, [0x118C4]); (0x118A5, [0x118C5]);
    (0x118A6, [0x118C6]); (0x118A7, [0x118C7]); (0x118A8, [0x118C8]); (0x118A9, [0x118C9]);
    (0x118AA, [0x118CA]); (0x118AB, [0x118CB]); (0x118AC, [0x118CC]); (0x118AD, [0x118CD]);
    (0x118AE, [0x118CE]); (0x118AF, [0x118CF]); (0x118B0, [0x118D0]); (0x118B1, [0x118D1]);
    (0x118B2, [0x118D2]); (0x118B3, [0x118D3]); (0x118B4, [0x118D4]); (0x118B5, [0x118D5]);
    (0x118B6, [0x118D6]); (0x118B7, [0x118D7]); (0x118B8, [0x118D8]); (0x118B9, [0x118D9]);
    (0x118BA, [0x118DA]); (0x118BB, [0x118DB]); (0x118BC, [0x118DC]); (0x118BD, [0x118DD]);
    (0x118BE, [0x118DE]); (0x118BF, [0x118DF]); (0x16E40, [0x16E60]); (0x16E41, [0x16E61]);
    (0x16E42, [0x16E62]); (0x16E43, [0x16E63]); (0x16E44, [0x16E64]); (0x16E45, [0x16E65]);
    (0x16E46, [0x16E66]); (0x16E47, [0x16E67]); (0x16E48, [0x16E68]); (0x16E49, [0x16E69]);
    (0x16E4A, [0x16E6A]); (0x16E4B, [0x16E6B]); (0x16E4C, [0x16E6C]); (0x16E4D, [0x16E6D]);
    (0x16E4E, [0x16E6E]); (0x16E4F, [0x16E6F]); (0x16E50, [0x16E70]); (0x16E51, [0x16E71]);
    (0x16E52, [0x16E72]); (0x16E53, [0x16E73]); (0x16E54, [0x16E74]); (0x16E55, [0x16E75]);
    (0x16E56, [0x16E76]); (0x16E57, [0x16E77]); (0x16E58, [0x16E78]); (0x16E59, [0x16E79]);
    (0x16E5A, [0x16E7A]); (0x16E5B, [0x16E7B]); (0x16E5C, [0x16E7C]); (0x16E5D, [0x16E7D]);
    (0x16E5E, [0x16E7E]); (0x16E5F, [0x16E7F]); (0x1E900, [0x1E922]); (0x1E901, [0x1E923]);
    (0x1E902, [0x1E924]); (0x1E903, [0x1E925]); (0x1E904, [0x1E926]); (0x1E905, [0x1E927]);
    (0x1E906, [0x1E928]); (0x1E907, [0x1E929]); (0x1E908, [0x1E92A]); (0x1E909, [0x1E92B]);
    (0x1E90A, [0x1E92C]); (0x1E90B, [0x1E92D]); (0x1E90C, [0x1E92E]); (0x1E90D, [0x1E92F]);
    (0x1E90E, [0x1E930]); (0x1E90F, [0x1E931]); (0x1E910, [0x1E932]); (0x1E911, [0x1E933]);
    (0x1E912, [0x1E934]); (0x1E913, [0x1E935]); (0x1E914, [0x1E936]); (0x1E915, [0x1E937]);
    (0x1E916, [0x1E938]); (0x1E917, [0x1E939]); (0x1E918, [0x1E93A]); (0x1E919, [0x1E93B]);
    (0x1E91A, [0x1E93C]); (0x1E91B, [0x1E93D]); (0x1E91C, [0x1E93E]); (0x1E91D, [0x1E93F]);
    (0x1E91E, [0x1E940]); (0x1E91F, [0x1E941]); (0x1E920, [0x1E942]); (0x1E921, [0x1E943]) ].

(** The ranges of the code points with the derived property Cased
    (DerivedCoreProperties.txt). *)
Definition cased_table : list (Z * Z) :=
  [ (0x41, 0x5A); (0x61, 0x7A); (0xAA, 0xAA); (0xB5, 0xB5); (0xBA, 0xBA); (0xC0, 0xD6); (0xD8,
    0xF6); (0xF8, 0x1BA); (0x1BC, 0x1BF); (0x1C4, 0x293); (0x295, 0x2B8); (0x2C0, 0x2C1); (0x2E0,
    0x2E4); (0x345, 0x345); (0x370, 0x373); (0x376, 0x377); (0x37A, 0x37D); (0x37F, 0x37F); (0x386,
    0x386); (0x388, 0x38A); (0x38C, 0x38C); (0x38E, 0x3A1); (0x3A3, 0x3F5); (0x3F7, 0x481); (0x48A,
    0x52F); (0x531, 0x556); (0x560, 0x588); (0x10A0, 0x10C5); (0x10C7, 0x10C7); (0x10CD, 0x10CD);
    (0x10D0, 0x10FA); (0x10FD, 0x10FF); (0x13A0, 0x13F5); (0x13F8, 0x13FD); (0x1C80, 0x1C88);
    (0x1C90, 0x1CBA); (0x1CBD, 0x1CBF); (0x1D00, 0x1DBF); (0x1E00, 0x1F15); (0x1F18, 0x1F1D);
    (0x1F20, 0x1F45); (0x1F48, 0x1F4D); (0x1F50, 0x1F57); (0x1F59, 0x1F59); (0x1F5B, 0x1F5B);
    (0x1F5D, 0x1F5D); (0x1F5F, 0x1F7D); (0x1F80, 0x1FB4); (0x1FB6, 0x1FBC); (0x1FBE, 0x1FBE);
    (0x1FC2, 0x1FC4); (0x1FC6, 0x1FCC); (0x1FD0, 0x1FD3); (0x1FD6, 0x1FDB); (0x1FE0, 0x1FEC);
    (0x1FF2, 0x1FF4); (0x1FF6, 0x1FFC); (0x2071, 0x2071); (0x207F, 0x207F); (0x2090, 0x209C);
    (0x2102, 0x2102); (0x2107, 0x2107); (0x210A, 0x2113); (0x2115, 0x2115); (0x2119, 0x211D);
    (0x2124, 0x2124); (0x2126, 0x2126); (0x2128, 0x2128); (0x212A, 0x212D); (0x212F, 0x2134);
    (0x2139, 0x2139); (0x213C, 0x213F); (0x2145, 0x2149); (0x214E, 0x214E); (0x2160, 0x217F);
    (0x2183, 0x2184); (0x24B6, 0x24E9); (0x2C00, 0x2CE4); (0x2CEB, 0x2CEE); (0x2CF2, 0x2CF3);
    (0x2D00, 0x2D25); (0x2D27, 0x2D27); (0x2D2D, 0x2D2D); (0xA640, 0xA66D); (0xA680, 0xA69D);
    (0xA722, 0xA787); (0xA78B, 0xA78E); (0xA790, 0xA7CA); (0xA7D0, 0xA7D1); (0xA7D3, 0xA7D3);
    (0xA7D5, 0xA7D9); (0xA7F5, 0xA7F6); (0xA7F8, 0xA7FA); (0xAB30, 0xAB5A); (0xAB5C, 0xAB68);
    (0xAB70, 0xABBF); (0xFB00, 0xFB06); (0xFB13, 0xFB17); (0xFF21, 0xFF3A); (0xFF41, 0xFF5A);
    (0x10400, 0x1044F); (0x104B0, 0x104D3); (0x104D8, 0x104FB); (0x10570, 0x1057A); (0x1057C,
    0x1058A); (0x1058C, 0x10592); (0x10594, 0x10595); (0x10597, 0x105A1); (0x105A3, 0x105B1);
    (0x105B3, 0x105B9); (0x105BB, 0x105BC); (0x10780, 0x10780); (0x10783, 0x10785); (0x10787,
    0x107B0); (0x107B2, 0x107BA); (0x10C80, 0x10CB2); (0x10CC0, 0x10CF2); (0x118A0, 0x118DF);
    (0x16E40, 0x16E7F); (0x1D400, 0x1D454); (0x1D456, 0x1D49C); (0x1D49E, 0x1D49F); (0x1D4A2,
    0x1D4A2); (0x1D4A5, 0x1D4A6); (0x1D4A9, 0x1D4AC); (0x1D4AE, 0x1D4B9); (0x1D4BB, 0x1D4BB);
    (0x1D4BD, 0x1D4C3); (0x1D4C5, 0x1D505); (0x1D507, 0x1D50A); (0x1D50D, 0x1D514); (0x1D516,
    0x1D51C); (0x1D51E, 0x1D539); (0x1D53B, 0x1D53E); (0x1D540, 0x1D544); (0x1D546, 0x1D546);
    (0x1D54A, 0x1D550); (0x1D552, 0x1D6A5); (0x1D6A8, 0x1D6C0); (0x1D6C2, 0x1D6DA); (0x1D6DC,
    0x1D6FA); (0x1D6FC, 0x1D714); (0x1D716, 0x1D734); (0x1D736, 0x1D74E); (0x1D750, 0x1D76E);
    (0x1D770, 0x1D788); (0x1D78A, 0x1D7A8); (0x1D7AA, 0x1D7C2); (0x1D7C4, 0x1D7CB); (0x1DF00,
    0x1DF09); (0x1DF0B, 0x1DF1E); (0x1E900, 0x1E943); (0x1F130, 0x1F149); (0x1F150, 0x1F169);
    (0x1F170, 0x1F189) ].

(** The ranges of the code points with the derived property Case_Ignorable
    (DerivedCoreProperties.txt). *)
Definition case_ignorable_table : list (Z * Z) :=
  [ (0x27, 0x27); (0x2E, 0x2E); (0x3A, 0x3A); (0x5E, 0x5E); (0x60, 0x60); (0xA8, 0xA8); (0xAD,
    0xAD); (0xAF, 0xAF); (0xB4, 0xB4); (0xB7, 0xB8); (0x2B0, 0x36F); (0x374, 0x375); (0x37A, 0x37A);
    (0x384, 0x385); (0x387, 0x387); (0x483, 0x489); (0x559, 0x559); (0x55F, 0x55F); (0x591, 0x5BD);
    (0x5BF, 0x5BF); (0x5C1, 0x5C2); (0x5C4, 0x5C5); (0x5C7, 0x5C7); (0x5F4, 0x5F4); (0x600, 0x605);
    (0x610, 0x61A); (0x61C, 0x61C); (0x640, 0x640); (0x64B, 0x65F); (0x670, 0x670); (0x6D6, 0x6DD);
    (0x6DF, 0x6E8); (0x6EA, 0x6ED); (0x70F, 0x70F); (0x711, 0x711); (0x730, 0x74A); (0x7A6, 0x7B0);
    (0x7EB, 0x7F5); (0x7FA, 0x7FA); (0x7FD, 0x7FD); (0x816, 0x82D); (0x859, 0x85B); (0x888, 0x888);
    (0x890, 0x891); (0x898, 0x89F); (0x8C9, 0x902); (0x93A, 0x93A); (0x93C, 0x93C); (0x941, 0x948);
    (0x94D, 0x94D); (0x951, 0x957); (0x962, 0x963); (0x971, 0x971); (0x981, 0x981); (0x9BC, 0x9BC);
    (0x9C1, 0x9C4); (0x9CD, 0x9CD); (0x9E2, 0x9E3); (0x9FE, 0x9FE); (0xA01, 0xA02); (0xA3C, 0xA3C);
    (0xA41, 0xA42); (0xA47, 0xA48); (0xA4B, 0xA4D); (0xA51, 0xA51); (0xA70, 0xA71); (0xA75, 0xA75);
    (0xA81, 0xA82); (0xABC, 0xABC); (0xAC1, 0xAC5); (0xAC7, 0xAC8); (0xACD, 0xACD); (0xAE2, 0xAE3);
    (0xAFA, 0xAFF); (0xB01, 0xB01); (0xB3C, 0xB3C); (0xB3F, 0xB3F); (0xB41, 0xB44); (0xB4D, 0xB4D);
    (0xB55, 0xB56); (0xB62, 0xB63); (0xB82, 0xB82); (0xBC0, 0xBC0); (0xBCD, 0xBCD); (0xC00, 0xC00);
    (0xC04, 0xC04); (0xC3C, 0xC3C); (0xC3E, 0xC40); (0xC46, 0xC48); (0xC4A, 0xC4D); (0xC55, 0xC56);
    (0xC62, 0xC63); (0xC81, 0xC81); (0xCBC, 0xCBC); (0xCBF, 0xCBF); (0xCC6, 0xCC6); (0xCCC, 0xCCD);
    (0xCE2, 0xCE3); (0xD00, 0xD01); (0xD3B, 0xD3C); (0xD41, 0xD44); (0xD4D, 0xD4D); (0xD62, 0xD63);
    (0xD81, 0xD81); (0xDCA, 0xDCA); (0xDD2, 0xDD4); (0xDD6, 0xDD6); (0xE31, 0xE31); (0xE34, 0xE3A);
    (0xE46, 0xE4E); (0xEB1, 0xEB1); (0xEB4, 0xEBC); (0xEC6, 0xEC6); (0xEC8, 0xECD); (0xF18, 0xF19);
    (0xF35, 0xF35); (0xF37, 0xF37); (0xF39, 0xF39); (0xF71, 0xF7E); (0xF80, 0xF84); (0xF86, 0xF87);
    (0xF8D, 0xF97); (0xF99, 0xFBC); (0xFC6, 0xFC6); (0x102D, 0x1030); (0x1032, 0x1037); (0x1039,
    0x103A); (0x103D, 0x103E); (0x1058, 0x1059); (0x105E, 0x1060); (0x1071, 0x1074); (0x1082,
    0x1082); (0x1085, 0x1086); (0x108D, 0x108D); (0x109D, 0x109D); (0x10FC, 0x10FC); (0x135D,
    0x135F); (0x1712, 0x1714); (0x1732, 0x1733); (0x1752, 0x1753); (0x1772, 0x1773); (0x17B4,
    0x17B5); (0x17B7, 0x17BD); (0x17C6, 0x17C6); (0x17C9, 0x17D3); (0x17D7, 0x17D7); (0x17DD,
    0x17DD); (0x180B, 0x180F); (0x1843, 0x1843); (0x1885, 0x1886); (0x18A9, 0x18A9); (0x1920,
    0x1922); (0x1927, 0x1928); (0x1932, 0x1932); (0x1939, 0x193B); (0x1A17, 0x1A18); (0x1A1B,
    0x1A1B); (0x1A56, 0x1A56); (0x1A58, 0x1A5E); (0x1A60, 0x1A60); (0x1A62, 0x1A62); (0x1A65,
    0x1A6C); (0x1A73, 0x1A7C); (0x1A7F, 0x1A7F); (0x1AA7, 0x1AA7); (0x1AB0, 0x1ACE); (0x1B00,
    0x1B03); (0x1B34, 0x1B34); (0x1B36, 0x1B3A); (0x1B3C, 0x1B3C); (0x1B42, 0x1B42); (0x1B6B,
    0x1B73); (0x1B80, 0x1B81); (0x1BA2, 0x1BA5); (0x1BA8, 0x1BA9); (0x1BAB, 0x1BAD); (0x1BE6,
    0x1BE6); (0x1BE8, 0x1BE9); (0x1BED, 0x1BED); (0x1BEF, 0x1BF1); (0x1C2C, 0x1C33); (0x1C36,
    0x1C37); (0x1C78, 0x1C7D); (0x1CD0, 0x1CD2); (0x1CD4, 0x1CE0); (0x1CE2, 0x1CE8); (0x1CED,
    0x1CED); (0x1CF4, 0x1CF4); (0x1CF8, 0x1CF9); (0x1D2C, 0x1D6A); (0x1D78, 0x1D78); (0x1D9B,
    0x1DFF); (0x1FBD, 0x1FBD); (0x1FBF, 0x1FC1); (0x1FCD, 0x1FCF); (0x1FDD, 0x1FDF); (0x1FED,
    0x1FEF); (0x1FFD, 0x1FFE); (0x200B, 0x200F); (0x2018, 0x2019); (0x2024, 0x2024); (0x2027,
    0x2027); (0x202A, 0x202E); (0x2060, 0x2064); (0x2066, 0x206F); (0x2071, 0x2071); (0x207F,
    0x207F); (0x2090, 0x209C); (0x20D0, 0x20F0); (0x2C7C, 0x2C7D); (0x2CEF, 0x2CF1); (0x2D6F,
    0x2D6F); (0x2D7F, 0x2D7F); (0x2DE0, 0x2DFF); (0x2E2F, 0x2E2F); (0x3005, 0x3005); (0x302A,
    0x302D); (0x3031, 0x3035); (0x303B, 0x303B); (0x3099, 0x309E); (0x30FC, 0x30FE); (0xA015,
    0xA015); (0xA4F8, 0xA4FD); (0xA60C, 0xA60C); (0xA66F, 0xA672); (0xA674, 0xA67D); (0xA67F,
    0xA67F); (0xA69C, 0xA69F); (0xA6F0, 0xA6F1); (0xA700, 0xA721); (0xA770, 0xA770); (0xA788,
    0xA78A); (0xA7F2, 0xA7F4); (0xA7F8, 0xA7F9); (0xA802, 0xA802); (0xA806, 0xA806); (0xA80B,
    0xA80B); (0xA825, 0xA826); (0xA82C, 0xA82C); (0xA8C4, 0xA8C5); (0xA8E0, 0xA8F1); (0xA8FF,
    0xA8FF); (0xA926, 0xA92D); (0xA947, 0xA951); (0xA980, 0xA982); (0xA9B3, 0xA9B3); (0xA9B6,
    0xA9B9); (0xA9BC, 0xA9BD); (0xA9CF, 0xA9CF); (0xA9E5, 0xA9E6); (0xAA29, 0xAA2E); (0xAA31,
    0xAA32); (0xAA35, 0xAA36); (0xAA43, 0xAA43); (0xAA4C, 0xAA4C); (0xAA70, 0xAA70); (0xAA7C,
    0xAA7C); (0xAAB0, 0xAAB0); (0xAAB2, 0xAAB4); (0xAAB7, 0xAAB8); (0xAABE, 0xAABF); (0xAAC1,
    0xAAC1); (0xAADD, 0xAADD); (0xAAEC, 0xAAED); (0xAAF3, 0xAAF4); (0xAAF6, 0xAAF6); (0xAB5B,
    0xAB5F); (0xAB69, 0xAB6B); (0xABE5, 0xABE5); (0xABE8, 0xABE8); (0xABED, 0xABED); (0xFB1E,
    0xFB1E); (0xFBB2, 0xFBC2); (0xFE00, 0xFE0F); (0xFE13, 0xFE13); (0xFE20, 0xFE2F); (0xFE52,
    0xFE52); (0xFE55, 0xFE55); (0xFEFF, 0xFEFF); (0xFF07, 0xFF07); (0xFF0E, 0xFF0E); (0xFF1A,
    0xFF1A); (0xFF3E, 0xFF3E); (0xFF40, 0xFF40); (0xFF70, 0xFF70); (0xFF9E, 0xFF9F); (0xFFE3,
    0xFFE3); (0xFFF9, 0xFFFB); (0x101FD, 0x101FD); (0x102E0, 0x102E0); (0x10376, 0x1037A); (0x10780,
    0x10785); (0x10787, 0x107B0); (0x107B2, 0x107BA); (0x10A01, 0x10A03); (0x10A05, 0x10A06);
    (0x10A0C, 0x10A0F); (0x10A38, 0x10A3A); (0x10A3F, 0x10A3F); (0x10AE5, 0x10AE6); (0x10D24,
    0x10D27); (0x10EAB, 0x10EAC); (0x10F46, 0x10F50); (0x10F82, 0x10F85); (0x11001, 0x11001);
    (0x11038, 0x11046); (0x11070, 0x11070); (0x11073, 0x11074); (0x1107F, 0x11081); (0x110B3,
    0x110B6); (0x110B9, 0x110BA); (0x110BD, 0x110BD); (0x110C2, 0x110C2); (0x110CD, 0x110CD);
    (0x11100, 0x11102); (0x11127, 0x1112B); (0x1112D, 0x11134); (0x11173, 0x11173); (0x11180,
    0x11181); (0x111B6, 0x111BE); (0x111C9, 0x111CC); (0x111CF, 0x111CF); (0x1122F, 0x11231);
    (0x11234, 0x11234); (0x11236, 0x11237); (0x1123E, 0x1123E); (0x112DF, 0x112DF); (0x112E3,
    0x112EA); (0x11300, 0x11301); (0x1133B, 0x1133C); (0x11340, 0x11340); (0x11366, 0x1136C);
    (0x11370, 0x11374); (0x11438, 0x1143F); (0x11442, 0x11444); (0x11446, 0x11446); (0x1145E,
    0x1145E); (0x114B3, 0x114B8); (0x114BA, 0x114BA); (0x114BF, 0x114C0); (0x114C2, 0x114C3);
    (0x115B2, 0x115B5); (0x115BC, 0x115BD); (0x115BF, 0x115C0); (0x115DC, 0x115DD); (0x11633,
    0x1163A); (0x1163D, 0x1163D); (0x1163F, 0x11640); (0x116AB, 0x116AB); (0x116AD, 0x116AD);
    (0x116B0, 0x116B5); (0x116B7, 0x116B7); (0x1171D, 0x1171F); (0x11722, 0x11725); (0x11727,
    0x1172B); (0x1182F, 0x11837); (0x11839, 0x1183A); (0x1193B, 0x1193C); (0x1193E, 0x1193E);
    (0x11943, 0x11943); (0x119D4, 0x119D7); (0x119DA, 0x119DB); (0x119E0, 0x119E0); (0x11A01,
    0x11A0A); (0x11A33, 0x11A38); (0x11A3B, 0x11A3E); (0x11A47, 0x11A47); (0x11A51, 0x11A56);
    (0x11A59, 0x11A5B); (0x11A8A, 0x11A96); (0x11A98, 0x11A99); (0x11C30, 0x11C36); (0x11C38,
    0x11C3D); (0x11C3F, 0x11C3F); (0x11C92, 0x11CA7); (0x11CAA, 0x11CB0); (0x11CB2, 0x11CB3);
    (0x11CB5, 0x11CB6); (0x11D31, 0x11D36); (0x11D3A, 0x11D3A); (0x11D3C, 0x11D3D); (0x11D3F,
    0x11D45); (0x11D47, 0x11D47); (0x11D90, 0x11D91); (0x11D95, 0x11D95); (0x11D97, 0x11D97);
    (0x11EF3, 0x11EF4); (0x13430, 0x13438); (0x16AF0, 0x16AF4); (0x16B30, 0x16B36); (0x16B40,
    0x16B43); (0x16F4F, 0x16F4F); (0x16F8F, 0x16F9F); (0x16FE0, 0x16FE1); (0x16FE3, 0x16FE4);
    (0x1AFF0, 0x1AFF3); (0x1AFF5, 0x1AFFB); (0x1AFFD, 0x1AFFE); (0x1BC9D, 0x1BC9E); (0x1BCA0,
    0x1BCA3); (0x1CF00, 0x1CF2D); (0x1CF30, 0x1CF46); (0x1D167, 0x1D169); (0x1D173, 0x1D182);
    (0x1D185, 0x1D18B); (0x1D1AA, 0x1D1AD); (0x1D242, 0x1D244); (0x1DA00, 0x1DA36); (0x1DA3B,
    0x1DA6C); (0x1DA75, 0x1DA75); (0x1DA84, 0x1DA84); (0x1DA9B, 0x1DA9F); (0x1DAA1, 0x1DAAF);
    (0x1E000, 0x1E006); (0x1E008, 0x1E018); (0x1E01B, 0x1E021); (0x1E023, 0x1E024); (0x1E026,
    0x1E02A); (0x1E130, 0x1E13D); (0x1E2AE, 0x1E2AE); (0x1E2EC, 0x1E2EF); (0x1E8D0, 0x1E8D6);
    (0x1E944, 0x1E94B); (0x1F3FB, 0x1F3FF); (0xE0001, 0xE0001); (0xE0020, 0xE007F); (0xE0100,
    0xE01EF) ].

(** The ranges of the code points of the general category L, the letters. *)
Definition letter_table : list (Z * Z) :=
  [ (0x41, 0x5A); (0x61, 0x7A); (0xAA, 0xAA); (0xB5, 0xB5); (0xBA, 0xBA); (0xC0, 0xD6); (0xD8,
    0xF6); (0xF8, 0x2C1); (0x2C6, 0x2D1); (0x2E0, 0x2E4); (0x2EC, 0x2EC); (0x2EE, 0x2EE); (0x370,
    0x374); (0x376, 0x377); (0x37A, 0x37D); (0x37F, 0x37F); (0x386, 0x386); (0x388, 0x38A); (0x38C,
    0x38C); (0x38E, 0x3A1); (0x3A3, 0x3F5); (0x3F7, 0x481); (0x48A, 0x52F); (0x531, 0x556); (0x559,
    0x559); (0x560, 0x588); (0x5D0, 0x5EA); (0x5EF, 0x5F2); (0x620, 0x64A); (0x66E, 0x66F); (0x671,
    0x6D3); (0x6D5, 0x6D5); (0x6E5, 0x6E6); (0x6EE, 0x6EF); (0x6FA, 0x6FC); (0x6FF, 0x6FF); (0x710,
    0x710); (0x712, 0x72F); (0x74D, 0x7A5); (0x7B1, 0x7B1); (0x7CA, 0x7EA); (0x7F4, 0x7F5); (0x7FA,
    0x7FA); (0x800, 0x815); (0x81A, 0x81A); (0x824, 0x824); (0x828, 0x828); (0x840, 0x858); (0x860,
    0x86A); (0x870, 0x887); (0x889, 0x88E); (0x8A0, 0x8C9); (0x904, 0x939); (0x93D, 0x93D); (0x950,
    0x950); (0x958, 0x961); (0x971, 0x980); (0x985, 0x98C); (0x98F, 0x990); (0x993, 0x9A8); (0x9AA,
    0x9B0); (0x9B2, 0x9B2); (0x9B6, 0x9B9); (0x9BD, 0x9BD); (0x9CE, 0x9CE); (0x9DC, 0x9DD); (0x9DF,
    0x9E1); (0x9F0, 0x9F1); (0x9FC, 0x9FC); (0xA05, 0xA0A); (0xA0F, 0xA10); (0xA13, 0xA28); (0xA2A,
    0xA30); (0xA32, 0xA33); (0xA35, 0xA36); (0xA38, 0xA39); (0xA59, 0xA5C); (0xA5E, 0xA5E); (0xA72,
    0xA74); (0xA85, 0xA8D); (0xA8F, 0xA91); (0xA93, 0xAA8); (0xAAA, 0xAB0); (0xAB2, 0xAB3); (0xAB5,
    0xAB9); (0xABD, 0xABD); (0xAD0, 0xAD0); (0xAE0, 0xAE1); (0xAF9, 0xAF9); (0xB05, 0xB0C); (0xB0F,
    0xB10); (0xB13, 0xB28); (0xB2A, 0xB30); (0xB32, 0xB33); (0xB35, 0xB39); (0xB3D, 0xB3D); (0xB5C,
    0xB5D); (0xB5F, 0xB61); (0xB71, 0xB71); (0xB83, 0xB83); (0xB85, 0xB8A); (0xB8E, 0xB90); (0xB92,
    0xB95); (0xB99, 0xB9A); (0xB9C, 0xB9C); (0xB9E, 0xB9F); (0xBA3, 0xBA4); (0xBA8, 0xBAA); (0xBAE,
    0xBB9); (0xBD0, 0xBD0); (0xC05, 0xC0C); (0xC0E, 0xC10); (0xC12, 0xC28); (0xC2A, 0xC39); (0xC3D,
    0xC3D); (0xC58, 0xC5A); (0xC5D, 0xC5D); (0xC60, 0xC61); (0xC80, 0xC80); (0xC85, 0xC8C); (0xC8E,
    0xC90); (0xC92, 0xCA8); (0xCAA, 0xCB3); (0xCB5, 0xCB9); (0xCBD, 0xCBD); (0xCDD, 0xCDE); (0xCE0,
    0xCE1); (0xCF1, 0xCF2); (0xD04, 0xD0C); (0xD0E, 0xD10); (0xD12, 0xD3A); (0xD3D, 0xD3D); (0xD4E,
    0xD4E); (0xD54, 0xD56); (0xD5F, 0xD61); (0xD7A, 0xD7F); (0xD85, 0xD96); (0xD9A, 0xDB1); (0xDB3,
    0xDBB); (0xDBD, 0xDBD); (0xDC0, 0xDC6); (0xE01, 0xE30); (0xE32, 0xE33); (0xE40, 0xE46); (0xE81,
    0xE82); (0xE84, 0xE84); (0xE86, 0xE8A); (0xE8C, 0xEA3); (0xEA5, 0xEA5); (0xEA7, 0xEB0); (0xEB2,
    0xEB3); (0xEBD, 0xEBD); (0xEC0, 0xEC4); (0xEC6, 0xEC6); (0xEDC, 0xEDF); (0xF00, 0xF00); (0xF40,
    0xF47); (0xF49, 0xF6C); (0xF88, 0xF8C); (0x1000, 0x102A); (0x103F, 0x103F); (0x1050, 0x1055);
    (0x105A, 0x105D); (0x1061, 0x1061); (0x1065, 0x1066); (0x106E, 0x1070); (0x1075, 0x1081);
    (0x108E, 0x108E); (0x10A0, 0x10C5); (0x10C7, 0x10C7); (0x10CD, 0x10CD); (0x10D0, 0x10FA);
    (0x10FC, 0x1248); (0x124A, 0x124D); (0x1250, 0x1256); (0x1258, 0x1258); (0x125A, 0x125D);
    (0x1260, 0x1288); (0x128A, 0x128D); (0x1290, 0x12B0); (0x12B2, 0x12B5); (0x12B8, 0x12BE);
    (0x12C0, 0x12C0); (0x12C2, 0x12C5); (0x12C8, 0x12D6); (0x12D8, 0x1310); (0x1312, 0x1315);
    (0x1318, 0x135A); (0x1380, 0x138F); (0x13A0, 0x13F5); (0x13F8, 0x13FD); (0x1401, 0x166C);
    (0x166F, 0x167F); (0x1681, 0x169A); (0x16A0, 0x16EA); (0x16F1, 0x16F8); (0x1700, 0x1711);
    (0x171F, 0x1731); (0x1740, 0x1751); (0x1760, 0x176C); (0x176E, 0x1770); (0x1780, 0x17B3);
    (0x17D7, 0x17D7); (0x17DC, 0x17DC); (0x1820, 0x1878); (0x1880, 0x1884); (0x1887, 0x18A8);
    (0x18AA, 0x18AA); (0x18B0, 0x18F5); (0x1900, 0x191E); (0x1950, 0x196D); (0x1970, 0x1974);
    (0x1980, 0x19AB); (0x19B0, 0x19C9); (0x1A00, 0x1A16); (0x1A20, 0x1A54); (0x1AA7, 0x1AA7);
    (0x1B05, 0x1B33); (0x1B45, 0x1B4C); (0x1B83, 0x1BA0); (0x1BAE, 0x1BAF); (0x1BBA, 0x1BE5);
    (0x1C00, 0x1C23); (0x1C4D, 0x1C4F); (0x1C5A, 0x1C7D); (0x1C80, 0x1C88); (0x1C90, 0x1CBA);
    (0x1CBD, 0x1CBF); (0x1CE9, 0x1CEC); (0x1CEE, 0x1CF3); (0x1CF5, 0x1CF6); (0x1CFA, 0x1CFA);
    (0x1D00, 0x1DBF); (0x1E00, 0x1F15); (0x1F18, 0x1F1D); (0x1F20, 0x1F45); (0x1F48, 0x1F4D);
    (0x1F50, 0x1F57); (0x1F59, 0x1F59); (0x1F5B, 0x1F5B); (0x1F5D, 0x1F5D); (0x1F5F, 0x1F7D);
    (0x1F80, 0x1FB4); (0x1FB6, 0x1FBC); (0x1FBE, 0x1FBE); (0x1FC2, 0x1FC4); (0x1FC6, 0x1FCC);
    (0x1FD0, 0x1FD3); (0x1FD6, 0x1FDB); (0x1FE0, 0x1FEC); (0x1FF2, 0x1FF4); (0x1FF6, 0x1FFC);
    (0x2071, 0x2071); (0x207F, 0x207F); (0x2090, 0x209C); (0x2102, 0x2102); (0x2107, 0x2107);
    (0x210A, 0x2113); (0x2115, 0x2115); (0x2119, 0x211D); (0x2124, 0x2124); (0x2126, 0x2126);
    (0x2128, 0x2128); (0x212A, 0x212D); (0x212F, 0x2139); (0x213C, 0x213F); (0x2145, 0x2149);
    (0x214E, 0x214E); (0x2183, 0x2184); (0x2C00, 0x2CE4); (0x2CEB, 0x2CEE); (0x2CF2, 0x2CF3);
    (0x2D00, 0x2D25); (0x2D27, 0x2D27); (0x2D2D, 0x2D2D); (0x2D30, 0x2D67); (0x2D6F, 0x2D6F);
    (0x2D80, 0x2D96); (0x2DA0, 0x2DA6); (0x2DA8, 0x2DAE); (0x2DB0, 0x2DB6); (0x2DB8, 0x2DBE);
    (0x2DC0, 0x2DC6); (0x2DC8, 0x2DCE); (0x2DD0, 0x2DD6); (0x2DD8, 0x2DDE); (0x2E2F, 0x2E2F);
    (0x3005, 0x3006); (0x3031, 0x3035); (0x303B, 0x303C); (0x3041, 0x3096); (0x309D, 0x309F);
    (0x30A1, 0x30FA); (0x30FC, 0x30FF); (0x3105, 0x312F); (0x3131, 0x318E); (0x31A0, 0x31BF);
    (0x31F0, 0x31FF); (0x3400, 0x4DBF); (0x4E00, 0xA48C); (0xA4D0, 0xA4FD); (0xA500, 0xA60C);
    (0xA610, 0xA61F); (0xA62A, 0xA62B); (0xA640, 0xA66E); (0xA67F, 0xA69D); (0xA6A0, 0xA6E5);
    (0xA717, 0xA71F); (0xA722, 0xA788); (0xA78B, 0xA7CA); (0xA7D0, 0xA7D1); (0xA7D3, 0xA7D3);
    (0xA7D5, 0xA7D9); (0xA7F2, 0xA801); (0xA803, 0xA805); (0xA807, 0xA80A); (0xA80C, 0xA822);
    (0xA840, 0xA873); (0xA882, 0xA8B3); (0xA8F2, 0xA8F7); (0xA8FB, 0xA8FB); (0xA8FD, 0xA8FE);
    (0xA90A, 0xA925); (0xA930, 0xA946); (0xA960, 0xA97C); (0xA984, 0xA9B2); (0xA9CF, 0xA9CF);
    (0xA9E0, 0xA9E4); (0xA9E6, 0xA9EF); (0xA9FA, 0xA9FE); (0xAA00, 0xAA28); (0xAA40, 0xAA42);
    (0xAA44, 0xAA4B); (0xAA60, 0xAA76); (0xAA7A, 0xAA7A); (0xAA7E, 0xAAAF); (0xAAB1, 0xAAB1);
    (0xAAB5, 0xAAB6); (0xAAB9, 0xAABD); (0xAAC0, 0xAAC0); (0xAAC2, 0xAAC2); (0xAADB, 0xAADD);
    (0xAAE0, 0xAAEA); (0xAAF2, 0xAAF4); (0xAB01, 0xAB06); (0xAB09, 0xAB0E); (0xAB11, 0xAB16);
    (0xAB20, 0xAB26); (0xAB28, 0xAB2E); (0xAB30, 0xAB5A); (0xAB5C, 0xAB69); (0xAB70, 0xABE2);
    (0xAC00, 0xD7A3); (0xD7B0, 0xD7C6); (0xD7CB, 0xD7FB); (0xF900, 0xFA6D); (0xFA70, 0xFAD9);
    (0xFB00, 0xFB06); (0xFB13, 0xFB17); (0xFB1D, 0xFB1D); (0xFB1F, 0xFB28); (0xFB2A, 0xFB36);
    (0xFB38, 0xFB3C); (0xFB3E, 0xFB3E); (0xFB40, 0xFB41); (0xFB43, 0xFB44); (0xFB46, 0xFBB1);
    (0xFBD3, 0xFD3D); (0xFD50, 0xFD8F); (0xFD92, 0xFDC7); (0xFDF0, 0xFDFB); (0xFE70, 0xFE74);
    (0xFE76, 0xFEFC); (0xFF21, 0xFF3A); (0xFF41, 0xFF5A); (0xFF66, 0xFFBE); (0xFFC2, 0xFFC7);
    (0xFFCA, 0xFFCF); (0xFFD2, 0xFFD7); (0xFFDA, 0xFFDC); (0x10000, 0x1000B); (0x1000D, 0x10026);
    (0x10028, 0x1003A); (0x1003C, 0x1003D); (0x1003F, 0x1004D); (0x10050, 0x1005D); (0x10080,
    0x100FA); (0x10280, 0x1029C); (0x102A0, 0x102D0); (0x10300, 0x1031F); (0x1032D, 0x10340);
    (0x10342, 0x10349); (0x10350, 0x10375); (0x10380, 0x1039D); (0x103A0, 0x103C3); (0x103C8,
    0x103CF); (0x10400, 0x1049D); (0x104B0, 0x104D3); (0x104D8, 0x104FB); (0x10500, 0x10527);
    (0x10530, 0x10563); (0x10570, 0x1057A); (0x1057C, 0x1058A); (0x1058C, 0x10592); (0x10594,
    0x10595); (0x10597, 0x105A1); (0x105A3, 0x105B1); (0x105B3, 0x105B9); (0x105BB, 0x105BC);
    (0x10600, 0x10736); (0x10740, 0x10755); (0x10760, 0x10767); (0x10780, 0x10785); (0x10787,
    0x107B0); (0x107B2, 0x107BA); (0x10800, 0x10805); (0x10808, 0x10808); (0x1080A, 0x10835);
    (0x10837, 0x10838); (0x1083C, 0x1083C); (0x1083F, 0x10855); (0x10860, 0x10876); (0x10880,
    0x1089E); (0x108E0, 0x108F2); (0x108F4, 0x108F5); (0x10900, 0x10915); (0x10920, 0x10939);
    (0x10980, 0x109B7); (0x109BE, 0x109BF); (0x10A00, 0x10A00); (0x10A10, 0x10A13); (0x10A15,
    0x10A17); (0x10A19, 0x10A35); (0x10A60, 0x10A7C); (0x10A80, 0x10A9C); (0x10AC0, 0x10AC7);
    (0x10AC9, 0x10AE4); (0x10B00, 0x10B35); (0x10B40, 0x10B55); (0x10B60, 0x10B72); (0x10B80,
    0x10B91); (0x10C00, 0x10C48); (0x10C80, 0x10CB2); (0x10CC0, 0x10CF2); (0x10D00, 0x10D23);
    (0x10E80, 0x10EA9); (0x10EB0, 0x10EB1); (0x10F00, 0x10F1C); (0x10F27, 0x10F27); (0x10F30,
    0x10F45); (0x10F70, 0x10F81); (0x10FB0, 0x10FC4); (0x10FE0, 0x10FF6); (0x11003, 0x11037);
    (0x11071, 0x11072); (0x11075, 0x11075); (0x11083, 0x110AF); (0x110D0, 0x110E8); (0x11103,
    0x11126); (0x11144, 0x11144); (0x11147, 0x11147); (0x11150, 0x11172); (0x11176, 0x11176);
    (0x11183, 0x111B2); (0x111C1, 0x111C4); (0x111DA, 0x111DA); (0x111DC, 0x111DC); (0x11200,
    0x11211); (0x11213, 0x1122B); (0x11280, 0x11286); (0x11288, 0x11288); (0x1128A, 0x1128D);
    (0x1128F, 0x1129D); (0x1129F, 0x112A8); (0x112B0, 0x112DE); (0x11305, 0x1130C); (0x1130F,
    0x11310); (0x11313, 0x11328); (0x1132A, 0x11330); (0x11332, 0x11333); (0x11335, 0x11339);
    (0x1133D, 0x1133D); (0x11350, 0x11350); (0x1135D, 0x11361); (0x11400, 0x11434); (0x11447,
    0x1144A); (0x1145F, 0x11461); (0x11480, 0x114AF); (0x114C4, 0x114C5); (0x114C7, 0x114C7);
    (0x11580, 0x115AE); (0x115D8, 0x115DB); (0x11600, 0x1162F); (0x11644, 0x11644); (0x11680,
    0x116AA); (0x116B8, 0x116B8); (0x11700, 0x1171A); (0x11740, 0x11746); (0x11800, 0x1182B);
    (0x118A0, 0x118DF); (0x118FF, 0x11906); (0x11909, 0x11909); (0x1190C, 0x11913); (0x11915,
    0x11916); (0x11918, 0x1192F); (0x1193F, 0x1193F); (0x11941, 0x11941); (0x119A0, 0x119A7);
    (0x119AA, 0x119D0); (0x119E1, 0x119E1); (0x119E3, 0x119E3); (0x11A00, 0x11A00); (0x11A0B,
    0x11A32); (0x11A3A, 0x11A3A); (0x11A50, 0x11A50); (0x11A5C, 0x11A89); (0x11A9D, 0x11A9D);
    (0x11AB0, 0x11AF8); (0x11C00, 0x11C08); (0x11C0A, 0x11C2E); (0x11C40, 0x11C40); (0x11C72,
    0x11C8F); (0x11D00, 0x11D06); (0x11D08, 0x11D09); (0x11D0B, 0x11D30); (0x11D46, 0x11D46);
    (0x11D60, 0x11D65); (0x11D67, 0x11D68); (0x11D6A, 0x11D89); (0x11D98, 0x11D98); (0x11EE0,
    0x11EF2); (0x11FB0, 0x11FB0); (0x12000, 0x12399); (0x12480, 0x12543); (0x12F90, 0x12FF0);
    (0x13000, 0x1342E); (0x14400, 0x14646); (0x16800, 0x16A38); (0x16A40, 0x16A5E); (0x16A70,
    0x16ABE); (0x16AD0, 0x16AED); (0x16B00, 0x16B2F); (0x16B40, 0x16B43); (0x16B63, 0x16B77);
    (0x16B7D, 0x16B8F); (0x16E40, 0x16E7F); (0x16F00, 0x16F4A); (0x16F50, 0x16F50); (0x16F93,
    0x16F9F); (0x16FE0, 0x16FE1); (0x16FE3, 0x16FE3); (0x17000, 0x187F7); (0x18800, 0x18CD5);
    (0x18D00, 0x18D08); (0x1AFF0, 0x1AFF3); (0x1AFF5, 0x1AFFB); (0x1AFFD, 0x1AFFE); (0x1B000,
    0x1B122); (0x1B150, 0x1B152); (0x1B164, 0x1B167); (0x1B170, 0x1B2FB); (0x1BC00, 0x1BC6A);
    (0x1BC70, 0x1BC7C); (0x1BC80, 0x1BC88); (0x1BC90, 0x1BC99); (0x1D400, 0x1D454); (0x1D456,
    0x1D49C); (0x1D49E, 0x1D49F); (0x1D4A2, 0x1D4A2); (0x1D4A5, 0x1D4A6); (0x1D4A9, 0x1D4AC);
    (0x1D4AE, 0x1D4B9); (0x1D4BB, 0x1D4BB); (0x1D4BD, 0x1D4C3); (0x1D4C5, 0x1D505); (0x1D507,
    0x1D50A); (0x1D50D, 0x1D514); (0x1D516, 0x1D51C); (0x1D51E, 0x1D539); (0x1D53B, 0x1D53E);
    (0x1D540, 0x1D544); (0x1D546, 0x1D546); (0x1D54A, 0x1D550); (0x1D552, 0x1D6A5); (0x1D6A8,
    0x1D6C0); (0x1D6C2, 0x1D6DA); (0x1D6DC, 0x1D6FA); (0x1D6FC, 0x1D714); (0x1D716, 0x1D734);
    (0x1D736, 0x1D74E); (0x1D750, 0x1D76E); (0x1D770, 0x1D788); (0x1D78A, 0x1D7A8); (0x1D7AA,
    0x1D7C2); (0x1D7C4, 0x1D7CB); (0x1DF00, 0x1DF1E); (0x1E100, 0x1E12C); (0x1E137, 0x1E13D);
    (0x1E14E, 0x1E14E); (0x1E290, 0x1E2AD); (0x1E2C0, 0x1E2EB); (0x1E7E0, 0x1E7E6); (0x1E7E8,
    0x1E7EB); (0x1E7ED, 0x1E7EE); (0x1E7F0, 0x1E7FE); (0x1E800, 0x1E8C4); (0x1E900, 0x1E943);
    (0x1E94B, 0x1E94B); (0x1EE00, 0x1EE03); (0x1EE05, 0x1EE1F); (0x1EE21, 0x1EE22); (0x1EE24,
    0x1EE24); (0x1EE27, 0x1EE27); (0x1EE29, 0x1EE32); (0x1EE34, 0x1EE37); (0x1EE39, 0x1EE39);
    (0x1EE3B, 0x1EE3B); (0x1EE42, 0x1EE42); (0x1EE47, 0x1EE47); (0x1EE49, 0x1EE49); (0x1EE4B,
    0x1EE4B); (0x1EE4D, 0x1EE4F); (0x1EE51, 0x1EE52); (0x1EE54, 0x1EE54); (0x1EE57, 0x1EE57);
    (0x1EE59, 0x1EE59); (0x1EE5B, 0x1EE5B); (0x1EE5D, 0x1EE5D); (0x1EE5F, 0x1EE5F); (0x1EE61,
    0x1EE62); (0x1EE64, 0x1EE64); (0x1EE67, 0x1EE6A); (0x1EE6C, 0x1EE72); (0x1EE74, 0x1EE77);
    (0x1EE79, 0x1EE7C); (0x1EE7E, 0x1EE7E); (0x1EE80, 0x1EE89); (0x1EE8B, 0x1EE9B); (0x1EEA1,
    0x1EEA3); (0x1EEA5, 0x1EEA9); (0x1EEAB, 0x1EEBB); (0x20000, 0x2A6DF); (0x2A700, 0x2B738);
    (0x2B740, 0x2B81D); (0x2B820, 0x2CEA1); (0x2CEB0, 0x2EBE0); (0x2F800, 0x2FA1D); (0x30000,
    0x3134A) ].

(** The ranges of the code points of the general category Nd, the decimal
    digits. *)
Definition decimal_digit_table : list (Z * Z) :=
  [ (0x30, 0x39); (0x660, 0x669); (0x6F0, 0x6F9); (0x7C0, 0x7C9); (0x966, 0x96F); (0x9E6, 0x9EF);
    (0xA66, 0xA6F); (0xAE6, 0xAEF); (0xB66, 0xB6F); (0xBE6, 0xBEF); (0xC66, 0xC6F); (0xCE6, 0xCEF);
    (0xD66, 0xD6F); (0xDE6, 0xDEF); (0xE50, 0xE59); (0xED0, 0xED9); (0xF20, 0xF29); (0x1040,
    0x1049); (0x1090, 0x1099); (0x17E0, 0x17E9); (0x1810, 0x1819); (0x1946, 0x194F); (0x19D0,
    0x19D9); (0x1A80, 0x1A89); (0x1A90, 0x1A99); (0x1B50, 0x1B59); (0x1BB0, 0x1BB9); (0x1C40,
    0x1C49); (0x1C50, 0x1C59); (0xA620, 0xA629); (0xA8D0, 0xA8D9); (0xA900, 0xA909); (0xA9D0,
    0xA9D9); (0xA9F0, 0xA9F9); (0xAA50, 0xAA59); (0xABF0, 0xABF9); (0xFF10, 0xFF19); (0x104A0,
    0x104A9); (0x10D30, 0x10D39); (0x11066, 0x1106F); (0x110F0, 0x110F9); (0x11136, 0x1113F);
    (0x111D0, 0x111D9); (0x112F0, 0x112F9); (0x11450, 0x11459); (0x114D0, 0x114D9); (0x11650,
    0x11659); (0x116C0, 0x116C9); (0x11730, 0x11739); (0x118E0, 0x118E9); (0x11950, 0x11959);
    (0x11C50, 0x11C59); (0x11D50, 0x11D59); (0x11DA0, 0x11DA9); (0x16A60, 0x16A69); (0x16AC0,
    0x16AC9); (0x16B50, 0x16B59); (0x1D7CE, 0x1D7FF); (0x1E140, 0x1E149); (0x1E2F0, 0x1E2F9);
    (0x1E950, 0x1E959); (0x1FBF0, 0x1FBF9) ].

(** The uppercase mapping of every code point that has one (UnicodeData.txt,
    field 12, and the unconditional lines of SpecialCasing.txt). *)
Definition uppercase_table : list (Z * list Z) :=
  [ (0x61, [0x41]); (0x62, [0x42]); (0x63, [0x43]); (0x64, [0x44]); (0x65, [0x45]); (0x66, [0x46]);
    (0x67, [0x47]); (0x68, [0x48]); (0x69, [0x49]); (0x6A, [0x4A]); (0x6B, [0x4B]); (0x6C, [0x4C]);
    (0x6D, [0x4D]); (0x6E, [0x4E]); (0x6F, [0x4F]); (0x70, [0x50]); (0x71, [0x51]); (0x72, [0x52]);
    (0x73, [0x53]); (0x74, [0x54]); (0x75, [0x55]); (0x76, [0x56]); (0x77, [0x57]); (0x78, [0x58]);
    (0x79, [0x59]); (0x7A, [0x5A]); (0xB5, [0x39C]); (0xDF, [0x53; 0x53]); (0xE0, [0xC0]); (0xE1,
    [0xC1]); (0xE2, [0xC2]); (0xE3, [0xC3]); (0xE4, [0xC4]); (0xE5, [0xC5]); (0xE6, [0xC6]); (0xE7,
    [0xC7]); (0xE8, [0xC8]); (0xE9, [0xC9]); (0xEA, [0xCA]); (0xEB, [0xCB]); (0xEC, [0xCC]); (0xED,
    [0xCD]); (0xEE, [0xCE]); (0xEF, [0xCF]); (0xF0, [0xD0]); (0xF1, [0xD1]); (0xF2, [0xD2]); (0xF3,
    [0xD3]); (0xF4, [0xD4]); (0xF5, [0xD5]); (0xF6, [0xD6]); (0xF8, [0xD8]); (0xF9, [0xD9]); (0xFA,
    [0xDA]); (0xFB, [0xDB]); (0xFC, [0xDC]); (0xFD, [0xDD]); (0xFE, [0xDE]); (0xFF, [0x178]);
    (0x101, [0x100]); (0x103, [0x102]); (0x105, [0x104]); (0x107, [0x106]); (0x109, [0x108]);
    (0x10B, [0x10A]); (0x10D, [0x10C]); (0x10F, [0x10E]); (0x111, [0x110]); (0x113, [0x112]);
    (0x115, [0x114]); (0x117, [0x116]); (0x119, [0x118]); (0x11B, [0x11A]); (0x11D, [0x11C]);
    (0x11F, [0x11E]); (0x121, [0x120]); (0x123, [0x122]); (0x125, [0x124]); (0x127, [0x126]);
    (0x129, [0x128]); (0x12B, [0x12A]); (0x12D, [0x12C]); (0x12F, [0x12E]); (0x131, [0x49]); (0x133,
    [0x132]); (0x135, [0x134]); (0x137, [0x136]); (0x13A, [0x139]); (0x13C, [0x13B]); (0x13E,
    [0x13D]); (0x140, [0x13F]); (0x142, [0x141]); (0x144, [0x143]); (0x146, [0x145]); (0x148,
    [0x147]); (0x149, [0x2BC; 0x4E]); (0x14B, [0x14A]); (0x14D, [0x14C]); (0x14F, [0x14E]); (0x151,
    [0x150]); (0x153, [0x152]); (0x155, [0x154]); (0x157, [0x156]); (0x159, [0x158]); (0x15B,
    [0x15A]); (0x15D, [0x15C]); (0x15F, [0x15E]); (0x161, [0x160]); (0x163, [0x162]); (0x165,
    [0x164]); (0x167, [0x166]); (0x169, [0x168]); (0x16B, [0x16A]); (0x16D, [0x16C]); (0x16F,
    [0x16E]); (0x171, [0x170]); (0x173, [0x172]); (0x175, [0x174]); (0x177, [0x176]); (0x17A,
    [0x179]); (0x17C, [0x17B]); (0x17E, [0x17D]); (0x17F, [0x53]); (0x180, [0x243]); (0x183,
    [0x182]); (0x185, [0x184]); (0x188, [0x187]); (0x18C, [0x18B]); (0x192, [0x191]); (0x195,
    [0x1F6]); (0x199, [0x198]); (0x19A, [0x23D]); (0x19E, [0x220]); (0x1A1, [0x1A0]); (0x1A3,
    [0x1A2]); (0x1A5, [0x1A4]); (0x1A8, [0x1A7]); (0x1AD, [0x1AC]); (0x1B0, [0x1AF]); (0x1B4,
    [0x1B3]); (0x1B6, [0x1B5]); (0x1B9, [0x1B8]); (0x1BD, [0x1BC]); (0x1BF, [0x1F7]); (0x1C5,
    [0x1C4]); (0x1C6, [0x1C4]); (0x1C8, [0x1C7]); (0x1C9, [0x1C7]); (0x1CB, [0x1CA]); (0x1CC,
    [0x1CA]); (0x1CE, [0x1CD]); (0x1D0, [0x1CF]); (0x1D2, [0x1D1]); (0x1D4, [0x1D3]); (0x1D6,
    [0x1D5]); (0x1D8, [0x1D7]); (0x1DA, [0x1D9]); (0x1DC, [0x1DB]); (0x1DD, [0x18E]); (0x1DF,
    [0x1DE]); (0x1E1, [0x1E0]); (0x1E3, [0x1E2]); (0x1E5, [0x1E4]); (0x1E7, [0x1E6]); (0x1E9,
    [0x1E8]); (0x1EB, [0x1EA]); (0x1ED, [0x1EC]); (0x1EF, [0x1EE]); (0x1F0, [0x4A; 0x30C]); (0x1F2,
    [0x1F1]); (0x1F3, [0x1F1]); (0x1F5, [0x1F4]); (0x1F9, [0x1F8]); (0x1FB, [0x1FA]); (0x1FD,
    [0x1FC]); (0x1FF, [0x1FE]); (0x201, [0x200]); (0x203, [0x202]); (0x205, [0x204]); (0x207,
    [0x206]); (0x209, [0x208]); (0x20B, [0x20A]); (0x20D, [0x20C]); (0x20F, [0x20E]); (0x211,
    [0x210]); (0x213, [0x212]); (0x215, [0x214]); (0x217, [0x216]); (0x219, [0x218]); (0x21B,
    [0x21A]); (0x21D, [0x21C]); (0x21F, [0x21E]); (0x223, [0x222]); (0x225, [0x224]); (0x227,
    [0x226]); (0x229, [0x228]); (0x22B, [0x22A]); (0x22D, [0x22C]); (0x22F, [0x22E]); (0x231,
    [0x230]); (0x233, [0x232]); (0x23C, [0x23B]); (0x23F, [0x2C7E]); (0x240, [0x2C7F]); (0x242,
    [0x241]); (0x247, [0x246]); (0x249, [0x248]); (0x24B, [0x24A]); (0x24D, [0x24C]); (0x24F,
    [0x24E]); (0x250, [0x2C6F]); (0x251, [0x2C6D]); (0x252, [0x2C70]); (0x253, [0x181]); (0x254,
    [0x186]); (0x256, [0x189]); (0x257, [0x18A]); (0x259, [0x18F]); (0x25B, [0x190]); (0x25C,
    [0xA7AB]); (0x260, [0x193]); (0x261, [0xA7AC]); (0x263, [0x194]); (0x265, [0xA78D]); (0x266,
    [0xA7AA]); (0x268, [0x197]); (0x269, [0x196]); (0x26A, [0xA7AE]); (0x26B, [0x2C62]); (0x26C,
    [0xA7AD]); (0x26F, [0x19C]); (0x271, [0x2C6E]); (0x272, [0x19D]); (0x275, [0x19F]); (0x27D,
    [0x2C64]); (0x280, [0x1A6]); (0x282, [0xA7C5]); (0x283, [0x1A9]); (0x287, [0xA7B1]); (0x288,
    [0x1AE]); (0x289, [0x244]); (0x28A, [0x1B1]); (0x28B, [0x1B2]); (0x28C, [0x245]); (0x292,
    [0x1B7]); (0x29D, [0xA7B2]); (0x29E, [0xA7B0]); (0x345, [0x399]); (0x371, [0x370]); (0x373,
    [0x372]); (0x377, [0x376]); (0x37B, [0x3FD]); (0x37C, [0x3FE]); (0x37D, [0x3FF]); (0x390,
    [0x399; 0x308; 0x301]); (0x3AC, [0x386]); (0x3AD, [0x388]); (0x3AE, [0x389]); (0x3AF, [0x38A]);
    (0x3B0, [0x3A5; 0x308; 0x301]); (0x3B1, [0x391]); (0x3B2, [0x392]); (0x3B3, [0x393]); (0x3B4,
    [0x394]); (0x3B5, [0x395]); (0x3B6, [0x396]); (0x3B7, [0x397]); (0x3B8, [0x398]); (0x3B9,
    [0x399]); (0x3BA, [0x39A]); (0x3BB, [0x39B]); (0x3BC, [0x39C]); (0x3BD, [0x39D]); (0x3BE,
    [0x39E]); (0x3BF, [0x39F]); (0x3C0, [0x3A0]); (0x3C1, [0x3A1]); (0x3C2, [0x3A3]); (0x3C3,
    [0x3A3]); (0x3C4, [0x3A4]); (0x3C5, [0x3A5]); (0x3C6, [0x3A6]); (0x3C7, [0x3A7]); (0x3C8,
    [0x3A8]); (0x3C9, [0x3A9]); (0x3CA, [0x3AA]); (0x3CB, [0x3AB]); (0x3CC, [0x38C]); (0x3CD,
    [0x38E]); (0x3CE, [0x38F]); (0x3D0, [0x392]); (0x3D1, [0x398]); (0x3D5, [0x3A6]); (0x3D6,
    [0x3A0]); (0x3D7, [0x3CF]); (0x3D9, [0x3D8]); (0x3DB, [0x3DA]); (0x3DD, [0x3DC]); (0x3DF,
    [0x3DE]); (0x3E1, [0x3E0]); (0x3E3, [0x3E2]); (0x3E5, [0x3E4]); (0x3E7, [0x3E6]); (0x3E9,
    [0x3E8]); (0x3EB, [0x3EA]); (0x3ED, [0x3EC]); (0x3EF, [0x3EE]); (0x3F0, [0x39A]); (0x3F1,
    [0x3A1]); (0x3F2, [0x3F9]); (0x3F3, [0x37F]); (0x3F5, [0x395]); (0x3F8, [0x3F7]); (0x3FB,
    [0x3FA]); (0x430, [0x410]); (0x431, [0x411]); (0x432, [0x412]); (0x433, [0x413]); (0x434,
    [0x414]); (0x435, [0x415]); (0x436, [0x416]); (0x437, [0x417]); (0x438, [0x418]); (0x439,
    [0x419]); (0x43A, [0x41A]); (0x43B, [0x41B]); (0x43C, [0x41C]); (0x43D, [0x41D]); (0x43E,
    [0x41E]); (0x43F, [0x41F]); (0x440, [0x420]); (0x441, [0x421]); (0x442, [0x422]); (0x443,
    [0x423]); (0x444, [0x424]); (0x445, [0x425]); (0x446, [0x426]); (0x447, [0x427]); (0x448,
    [0x428]); (0x449, [0x429]); (0x44A, [0x42A]); (0x44B, [0x42B]); (0x44C, [0x42C]); (0x44D,
    [0x42D]); (0x44E, [0x42E]); (0x44F, [0x42F]); (0x450, [0x400]); (0x451, [0x401]); (0x452,
    [0x402]); (0x453, [0x403]); (0x454, [0x404]); (0x455, [0x405]); (0x456, [0x406]); (0x457,
    [0x407]); (0x458, [0x408]); (0x459, [0x409]); (0x45A, [0x40A]); (0x45B, [0x40B]); (0x45C,
    [0x40C]); (0x45D, [0x40D]); (0x45E, [0x40E]); (0x45F, [0x40F]); (0x461, [0x460]); (0x463,
    [0x462]); (0x465, [0x464]); (0x467, [0x466]); (0x469, [0x468]); (0x46B, [0x46A]); (0x46D,
    [0x46C]); (0x46F, [0x46E]); (0x471, [0x470]); (0x473, [0x472]); (0x475, [0x474]); (0x477,
    [0x476]); (0x479, [0x478]); (0x47B, [0x47A]); (0x47D, [0x47C]); (0x47F, [0x47E]); (0x481,
    [0x480]); (0x48B, [0x48A]); (0x48D, [0x48C]); (0x48F, [0x48E]); (0x491, [0x490]); (0x493,
    [0x492]); (0x495, [0x494]); (0x497, [0x496]); (0x499, [0x498]); (0x49B, [0x49A]); (0x49D,
    [0x49C]); (0x49F, [0x49E]); (0x4A1, [0x4A0]); (0x4A3, [0x4A2]); (0x4A5, [0x4A4]); (0x4A7,
    [0x4A6]); (0x4A9, [0x4A8]); (0x4AB, [0x4AA]); (0x4AD, [0x4AC]); (0x4AF, [0x4AE]); (0x4B1,
    [0x4B0]); (0x4B3, [0x4B2]); (0x4B5, [0x4B4]); (0x4B7, [0x4B6]); (0x4B9, [0x4B8]); (0x4BB,
    [0x4BA]); (0x4BD, [0x4BC]); (0x4BF, [0x4BE]); (0x4C2, [0x4C1]); (0x4C4, [0x4C3]); (0x4C6,
    [0x4C5]); (0x4C8, [0x4C7]); (0x4CA, [0x4C9]); (0x4CC, [0x4CB]); (0x4CE, [0x4CD]); (0x4CF,
    [0x4C0]); (0x4D1, [0x4D0]); (0x4D3, [0x4D2]); (0x4D5, [0x4D4]); (0x4D7, [0x4D6]); (0x4D9,
    [0x4D8]); (0x4DB, [0x4DA]); (0x4DD, [0x4DC]); (0x4DF, [0x4DE]); (0x4E1, [0x4E0]); (0x4E3,
    [0x4E2]); (0x4E5, [0x4E4]); (0x4E7, [0x4E6]); (0x4E9, [0x4E8]); (0x4EB, [0x4EA]); (0x4ED,
    [0x4EC]); (0x4EF, [0x4EE]); (0x4F1, [0x4F0]); (0x4F3, [0x4F2]); (0x4F5, [0x4F4]); (0x4F7,
    [0x4F6]); (0x4F9, [0x4F8]); (0x4FB, [0x4FA]); (0x4FD, [0x4FC]); (0x4FF, [0x4FE]); (0x501,
    [0x500]); (0x503, [0x502]); (0x505, [0x504]); (0x507, [0x506]); (0x509, [0x508]); (0x50B,
    [0x50A]); (0x50D, [0x50C]); (0x50F, [0x50E]); (0x511, [0x510]); (0x513, [0x512]); (0x515,
    [0x514]); (0x517, [0x516]); (0x519, [0x518]); (0x51B, [0x51A]); (0x51D, [0x51C]); (0x51F,
    [0x51E]); (0x521, [0x520]); (0x523, [0x522]); (0x525, [0x524]); (0x527, [0x526]); (0x529,
    [0x528]); (0x52B, [0x52A]); (0x52D, [0x52C]); (0x52F, [0x52E]); (0x561, [0x531]); (0x562,
    [0x532]); (0x563, [0x533]); (0x564, [0x534]); (0x565, [0x535]); (0x566, [0x536]); (0x567,
    [0x537]); (0x568, [0x538]); (0x569, [0x539]); (0x56A, [0x53A]); (0x56B, [0x53B]); (0x56C,
    [0x53C]); (0x56D, [0x53D]); (0x56E, [0x53E]); (0x56F, [0x53F]); (0x570, [0x540]); (0x571,
    [0x541]); (0x572, [0x542]); (0x573, [0x543]); (0x574, [0x544]); (0x575, [0x545]); (0x576,
    [0x546]); (0x577, [0x547]); (0x578, [0x548]); (0x579, [0x549]); (0x57A, [0x54A]); (0x57B,
    [0x54B]); (0x57C, [0x54C]); (0x57D, [0x54D]); (0x57E, [0x54E]); (0x57F, [0x54F]); (0x580,
    [0x550]); (0x581, [0x551]); (0x582, [0x552]); (0x583, [0x553]); (0x584, [0x554]); (0x585,
    [0x555]); (0x586, [0x556]); (0x587, [0x535; 0x552]); (0x10D0, [0x1C90]); (0x10D1, [0x1C91]);
    (0x10D2, [0x1C92]); (0x10D3, [0x1C93]); (0x10D4, [0x1C94]); (0x10D5, [0x1C95]); (0x10D6,
    [0x1C96]); (0x10D7, [0x1C97]); (0x10D8, [0x1C98]); (0x10D9, [0x1C99]); (0x10DA, [0x1C9A]);
    (0x10DB, [0x1C9B]); (0x10DC, [0x1C9C]); (0x10DD, [0x1C9D]); (0x10DE, [0x1C9E]); (0x10DF,
    [0x1C9F]); (0x10E0, [0x1CA0]); (0x10E1, [0x1CA1]); (0x10E2, [0x1CA2]); (0x10E3, [0x1CA3]);
    (0x10E4, [0x1CA4]); (0x10E5, [0x1CA5]); (0x10E6, [0x1CA6]); (0x10E7, [0x1CA7]); (0x10E8,
    [0x1CA8]); (0x10E9, [0x1CA9]); (0x10EA, [0x1CAA]); (0x10EB, [0x1CAB]); (0x10EC, [0x1CAC]);
    (0x10ED, [0x1CAD]); (0x10EE, [0x1CAE]); (0x10EF, [0x1CAF]); (0x10F0, [0x1CB0]); (0x10F1,
    [0x1CB1]); (0x10F2, [0x1CB2]); (0x10F3, [0x1CB3]); (0x10F4, [0x1CB4]); (0x10F5, [0x1CB5]);
    (0x10F6, [0x1CB6]); (0x10F7, [0x1CB7]); (0x10F8, [0x1CB8]); (0x10F9, [0x1CB9]); (0x10FA,
    [0x1CBA]); (0x10FD, [0x1CBD]); (0x10FE, [0x1CBE]); (0x10FF, [0x1CBF]); (0x13F8, [0x13F0]);
    (0x13F9, [0x13F1]); (0x13FA, [0x13F2]); (0x13FB, [0x13F3]); (0x13FC, [0x13F4]); (0x13FD,
    [0x13F5]); (0x1C80, [0x412]); (0x1C81, [0x414]); (0x1C82, [0x41E]); (0x1C83, [0x421]); (0x1C84,
    [0x422]); (0x1C85, [0x422]); (0x1C86, [0x42A]); (0x1C87, [0x462]); (0x1C88, [0xA64A]); (0x1D79,
    [0xA77D]); (0x1D7D, [0x2C63]); (0x1D8E, [0xA7C6]); (0x1E01, [0x1E00]); (0x1E03, [0x1E02]);
    (0x1E05, [0x1E04]); (0x1E07, [0x1E06]); (0x1E09, [0x1E08]); (0x1E0B, [0x1E0A]); (0x1E0D,
    [0x1E0C]); (0x1E0F, [0x1E0E]); (0x1E11, [0x1E10]); (0x1E13, [0x1E12]); (0x1E15, [0x1E14]);
    (0x1E17, [0x1E16]); (0x1E19, [0x1E18]); (0x1E1B, [0x1E1A]); (0x1E1D, [0x1E1C]); (0x1E1F,
    [0x1E1E]); (0x1E21, [0x1E20]); (0x1E23, [0x1E22]); (0x1E25, [0x1E24]); (0x1E27, [0x1E26]);
    (0x1E29, [0x1E28]); (0x1E2B, [0x1E2A]); (0x1E2D, [0x1E2C]); (0x1E2F, [0x1E2E]); (0x1E31,
    [0x1E30]); (0x1E33, [0x1E32]); (0x1E35, [0x1E34]); (0x1E37, [0x1E36]); (0x1E39, [0x1E38]);
    (0x1E3B, [0x1E3A]); (0x1E3D, [0x1E3C]); (0x1E3F, [0x1E3E]); (0x1E41, [0x1E40]); (0x1E43,
    [0x1E42]); (0x1E45, [0x1E44]); (0x1E47, [0x1E46]); (0x1E49, [0x1E48]); (0x1E4B, [0x1E4A]);
    (0x1E4D, [0x1E4C]); (0x1E4F, [0x1E4E]); (0x1E51, [0x1E50]); (0x1E53, [0x1E52]); (0x1E55,
    [0x1E54]); (0x1E57, [0x1E56]); (0x1E59, [0x1E58]); (0x1E5B, [0x1E5A]); (0x1E5D, [0x1E5C]);
    (0x1E5F, [0x1E5E]); (0x1E61, [0x1E60]); (0x1E63, [0x1E62]); (0x1E65, [0x1E64]); (0x1E67,
    [0x1E66]); (0x1E69, [0x1E68]); (0x1E6B, [0x1E6A]); (0x1E6D, [0x1E6C]); (0x1E6F, [0x1E6E]);
    (0x1E71, [0x1E70]); (0x1E73, [0x1E72]); (0x1E75, [0x1E74]); (0x1E77, [0x1E76]); (0x1E79,
    [0x1E78]); (0x1E7B, [0x1E7A]); (0x1E7D, [0x1E7C]); (0x1E7F, [0x1E7E]); (0x1E81, [0x1E80]);
    (0x1E83, [0x1E82]); (0x1E85, [0x1E84]); (0x1E87, [0x1E86]); (0x1E89, [0x1E88]); (0x1E8B,
    [0x1E8A]); (0x1E8D, [0x1E8C]); (0x1E8F, [0x1E8E]); (0x1E91, [0x1E90]); (0x1E93, [0x1E92]);
    (0x1E95, [0x1E94]); (0x1E96, [0x48; 0x331]); (0x1E97, [0x54; 0x308]); (0x1E98, [0x57; 0x30A]);
    (0x1E99, [0x59; 0x30A]); (0x1E9A, [0x41; 0x2BE]); (0x1E9B, [0x1E60]); (0x1EA1, [0x1EA0]);
    (0x1EA3, [0x1EA2]); (0x1EA5, [0x1EA4]); (0x1EA7, [0x1EA6]); (0x1EA9, [0x1EA8]); (0x1EAB,
    [0x1EAA]); (0x1EAD, [0x1EAC]); (0x1EAF, [0x1EAE]); (0x1EB1, [0x1EB0]); (0x1EB3, [0x1EB2]);
    (0x1EB5, [0x1EB4]); (0x1EB7, [0x1EB6]); (0x1EB9, [0x1EB8]); (0x1EBB, [0x1EBA]); (0x1EBD,
    [0x1EBC]); (0x1EBF, [0x1EBE]); (0x1EC1, [0x1EC0]); (0x1EC3, [0x1EC2]); (0x1EC5, [0x1EC4]);
    (0x1EC7, [0x1EC6]); (0x1EC9, [0x1EC8]); (0x1ECB, [0x1ECA]); (0x1ECD, [0x1ECC]); (0x1ECF,
    [0x1ECE]); (0x1ED1, [0x1ED0]); (0x1ED3, [0x1ED2]); (0x1ED5, [0x1ED4]); (0x1ED7, [0x1ED6]);
    (0x1ED9, [0x1ED8]); (0x1EDB, [0x1EDA]); (0x1EDD, [0x1EDC]); (0x1EDF, [0x1EDE]); (0x1EE1,
    [0x1EE0]); (0x1EE3, [0x1EE2]); (0x1EE5, [0x1EE4]); (0x1EE7, [0x1EE6]); (0x1EE9, [0x1EE8]);
    (0x1EEB, [0x1EEA]); (0x1EED, [0x1EEC]); (0x1EEF, [0x1EEE]); (0x1EF1, [0x1EF0]); (0x1EF3,
    [0x1EF2]); (0x1EF5, [0x1EF4]); (0x1EF7, [0x1EF6]); (0x1EF9, [0x1EF8]); (0x1EFB, [0x1EFA]);
    (0x1EFD, [0x1EFC]); (0x1EFF, [0x1EFE]); (0x1F00, [0x1F08]); (0x1F01, [0x1F09]); (0x1F02,
    [0x1F0A]); (0x1F03, [0x1F0B]); (0x1F04, [0x1F0C]); (0x1F05, [0x1F0D]); (0x1F06, [0x1F0E]);
    (0x1F07, [0x1F0F]); (0x1F10, [0x1F18]); (0x1F11, [0x1F19]); (0x1F12, [0x1F1A]); (0x1F13,
    [0x1F1B]); (0x1F14, [0x1F1C]); (0x1F15, [0x1F1D]); (0x1F20, [0x1F28]); (0x1F21, [0x1F29]);
    (0x1F22, [0x1F2A]); (0x1F23, [0x1F2B]); (0x1F24, [0x1F2C]); (0x1F25, [0x1F2D]); (0x1F26,
    [0x1F2E]); (0x1F27, [0x1F2F]); (0x1F30, [0x1F38]); (0x1F31, [0x1F39]); (0x1F32, [0x1F3A]);
    (0x1F33, [0x1F3B]); (0x1F34, [0x1F3C]); (0x1F35, [0x1F3D]); (0x1F36, [0x1F3E]); (0x1F37,
    [0x1F3F]); (0x1F40, [0x1F48]); (0x1F41, [0x1F49]); (0x1F42, [0x1F4A]); (0x1F43, [0x1F4B]);
    (0x1F44, [0x1F4C]); (0x1F45, [0x1F4D]); (0x1F50, [0x3A5; 0x313]); (0x1F51, [0x1F59]); (0x1F52,
    [0x3A5; 0x313; 0x300]); (0x1F53, [0x1F5B]); (0x1F54, [0x3A5; 0x313; 0x301]); (0x1F55, [0x1F5D]);
    (0x1F56, [0x3A5; 0x313; 0x342]); (0x1F57, [0x1F5F]); (0x1F60, [0x1F68]); (0x1F61, [0x1F69]);
    (0x1F62, [0x1F6A]); (0x1F63, [0x1F6B]); (0x1F64, [0x1F6C]); (0x1F65, [0x1F6D]); (0x1F66,
    [0x1F6E]); (0x1F67, [0x1F6F]); (0x1F70, [0x1FBA]); (0x1F71, [0x1FBB]); (0x1F72, [0x1FC8]);
    (0x1F73, [0x1FC9]); (0x1F74, [0x1FCA]); (0x1F75, [0x1FCB]); (0x1F76, [0x1FDA]); (0x1F77,
    [0x1FDB]); (0x1F78, [0x1FF8]); (0x1F79, [0x1FF9]); (0x1F7A, [0x1FEA]); (0x1F7B, [0x1FEB]);
    (0x1F7C, [0x1FFA]); (0x1F7D, [0x1FFB]); (0x1F80, [0x1F08; 0x399]); (0x1F81, [0x1F09; 0x399]);
    (0x1F82, [0x1F0A; 0x399]); (0x1F83, [0x1F0B; 0x399]); (0x1F84, [0x1F0C; 0x399]); (0x1F85,
    [0x1F0D; 0x399]); (0x1F86, [0x1F0E; 0x399]); (0x1F87, [0x1F0F; 0x399]); (0x1F88, [0x1F08;
    0x399]); (0x1F89, [0x1F09; 0x399]); (0x1F8A, [0x1F0A; 0x399]); (0x1F8B, [0x1F0B; 0x399]);
    (0x1F8C, [0x1F0C; 0x399]); (0x1F8D, [0x1F0D; 0x399]); (0x1F8E, [0x1F0E; 0x399]); (0x1F8F,
    [0x1F0F; 0x399]); (0x1F90, [0x1F28; 0x399]); (0x1F91, [0x1F29; 0x399]); (0x1F92, [0x1F2A;
    0x399]); (0x1F93, [0x1F2B; 0x399]); (0x1F94, [0x1F2C; 0x399]); (0x1F95, [0x1F2D; 0x399]);
    (0x1F96, [0x1F2E; 0x399]); (0x1F97, [0x1F2F; 0x399]); (0x1F98, [0x1F28; 0x399]); (0x1F99,
    [0x1F29; 0x399]); (0x1F9A, [0x1F2A; 0x399]); (0x1F9B, [0x1F2B; 0x399]); (0x1F9C, [0x1F2C;
    0x399]); (0x1F9D, [0x1F2D; 0x399]); (0x1F9E, [0x1F2E; 0x399]); (0x1F9F, [0x1F2F; 0x399]);
    (0x1FA0, [0x1F68; 0x399]); (0x1FA1, [0x1F69; 0x399]); (0x1FA2, [0x1F6A; 0x399]); (0x1FA3,
    [0x1F6B; 0x399]); (0x1FA4, [0x1F6C; 0x399]); (0x1FA5, [0x1F6D; 0x399]); (0x1FA6, [0x1F6E;
    0x399]); (0x1FA7, [0x1F6F; 0x399]); (0x1FA8, [0x1F68; 0x399]); (0x1FA9, [0x1F69; 0x399]);
    (0x1FAA, [0x1F6A; 0x399]); (0x1FAB, [0x1F6B; 0x399]); (0x1FAC, [0x1F6C; 0x399]); (0x1FAD,
    [0x1F6D; 0x399]); (0x1FAE, [0x1F6E; 0x399]); (0x1FAF, [0x1F6F; 0x399]); (0x1FB0, [0x1FB8]);
    (0x1FB1, [0x1FB9]); (0x1FB2, [0x1FBA; 0x399]); (0x1FB3, [0x391; 0x399]); (0x1FB4, [0x386;
    0x399]); (0x1FB6, [0x391; 0x342]); (0x1FB7, [0x391; 0x342; 0x399]); (0x1FBC, [0x391; 0x399]);
    (0x1FBE, [0x399]); (0x1FC2, [0x1FCA; 0x399]); (0x1FC3, [0x397; 0x399]); (0x1FC4, [0x389;
    0x399]); (0x1FC6, [0x397; 0x342]); (0x1FC7, [0x397; 0x342; 0x399]); (0x1FCC, [0x397; 0x399]);
    (0x1FD0, [0x1FD8]); (0x1FD1, [0x1FD9]); (0x1FD2, [0x399; 0x308; 0x300]); (0x1FD3, [0x399; 0x308;
    0x301]); (0x1FD6, [0x399; 0x342]); (0x1FD7, [0x399; 0x308; 0x342]); (0x1FE0, [0x1FE8]); (0x1FE1,
    [0x1FE9]); (0x1FE2, [0x3A5; 0x308; 0x300]); (0x1FE3, [0x3A5; 0x308; 0x301]); (0x1FE4, [0x3A1;
    0x313]); (0x1FE5, [0x1FEC]); (0x1FE6, [0x3A5; 0x342]); (0x1FE7, [0x3A5; 0x308; 0x342]); (0x1FF2,
    [0x1FFA; 0x399]); (0x1FF3, [0x3A9; 0x399]); (0x1FF4, [0x38F; 0x399]); (0x1FF6, [0x3A9; 0x342]);
    (0x1FF7, [0x3A9; 0x342; 0x399]); (0x1FFC, [0x3A9; 0x399]); (0x214E, [0x2132]); (0x2170,
    [0x2160]); (0x2171, [0x2161]); (0x2172, [0x2162]); (0x2173, [0x2163]); (0x2174, [0x2164]);
    (0x2175, [0x2165]); (0x2176, [0x2166]); (0x2177, [0x2167]); (0x2178, [0x2168]); (0x2179,
    [0x2169]); (0x217A, [0x216A]); (0x217B, [0x216B]); (0x217C, [0x216C]); (0x217D, [0x216D]);
    (0x217E, [0x216E]); (0x217F, [0x216F]); (0x2184, [0x2183]); (0x24D0, [0x24B6]); (0x24D1,
    [0x24B7]); (0x24D2, [0x24B8]); (0x24D3, [0x24B9]); (0x24D4, [0x24BA]); (0x24D5, [0x24BB]);
    (0x24D6, [0x24BC]); (0x24D7, [0x24BD]); (0x24D8, [0x24BE]); (0x24D9, [0x24BF]); (0x24DA,
    [0x24C0]); (0x24DB, [0x24C1]); (0x24DC, [0x24C2]); (0x24DD, [0x24C3]); (0x24DE, [0x24C4]);
    (0x24DF, [0x24C5]); (0x24E0, [0x24C6]); (0x24E1, [0x24C7]); (0x24E2, [0x24C8]); (0x24E3,
    [0x24C9]); (0x24E4, [0x24CA]); (0x24E5, [0x24CB]); (0x24E6, [0x24CC]); (0x24E7, [0x24CD]);
    (0x24E8, [0x24CE]); (0x24E9, [0x24CF]); (0x2C30, [0x2C00]); (0x2C31, [0x2C01]); (0x2C32,
    [0x2C02]); (0x2C33, [0x2C03]); (0x2C34, [0x2C04]); (0x2C35, [0x2C05]); (0x2C36, [0x2C06]);
    (0x2C37, [0x2C07]); (0x2C38, [0x2C08]); (0x2C39, [0x2C09]); (0x2C3A, [0x2C0A]); (0x2C3B,
    [0x2C0B]); (0x2C3C, [0x2C0C]); (0x2C3D, [0x2C0D]); (0x2C3E, [0x2C0E]); (0x2C3F, [0x2C0F]);
    (0x2C40, [0x2C10]); (0x2C41, [0x2C11]); (0x2C42, [0x2C12]); (0x2C43, [0x2C13]); (0x2C44,
    [0x2C14]); (0x2C45, [0x2C15]); (0x2C46, [0x2C16]); (0x2C47, [0x2C17]); (0x2C48, [0x2C18]);
    (0x2C49, [0x2C19]); (0x2C4A, [0x2C1A]); (0x2C4B, [0x2C1B]); (0x2C4C, [0x2C1C]); (0x2C4D,
    [0x2C1D]); (0x2C4E, [0x2C1E]); (0x2C4F, [0x2C1F]); (0x2C50, [0x2C20]); (0x2C51, [0x2C21]);
    (0x2C52, [0x2C22]); (0x2C53, [0x2C23]); (0x2C54, [0x2C24]); (0x2C55, [0x2C25]); (0x2C56,
    [0x2C26]); (0x2C57, [0x2C27]); (0x2C58, [0x2C28]); (0x2C59, [0x2C29]); (0x2C5A, [0x2C2A]);
    (0x2C5B, [0x2C2B]); (0x2C5C, [0x2C2C]); (0x2C5D, [0x2C2D]); (0x2C5E, [0x2C2E]); (0x2C5F,
    [0x2C2F]); (0x2C61, [0x2C60]); (0x2C65, [0x23A]); (0x2C66, [0x23E]); (0x2C68, [0x2C67]);
    (0x2C6A, [0x2C69]); (0x2C6C, [0x2C6B]); (0x2C73, [0x2C72]); (0x2C76, [0x2C75]); (0x2C81,
    [0x2C80]); (0x2C83, [0x2C82]); (0x2C85, [0x2C84]); (0x2C87, [0x2C86]); (0x2C89, [0x2C88]);
    (0x2C8B, [0x2C8A]); (0x2C8D, [0x2C8C]); (0x2C8F, [0x2C8E]); (0x2C91, [0x2C90]); (0x2C93,
    [0x2C92]); (0x2C95, [0x2C94]); (0x2C97, [0x2C96]); (0x2C99, [0x2C98]); (0x2C9B, [0x2C9A]);
    (0x2C9D, [0x2C9C]); (0x2C9F, [0x2C9E]); (0x2CA1, [0x2CA0]); (0x2CA3, [0x2CA2]); (0x2CA5,
    [0x2CA4]); (0x2CA7, [0x2CA6]); (0x2CA9, [0x2CA8]); (0x2CAB, [0x2CAA]); (0x2CAD, [0x2CAC]);
    (0x2CAF, [0x2CAE]); (0x2CB1, [0x2CB0]); (0x2CB3, [0x2CB2]); (0x2CB5, [0x2CB4]); (0x2CB7,
    [0x2CB6]); (0x2CB9, [0x2CB8]); (0x2CBB, [0x2CBA]); (0x2CBD, [0x2CBC]); (0x2CBF, [0x2CBE]);
    (0x2CC1, [0x2CC0]); (0x2CC3, [0x2CC2]); (0x2CC5, [0x2CC4]); (0x2CC7, [0x2CC6]); (0x2CC9,
    [0x2CC8]); (0x2CCB, [0x2CCA]); (0x2CCD, [0x2CCC]); (0x2CCF, [0x2CCE]); (0x2CD1, [0x2CD0]);
    (0x2CD3, [0x2CD2]); (0x2CD5, [0x2CD4]); (0x2CD7, [0x2CD6]); (0x2CD9, [0x2CD8]); (0x2CDB,
    [0x2CDA]); (0x2CDD, [0x2CDC]); (0x2CDF, [0x2CDE]); (0x2CE1, [0x2CE0]); (0x2CE3, [0x2CE2]);
    (0x2CEC, [0x2CEB]); (0x2CEE, [0x2CED]); (0x2CF3, [0x2CF2]); (0x2D00, [0x10A0]); (0x2D01,
    [0x10A1]); (0x2D02, [0x10A2]); (0x2D03, [0x10A3]); (0x2D04, [0x10A4]); (0x2D05, [0x10A5]);
    (0x2D06, [0x10A6]); (0x2D07, [0x10A7]); (0x2D08, [0x10A8]); (0x2D09, [0x10A9]); (0x2D0A,
    [0x10AA]); (0x2D0B, [0x10AB]); (0x2D0C, [0x10AC]); (0x2D0D, [0x10AD]); (0x2D0E, [0x10AE]);
    (0x2D0F, [0x10AF]); (0x2D10, [0x10B0]); (0x2D11, [0x10B1]); (0x2D12, [0x10B2]); (0x2D13,
    [0x10B3]); (0x2D14, [0x10B4]); (0x2D15, [0x10B5]); (0x2D16, [0x10B6]); (0x2D17, [0x10B7]);
    (0x2D18, [0x10B8]); (0x2D19, [0x10B9]); (0x2D1A, [0x10BA]); (0x2D1B, [0x10BB]); (0x2D1C,
    [0x10BC]); (0x2D1D, [0x10BD]); (0x2D1E, [0x10BE]); (0x2D1F, [0x10BF]); (0x2D20, [0x10C0]);
    (0x2D21, [0x10C1]); (0x2D22, [0x10C2]); (0x2D23, [0x10C3]); (0x2D24, [0x10C4]); (0x2D25,
    [0x10C5]); (0x2D27, [0x10C7]); (0x2D2D, [0x10CD]); (0xA641, [0xA640]); (0xA643, [0xA642]);
    (0xA645, [0xA644]); (0xA647, [0xA646]); (0xA649, [0xA648]); (0xA64B, [0xA64A]); (0xA64D,
    [0xA64C]); (0xA64F, [0xA64E]); (0xA651, [0xA650]); (0xA653, [0xA652]); (0xA655, [0xA654]);
    (0xA657, [0xA656]); (0xA659, [0xA658]); (0xA65B, [0xA65A]); (0xA65D, [0xA65C]); (0xA65F,
    [0xA65E]); (0xA661, [0xA660]); (0xA663, [0xA662]); (0xA665, [0xA664]); (0xA667, [0xA666]);
    (0xA669, [0xA668]); (0xA66B, [0xA66A]); (0xA66D, [0xA66C]); (0xA681, [0xA680]); (0xA683,
    [0xA682]); (0xA685, [0xA684]); (0xA687, [0xA686]); (0xA689, [0xA688]); (0xA68B, [0xA68A]);
    (0xA68D, [0xA68C]); (0xA68F, [0xA68E]); (0xA691, [0xA690]); (0xA693, [0xA692]); (0xA695,
    [0xA694]); (0xA697, [0xA696]); (0xA699, [0xA698]); (0xA69B, [0xA69A]); (0xA723, [0xA722]);
    (0xA725, [0xA724]); (0xA727, [0xA726]); (0xA729, [0xA728]); (0xA72B, [0xA72A]); (0xA72D,
    [0xA72C]); (0xA72F, [0xA72E]); (0xA733, [0xA732]); (0xA735, [0xA734]); (0xA737, [0xA736]);
    (0xA739, [0xA738]); (0xA73B, [0xA73A]); (0xA73D, [0xA73C]); (0xA73F, [0xA73E]); (0xA741,
    [0xA740]); (0xA743, [0xA742]); (0xA745, [0xA744]); (0xA747, [0xA746]); (0xA749, [0xA748]);
    (0xA74B, [0xA74A]); (0xA74D, [0xA74C]); (0xA74F, [0xA74E]); (0xA751, [0xA750]); (0xA753,
    [0xA752]); (0xA755, [0xA754]); (0xA757, [0xA756]); (0xA759, [0xA758]); (0xA75B, [0xA75A]);
    (0xA75D, [0xA75C]); (0xA75F, [0xA75E]); (0xA761, [0xA760]); (0xA763, [0xA762]); (0xA765,
    [0xA764]); (0xA767, [0xA766]); (0xA769, [0xA768]); (0xA76B, [0xA76A]); (0xA76D, [0xA76C]);
    (0xA76F, [0xA76E]); (0xA77A, [0xA779]); (0xA77C, [0xA77B]); (0xA77F, [0xA77E]); (0xA781,
    [0xA780]); (0xA783, [0xA782]); (0xA785, [0xA784]); (0xA787, [0xA786]); (0xA78C, [0xA78B]);
    (0xA791, [0xA790]); (0xA793, [0xA792]); (0xA794, [0xA7C4]); (0xA797, [0xA796]); (0xA799,
    [0xA798]); (0xA79B, [0xA79A]); (0xA79D, [0xA79C]); (0xA79F, [0xA79E]); (0xA7A1, [0xA7A0]);
    (0xA7A3, [0xA7A2]); (0xA7A5, [0xA7A4]); (0xA7A7, [0xA7A6]); (0xA7A9, [0xA7A8]); (0xA7B5,
    [0xA7B4]); (0xA7B7, [0xA7B6]); (0xA7B9, [0xA7B8]); (0xA7BB, [0xA7BA]); (0xA7BD, [0xA7BC]);
    (0xA7BF, [0xA7BE]); (0xA7C1, [0xA7C0]); (0xA7C3, [0xA7C2]); (0xA7C8, [0xA7C7]); (0xA7CA,
    [0xA7C9]); (0xA7D1, [0xA7D0]); (0xA7D7, [0xA7D6]); (0xA7D9, [0xA7D8]); (0xA7F6, [0xA7F5]);
    (0xAB53, [0xA7B3]); (0xAB70, [0x13A0]); (0xAB71, [0x13A1]); (0xAB72, [0x13A2]); (0xAB73,
    [0x13A3]); (0xAB74, [0x13A4]); (0xAB75, [0x13A5]); (0xAB76, [0x13A6]); (0xAB77, [0x13A7]);
    (0xAB78, [0x13A8]); (0xAB79, [0x13A9]); (0xAB7A, [0x13AA]); (0xAB7B, [0x13AB]); (0xAB7C,
    [0x13AC]); (0xAB7D, [0x13AD]); (0xAB7E, [0x13AE]); (0xAB7F, [0x13AF]); (0xAB80, [0x13B0]);
    (0xAB81, [0x13B1]); (0xAB82, [0x13B2]); (0xAB83, [0x13B3]); (0xAB84, [0x13B4]); (0xAB85,
    [0x13B5]); (0xAB86, [0x13B6]); (0xAB87, [0x13B7]); (0xAB88, [0x13B8]); (0xAB89, [0x13B9]);
    (0xAB8A, [0x13BA]); (0xAB8B, [0x13BB]); (0xAB8C, [0x13BC]); (0xAB8D, [0x13BD]); (0xAB8E,
    [0x13BE]); (0xAB8F, [0x13BF]); (0xAB90, [0x13C0]); (0xAB91, [0x13C1]); (0xAB92, [0x13C2]);
    (0xAB93, [0x13C3]); (0xAB94, [0x13C4]); (0xAB95, [0x13C5]); (0xAB96, [0x13C6]); (0xAB97,
    [0x13C7]); (0xAB98, [0x13C8]); (0xAB99, [0x13C9]); (0xAB9A, [0x13CA]); (0xAB9B, [0x13CB]);
    (0xAB9C, [0x13CC]); (0xAB9D, [0x13CD]); (0xAB9E, [0x13CE]); (0xAB9F, [0x13CF]); (0xABA0,
    [0x13D0]); (0xABA1, [0x13D1]); (0xABA2, [0x13D2]); (0xABA3, [0x13D3]); (0xABA4, [0x13D4]);
    (0xABA5, [0x13D5]); (0xABA6, [0x13D6]); (0xABA7, [0x13D7]); (0xABA8, [0x13D8]); (0xABA9,
    [0x13D9]); (0xABAA, [0x13DA]); (0xABAB, [0x13DB]); (0xABAC, [0x13DC]); (0xABAD, [0x13DD]);
    (0xABAE, [0x13DE]); (0xABAF, [0x13DF]); (0xABB0, [0x13E0]); (0xABB1, [0x13E1]); (0xABB2,
    [0x13E2]); (0xABB3, [0x13E3]); (0xABB4, [0x13E4]); (0xABB5, [0x13E5]); (0xABB6, [0x13E6]);
    (0xABB7, [0x13E7]); (0xABB8, [0x13E8]); (0xABB9, [0x13E9]); (0xABBA, [0x13EA]); (0xABBB,
    [0x13EB]); (0xABBC, [0x13EC]); (0xABBD, [0x13ED]); (0xABBE, [0x13EE]); (0xABBF, [0x13EF]);
    (0xFB00, [0x46; 0x46]); (0xFB01, [0x46; 0x49]); (0xFB02, [0x46; 0x4C]); (0xFB03, [0x46; 0x46;
    0x49]); (0xFB04, [0x46; 0x46; 0x4C]); (0xFB05, [0x53; 0x54]); (0xFB06, [0x53; 0x54]); (0xFB13,
    [0x544; 0x546]); (0xFB14, [0x544; 0x535]); (0xFB15, [0x544; 0x53B]); (0xFB16, [0x54E; 0x546]);
    (0xFB17, [0x544; 0x53D]); (0xFF41, [0xFF21]); (0xFF42, [0xFF22]); (0xFF43, [0xFF23]); (0xFF44,
    [0xFF24]); (0xFF45, [0xFF25]); (0xFF46, [0xFF26]); (0xFF47, [0xFF27]); (0xFF48, [0xFF28]);
    (0xFF49, [0xFF29]); (0xFF4A, [0xFF2A]); (0xFF4B, [0xFF2B]); (0xFF4C, [0xFF2C]); (0xFF4D,
    [0xFF2D]); (0xFF4E, [0xFF2E]); (0xFF4F, [0xFF2F]); (0xFF50, [0xFF30]); (0xFF51, [0xFF31]);
    (0xFF52, [0xFF32]); (0xFF53, [0xFF33]); (0xFF54, [0xFF34]); (0xFF55, [0xFF35]); (0xFF56,
    [0xFF36]); (0xFF57, [0xFF37]); (0xFF58, [0xFF38]); (0xFF59, [0xFF39]); (0xFF5A, [0xFF3A]);
    (0x10428, [0x10400]); (0x10429, [0x10401]); (0x1042A, [0x10402]); (0x1042B, [0x10403]);
    (0x1042C, [0x10404]); (0x1042D, [0x10405]); (0x1042E, [0x10406]); (0x1042F, [0x10407]);
    (0x10430, [0x10408]); (0x10431, [0x10409]); (0x10432, [0x1040A]); (0x10433, [0x1040B]);
    (0x10434, [0x1040C]); (0x10435, [0x1040D]); (0x10436, [0x1040E]); (0x10437, [0x1040F]);
    (0x10438, [0x10410]); (0x10439, [0x10411]); (0x1043A, [0x10412]); (0x1043B, [0x10413]);
    (0x1043C, [0x10414]); (0x1043D, [0x10415]); (0x1043E, [0x10416]); (0x1043F, [0x10417]);
    (0x10440, [0x10418]); (0x10441, [0x10419]); (0x10442, [0x1041A]); (0x10443, [0x1041B]);
    (0x10444, [0x1041C]); (0x10445, [0x1041D]); (0x10446, [0x1041E]); (0x10447, [0x1041F]);
    (0x10448, [0x10420]); (0x10449, [0x10421]); (0x1044A, [0x10422]); (0x1044B, [0x10423]);
    (0x1044C, [0x10424]); (0x1044D, [0x10425]); (0x1044E, [0x10426]); (0x1044F, [0x10427]);
    (0x104D8, [0x104B0]); (0x104D9, [0x104B1]); (0x104DA, [0x104B2]); (0x104DB, [0x104B3]);
    (0x104DC, [0x104B4]); (0x104DD, [0x104B5]); (0x104DE, [0x104B6]); (0x104DF, [0x104B7]);
    (0x104E0, [0x104B8]); (0x104E1, [0x104B9]); (0x104E2, [0x104BA]); (0x104E3, [0x104BB]);
    (0x104E4, [0x104BC]); (0x104E5, [0x104BD]); (0x104E6, [0x104BE]); (0x104E7, [0x104BF]);
    (0x104E8, [0x104C0]); (0x104E9, [0x104C1]); (0x104EA, [0x104C2]); (0x104EB, [0x104C3]);
    (0x104EC, [0x104C4]); (0x104ED, [0x104C5]); (0x104EE, [0x104C6]); (0x104EF, [0x104C7]);
    (0x104F0, [0x104C8]); (0x104F1, [0x104C9]); (0x104F2, [0x104CA]); (0x104F3, [0x104CB]);
    (0x104F4, [0x104CC]); (0x104F5, [0x104CD]); (0x104F6, [0x104CE]); (0x104F7, [0x104CF]);
    (0x104F8, [0x104D0]); (0x104F9, [0x104D1]); (0x104FA, [0x104D2]); (0x104FB, [0x104D3]);
    (0x10597, [0x10570]); (0x10598, [0x10571]); (0x10599, [0x10572]); (0x1059A, [0x10573]);
    (0x1059B, [0x10574]); (0x1059C, [0x10575]); (0x1059D, [0x10576]); (0x1059E, [0x10577]);
    (0x1059F, [0x10578]); (0x105A0, [0x10579]); (0x105A1, [0x1057A]); (0x105A3, [0x1057C]);
    (0x105A4, [0x1057D]); (0x105A5, [0x1057E]); (0x105A6, [0x1057F]); (0x105A7, [0x10580]);
    (0x105A8, [0x10581]); (0x105A9, [0x10582]); (0x105AA, [0x10583]); (0x105AB, [0x10584]);
    (0x105AC, [0x10585]); (0x105AD, [0x10586]); (0x105AE, [0x10587]); (0x105AF, [0x10588]);
    (0x105B0, [0x10589]); (0x105B1, [0x1058A]); (0x105B3, [0x1058C]); (0x105B4, [0x1058D]);
    (0x105B5, [0x1058E]); (0x105B6, [0x1058F]); (0x105B7, [0x10590]); (0x105B8, [0x10591]);
    (0x105B9, [0x10592]); (0x105BB, [0x10594]); (0x105BC, [0x10595]); (0x10CC0, [0x10C80]);
    (0x10CC1, [0x10C81]); (0x10CC2, [0x10C82]); (0x10CC3, [0x10C83]); (0x10CC4, [0x10C84]);
    (0x10CC5, [0x10C85]); (0x10CC6, [0x10C86]); (0x10CC7, [0x10C87]); (0x10CC8, [0x10C88]);
    (0x10CC9, [0x10C89]); (0x10CCA, [0x10C8A]); (0x10CCB, [0x10C8B]); (0x10CCC, [0x10C8C]);
    (0x10CCD, [0x10C8D]); (0x10CCE, [0x10C8E]); (0x10CCF, [0x10C8F]); (0x10CD0, [0x10C90]);
    (0x10CD1, [0x10C91]); (0x10CD2, [0x10C92]); (0x10CD3, [0x10C93]); (0x10CD4, [0x10C94]);
    (0x10CD5, [0x10C95]); (0x10CD6, [0x10C96]); (0x10CD7, [0x10C97]); (0x10CD8, [0x10C98]);
    (0x10CD9, [0x10C99]); (0x10CDA, [0x10C9A]); (0x10CDB, [0x10C9B]); (0x10CDC, [0x10C9C]);
    (0x10CDD, [0x10C9D]); (0x10CDE, [0x10C9E]); (0x10CDF, [0x10C9F]); (0x10CE0, [0x10CA0]);
    (0x10CE1, [0x10CA1]); (0x10CE2, [0x10CA2]); (0x10CE3, [0x10CA3]); (0x10CE4, [0x10CA4]);
    (0x10CE5, [0x10CA5]); (0x10CE6, [0x10CA6]); (0x10CE7, [0x10CA7]); (0x10CE8, [0x10CA8]);
    (0x10CE9, [0x10CA9]); (0x10CEA, [0x10CAA]); (0x10CEB, [0x10CAB]); (0x10CEC, [0x10CAC]);
    (0x10CED, [0x10CAD]); (0x10CEE, [0x10CAE]); (0x10CEF, [0x10CAF]); (0x10CF0, [0x10CB0]);
    (0x10CF1, [0x10CB1]); (0x10CF2, [0x10CB2]); (0x118C0, [0x118A0]); (0x118C1, [0x118A1]);
    (0x118C2, [0x118A2]); (0x118C3, [0x118A3]); (0x118C4, [0x118A4]); (0x118C5, [0x118A5]);
    (0x118C6, [0x118A6]); (0x118C7, [0x118A7]); (0x118C8, [0x118A8]); (0x118C9, [0x118A9]);
    (0x118CA, [0x118AA]); (0x118CB, [0x118AB]); (0x118CC, [0x118AC]); (0x118CD, [0x118AD]);
    (0x118CE, [0x118AE]); (0x118CF, [0x118AF]); (0x118D0, [0x118B0]); (0x118D1, [0x118B1]);
    (0x118D2, [0x118B2]); (0x118D3, [0x118B3]); (0x118D4, [0x118B4]); (0x118D5, [0x118B5]);
    (0x118D6, [0x118B6]); (0x118D7, [0x118B7]); (0x118D8, [0x118B8]); (0x118D9, [0x118B9]);
    (0x118DA, [0x118BA]); (0x118DB, [0x118BB]); (0x118DC, [0x118BC]); (0x118DD, [0x118BD]);
    (0x118DE, [0x118BE]); (0x118DF, [0x118BF]); (0x16E60, [0x16E40]); (0x16E61, [0x16E41]);
    (0x16E62, [0x16E42]); (0x16E63, [0x16E43]); (0x16E64, [0x16E44]); (0x16E65, [0x16E45]);
    (0x16E66, [0x16E46]); (0x16E67, [0x16E47]); (0x16E68, [0x16E48]); (0x16E69, [0x16E49]);
    (0x16E6A, [0x16E4A]); (0x16E6B, [0x16E4B]); (0x16E6C, [0x16E4C]); (0x16E6D, [0x16E4D]);
    (0x16E6E, [0x16E4E]); (0x16E6F, [0x16E4F]); (0x16E70, [0x16E50]); (0x16E71, [0x16E51]);
    (0x16E72, [0x16E52]); (0x16E73, [0x16E53]); (0x16E74, [0x16E54]); (0x16E75, [0x16E55]);
    (0x16E76, [0x16E56]); (0x16E77, [0x16E57]); (0x16E78, [0x16E58]); (0x16E79, [0x16E59]);
    (0x16E7A, [0x16E5A]); (0x16E7B, [0x16E5B]); (0x16E7C, [0x16E5C]); (0x16E7D, [0x16E5D]);
    (0x16E7E, [0x16E5E]); (0x16E7F, [0x16E5F]); (0x1E922, [0x1E900]); (0x1E923, [0x1E901]);
    (0x1E924, [0x1E902]); (0x1E925, [0x1E903]); (0x1E926, [0x1E904]); (0x1E927, [0x1E905]);
    (0x1E928, [0x1E906]); (0x1E929, [0x1E907]); (0x1E92A, [0x1E908]); (0x1E92B, [0x1E909]);
    (0x1E92C, [0x1E90A]); (0x1E92D, [0x1E90B]); (0x1E92E, [0x1E90C]); (0x1E92F, [0x1E90D]);
    (0x1E930, [0x1E90E]); (0x1E931, [0x1E90F]); (0x1E932, [0x1E910]); (0x1E933, [0x1E911]);
    (0x1E934, [0x1E912]); (0x1E935, [0x1E913]); (0x1E936, [0x1E914]); (0x1E937, [0x1E915]);
    (0x1E938, [0x1E916]); (0x1E939, [0x1E917]); (0x1E93A, [0x1E918]); (0x1E93B, [0x1E919]);
    (0x1E93C, [0x1E91A]); (0x1E93D, [0x1E91B]); (0x1E93E, [0x1E91C]); (0x1E93F, [0x1E91D]);
    (0x1E940, [0x1E91E]); (0x1E941, [0x1E91F]); (0x1E942, [0x1E920]); (0x1E943, [0x1E921]) ].

(** ** UTF-16 *)

Definition is_high_surrogate (c : Z) : bool := (0xD800 <=? c) && (c <=? 0xDBFF).

Definition is_low_surrogate (c : Z) : bool := (0xDC00 <=? c) && (c <=? 0xDFFF).

(** The code points of a string: a high surrogate followed by a low one is
    one supplementary code point, every other code unit (a lone surrogate
    too) is a code point of its own. *)
Fixpoint code_points (s : jsstring) : list Z :=
  match s with
  | [] => []
  | h :: t =>
      match t with
      | l :: t' =>
          if is_high_surrogate h && is_low_surrogate l
          then (0x10000 + (h - 0xD800) * 0x400 + (l - 0xDC00)) :: code_points t'
          else h :: code_points t
      | [] => [h]
      end
  end.

Definition code_units_of (c : Z) : jsstring :=
  if (0x10000 <=? c) && (c <=? 0x10FFFF)
  then [0xD800 + (c - 0x10000) / 0x400; 0xDC00 + (c - 0x10000) mod 0x400]
  else [c].

Definition code_units (l : list Z) : jsstring := flat_map code_units_of l.

(** ** [String.prototype.normalize("NFD")] *)

Fixpoint assoc {A : Type} (c : Z) (t : list (Z * A)) : option A :=
  match t with
  | [] => None
  | (k, v) :: t' => if k =? c then Some v else assoc c t'
  end.

Definition in_ranges (c : Z) (t : list (Z * Z)) : bool :=
  existsb (fun r => (fst r <=? c) && (c <=? snd r)) t.

(** Hangul syllables decompose arithmetically (Unicode, section 3.12). *)
Definition hangul_decomposition (c : Z) : option (list Z) :=
  if (0xAC00 <=? c) && (c <=? 0xD7A3)
  then
    let s := c - 0xAC00 in
    let l := 0x1100 + s / 588 in
    let v := 0x1161 + (s mod 588) / 28 in
    let t := s mod 28 in
    Some (if t =? 0 then [l; v] else [l; v; 0x11A7 + t])
  else None.

Definition canonical_decomposition (c : Z) : list Z :=
  match hangul_decomposition c with
  | Some l => l
  | None =>
      match assoc c canonical_decomposition_table with
      | Some l => l
      | None => [c]
      end
  end.

Fixpoint combining_class_in (c : Z) (t : list (Z * Z * Z)) : Z :=
  match t with
  | [] => 0
  | (lo, hi, k) :: t' => if (lo <=? c) && (c <=? hi) then k else combining_class_in c t'
  end.

Definition combining_class (c : Z) : Z := combining_class_in c combining_class_table.

(** Canonical ordering: two adjacent characters are exchanged when the
    class of the first is greater than that of the second and the class of
    the second is not zero.  [canonical_insert c l] puts [c] in front of
    [l], which is in order, and moves it behind the characters it has to be
    exchanged with. *)
Fixpoint canonical_insert (c : Z) (l : list Z) : list Z :=
  match l with
  | [] => [c]
  | d :: r =>
      if (0 <? combining_class d) && (combining_class d <? combining_class c)
      then d :: canonical_insert c r
      else c :: l
  end.

Definition canonical_ordering (l : list Z) : list Z := fold_right canonical_insert [] l.

Definition nfd_code_points (l : list Z) : list Z :=
  canonical_ordering (flat_map canonical_decomposition l).

Definition nfd (s : jsstring) : jsstring := code_units (nfd_code_points (code_points s)).

(** ** Regular expressions

    The expressions of the module are sequences of character classes, each
    taken once, or zero or more times ([*]), or one or more times ([+]);
    repetition is greedy and gives characters back when the rest of the
    expression does not match. *)

Inductive atom : Type :=
  | Chr (p : Z -> bool)
  | Star (p : Z -> bool)
  | Plus (p : Z -> bool).

Definition regex : Type := list atom.

(** [match_star p k s]: the longest run of [p] at the head of [s] after
    which [k] matches, tried from the longest to the empty one; the result
    is what is left of the string behind the match. *)
Fixpoint match_star (p : Z -> bool) (k : jsstring -> option jsstring) (s : jsstring)
  : option jsstring :=
  match s with
  | [] => k s
  | c :: t =>
      if p c
      then match match_star p k t with
           | Some rest => Some rest
           | None => k s
           end
      else k s
  end.

Fixpoint match_here (r : regex) (s : jsstring) : option jsstring :=
  match r with
  | [] => Some s
  | Chr p :: r' =>
      match s with
      | c :: t => if p c then match_here r' t else None
      | [] => None
      end
  | Star p :: r' => match_star p (match_here r') s
  | Plus p :: r' =>
      match s with
      | c :: t => if p c then match_star p (match_here r') t else None
      | [] => None
      end
  end.

(** [str.replace(/r/g, repl)]: every match, found from the left and past
    the previous one, is replaced; [skip] counts the characters of the
    current match still to drop. *)
Fixpoint replace_from (r : regex) (repl : jsstring) (skip : nat) (s : jsstring) : jsstring :=
  match skip with
  | S n =>
      match s with
      | _ :: t => replace_from r repl n t
      | [] => []
      end
  | O =>
      match match_here r s with
      | Some rest =>
          match s with
          | c :: t =>
              match (length s - length rest)%nat with
              | O => repl ++ c :: replace_from r repl O t
              | S m => repl ++ replace_from r repl m t
              end
          | [] => repl
          end
      | None =>
          match s with
          | c :: t => c :: replace_from r repl O t
          | [] => []
          end
      end
  end.

Definition replace_all (r : regex) (repl : jsstring) (s : jsstring) : jsstring :=
  replace_from r repl O s.

(** [str.replace(pattern, repl)] with a string pattern replaces its first
    occurrence only. *)
Fixpoint strip_prefix (p s : jsstring) : option jsstring :=
  match p with
  | [] => Some s
  | a :: p' =>
      match s with
      | c :: t => if a =? c then strip_prefix p' t else None
      | [] => None
      end
  end.

Fixpoint replace_first (p repl s : jsstring) : jsstring :=
  match strip_prefix p s with
  | Some rest => repl ++ rest
  | None =>
      match s with
      | c :: t => c :: replace_first p repl t
      | [] => []
      end
  end.

Inductive pattern : Type :=
  | Global (r : regex)
  | Literal (p : jsstring).

Definition String_replace (pat : pattern) (repl : jsstring) (s : jsstring) : jsstring :=
  match pat with
  | Global r => replace_all r repl s
  | Literal p => replace_first p repl s
  end.

(** *** Character classes *)

Definition between (lo hi c : Z) : bool := (lo <=? c) && (c <=? hi).

(** [\s]: WhiteSpace and LineTerminator of ECMAScript. *)
Definition is_white_space (c : Z) : bool :=
  between 0x09 0x0D c || (c =? 0x20) || (c =? 0xA0) || (c =? 0x1680)
  || between 0x2000 0x200A c || (c =? 0x2028) || (c =? 0x2029) || (c =? 0x202F)
  || (c =? 0x205F) || (c =? 0x3000) || (c =? 0xFEFF).

(** [\w] is [A-Za-z0-9_] (the expressions have neither the [u] nor the [i]
    flag), [\W] its complement. *)
Definition is_word (c : Z) : bool :=
  between 0x41 0x5A c || between 0x61 0x7A c || between 0x30 0x39 c || (c =? 0x5F).

Definition is_non_word (c : Z) : bool := negb (is_word c).

(** [[\u0300-\u036f]] *)
Definition is_combining_mark (c : Z) : bool := between 0x300 0x36F c.

(** [[\s\W_]] *)
Definition is_separator (c : Z) : bool := is_white_space c || is_non_word c || (c =? 0x5F).

(** [[0-9;?]], [[ -/]] and [[@-~]] *)
Definition is_parameter (c : Z) : bool := between 0x30 0x39 c || (c =? 0x3B) || (c =? 0x3F).

Definition is_intermediate (c : Z) : bool := between 0x20 0x2F c.

Definition is_final (c : Z) : bool := between 0x40 0x7E c.

(** ** [trim], [toLowerCase], [padEnd], [repeat], [join] *)

Fixpoint trimStart (s : jsstring) : jsstring :=
  match s with
  | [] => []
  | c :: t => if is_white_space c then trimStart t else s
  end.

Definition trimEnd (s : jsstring) : jsstring := rev (trimStart (rev s)).

Definition trim (s : jsstring) : jsstring := trimEnd (trimStart s).

Definition cased (c : Z) : bool := in_ranges c cased_table.

Definition case_ignorable (c : Z) : bool := in_ranges c case_ignorable_table.

(** Some case-ignorable characters and then a cased letter; the repetition
    is possessive (Unicode, section 3.13): a case-ignorable character is
    passed over even when it is cased. *)
Fixpoint cased_letter_ahead (l : list Z) : bool :=
  match l with
  | [] => false
  | c :: t => if case_ignorable c then cased_letter_ahead t else cased c
  end.

(** The condition Final_Sigma of SpecialCasing.txt: a cased letter and
    case-ignorable characters before, no case-ignorable characters and a
    cased letter behind. *)
Definition final_sigma (rev_before after : list Z) : bool :=
  cased_letter_ahead rev_before && negb (cased_letter_ahead after).

Definition lower_code_point (c : Z) : list Z :=
  match assoc c lowercase_table with
  | Some l => l
  | None => [c]
  end.

Fixpoint lower_from (rev_before : list Z) (l : list Z) : list Z :=
  match l with
  | [] => []
  | c :: after =>
      (if (c =? 0x3A3) && final_sigma rev_before after then [0x3C2] else lower_code_point c)
      ++ lower_from (c :: rev_before) after
  end.

Definition toLowerCase (s : jsstring) : jsstring :=
  code_units (lower_from [] (code_points s)).

Definition repeat_string (s : jsstring) (n : Z) : jsstring :=
  concat (repeat s (Z.to_nat n)).

Definition padEnd (s : jsstring) (target : Z) : jsstring :=
  s ++ repeat_string (js " ") (target - len s).

Fixpoint join (sep : jsstring) (l : list jsstring) : jsstring :=
  match l with
  | [] => []
  | [x] => x
  | x :: t => x ++ sep ++ join sep t
  end.

(** The elements of an array with their indices, for the callbacks of
    [map] that take both. *)
Definition indexed {A : Type} (l : list A) : list (A * nat) := combine l (seq 0 (length l)).

Definition mapi {A B : Type} (f : A -> nat -> B) (l : list A) : list B :=
  map (fun xi => f (fst xi) (snd xi)) (indexed l).

(** ** The functions of [StringUtils] *)

(** [UnknownString]: [undefined | null | string]; [NonString] stands for a
    value of another type, which the [typeof] test of [validate] rejects. *)
Inductive UnknownString : Type :=
  | Undefined
  | Null
  | Str (s : jsstring)
  | NonString (n : Z).

(** What a call completes with: a value, or a thrown exception. *)
Inductive exception : Type :=
  | Error (message : jsstring)
  | TypeError (message : jsstring).

Inductive completion (A : Type) : Type :=
  | Normal (a : A)
  | Throw (e : exception).

Arguments Normal {A} a.
Arguments Throw {A} e.

Definition bind {A B : Type} (c : completion A) (f : A -> completion B) : completion B :=
  match c with
  | Normal a => f a
  | Throw e => Throw e
  end.

Notation "x <- c ;; k" := (bind c (fun x => k))
  (at level 61, c at next level, right associativity).

(** [arr.map(f)] with a callback that may throw: the elements are visited
    from the first to the last and the first exception ends the call. *)
Fixpoint map_throwing {A B : Type} (f : A -> completion B) (l : list A) : completion (list B) :=
  match l with
  | [] => Normal []
  | x :: t =>
      y <- f x ;;
      ys <- map_throwing f t ;;
      Normal (y :: ys)
  end.

Definition mapi_throwing {A B : Type} (f : A -> nat -> completion B) (l : list A)
  : completion (list B) :=
  map_throwing (fun xi => f (fst xi) (snd xi)) (indexed l).

Definition string_eqb (a b : jsstring) : bool :=
  if list_eq_dec Z.eq_dec a b then true else false.

(** [String(e)]: the name of the error and its message, the name alone
    for an empty message. *)
Definition String_of_exception (e : exception) : jsstring :=
  let name := match e with Error _ => js "Error" | TypeError _ => js "TypeError" end in
  let message := match e with Error message => message | TypeError message => message end in
  match message with
  | [] => name
  | _ => name ++ js ": " ++ message
  end.

Definition removeWhitespace (str : jsstring) : jsstring :=
  String_replace (Global [Plus is_white_space]) [] str.

(** The expression of [stripCliColors], with the class of its first
    repetition left open. *)
Definition escape_regex (parameter : Z -> bool) : regex :=
  [Chr (Z.eqb 0x1B); Chr (Z.eqb 0x5B); Star parameter; Star is_intermediate; Chr is_final].

Definition stripCliColors (str : jsstring) : jsstring :=
  String_replace (Global (escape_regex is_parameter)) [] str.

Definition normalize (str : jsstring) (strict stripColors : bool) : jsstring :=
  let normalizedStr :=
    String_replace (if strict then Global [Chr is_separator] else Literal []) []
      (toLowerCase
         (trim
            (String_replace (Global [Plus is_white_space]) (js " ")
               (String_replace (Global [Chr is_combining_mark]) []
                  (nfd str))))) in
  if stripColors then stripCliColors normalizedStr else normalizedStr.

Definition validate (str : UnknownString) : bool :=
  match str with
  | Undefined => false
  | Null => false
  | NonString _ => false
  | Str s => if string_eqb (normalize s false false) [] then false else true
  end.

(** The [TypeError] of a call of the method [name] of a value that is not
    a string, with the message of V8. *)
Definition not_a_string (str : UnknownString) (name : string) : exception :=
  match str with
  | Undefined =>
      TypeError (js "Cannot read properties of undefined (reading '" ++ js name ++ js "')")
  | Null => TypeError (js "Cannot read properties of null (reading '" ++ js name ++ js "')")
  | _ => TypeError (js "str." ++ js name ++ js " is not a function")
  end.

(** [normalize] called on what [filter] kept; on a value that is not a
    string the call of [str.normalize] would throw. *)
Definition normalize_unknown (str : UnknownString) (strict stripColors : bool)
  : completion jsstring :=
  match str with
  | Str s => Normal (normalize s strict stripColors)
  | _ => Throw (not_a_string str "normalize")
  end.

Definition normalizeArray (strArr : list UnknownString) : completion (list jsstring) :=
  let validated := filter validate strArr in
  map_throwing (fun str => normalize_unknown str false false) validated.

Definition strictlyNormalizeArray (strArr : list UnknownString) : completion (list jsstring) :=
  let validated := filter validate strArr in
  map_throwing (fun str => normalize_unknown str true true) validated.

(** *** [sortAlphabetically]

    Arrays are objects: a store maps each reference to the elements of its
    array, and [toSorted] allocates the array it returns.  [localeCompare]
    is the collation of the host, a parameter here. *)

Fixpoint sorted_insert {A : Type} (le : A -> A -> bool) (x : A) (l : list A) : list A :=
  match l with
  | [] => [x]
  | y :: t => if le x y then x :: l else y :: sorted_insert le x t
  end.

(** A stable sort by insertion: an element stays before the later elements
    it is not greater than. *)
Definition stable_sort {A : Type} (le : A -> A -> bool) (l : list A) : list A :=
  fold_right (sorted_insert le) [] l.

(** [toSorted(cmp)] sorts a copy, stably; [a] stays before [b] when
    [cmp(a, b) <= 0]. *)
Definition toSorted (cmp : jsstring -> jsstring -> Z) (l : list jsstring) : list jsstring :=
  stable_sort (fun a b => cmp a b <=? 0) l.

Definition store : Type := list (list jsstring).

Definition array_ref : Type := nat.

Definition elements (h : store) (r : array_ref) : list jsstring := nth r h [].

Definition allocate (h : store) (l : list jsstring) : array_ref * store :=
  (length h, h ++ [l]).

Definition sortAlphabetically (localeCompare : jsstring -> jsstring -> Z)
  (strArr : array_ref) (h : store) : array_ref * store :=
  allocate h
    (toSorted
       (fun a b => localeCompare (normalize a false false) (normalize b false false))
       (elements h strArr)).

(** *** Numbers

    A Number is a binary64 value of IEEE 754: the type [spec_float] of the
    Standard Library, the values of which with [valid_binary 53 1024] are
    the Numbers. *)
Definition number : Type := spec_float.

(** The Number of an integer literal: the integer, rounded to nearest. *)
Definition Number_of_Z (n : Z) : number := binary_normalize 53 1024 n 0 false.

Definition power (b : Z) (a : Z) : Q := Qpower (inject_Z b) a.

Definition Qltb (a b : Q) : bool := negb (Qle_bool b a).

(** The real numbers that round to the Number [m * 2^e], to nearest and
    with ties to the even mantissa: those between the middle of the Number
    and its predecessor and the middle of the Number and its successor. *)
Definition rounds_to (m : positive) (e : Z) (q : Q) : bool :=
  let v := (inject_Z (Zpos m) * power 2 e)%Q in
  let below :=
    if Pos.eqb m (2 ^ 52) && (-1074 <? e) then power 2 (e - 2) else power 2 (e - 1) in
  let above := power 2 (e - 1) in
  if Z.even (Zpos m)
  then Qle_bool (v - below)%Q q && Qle_bool q (v + above)%Q
  else Qltb (v - below)%Q q && Qltb q (v + above)%Q.

(** The decimals [s * 10^(n - k)] of [k] digits, for one [n], that round
    to the Number: at most the two around it. *)
Definition decimals (m : positive) (e : Z) (k n : Z) : list (Z * Z) :=
  let v := (inject_Z (Zpos m) * power 2 e)%Q in
  let s := Qfloor (v / power 10 (n - k))%Q in
  filter (fun sn =>
            (10 ^ (k - 1) <=? fst sn) && (fst sn <? 10 ^ k)
            && rounds_to m e (inject_Z (fst sn) * power 10 (n - k))%Q)
         [(s, n); (s + 1, n)].

Definition distance (m : positive) (e : Z) (k : Z) (sn : Z * Z) : Q :=
  Qabs (inject_Z (fst sn) * power 10 (snd sn - k) - inject_Z (Zpos m) * power 2 e)%Q.

(** The decimal nearest to the Number, the even one of two at the same
    distance. *)
Fixpoint nearest (m : positive) (e : Z) (k : Z) (l : list (Z * Z)) : option (Z * Z) :=
  match l with
  | [] => None
  | sn :: t =>
      match nearest m e k t with
      | None => Some sn
      | Some best =>
          if Qltb (distance m e k sn) (distance m e k best) then Some sn
          else if Qltb (distance m e k best) (distance m e k sn) then Some best
          else if Z.even (fst sn) then Some sn else Some best
      end
  end.

(** The integers [n], [k] and [s] of Number::toString: [s * 10^(n - k)]
    rounds to the Number, with [k] digits in [s] and [k] as small as
    possible.  [n] is looked for around the decimal logarithm of the
    Number, and [k] from 1 on: 17 digits tell any two Numbers apart. *)
Fixpoint shortest (m : positive) (e : Z) (fuel : nat) (k : Z) : option (Z * Z * Z) :=
  match fuel with
  | O => None
  | S fuel' =>
      let magnitude := (e + Z.log2 (Zpos m) + 1) * 30103 / 100000 in
      match nearest m e k
              (flat_map (fun d => decimals m e k (magnitude + d)) [-2; -1; 0; 1; 2; 3]) with
      | Some (s, n) => Some (n, k, s)
      | None => shortest m e fuel' (k + 1)
      end
  end.

Definition digits (s : Z) : jsstring := js (NilZero.string_of_int (Z.to_int s)).

Definition zeros (n : Z) : jsstring := repeat 0x30 (Z.to_nat n).

Definition Number_toString_positive (m : positive) (e : Z) : jsstring :=
  match shortest m e 17 1 with
  | None => []
  | Some (n, k, s) =>
      if (-5 <=? n) && (n <=? 21)
      then if k <=? n then digits s ++ zeros (n - k)
           else if 0 <? n
                then firstn (Z.to_nat n) (digits s) ++ js "." ++ skipn (Z.to_nat n) (digits s)
                else js "0." ++ zeros (- n) ++ digits s
      else
        let exponent :=
          js "e" ++ (if n <? 0 then js "-" else js "+") ++ digits (Z.abs (n - 1)) in
        if k =? 1 then digits s ++ exponent
        else firstn 1 (digits s) ++ js "." ++ skipn 1 (digits s) ++ exponent
  end.

(** Number::toString(x, 10) *)
Definition Number_toString (x : number) : jsstring :=
  match x with
  | S754_nan => js "NaN"
  | S754_zero _ => js "0"
  | S754_infinity negative => (if negative then js "-" else []) ++ js "Infinity"
  | S754_finite negative m e =>
      (if negative then js "-" else []) ++ Number_toString_positive m e
  end.

(** *** [table] *)

(** The values of a record, [string | number | unknown[]], and what an
    array can hold or a property can be read as: booleans, [null],
    [undefined], symbols (with their descriptions, empty for none),
    functions (with their source texts) and plain objects.  Objects with
    a [toString] of their own, which is code of the caller, are left
    out. *)
Inductive value : Type :=
  | VStr (s : jsstring)
  | VNum (x : number)
  | VBool (b : bool)
  | VArr (l : list value)
  | VNull
  | VUndefined
  | VSymbol (description : jsstring)
  | VFunction (source : jsstring)
  | VObject.

(** A record, as the list of its own properties in the order of
    [Object.keys]. *)
Definition record : Type := list (jsstring * value).

(** The message of the [TypeError] of a symbol converted to a string. *)
Definition symbol_message : jsstring := js "Cannot convert a Symbol value to a string".

(** The string of an element inside [Array.prototype.join]: the empty
    string for [null] and [undefined], and ToString for another element,
    which throws for a symbol and joins the elements of an array. *)
Fixpoint element_string (v : value) : completion jsstring :=
  match v with
  | VStr s => Normal s
  | VNum x => Normal (Number_toString x)
  | VBool b => Normal (if b then js "true" else js "false")
  | VArr l =>
      strings <- map_throwing element_string l ;;
      Normal (join (js ",") strings)
  | VNull => Normal []
  | VUndefined => Normal []
  | VSymbol _ => Throw (TypeError symbol_message)
  | VFunction source => Normal source
  | VObject => Normal (js "[object Object]")
  end.

(** [v.toString()] *)
Definition toString (v : value) : completion jsstring :=
  match v with
  | VNull => Throw (TypeError (js "Cannot read properties of null (reading 'toString')"))
  | VUndefined =>
      Throw (TypeError (js "Cannot read properties of undefined (reading 'toString')"))
  | VSymbol description => Normal (js "Symbol(" ++ description ++ js ")")
  | _ => element_string v
  end.

(** [v?.toString() ?? ''] *)
Definition cell_string (v : value) : completion jsstring :=
  match v with
  | VNull => Normal []
  | VUndefined => Normal []
  | _ => toString v
  end.

(** [!v] *)
Definition falsy (v : value) : bool :=
  match v with
  | VStr s => string_eqb s []
  | VNum (S754_zero _) => true
  | VNum S754_nan => true
  | VNum _ => false
  | VBool b => negb b
  | VNull => true
  | VUndefined => true
  | VSymbol _ => false
  | VArr _ => false
  | VFunction _ => false
  | VObject => false
  end.

Fixpoint own_property (row : record) (key : jsstring) : option value :=
  match row with
  | [] => None
  | (k, v) :: t => if string_eqb k key then Some v else own_property t key
  end.

(** [Object.entries(row)] *)
Definition Object_entries (row : record) : value :=
  VArr (map (fun e => VArr [VStr (fst e); snd e]) row).

(** [`${Object.entries(row)}`] *)
Definition entries_string (row : record) : completion jsstring :=
  element_string (Object_entries row).

Definition Math_max (x : Z) (l : list Z) : Z := fold_left Z.max l x.

Definition chars_y : jsstring := js " " ++ [0x2502] ++ js " ".
Definition chars_x : jsstring := [0x2500].
Definition chars_full : jsstring := [0x253C].
Definition chars_xDown : jsstring := [0x252C].
Definition chars_xUp : jsstring := [0x2534].
Definition chars_yLeft : jsstring := [0x251C].
Definition chars_yRight : jsstring := [0x2524].
Definition chars_xlUp : jsstring := [0x250C].
Definition chars_xlDown : jsstring := [0x2514].
Definition chars_xrUp : jsstring := [0x2510].
Definition chars_xrDown : jsstring := [0x2518].

(** [Object.keys(strArr[0])] *)
Definition headers_of (strArr : list record) : list jsstring :=
  match strArr with
  | [] => []
  | first :: _ => map fst first
  end.

Definition fmtCell (widths : list Z) (value : jsstring) (index : nat) : jsstring :=
  let diff := len (trim value) - len (normalize value false true) in
  match nth_error widths index with
  | Some w => padEnd (trim value) (w + diff)
  | None => trim value
  end.

Definition createSeparator (widths : list Z) (left middle right : jsstring) : jsstring :=
  left ++ join middle (map (fun w => repeat_string chars_x (w + 2)) widths) ++ right.

Definition inconsistent_row_message (row : record) : completion jsstring :=
  entries <- entries_string row ;;
  Normal (js "Unable to represent data. Row " ++ entries
          ++ js " is not consistent with the rest of the table.").

Section Records.

(** The properties that a record inherits: those of [Object.prototype],
    which are the host's. *)
Variable Object_prototype : record.

(** [row[header]]: the property of the record, its own or the one it
    inherits, and [undefined] without one. *)
Definition get (row : record) (header : jsstring) : value :=
  match own_property row header with
  | Some v => v
  | None =>
      match own_property Object_prototype header with
      | Some v => v
      | None => VUndefined
      end
  end.

Definition columnWidths (strArr : list record) : completion (list Z) :=
  map_throwing
    (fun header =>
       lengths <- map_throwing
                    (fun row =>
                       str <- cell_string (get row header) ;;
                       let strLength := len (normalize str false true) in
                       Normal (strLength + 1))
                    strArr ;;
       Normal (Math_max (len header) lengths))
    (headers_of strArr).

(** The test of a cell: [!row[header]], or [!this.validate(str)] for the
    string [str] of the cell. *)
Definition cell_rejected (row : record) (header : jsstring) : completion bool :=
  if falsy (get row header) then Normal true
  else
    str <- cell_string (get row header) ;;
    Normal (negb (validate (Str str))).

Definition format_row (widths : list Z) (headers : list jsstring) (row : record)
  : completion jsstring :=
  cells <- mapi_throwing
             (fun header i =>
                rejected <- cell_rejected row header ;;
                if rejected
                then
                  message <- inconsistent_row_message row ;;
                  Throw (Error message)
                else
                  value <- toString (get row header) ;;
                  Normal (fmtCell widths value i))
             headers ;;
  Normal (join chars_y cells).

(** [table]: the widths of the columns are computed, and the cells turned
    into strings for them, before the [try] block. *)
Definition table (strArr : list record) : completion jsstring :=
  if (length strArr =? 0)%nat then Normal (js "No data to display.")
  else
    let headers := headers_of strArr in
    widths <- columnWidths strArr ;;
    let separators_middle := createSeparator widths chars_yLeft chars_full chars_yRight in
    let separators_top := createSeparator widths chars_xlUp chars_xDown chars_xrUp in
    let separators_bottom := createSeparator widths chars_xlDown chars_xUp chars_xrDown in
    let headerRow :=
      trimStart chars_y ++ join chars_y (mapi (fun h i => fmtCell widths h i) headers)
      ++ trimEnd chars_y in
    let attempt :=
      dataRows <- map_throwing (format_row widths headers) strArr ;;
      Normal
        (join (js (String "010" EmptyString))
           ([separators_top; headerRow; separators_middle]
            ++ map (fun row => [0x2502] ++ js " " ++ row ++ js " " ++ [0x2502]) dataRows
            ++ [separators_bottom])) in
    match attempt with
    | Normal result => Normal result
    | Throw e => Normal (String_of_exception e)
    end.

End Records.

(** The members of [Object.prototype] in V8, whose functions have the
    source text [function name() { [native code] }]; the value of
    [__proto__] is [Object.prototype] itself.  Deno removes [__proto__]. *)
Definition native_function (name : string) : value :=
  VFunction (js "function " ++ js name ++ js "() { [native code] }").

Definition V8_prototype : record :=
  [ (js "constructor", native_function "Object");
    (js "__defineGetter__", native_function "__defineGetter__");
    (js "__defineSetter__", native_function "__defineSetter__");
    (js "hasOwnProperty", native_function "hasOwnProperty");
    (js "__lookupGetter__", native_function "__lookupGetter__");
    (js "__lookupSetter__", native_function "__lookupSetter__");
    (js "isPrototypeOf", native_function "isPrototypeOf");
    (js "propertyIsEnumerable", native_function "propertyIsEnumerable");
    (js "toString", native_function "toString");
    (js "valueOf", native_function "valueOf");
    (js "__proto__", VObject);
    (js "toLocaleString", native_function "toLocaleString") ].

(** *** [isAnagram] *)

(** Modelled from the spec: [isAnagram] is called by [src/tests/mod.ts] and
    is not defined in [src/mod.ts]; this is "the lowercased,
    whitespace-stripped, sorted character sequence" of a string, its
    characters being its UTF-16 code units, sorted by their value. *)
Definition sorted_characters (str : jsstring) : jsstring :=
  stable_sort Z.leb (removeWhitespace (toLowerCase str)).

(** Modelled from the spec: [isAnagram(a, b)] is "true iff the lowercased,
    whitespace-stripped, sorted character sequences of [a] and [b] are
    equal and [a !== b] verbatim". *)
Definition isAnagram (a b : jsstring) : bool :=
  string_eqb (sorted_characters a) (sorted_characters b) && negb (string_eqb a b).

(** ** Definitions of the properties *)

(** *** Escape sequences

    The grammar of an escape sequence: [ESC], ['['], parameter bytes,
    intermediate bytes, one final byte.  The class of the parameter bytes
    is a parameter: the expression of [stripCliColors] takes [[0-9;?]]
    ([is_parameter]), the specification the whole of [0x30-0x3F]. *)

Definition is_parameter_byte (c : Z) : bool := between 0x30 0x3F c.

Inductive escape_sequence (parameter : Z -> bool) : jsstring -> Prop :=
  | escape_sequence_intro : forall ps ims f,
      Forall (fun c => parameter c = true) ps ->
      Forall (fun c => is_intermediate c = true) ims ->
      is_final f = true ->
      escape_sequence parameter (0x1B :: 0x5B :: ps ++ ims ++ [f]).

(** [strips parameter s t]: [t] is [s] without its escape sequences, taken
    from the left, every other character kept. *)
Inductive strips (parameter : Z -> bool) : jsstring -> jsstring -> Prop :=
  | strips_nil : strips parameter [] []
  | strips_escape : forall e s t,
      escape_sequence parameter e ->
      strips parameter s t ->
      strips parameter (e ++ s) t
  | strips_keep : forall c s t,
      (forall e r, escape_sequence parameter e -> c :: s <> e ++ r) ->
      strips parameter s t ->
      strips parameter (c :: s) (c :: t).

(** The next character stops a run of [p]. *)
Definition stops (p : Z -> bool) (s : jsstring) : Prop :=
  match s with
  | [] => True
  | c :: _ => p c = false
  end.

Definition red_text : jsstring := [0x1B] ++ js "[31mRed" ++ [0x1B] ++ js "[0m".

(** [ESC [ < m]: the parameter byte [<] is none of [[0-9;?]]. *)
Definition private_sequence : jsstring := [0x1B] ++ js "[<m".

(** *** Arrays of strings *)

(** The string inside a validated value. *)
Definition string_of (str : UnknownString) : jsstring :=
  match str with
  | Str s => s
  | _ => []
  end.

(** [a] is not after [b] in the order of [sortAlphabetically]. *)
Definition not_after (localeCompare : jsstring -> jsstring -> Z) (a b : jsstring) : Prop :=
  localeCompare (normalize a false false) (normalize b false false) <= 0.

(** A collation for examples: by length. *)
Definition compare_lengths (a b : jsstring) : Z := len a - len b.

Definition greek : list jsstring := [js "delta"; js "charlie"; js "alpha"].

(** *** Tables *)

(** [w] is the maximum of the numbers of [l]. *)
Definition is_maximum (w : Z) (l : list Z) : Prop :=
  In w l /\ Forall (fun x => x <= w) l.

(** The value of a completion, [d] for an exception. *)
Definition completed {A : Type} (d : A) (c : completion A) : A :=
  match c with
  | Normal a => a
  | Throw _ => d
  end.

(** The strings of the cells of a column, and of a row. *)
Definition column_strings (prototype : record) (strArr : list record) (header : jsstring)
  : completion (list jsstring) :=
  map_throwing (fun row => cell_string (get prototype row header)) strArr.


(** The width of a cell as [columnWidths] counts it, and the width of the
    column of a header, when its cells have strings. *)
Definition counted_width (str : jsstring) : Z := len (normalize str false true) + 1.

Definition column_width (prototype : record) (strArr : list record) (header : jsstring)
  : completion Z :=
  cells <- column_strings prototype strArr header ;;
  Normal (Math_max (len header) (map counted_width cells)).









(** A cell that [table] rejects: a falsy value, or one with a string that
    [validate] refuses. *)
Definition rejected (v : value) : bool :=
  falsy v || negb (validate (Str (completed [] (cell_string v)))).






Definition border (widths : list Z) (left middle right : Z) : jsstring :=
  [left] ++ join [middle] (map (fun w => repeat 0x2500 (Z.to_nat (w + 2))) widths) ++ [right].








(** The third record of the test of [table] has [Key3] for [Key2]. *)
Definition ragged : list record :=
  [ [ (js "Key", VStr (js "Value")); (js "Key2", VStr (js "Value 2")) ];
    [ (js "Key", VStr (js "Value3")); (js "Key2", VStr (js "Value4")) ];
    [ (js "Key", VStr (js "Value5")); (js "Key3", VStr (js "Value6")) ] ].


(** [[{constructor: "a"}, {other: "b"}]]: the second record has no
    property [constructor] of its own. *)
Definition inherited_cell : list record :=
  [ [ (js "constructor", VStr (js "a")) ]; [ (js "other", VStr (js "b")) ] ].

Definition inherited_cell_table : jsstring :=
  border [36] 0x250C 0x252C 0x2510 ++ [0x0A]
  ++ [0x2502; 0x20] ++ js "constructor" ++ repeat 0x20 25 ++ [0x20; 0x2502; 0x0A]
  ++ border [36] 0x251C 0x253C 0x2524 ++ [0x0A]
  ++ [0x2502; 0x20] ++ js "a" ++ repeat 0x20 35 ++ [0x20; 0x2502; 0x0A]
  ++ [0x2502; 0x20] ++ js "function Object() { [native code] }" ++ [0x20; 0x20; 0x2502; 0x0A]
  ++ border [36] 0x2514 0x2534 0x2518.

(** [[{N: 1e21}]] *)
Definition large_number : list record := [ [ (js "N", VNum (Number_of_Z (10 ^ 21))) ] ].

(** *** Anagrams *)

(** The letters of a string: its code points other than white space. *)
Definition letters (s : jsstring) : list Z :=
  filter (fun c => negb (is_white_space c)) (code_points s).

(** Two strings with the same letters in another order, the case of a
    letter apart: two letters with the same lowercase are the same. *)
Definition letter_permutation (a b : jsstring) : Prop :=
  Permutation (map lower_code_point (letters a)) (map lower_code_point (letters b)).

(** Alpha and sigma, in capitals, in the two orders. *)
Definition alpha_sigma : jsstring := [0x391; 0x3A3].

Definition sigma_alpha : jsstring := [0x3A3; 0x391].

(** *** Strict normalization *)

Definition is_letter (c : Z) : bool := in_ranges c letter_table.

Definition is_decimal_digit (c : Z) : bool := in_ranges c decimal_digit_table.

(** Strict normalization as the specification words it: of the code points
    of the normalized string, those that are neither a letter, nor a digit,
    nor a space are removed, and then the spaces. *)
Definition spec_strict (s : jsstring) : jsstring :=
  code_units
    (filter (fun c => negb (c =? 0x20))
       (filter (fun c => is_letter c || is_decimal_digit c || (c =? 0x20))
          (code_points (normalize s false false)))).

(** [[a-z0-9]] *)
Definition is_lower_alnum (c : Z) : bool := between 0x61 0x7A c || between 0x30 0x39 c.

(** [Stra-e], with U+00DF for its fifth letter. *)
Definition strasse : jsstring := [0x53; 0x74; 0x72; 0x61; 0xDF; 0x65].

(** The numbers from [lo] to [hi]. *)
Definition interval (lo hi : Z) : list Z :=
  map (fun n => lo + Z.of_nat n) (seq 0 (Z.to_nat (hi - lo + 1))).

(** A list that is not empty, all of whose elements have [P]. *)
Definition some_and_all (P : Z -> bool) (l : list Z) : bool :=
  match l with
  | [] => false
  | _ => forallb P l
  end.

Definition has_lowercase (c : Z) : bool :=
  match assoc c lowercase_table with
  | Some _ => true
  | None => false
  end.

(** *** White space in a normalized string *)

(** What [replace(/\s+/g, " ")] computes, one character at a time:
    [in_run] tells that the white space before has been replaced. *)
Fixpoint collapse_from (in_run : bool) (s : jsstring) : jsstring :=
  match s with
  | [] => []
  | c :: t =>
      if is_white_space c
      then if in_run then collapse_from true t else 0x20 :: collapse_from true t
      else c :: collapse_from false t
  end.

Inductive position : Type :=
  | AtStart
  | InWord
  | AfterSpace.

Definition in_word (p : position) : bool :=
  match p with
  | InWord => true
  | _ => false
  end.

(** The white space of [s], read from position [p], is single spaces, each
    behind a character that is not white space. *)
Fixpoint admissible (p : position) (s : jsstring) : bool :=
  match s with
  | [] => true
  | c :: t =>
      if is_white_space c
      then (c =? 0x20) && in_word p && admissible AfterSpace t
      else admissible InWord t
  end.

(** The same, and the string does not end with a space. *)
Fixpoint tidy_from (p : position) (s : jsstring) : bool :=
  match s with
  | [] => match p with AfterSpace => false | _ => true end
  | c :: t =>
      if is_white_space c
      then (c =? 0x20) && in_word p && tidy_from AfterSpace t
      else tidy_from InWord t
  end.

(** A string with single spaces between its words and none around them. *)
Definition tidy (s : jsstring) : bool := tidy_from AtStart s.

(** Two strings with the same white space, between words that may
    differ. *)
Inductive same_spacing : list Z -> list Z -> Prop :=
  | same_spacing_nil : same_spacing [] []
  | same_spacing_space : forall c x y,
      is_white_space c = true -> same_spacing x y -> same_spacing (c :: x) (c :: y)
  | same_spacing_word : forall u v x y,
      u <> [] -> v <> [] ->
      Forall (fun c => is_white_space c = false) u ->
      Forall (fun c => is_white_space c = false) v ->
      same_spacing x y -> same_spacing (u ++ x) (v ++ y).

(** *** Surrogates in a list of code points *)

Definition is_surrogate (c : Z) : bool := is_high_surrogate c || is_low_surrogate c.

(** No lone high surrogate is followed by a lone low one; [after_high]
    tells that the code point before is a high surrogate. *)
Fixpoint well_paired_from (after_high : bool) (l : list Z) : bool :=
  match l with
  | [] => true
  | c :: t => negb (after_high && is_low_surrogate c) && well_paired_from (is_high_surrogate c) t
  end.

(** The strings of the idempotence of [normalize]: the test string of the
    repository, and a string with U+034F between two Hebrew marks. *)
Definition amigo : jsstring :=
  js "              heLLo mY    fAnT" ++ [0xC1] ++ js "sTiC    AmigO   ".

Definition joined_marks : jsstring := [0x61; 0x591; 0x34F; 0x5B0].

(** *** The steps of [normalize] *)

(** Neither a combining mark of [U+0300-U+036F] nor the letter U+0130,
    whose lowercase mapping has such a mark. *)
Definition plain (c : Z) : bool := negb (is_combining_mark c) && negb (c =? 0x130).

(** The string [normalize] lowercases. *)
Definition unaccented (s : jsstring) : jsstring :=
  trim (collapse_from false (filter (fun c => negb (is_combining_mark c)) (nfd s))).

(** *** Canonical decomposed form *)

(** A code point that is its own canonical decomposition. *)
Definition is_decomposed (c : Z) : bool :=
  match hangul_decomposition c, assoc c canonical_decomposition_table with
  | None, None => true
  | _, _ => false
  end.

(** The characters of [l] are in canonical order behind a character of
    class [k]. *)
Fixpoint ordered_from (k : Z) (l : list Z) : bool :=
  match l with
  | [] => true
  | c :: t =>
      ((combining_class c <=? 0) || (k <=? combining_class c))
      && ordered_from (combining_class c) t
  end.

(** A string without lone surrogates. *)
Definition well_formed (s : jsstring) : Prop :=
  Forall (fun c => is_surrogate c = false) (code_points s).

(** A code point that is neither a surrogate nor U+034F, the one character
    of [U+0300-U+036F] whose combining class is zero. *)
Definition scalar_not_joiner (c : Z) : bool := negb (is_surrogate c) && negb (c =? 0x34F).

Definition keep_unmarked (c : Z) : bool := negb (is_combining_mark c).

(** The code points of the string [normalize] lowercases. *)
Definition unaccented_code_points (s : jsstring) : list Z :=
  trim (collapse_from false (filter keep_unmarked (nfd_code_points (code_points s)))).

Definition white_space_list : list Z :=
  interval 0x09 0x0D ++ [0x20; 0xA0; 0x1680] ++ interval 0x2000 0x200A
  ++ [0x2028; 0x2029; 0x202F; 0x205F; 0x3000; 0xFEFF].

(** A lone high surrogate, an accent, a lone low surrogate. *)
Definition split_pair : jsstring := [0xD87E; 0x301; 0xDC00].

(** *** The inputs of the tests of the repository ([src/tests/mod.ts]) *)

Definition amigo_123 : jsstring :=
  js "              123_heLLo mY    fAnT" ++ [0xC1] ++ js "sTiC    AmigO   ".

(** The array of the tests of [normalizeArray]: empty strings, [hElLo] with
    an acute accent and spaces around, [woRld] with a diaeresis, and
    [123_abc] between spaces. *)
Definition abnormalStringArray : list UnknownString :=
  [ Str []; Str []; Str (js "   h" ++ [0xC9] ++ js "lLo    "); Str [];
    Str (js "w" ++ [0xF6] ++ js "Rld"); Str (js "  123_abc "); Str [] ].

Definition people : list record :=
  [ [ (js "Name", VStr (js "Zaka")); (js "Age", VNum (Number_of_Z 50)); (js "Country", VStr (js "Spain")) ];
    [ (js "Name", VStr (js "Someone")); (js "Age", VNum (Number_of_Z 25));
      (js "Country", VStr (js "Poland")) ] ].

Definition people_table : jsstring :=
  [0x250C; 0x2500; 0x2500; 0x2500; 0x2500; 0x2500; 0x2500; 0x2500; 0x2500; 0x2500; 0x2500;
   0x252C; 0x2500; 0x2500; 0x2500; 0x2500; 0x2500; 0x252C; 0x2500; 0x2500; 0x2500; 0x2500;
   0x2500; 0x2500; 0x2500; 0x2500; 0x2500; 0x2510; 0xA; 0x2502; 0x20; 0x4E; 0x61; 0x6D;
   0x65; 0x20; 0x20; 0x20; 0x20; 0x20; 0x2502; 0x20; 0x41; 0x67; 0x65; 0x20; 0x2502; 0x20;
   0x43; 0x6F; 0x75; 0x6E; 0x74; 0x72; 0x79; 0x20; 0x2502; 0xA; 0x251C; 0x2500; 0x2500;
   0x2500; 0x2500; 0x2500; 0x2500; 0x2500; 0x2500; 0x2500; 0x2500; 0x253C; 0x2500; 0x2500;
   0x2500; 0x2500; 0x2500; 0x253C; 0x2500; 0x2500; 0x2500; 0x2500; 0x2500; 0x2500; 0x2500;
   0x2500; 0x2500; 0x2524; 0xA; 0x2502; 0x20; 0x5A; 0x61; 0x6B; 0x61; 0x20; 0x20; 0x20;
   0x20; 0x20; 0x2502; 0x20; 0x35; 0x30; 0x20; 0x20; 0x2502; 0x20; 0x53; 0x70; 0x61; 0x69;
   0x6E; 0x20; 0x20; 0x20; 0x2502; 0xA; 0x2502; 0x20; 0x53; 0x6F; 0x6D; 0x65; 0x6F; 0x6E;
   0x65; 0x20; 0x20; 0x2502; 0x20; 0x32; 0x35; 0x20; 0x20; 0x2502; 0x20; 0x50; 0x6F; 0x6C;
   0x61; 0x6E; 0x64; 0x20; 0x20; 0x2502; 0xA; 0x2514; 0x2500; 0x2500; 0x2500; 0x2500;
   0x2500; 0x2500; 0x2500; 0x2500; 0x2500; 0x2500; 0x2534; 0x2500; 0x2500; 0x2500; 0x2500;
   0x2500; 0x2534; 0x2500; 0x2500; 0x2500; 0x2500; 0x2500; 0x2500; 0x2500; 0x2500; 0x2500;
   0x2518].

(** ** The other functions of [StringUtils]

    The functions of [src/mod.ts] for words, spaces and pieces of strings,
    and the built-in methods they call. *)

(** [str.toUpperCase()]: the uppercase mapping has no condition on the
    context. *)
Definition upper_code_point (c : Z) : list Z :=
  match assoc c uppercase_table with
  | Some l => l
  | None => [c]
  end.

Definition toUpperCase (s : jsstring) : jsstring :=
  code_units (flat_map upper_code_point (code_points s)).

(** [str.charAt(i)]: the code unit at [i], the empty string outside the
    string. *)
Definition charAt (s : jsstring) (i : Z) : jsstring :=
  if i <? 0 then []
  else match nth_error s (Z.to_nat i) with
       | Some c => [c]
       | None => []
       end.

(** [str.slice(start)]: a negative [start] counts from the end. *)
Definition slice_from (s : jsstring) (start : Z) : jsstring :=
  skipn (Z.to_nat (if start <? 0 then Z.max (len s + start) 0 else start)) s.

(** [str.substring(start, finish)]: both indices are brought into the
    string, and exchanged when the first is the greater. *)
Definition clamp (s : jsstring) (i : Z) : Z := Z.min (Z.max i 0) (len s).

Definition substring (s : jsstring) (start finish : Z) : jsstring :=
  let a := clamp s start in
  let b := clamp s finish in
  firstn (Z.to_nat (Z.max a b - Z.min a b)) (skipn (Z.to_nat (Z.min a b)) s).

(** [str.split(sep)] for a separator that is not empty: the string is cut
    at every occurrence of the separator, found from the left and past the
    previous one.  [piece_rev] is the piece being read, last character
    first, and [skip] counts the characters of the separator still to
    drop. *)
Fixpoint split_from (sep piece_rev : jsstring) (skip : nat) (s : jsstring) : list jsstring :=
  match s with
  | [] => [rev piece_rev]
  | c :: t =>
      match skip with
      | S n => split_from sep piece_rev n t
      | O =>
          match strip_prefix sep s with
          | Some _ => rev piece_rev :: split_from sep [] (length sep - 1) t
          | None => split_from sep (c :: piece_rev) O t
          end
      end
  end.

(** [str.split(sep)]; with the empty separator the pieces are the code
    units. *)
Definition String_split (sep s : jsstring) : list jsstring :=
  match sep with
  | [] => map (fun c => [c]) s
  | _ => split_from sep [] O s
  end.

(** [arr.includes(x)] *)
Definition includes (l : list jsstring) (x : jsstring) : bool := existsb (string_eqb x) l.

(** What [repeat] and the concatenation of strings complete with: a
    string, or a [RangeError]. *)
Inductive or_range_error (A : Type) : Type :=
  | Returned (a : A)
  | RangeError.

Arguments Returned {A} a.
Arguments RangeError {A}.

Section Limit.

(** The greatest length of a string, which is the host's: at most
    [2^53 - 1], and [2^29 - 24] in V8. *)
Variable maximum_length : Z.

(** [str.repeat(count)] throws a [RangeError] when [count] is negative,
    and when the string would be too long. *)
Definition String_repeat (s : jsstring) (count : Z) : or_range_error jsstring :=
  if (count <? 0) || (maximum_length <? len s * count) then RangeError
  else Returned (repeat_string s count).

(** A template literal: the concatenation of its parts, which throws a
    [RangeError] when the string would be too long. *)
Definition concatenation (parts : list jsstring) : or_range_error jsstring :=
  if maximum_length <? len (concat parts) then RangeError else Returned (concat parts).

(** The function [space] of [spaceString]. *)
Definition space (n : Z) : or_range_error jsstring :=
  if n =? 0 then Returned [] else String_repeat (js " ") n.

Definition spaceString (str : jsstring) (spaceBefore spaceAfter : Z)
  : or_range_error jsstring :=
  match space spaceBefore with
  | RangeError => RangeError
  | Returned before =>
      match space spaceAfter with
      | RangeError => RangeError
      | Returned after => concatenation [before; str; after]
      end
  end.

End Limit.

Definition V8_maximum_length : Z := 2 ^ 29 - 24.

Definition toUpperCaseFirst (str : jsstring) : jsstring :=
  toUpperCase (charAt str 0) ++ slice_from str 1.

Definition toLowerCaseFirst (str : jsstring) : jsstring :=
  toLowerCase (charAt str 0) ++ slice_from str 1.

(** [str.replace(/\b\w/g, (char) => char.toUpperCase())]: the expression
    matches one character of [\w] with no character of [\w] before it, and
    the match is replaced by its uppercase.  [after_word] tells that the
    character before is one of [\w]. *)
Fixpoint capitalize_from (after_word : bool) (s : jsstring) : jsstring :=
  match s with
  | [] => []
  | c :: t =>
      (if is_word c && negb after_word then toUpperCase [c] else [c])
      ++ capitalize_from (is_word c) t
  end.

Definition capitalizeWords (str : jsstring) : jsstring := capitalize_from false str.

Definition smallWords : list jsstring :=
  [js "and"; js "or"; js "but"; js "the"; js "in"; js "on"; js "of"; js "for"; js "with"].

(** The callback of [toTitleCase]. *)
Definition title_word (word : jsstring) (index : nat) : jsstring :=
  if includes smallWords (toLowerCase word) && negb (index =? 0)%nat
  then toLowerCase word
  else toUpperCase (charAt word 0) ++ slice_from word 1.

Definition toTitleCase (str : jsstring) : jsstring :=
  join (js " ") (mapi title_word (String_split (js " ") str)).

Definition reverseString (str : jsstring) : jsstring :=
  join [] (rev (String_split [] str)).

Definition truncate (str : jsstring) (length : Z) : jsstring :=
  if len str <=? length then str else substring str 0 length ++ js "...".

Definition getLastChar (str : jsstring) : jsstring := charAt str (len str - 1).

Definition isPalindrome (str : jsstring) : bool :=
  let normalized := normalize str true false in
  string_eqb normalized (reverseString normalized).

(** The callback of [softlyNormalizeArray], on what [filter] kept. *)
Definition soften (lowercase : bool) (str : UnknownString) : completion jsstring :=
  match str with
  | Str s => Normal (if lowercase then toLowerCase (trim s) else trim s)
  | _ => Throw (not_a_string str "trim")
  end.

Definition softlyNormalizeArray (strArr : list UnknownString) (lowercase : bool)
  : completion (list jsstring) :=
  map_throwing (soften lowercase) (filter validate strArr).

(** [kominator(str, separator)], the separator being a comma when none is
    given; the call of [replace] with a string for pattern removes the first
    double quote of a piece. *)
Definition kominator (str : jsstring) (separator : option jsstring) : list jsstring :=
  let sep := match separator with Some sep => sep | None => js "," end in
  map (fun s => trim (replace_first [0x22] [] s)) (String_split sep str).

(** *** The file [src/unnamed/part_000]

    An earlier state of the module: [normalize] without its options, and
    [validate] with [str.trim()] where the module has [this.normalize(str)]. *)
Module Part000.

Definition normalize (str : jsstring) : jsstring :=
  toLowerCase
    (trim
       (String_replace (Global [Plus is_white_space]) (js " ")
          (String_replace (Global [Chr is_combining_mark]) []
             (nfd str)))).

Definition validate (str : UnknownString) : bool :=
  match str with
  | Undefined => false
  | Null => false
  | NonString _ => false
  | Str s => if string_eqb (trim s) [] then false else true
  end.

End Part000.

(** *** Definitions of the properties of the other functions *)

(** [t] is [s] without some of its characters. *)
Inductive subsequence : jsstring -> jsstring -> Prop :=
  | subsequence_nil : subsequence [] []
  | subsequence_drop : forall c t s, subsequence t s -> subsequence t (c :: s)
  | subsequence_keep : forall c t s, subsequence t s -> subsequence (c :: t) (c :: s).

(** The last character of [s] is no white space; [d] is the answer for the
    empty string. *)
Fixpoint ends_in_word (d : bool) (s : jsstring) : bool :=
  match s with
  | [] => d
  | c :: t => ends_in_word (negb (is_white_space c)) t
  end.

(** What [capitalizeWords] does to a character, in ASCII. *)
Definition capitalized (after_word : bool) (c : Z) : Z :=
  if between 0x61 0x7A c && negb after_word then c - 0x20 else c.

Fixpoint capitalized_from (after_word : bool) (s : jsstring) : jsstring :=
  match s with
  | [] => []
  | c :: t => capitalized after_word c :: capitalized_from (is_word c) t
  end.

Definition has_uppercase (c : Z) : bool :=
  match assoc c uppercase_table with
  | Some _ => true
  | None => false
  end.

(** Strings for examples. *)
Definition hannah : jsstring := js "hannah".

Definition acute_accent : jsstring := [0x301].

Definition question : jsstring := js "?!".

(** The sum of a list of numbers. *)
Definition total (l : list Z) : Z := fold_right Z.add 0 l.

(** The people of the tests of [table], with the name of the first in
    red. *)
Definition red_people : list record :=
  [ [ (js "Name", VStr (red_text ++ js " Doe")); (js "Age", VNum (Number_of_Z 30)) ];
    [ (js "Name", VStr (js "Jane")); (js "Age", VNum (Number_of_Z 5)) ] ].

(** * Properties *)

(** ** The tests of the repository

    What [src/tests/mod.ts] asserts of the functions embedded here holds of
    the embedding. *)

Example test_validate :
  validate (Str (js "valid")) = true /\ validate (Str []) = false /\ validate Undefined = false.
Proof. repeat split; vm_compute; reflexivity. Qed.

Example test_normalize :
  normalize amigo false false = js "hello my fantastic amigo"
  /\ normalize amigo_123 true false = js "123hellomyfantasticamigo".
Proof. split; vm_compute; reflexivity. Qed.

Example test_stripCliColors :
  stripCliColors ([0x1B] ++ js "[31mRed text" ++ [0x1B] ++ js "[0m") = js "Red text"
  /\ stripCliColors ([0x1B] ++ js "[2J" ++ [0x1B] ++ js "[HClear screen and move cursor")
     = js "Clear screen and move cursor"
  /\ stripCliColors ([0x1B] ++ js "[38;5;82m256-color text" ++ [0x1B] ++ js "[0m")
     = js "256-color text".
Proof. repeat split; vm_compute; reflexivity. Qed.

Example test_normalizeArray :
  normalizeArray abnormalStringArray = Normal [js "hello"; js "world"; js "123_abc"]
  /\ strictlyNormalizeArray abnormalStringArray
     = Normal [js "hello"; js "world"; js "123abc"].
Proof. split; vm_compute; reflexivity. Qed.

Example test_table :
  table V8_prototype people = Normal people_table
  /\ table V8_prototype ragged
     = Normal
         (js "Error: Unable to represent data. Row Key,Value5,Key3,Value6"
          ++ js " is not consistent with the rest of the table.")
  /\ table V8_prototype [] = Normal (js "No data to display.").
Proof. repeat split; vm_compute; reflexivity. Qed.

(** [Number.prototype.toString] on Numbers of each form: integers, the
    first integer in exponent form, fractions, the least Number, [NaN] and
    the infinities; each of them is a binary64 value. *)
Example test_Number_toString :
  map Number_toString
    [ Number_of_Z 50; Number_of_Z (-3); Number_of_Z (10 ^ 20); Number_of_Z (10 ^ 21);
      Number_of_Z (2 ^ 53 + 1); S754_zero true; S754_nan; S754_infinity true;
      S754_finite false 7205759403792794 (-56); S754_finite false 5404319552844596 (-54);
      S754_finite false 7555786372591432 (-76); S754_finite false 1 (-1074);
      S754_finite false 2 (-1074); S754_finite false 9007199254740991 971 ]
  = [ js "50"; js "-3"; js "100000000000000000000"; js "1e+21";
      js "9007199254740992"; js "0"; js "NaN"; js "-Infinity";
      js "0.1"; js "0.30000000000000004";
      js "1e-7"; js "5e-324";
      js "1e-323"; js "1.7976931348623157e+308" ]
  /\ forallb (valid_binary 53 1024)
       [ Number_of_Z 50; Number_of_Z (10 ^ 21); S754_finite false 7205759403792794 (-56);
         S754_finite false 5404319552844596 (-54); S754_finite false 7555786372591432 (-76);
         S754_finite false 1 (-1074); S754_finite false 9007199254740991 971 ]
     = true.
Proof. split; vm_compute; reflexivity. Qed.

(** A cell is measured and shown by its string: a Number in exponent
    form, and a function that the record inherits. *)
Example test_columnWidths :
  columnWidths V8_prototype large_number = Normal [6]
  /\ columnWidths V8_prototype inherited_cell = Normal [36]
  /\ table V8_prototype inherited_cell = Normal inherited_cell_table.
Proof. repeat split; vm_compute; reflexivity. Qed.

Example test_isAnagram :
  isAnagram (js "hi") (js "ih") = true /\ isAnagram (js "hi") (js "hi") = false.
Proof. split; vm_compute; reflexivity. Qed.

(** ** Lists *)

Lemma length_app_minus {A : Type} (u rest : list A) :
  (length (u ++ rest) - length rest)%nat = length u.
Proof. rewrite length_app. lia. Qed.

(** ** The regular expression engine *)

(** A match leaves a suffix of the string, so that [length s - length rest]
    in [replace_from] is the length of the match. *)
Lemma match_star_suffix (p : Z -> bool) (k : jsstring -> option jsstring) :
  (forall s rest, k s = Some rest -> exists u, s = u ++ rest) ->
  forall s rest, match_star p k s = Some rest -> exists u, s = u ++ rest.
Proof.
  intros Hk s. induction s as [|c t IH]; intros rest H; simpl in H.
  - now apply Hk.
  - destruct (p c); [|now apply Hk].
    destruct (match_star p k t) as [r|] eqn:E; [|now apply Hk].
    injection H as ->. destruct (IH _ eq_refl) as [u ->]. now exists (c :: u).
Qed.

Lemma match_here_suffix (r : regex) :
  forall s rest, match_here r s = Some rest -> exists u, s = u ++ rest.
Proof.
  induction r as [|a r IH]; intros s rest H; simpl in H.
  - injection H as ->. now exists [].
  - destruct a as [p|p|p].
    + destruct s as [|c t]; [discriminate|]. destruct (p c); [|discriminate].
      destruct (IH _ _ H) as [u ->]. now exists (c :: u).
    + now apply (match_star_suffix p (match_here r) IH).
    + destruct s as [|c t]; [discriminate|]. destruct (p c); [|discriminate].
      destruct (match_star_suffix p (match_here r) IH _ _ H) as [u ->]. now exists (c :: u).
Qed.

(** Dropping the rest of a match is resuming behind it. *)
Lemma replace_from_skip (r : regex) (repl : jsstring) :
  forall u rest, replace_from r repl (length u) (u ++ rest) = replace_from r repl O rest.
Proof.
  induction u as [|c u IH]; intros rest; [reflexivity|].
  simpl length. simpl app. cbn [replace_from]. apply IH.
Qed.

(** The equations of [replace_all]. *)
Lemma replace_from_O (r : regex) (repl : jsstring) (s : jsstring) :
  replace_from r repl O s =
  match match_here r s with
  | Some rest =>
      match s with
      | c :: t =>
          match (length s - length rest)%nat with
          | O => repl ++ c :: replace_from r repl O t
          | S m => repl ++ replace_from r repl m t
          end
      | [] => repl
      end
  | None =>
      match s with
      | c :: t => c :: replace_from r repl O t
      | [] => []
      end
  end.
Proof. destruct s; reflexivity. Qed.

Lemma replace_all_nomatch (r : regex) (repl : jsstring) (c : Z) (t : jsstring) :
  match_here r (c :: t) = None ->
  replace_all r repl (c :: t) = c :: replace_all r repl t.
Proof. unfold replace_all. rewrite replace_from_O. now intros ->. Qed.

Lemma replace_all_match (r : regex) (repl : jsstring) (c : Z) (u rest : jsstring) :
  match_here r (c :: u ++ rest) = Some rest ->
  replace_all r repl (c :: u ++ rest) = repl ++ replace_all r repl rest.
Proof.
  unfold replace_all. rewrite replace_from_O. intros ->.
  change (c :: u ++ rest) with ((c :: u) ++ rest) at 1. rewrite length_app_minus.
  cbn [length]. now rewrite replace_from_skip.
Qed.

(** One class: the characters of the class are removed. *)
Lemma replace_all_class (p : Z -> bool) (s : jsstring) :
  replace_all [Chr p] [] s = filter (fun c => negb (p c)) s.
Proof.
  induction s as [|c t IH]; [reflexivity|].
  simpl filter. destruct (p c) eqn:E; simpl negb; cbv iota.
  - pose proof (replace_all_match [Chr p] [] c [] t) as H. simpl in H.
    rewrite E in H. now rewrite (H eq_refl).
  - rewrite replace_all_nomatch; [now rewrite IH|]. simpl. now rewrite E.
Qed.

(** A run of white space and nothing behind it: the longest run is taken. *)
Lemma match_star_white_space (s : jsstring) :
  match_star is_white_space (match_here []) s = Some (trimStart s).
Proof.
  induction s as [|c t IH]; [reflexivity|].
  cbn [match_star]. destruct (is_white_space c) eqn:E.
  - rewrite IH. simpl. now rewrite E.
  - simpl. now rewrite E.
Qed.

(** ** [stripCliColors] *)

Lemma match_star_sound (p : Z -> bool) (k : jsstring -> option jsstring) :
  forall s rest, match_star p k s = Some rest ->
  exists u s', s = u ++ s' /\ Forall (fun c => p c = true) u /\ k s' = Some rest.
Proof.
  induction s as [|c t IH]; intros rest H; cbn [match_star] in H.
  - exists [], []. auto.
  - destruct (p c) eqn:E.
    + destruct (match_star p k t) as [r|] eqn:M.
      * injection H as ->. destruct (IH _ eq_refl) as (u & s' & -> & Hu & Hk).
        exists (c :: u), s'. auto.
      * exists [], (c :: t). auto.
    + exists [], (c :: t). auto.
Qed.

Lemma match_star_exact (p : Z -> bool) (k : jsstring -> option jsstring) :
  forall u s' rest, Forall (fun c => p c = true) u -> stops p s' -> k s' = Some rest ->
  match_star p k (u ++ s') = Some rest.
Proof.
  induction u as [|c u IH]; intros s' rest Hu Hs Hk.
  - destruct s' as [|c t]; cbn [app match_star]; [exact Hk|].
    simpl in Hs. now rewrite Hs.
  - inversion Hu; subst. cbn [app match_star].
    now rewrite H1, (IH s' rest H2 Hs Hk).
Qed.

Section Escape.

Variable parameter : Z -> bool.

(** The three classes of the grammar do not overlap. *)
Hypothesis parameter_apart :
  forall c, parameter c = true -> is_intermediate c = false /\ is_final c = false.

Lemma intermediate_apart (c : Z) : is_intermediate c = true -> is_final c = false.
Proof. unfold is_intermediate, is_final, between. lia. Qed.

Lemma escape_match_sound (s rest : jsstring) :
  match_here (escape_regex parameter) s = Some rest ->
  exists e, escape_sequence parameter e /\ s = e ++ rest.
Proof.
  unfold escape_regex. cbn [match_here].
  destruct s as [|c1 [|c2 t]]; try discriminate.
  - destruct (0x1B =? c1); discriminate.
  - destruct (0x1B =? c1) eqn:E1; [|discriminate].
    destruct (0x5B =? c2) eqn:E2; [|discriminate].
    apply Z.eqb_eq in E1, E2. subst c1 c2. intros H.
    apply match_star_sound in H. destruct H as (ps & s1 & -> & Hps & H).
    apply match_star_sound in H. destruct H as (ims & s2 & -> & Hims & H).
    destruct s2 as [|f r]; [discriminate|].
    destruct (is_final f) eqn:Ef; [|discriminate]. injection H as ->.
    exists (0x1B :: 0x5B :: ps ++ ims ++ [f]). split.
    + now constructor.
    + cbn [app]. now rewrite <- !app_assoc.
Qed.

Lemma escape_match_exact (e rest : jsstring) :
  escape_sequence parameter e ->
  match_here (escape_regex parameter) (e ++ rest) = Some rest.
Proof.
  intros [ps ims f Hps Hims Hf]. unfold escape_regex.
  cbn [app match_here]. rewrite !Z.eqb_refl. rewrite <- !app_assoc.
  apply match_star_exact; [exact Hps| |].
  - destruct ims as [|i ims]; cbn [app stops].
    + destruct (parameter f) eqn:E; [|reflexivity].
      apply parameter_apart in E. destruct E as [_ E]. congruence.
    + inversion Hims; subst. destruct (parameter i) eqn:E; [|reflexivity].
      apply parameter_apart in E. destruct E as [E _]. congruence.
  - apply match_star_exact; [exact Hims| |].
    + cbn [app stops]. destruct (is_intermediate f) eqn:E; [|reflexivity].
      apply intermediate_apart in E. congruence.
    + cbn [app]. now rewrite Hf.
Qed.

Lemma escape_sequence_cons (e : jsstring) :
  escape_sequence parameter e -> exists u, e = 0x1B :: u.
Proof. intros [ps ims f _ _ _]. eauto. Qed.

(** What the expression removes is what the grammar describes. *)
Lemma replace_all_strips (n : nat) :
  forall s, (length s <= n)%nat ->
  strips parameter s (replace_all (escape_regex parameter) [] s).
Proof.
  induction n as [|n IH]; intros s Hn.
  - destruct s; [|simpl in Hn; lia]. vm_compute. constructor.
  - destruct s as [|c t]; [vm_compute; constructor|].
    destruct (match_here (escape_regex parameter) (c :: t)) as [rest|] eqn:M.
    + destruct (escape_match_sound _ _ M) as (e & He & Heq).
      destruct (escape_sequence_cons e He) as (u & ->).
      cbn [app] in Heq. injection Heq as -> ->.
      rewrite replace_all_match by exact M. cbn [app].
      apply (strips_escape parameter (0x1B :: u) rest); [exact He|].
      apply IH. simpl in Hn. rewrite length_app in Hn. lia.
    + rewrite replace_all_nomatch by exact M. apply strips_keep.
      * intros e r He Heq. rewrite Heq, (escape_match_exact e r He) in M. discriminate.
      * apply IH. simpl in Hn. lia.
Qed.

Lemma strips_replace_all (s t : jsstring) :
  strips parameter s t -> t = replace_all (escape_regex parameter) [] s.
Proof.
  induction 1 as [|e s t He Hs IH|c s t Hc Hs IH].
  - reflexivity.
  - destruct (escape_sequence_cons e He) as (u & ->).
    pose proof (escape_match_exact _ s He) as M. cbn [app] in *.
    rewrite replace_all_match by exact M. exact IH.
  - destruct (match_here (escape_regex parameter) (c :: s)) as [rest|] eqn:M.
    + destruct (escape_match_sound _ _ M) as (e & He & Heq). now destruct (Hc e rest He).
    + rewrite replace_all_nomatch by exact M. now rewrite IH.
Qed.

End Escape.

Lemma is_parameter_apart (c : Z) :
  is_parameter c = true -> is_intermediate c = false /\ is_final c = false.
Proof. unfold is_parameter, is_intermediate, is_final, between. lia. Qed.

Lemma is_parameter_byte_apart (c : Z) :
  is_parameter_byte c = true -> is_intermediate c = false /\ is_final c = false.
Proof. unfold is_parameter_byte, is_intermediate, is_final, between. lia. Qed.

(** C6, as the code has it: [stripCliColors] removes exactly the substrings
    [ESC '[' p* i* f] whose parameter bytes [p] are the digits, [';'] and
    ['?'], whose intermediate bytes [i] are in [0x20-0x2F] and whose final
    byte [f] is in [0x40-0x7E], and keeps every other character; and
    [stripCliColors("\x1b[31mRed\x1b[0m")] is ["Red"]. *)
Theorem stripCliColors_removes_escape_sequences :
  (forall s t, strips is_parameter s t <-> t = stripCliColors s)
  /\ stripCliColors red_text = js "Red".
Proof.
  split; [|reflexivity].
  intros s t. split.
  - apply strips_replace_all. exact is_parameter_apart.
  - intros ->. apply (replace_all_strips is_parameter is_parameter_apart (length s)). lia.
Qed.

(** C6 as the specification states it fails: [ESC [ < m] is an escape
    sequence of the grammar with parameter bytes [0x30-0x3F], so removing
    the sequences of that grammar leaves the empty string, and
    [stripCliColors] returns the four characters unchanged. *)
Theorem stripCliColors_keeps_private_sequence :
  strips is_parameter_byte private_sequence []
  /\ stripCliColors private_sequence = private_sequence
  /\ ~ strips is_parameter_byte private_sequence (stripCliColors private_sequence).
Proof.
  assert (H : strips is_parameter_byte private_sequence []).
  { change private_sequence with ((0x1B :: 0x5B :: [0x3C] ++ [] ++ [0x6D]) ++ []).
    apply strips_escape; [|constructor].
    constructor; [repeat constructor|constructor|reflexivity]. }
  split; [exact H|]. split; [reflexivity|].
  intros H'. apply (strips_replace_all _ is_parameter_byte_apart) in H, H'.
  rewrite <- H in H'. discriminate.
Qed.

(** ** [validate] and [normalizeArray] *)

Lemma string_eqb_eq (a b : jsstring) : string_eqb a b = true <-> a = b.
Proof. unfold string_eqb. destruct (list_eq_dec Z.eq_dec a b); split; congruence. Qed.

Lemma validate_Str (s : jsstring) :
  validate (Str s) = true <-> normalize s false false <> [].
Proof.
  unfold validate, string_eqb.
  destruct (list_eq_dec Z.eq_dec (normalize s false false) []); split; congruence.
Qed.

(** C5: [validate(v)] is true exactly when [v] is a string whose
    normalization is not empty; it is false on [undefined], [null], the
    empty string and ["   "], and true on ["x"]. *)
Theorem validate_present_and_meaningful :
  (forall v, validate v = true <-> exists s, v = Str s /\ normalize s false false <> [])
  /\ validate Undefined = false
  /\ validate Null = false
  /\ validate (Str []) = false
  /\ validate (Str (js "   ")) = false
  /\ validate (Str (js "x")) = true.
Proof.
  split; [|repeat split; reflexivity].
  intros v. split.
  - destruct v as [| |s|n]; try discriminate.
    intros H. exists s. split; [reflexivity|]. now apply validate_Str.
  - intros (s & -> & H). now apply validate_Str.
Qed.

Lemma map_throwing_normal {A B : Type} (f : A -> completion B) (g : A -> B) (l : list A) :
  (forall x, In x l -> f x = Normal (g x)) -> map_throwing f l = Normal (map g l).
Proof.
  induction l as [|x t IH]; intros H; [reflexivity|].
  cbn [map_throwing map]. rewrite (H x (or_introl eq_refl)). cbn [bind].
  rewrite IH by (intros y Hy; apply H; now right). reflexivity.
Qed.

(** C10: [normalizeArray] completes with an array, and every element of
    that array is a string that is not empty. *)
Theorem normalizeArray_elements_not_empty :
  forall strArr, exists result,
    normalizeArray strArr = Normal result /\ Forall (fun s => s <> []) result.
Proof.
  intros strArr. unfold normalizeArray.
  exists (map (fun str => normalize (string_of str) false false) (filter validate strArr)).
  split.
  - apply map_throwing_normal. intros x Hx. apply filter_In in Hx. destruct Hx as [_ Hx].
    destruct x; try discriminate. reflexivity.
  - apply Forall_map, Forall_forall. intros x Hx. apply filter_In in Hx.
    destruct Hx as [_ Hx]. destruct x; try discriminate. now apply validate_Str.
Qed.
(** ** [table] *)

(** *** Strings *)

Lemma join_cons (sep x : jsstring) (l : list jsstring) :
  l <> [] -> join sep (x :: l) = x ++ sep ++ join sep l.
Proof. destruct l; [contradiction|reflexivity]. Qed.

Lemma repeat_string_unit (c : Z) (n : Z) : repeat_string [c] n = repeat c (Z.to_nat n).
Proof.
  unfold repeat_string. induction (Z.to_nat n) as [|k IH]; [reflexivity|].
  cbn [repeat concat app]. now rewrite IH.
Qed.

(** *** Calls that may throw *)

Lemma map_throwing_completed {A B : Type} (d : B) (f : A -> completion B) (l : list A) :
  forall ys,
    map_throwing f l = Normal ys ->
    ys = map (fun x => completed d (f x)) l
    /\ forall x, In x l -> f x = Normal (completed d (f x)).
Proof.
  induction l as [|x t IH]; intros ys H; cbn [map_throwing] in H.
  - injection H as <-. split; [reflexivity|]. intros x [].
  - destruct (f x) as [y|e] eqn:E; [|discriminate]. cbn [bind] in H.
    destruct (map_throwing f t) as [ys'|e]; [|discriminate]. cbn [bind] in H.
    injection H as <-. destruct (IH ys' eq_refl) as [-> Hall]. split.
    + cbn [map]. now rewrite E.
    + intros x' [<-|Hin]; [now rewrite E|now apply Hall].
Qed.


Lemma map_throwing_ext {A B : Type} (f g : A -> completion B) (l : list A) :
  (forall x, In x l -> f x = g x) -> map_throwing f l = map_throwing g l.
Proof.
  induction l as [|x t IH]; intros H; [reflexivity|]. cbn [map_throwing].
  rewrite (H x (or_introl eq_refl)), IH; [reflexivity|]. intros z Hz. apply H. now right.
Qed.

Lemma map_throwing_bind {A B C : Type} (f : A -> completion B) (g : B -> C) (l : list A) :
  map_throwing (fun x => y <- f x ;; Normal (g y)) l
  = (ys <- map_throwing f l ;; Normal (map g ys)).
Proof.
  induction l as [|x t IH]; [reflexivity|]. cbn [map_throwing]. rewrite IH.
  destruct (f x) as [y|e]; [|reflexivity]. cbn [bind].
  now destruct (map_throwing f t).
Qed.


Lemma map_throwing_thrown {A B : Type} (f : A -> completion B) (e : exception) (l : list A) :
  map_throwing f l = Throw e -> exists x, In x l /\ f x = Throw e.
Proof.
  induction l as [|x t IH]; cbn [map_throwing]; [discriminate|].
  destruct (f x) as [y|e'] eqn:E; cbn [bind].
  - destruct (map_throwing f t) as [ys|e'']; cbn [bind]; [discriminate|].
    intros H. injection H as ->. destruct (IH eq_refl) as (z & Hz & Ez).
    exists z. split; [now right|exact Ez].
  - intros H. injection H as ->. exists x. split; [now left|exact E].
Qed.

(** *** The widths of the columns *)

Lemma Math_max_is_maximum (l : list Z) :
  forall x, is_maximum (Math_max x l) (x :: l).
Proof.
  unfold Math_max, is_maximum.
  induction l as [|y t IH]; intros x; cbn [fold_left].
  - split; [now left|]. constructor; [lia|constructor].
  - destruct (IH (Z.max x y)) as [Hin Hall]. split.
    + destruct Hin as [Hin|Hin].
      * rewrite <- Hin.
        destruct (Z.max_spec x y) as [[_ E]|[_ E]]; rewrite E; [right|]; now left.
      * right. now right.
    + inversion Hall as [|? ? Hm Ht]; subst.
      constructor; [lia|]. constructor; [lia|exact Ht].
Qed.

Lemma columnWidths_columns (prototype : record) (strArr : list record) :
  columnWidths prototype strArr
  = map_throwing (column_width prototype strArr) (headers_of strArr).
Proof.
  unfold columnWidths. apply map_throwing_ext. intros header _.
  unfold column_width, column_strings.
  rewrite (map_throwing_bind (fun row => cell_string (get prototype row header)) counted_width).
  now destruct (map_throwing (fun row => cell_string (get prototype row header)) strArr).
Qed.

(** When the widths are computed, every cell of the table has a string,
    and each column its width. *)
Lemma columnWidths_strings (prototype : record) (strArr : list record) (widths : list Z) :
  columnWidths prototype strArr = Normal widths ->
  forall row header,
    In row strArr -> In header (headers_of strArr) ->
    cell_string (get prototype row header)
    = Normal (completed [] (cell_string (get prototype row header))).
Proof.
  intros H row header Hrow Hh. rewrite columnWidths_columns in H.
  destruct (map_throwing_completed 0 _ _ _ H) as [_ Hall]. specialize (Hall header Hh).
  unfold column_width in Hall.
  destruct (column_strings prototype strArr header) as [cells|e] eqn:E; [|discriminate].
  destruct (map_throwing_completed [] _ _ _ E) as [_ Hcells]. now apply Hcells.
Qed.

Lemma columnWidths_widths (prototype : record) (strArr : list record) (widths : list Z) :
  columnWidths prototype strArr = Normal widths ->
  widths
  = map (fun header =>
           Math_max (len header)
             (map (fun row => counted_width (completed [] (cell_string (get prototype row header))))
                  strArr))
        (headers_of strArr).
Proof.
  intros H. pose proof (columnWidths_strings _ _ _ H) as S. rewrite columnWidths_columns in H.
  destruct (map_throwing_completed 0 _ _ _ H) as [-> Hall].
  apply map_ext_in. intros header Hh. specialize (Hall header Hh).
  unfold column_width in *.
  destruct (column_strings prototype strArr header) as [cells|e] eqn:E; [|discriminate].
  cbn [bind completed]. destruct (map_throwing_completed [] _ _ _ E) as [-> _].
  now rewrite map_map.
Qed.

Lemma columnWidths_length (prototype : record) (strArr : list record) (widths : list Z) :
  columnWidths prototype strArr = Normal widths ->
  length widths = length (headers_of strArr).
Proof. intros H. rewrite (columnWidths_widths _ _ _ H). apply length_map. Qed.





(** *** The rows *)













Section Rows.

Variable prototype : record.
Variable strArr : list record.
Variable widths : list Z.

Hypothesis widths_computed : columnWidths prototype strArr = Normal widths.







End Rows.

(** *** The lines *)















(** ** Sorting *)

Section StableSort.

Context {A : Type}.
Variable le : A -> A -> bool.

Lemma sorted_insert_perm (x : A) (l : list A) : Permutation (x :: l) (sorted_insert le x l).
Proof.
  induction l as [|y t IH]; cbn [sorted_insert]; [reflexivity|].
  destruct (le x y); [reflexivity|].
  rewrite perm_swap. now apply perm_skip.
Qed.

Lemma stable_sort_perm (l : list A) : Permutation l (stable_sort le l).
Proof.
  induction l as [|x t IH]; cbn [stable_sort fold_right]; [reflexivity|].
  rewrite <- sorted_insert_perm. now apply perm_skip.
Qed.

Hypothesis le_total : forall a b, le a b = true \/ le b a = true.
Hypothesis le_trans : forall a b c, le a b = true -> le b c = true -> le a c = true.

Lemma sorted_insert_sorted (x : A) (l : list A) :
  StronglySorted (fun a b => le a b = true) l ->
  StronglySorted (fun a b => le a b = true) (sorted_insert le x l).
Proof.
  induction 1 as [|y t Ht IH Hy]; cbn [sorted_insert].
  - repeat constructor.
  - destruct (le x y) eqn:E.
    + constructor; [now constructor|].
      constructor; [exact E|].
      rewrite Forall_forall in *. intros z Hz. apply (le_trans x y z E). now apply Hy.
    + constructor; [exact IH|].
      rewrite Forall_forall in *. intros z Hz.
      apply (Permutation_in _ (Permutation_sym (sorted_insert_perm x t))) in Hz.
      destruct Hz as [<-|Hz]; [|now apply Hy].
      destruct (le_total x y) as [H|H]; congruence.
Qed.

Lemma stable_sort_sorted (l : list A) :
  StronglySorted (fun a b => le a b = true) (stable_sort le l).
Proof.
  induction l as [|x t IH]; cbn [stable_sort fold_right]; [constructor|].
  now apply sorted_insert_sorted.
Qed.

End StableSort.

(** Two sorted lists of numbers with the same elements are equal. *)
Lemma sorted_perm_eq (l1 : list Z) :
  forall l2,
    StronglySorted (fun a b => (a <=? b) = true) l1 ->
    StronglySorted (fun a b => (a <=? b) = true) l2 ->
    Permutation l1 l2 -> l1 = l2.
Proof.
  induction l1 as [|x t1 IH]; intros l2 H1 H2 P.
  - now apply Permutation_nil in P.
  - destruct l2 as [|y t2]; [now apply Permutation_sym, Permutation_nil in P|].
    inversion H1 as [|? ? S1 F1]; inversion H2 as [|? ? S2 F2]; subst.
    rewrite Forall_forall in F1, F2.
    assert (x = y).
    { assert (Hx : In x (y :: t2)) by (apply (Permutation_in _ P); now left).
      assert (Hy : In y (x :: t1)) by (apply (Permutation_in _ (Permutation_sym P)); now left).
      destruct Hx as [->|Hx]; [reflexivity|]. destruct Hy as [->|Hy]; [reflexivity|].
      apply F2 in Hx. apply F1 in Hy. lia. }
    subst y. f_equal. apply IH; try assumption. now apply Permutation_cons_inv in P.
Qed.

Lemma stable_sort_units_perm (l1 l2 : jsstring) :
  Permutation l1 l2 -> stable_sort Z.leb l1 = stable_sort Z.leb l2.
Proof.
  intros P.
  assert (T : forall a b, (a <=? b) = true \/ (b <=? a) = true) by (intros; lia).
  assert (R : forall a b c, (a <=? b) = true -> (b <=? c) = true -> (a <=? c) = true)
    by (intros; lia).
  apply sorted_perm_eq; try now apply stable_sort_sorted.
  rewrite <- (stable_sort_perm Z.leb l1), <- (stable_sort_perm Z.leb l2). exact P.
Qed.

(** ** [sortAlphabetically] *)

Lemma elements_allocate_old (h : store) (l : list jsstring) (r : array_ref) :
  (r < length h)%nat -> elements (snd (allocate h l)) r = elements h r.
Proof. intros H. unfold elements, allocate. cbn [snd]. now apply app_nth1. Qed.

Lemma elements_allocate_new (h : store) (l : list jsstring) :
  elements (snd (allocate h l)) (fst (allocate h l)) = l.
Proof. unfold elements, allocate. cbn [fst snd]. apply nth_middle. Qed.

Lemma StronglySorted_weaken {A : Type} (R R' : A -> A -> Prop) (l : list A) :
  (forall a b, R a b -> R' a b) -> StronglySorted R l -> StronglySorted R' l.
Proof.
  intros HR. induction 1 as [|x t Ht IH Hx]; constructor; [exact IH|].
  rewrite Forall_forall in *. intros y Hy. apply HR. now apply Hx.
Qed.

Section SortAlphabetically.

Variable localeCompare : jsstring -> jsstring -> Z.

(** The collation is a total preorder. *)
Hypothesis localeCompare_total :
  forall a b, localeCompare a b <= 0 \/ localeCompare b a <= 0.
Hypothesis localeCompare_trans :
  forall a b c, localeCompare a b <= 0 -> localeCompare b c <= 0 -> localeCompare a c <= 0.

(** C9: [sortAlphabetically] leaves every array of the store as it was,
    its argument too, and returns a reference that was not in the store,
    to an array with the elements of the argument, in the order of their
    normalizations under the collation (a total preorder). *)
Theorem sortAlphabetically_new_array :
  forall (h : store) (strArr : array_ref),
    (strArr < length h)%nat ->
    let result := fst (sortAlphabetically localeCompare strArr h) in
    let h' := snd (sortAlphabetically localeCompare strArr h) in
    elements h' strArr = elements h strArr
    /\ (forall r, (r < length h)%nat -> elements h' r = elements h r)
    /\ (length h <= result)%nat
    /\ result <> strArr
    /\ Permutation (elements h strArr) (elements h' result)
    /\ StronglySorted (not_after localeCompare) (elements h' result).
Proof.
  intros h strArr Hr result h'. subst result h'. unfold sortAlphabetically.
  split; [now apply elements_allocate_old|].
  split; [intros r Hlt; now apply elements_allocate_old|].
  split; [cbn; lia|]. split; [cbn; lia|].
  rewrite elements_allocate_new. unfold toSorted.
  split; [apply stable_sort_perm|].
  eapply StronglySorted_weaken; [|apply stable_sort_sorted].
  - intros a b H. unfold not_after. now apply Z.leb_le in H.
  - intros a b.
    destruct (localeCompare_total (normalize a false false) (normalize b false false));
      [left|right]; now apply Z.leb_le.
  - intros a b c H1 H2. apply Z.leb_le. apply Z.leb_le in H1, H2.
    eapply localeCompare_trans; eassumption.
Qed.

End SortAlphabetically.

Lemma sortAlphabetically_new_array_witness :
  let h := [greek] in
  let result := fst (sortAlphabetically compare_lengths 0%nat h) in
  let h' := snd (sortAlphabetically compare_lengths 0%nat h) in
  elements h' 0%nat = elements h 0%nat
  /\ (forall r, (r < length h)%nat -> elements h' r = elements h r)
  /\ (length h <= result)%nat
  /\ result <> 0%nat
  /\ Permutation (elements h 0%nat) (elements h' result)
  /\ StronglySorted (not_after compare_lengths) (elements h' result).
Proof.
  apply (sortAlphabetically_new_array compare_lengths).
  - unfold compare_lengths. intros a b. lia.
  - unfold compare_lengths. intros a b c. lia.
  - simpl. lia.
Defined.

(** ** Tables and code units *)

Lemma assoc_In {A : Type} (c : Z) (t : list (Z * A)) (v : A) :
  assoc c t = Some v -> In (c, v) t.
Proof.
  induction t as [|[k w] t IH]; cbn [assoc]; [discriminate|].
  destruct (k =? c) eqn:E.
  - apply Z.eqb_eq in E. intros [= ->]. subst. now left.
  - intros H. right. now apply IH.
Qed.

(** A property checked on every line of a table holds of what [assoc]
    finds. *)
Lemma assoc_checked {A : Type} (P : Z * A -> bool) (t : list (Z * A)) (c : Z) (v : A) :
  forallb P t = true -> assoc c t = Some v -> P (c, v) = true.
Proof.
  intros H E. rewrite forallb_forall in H. apply H. now apply assoc_In.
Qed.

(** [table_fact E t P]: the line [E : assoc c t = Some v] of the table [t]
    has the property [P], which is checked on the whole table. *)
Tactic Notation "table_fact" hyp(E) constr(t) uconstr(P) :=
  let T := fresh "T" in
  assert (T : forallb P t = true) by (vm_compute; reflexivity);
  apply (assoc_checked _ t _ _ T) in E;
  clear T.

Lemma between_interval (lo hi c : Z) : between lo hi c = true -> In c (interval lo hi).
Proof.
  unfold between, interval. intros H. apply in_map_iff.
  exists (Z.to_nat (c - lo)). split; [lia|]. apply in_seq. lia.
Qed.

(** A property checked on every number of an interval holds in it. *)
Lemma interval_checked (P : Z -> bool) (lo hi c : Z) :
  forallb P (interval lo hi) = true -> between lo hi c = true -> P c = true.
Proof.
  intros H B. rewrite forallb_forall in H. apply H. now apply between_interval.
Qed.

Lemma code_units_of_cases (c : Z) :
  code_units_of c = [c]
  \/ exists h l, code_units_of c = [h; l] /\ is_high_surrogate h = true
                 /\ is_low_surrogate l = true /\ 0x10000 <= c <= 0x10FFFF.
Proof.
  unfold code_units_of. destruct ((0x10000 <=? c) && (c <=? 0x10FFFF)) eqn:E; [right|now left].
  eexists. eexists. split; [reflexivity|].
  apply andb_true_iff in E. destruct E as [E1 E2].
  assert (0 <= (c - 0x10000) / 0x400 < 0x400).
  { split; [apply Z.div_pos; lia|apply Z.div_lt_upper_bound; lia]. }
  assert (0 <= (c - 0x10000) mod 0x400 < 0x400) by (apply Z.mod_pos_bound; lia).
  unfold is_high_surrogate, is_low_surrogate. lia.
Qed.

(** What holds of the code points and of the surrogates holds of the code
    units. *)
Lemma code_units_Forall (P : Z -> Prop) (l : list Z) :
  (forall c, is_high_surrogate c = true \/ is_low_surrogate c = true -> P c) ->
  Forall P l -> Forall P (code_units l).
Proof.
  intros Hs. induction 1 as [|c t Hc Ht IH]; [constructor|].
  unfold code_units. cbn [flat_map]. apply Forall_app. split; [|exact IH].
  destruct (code_units_of_cases c) as [->|(h & l & -> & Hh & Hl & _)].
  - now constructor.
  - constructor; [apply Hs; now left|]. constructor; [apply Hs; now right|constructor].
Qed.

Lemma code_points_cons2 (h l : Z) (t : jsstring) :
  code_points (h :: l :: t)
  = if is_high_surrogate h && is_low_surrogate l
    then (0x10000 + (h - 0xD800) * 0x400 + (l - 0xDC00)) :: code_points t
    else h :: code_points (l :: t).
Proof. reflexivity. Qed.

(** An induction that follows [code_points]. *)
Lemma code_points_ind (P : jsstring -> Prop) :
  P [] ->
  (forall h, P [h]) ->
  (forall h l t, is_high_surrogate h && is_low_surrogate l = true -> P t -> P (h :: l :: t)) ->
  (forall h l t, is_high_surrogate h && is_low_surrogate l = false -> P (l :: t) ->
                 P (h :: l :: t)) ->
  forall s, P s.
Proof.
  intros H0 H1 Hp Hs s.
  assert (H : forall n s, (length s <= n)%nat -> P s).
  { induction n as [|n IH]; intros [|h [|l t]] Hn; try assumption; try apply H1;
      cbn [length] in Hn; try lia.
    destruct (is_high_surrogate h && is_low_surrogate l) eqn:E.
    - apply Hp; [exact E|]. apply IH. lia.
    - apply Hs; [exact E|]. apply IH. cbn [length]. lia. }
  apply (H (length s)). lia.
Qed.

(** What holds of the code units and of the supplementary code points holds
    of the code points. *)
Lemma code_points_Forall (P : Z -> Prop) (s : jsstring) :
  (forall c, 0x10000 <= c -> P c) ->
  Forall P s -> Forall P (code_points s).
Proof.
  intros Hs. induction s as [|h|h l t E IH|h l t E IH] using code_points_ind; intros H.
  - constructor.
  - exact H.
  - rewrite code_points_cons2, E. inversion H as [|? ? _ H']; inversion H'; subst.
    constructor; [|now apply IH].
    apply Hs. apply andb_true_iff in E. unfold is_high_surrogate, is_low_surrogate in E. lia.
  - rewrite code_points_cons2, E. inversion H; subst. constructor; [assumption|now apply IH].
Qed.

(** ** [toLowerCase] *)

Lemma lower_from_Forall (P Q : Z -> Prop) :
  (forall c, P c -> Forall Q (lower_code_point c)) -> Q 0x3C2 ->
  forall l rev_before, Forall P l -> Forall Q (lower_from rev_before l).
Proof.
  intros Hc Hs. induction l as [|c after IH]; intros rev_before H; cbn [lower_from].
  - constructor.
  - inversion H; subst. apply Forall_app. split; [|now apply IH].
    destruct ((c =? 0x3A3) && final_sigma rev_before after); [|now apply Hc].
    now constructor.
Qed.

(** From a property [P] of the code units of a string to a property [Q] of
    the code units of its lowercase. *)
Lemma toLowerCase_Forall (P Q : Z -> Prop) (s : jsstring) :
  (forall c, P c -> Forall Q (lower_code_point c)) -> Q 0x3C2 ->
  (forall c, is_high_surrogate c = true \/ is_low_surrogate c = true -> Q c) ->
  (forall c, 0x10000 <= c -> P c) ->
  Forall P s -> Forall Q (toLowerCase s).
Proof.
  intros Hc Hs Hq Hp H. unfold toLowerCase. apply code_units_Forall; [exact Hq|].
  apply (lower_from_Forall P Q Hc Hs). now apply code_points_Forall.
Qed.

(** No lowercase mapping gives a capital letter of ASCII, and each of these
    letters has a mapping. *)
Lemma lower_code_point_no_capital (c : Z) :
  Forall (fun x => between 0x41 0x5A x = false) (lower_code_point c).
Proof.
  unfold lower_code_point. destruct (assoc c lowercase_table) as [l|] eqn:E.
  - table_fact E lowercase_table
      (fun e => forallb (fun x => negb (between 0x41 0x5A x)) (snd e)).
    cbn [snd] in E.
    rewrite forallb_forall in E. apply Forall_forall. intros x Hx.
    apply E in Hx. now apply negb_true_iff in Hx.
  - constructor; [|constructor]. destruct (between 0x41 0x5A c) eqn:B; [|reflexivity].
    assert (T : forallb has_lowercase (interval 0x41 0x5A) = true) by (vm_compute; reflexivity).
    apply (interval_checked _ _ _ _ T) in B. unfold has_lowercase in B.
    rewrite E in B. discriminate.
Qed.

Lemma toLowerCase_no_capital (s : jsstring) :
  Forall (fun x => between 0x41 0x5A x = false) (toLowerCase s).
Proof.
  apply (toLowerCase_Forall (fun _ => True)).
  - intros c _. apply lower_code_point_no_capital.
  - reflexivity.
  - unfold is_high_surrogate, is_low_surrogate, between. intros c. lia.
  - easy.
  - now apply Forall_forall.
Qed.

(** ** [normalize] in strict mode *)

Lemma replace_first_empty (repl s : jsstring) : replace_first [] repl s = repl ++ s.
Proof. destruct s; reflexivity. Qed.

(** The normalization without the two options. *)
Lemma normalize_plain (s : jsstring) :
  normalize s false false
  = toLowerCase
      (trim (replace_all [Plus is_white_space] (js " ")
               (replace_all [Chr is_combining_mark] [] (nfd s)))).
Proof. unfold normalize. cbn [String_replace]. now rewrite replace_first_empty. Qed.

Lemma normalize_strict (s : jsstring) :
  normalize s true false
  = filter (fun c => negb (is_separator c)) (normalize s false false).
Proof.
  rewrite normalize_plain. unfold normalize. cbn [String_replace].
  now rewrite replace_all_class.
Qed.

(** C7, as the code has it: [normalize(s, true)] is the normalized string
    without the code units that are white space, ['_'], or outside
    [[A-Za-z0-9]]: a string of the letters [a-z] and the digits [0-9] only,
    so ["a-_-b"] gives ["ab"]; the letters outside ASCII that the
    normalization has left are removed with the separators. *)
Theorem normalize_strict_ascii_alphanumeric :
  (forall s,
      normalize s true false
      = filter (fun c => negb (is_separator c)) (normalize s false false)
      /\ Forall (fun c => is_lower_alnum c = true) (normalize s true false))
  /\ normalize (js "a-_-b") true false = js "ab".
Proof.
  split; [|vm_compute; reflexivity].
  intros s. split; [apply normalize_strict|].
  rewrite normalize_strict, normalize_plain. apply Forall_forall. intros c Hc.
  apply filter_In in Hc. destruct Hc as [Hin Hsep].
  pose proof (toLowerCase_no_capital
                (trim (replace_all [Plus is_white_space] (js " ")
                         (replace_all [Chr is_combining_mark] [] (nfd s))))) as Hcap.
  rewrite Forall_forall in Hcap. apply Hcap in Hin.
  unfold is_separator, is_non_word, is_word in Hsep. unfold is_lower_alnum.
  rewrite Hin in Hsep. cbn [orb] in Hsep.
  destruct (between 0x61 0x7A c); [reflexivity|].
  destruct (between 0x30 0x39 c); [reflexivity|].
  cbn [orb negb] in Hsep.
  destruct (c =? 0x5F); [|rewrite orb_true_r in Hsep; discriminate].
  rewrite !orb_true_r in Hsep. discriminate.
Qed.

(** C7 as the specification states it fails: U+00DF, the fifth character
    of [strasse], is a letter, which the specification keeps, and
    [normalize(strasse, true)] is ["strae"]. *)
Theorem normalize_strict_drops_letters :
  normalize strasse true false = js "strae"
  /\ spec_strict strasse = [0x73; 0x74; 0x72; 0x61; 0xDF; 0x65]
  /\ normalize strasse true false <> spec_strict strasse.
Proof.
  assert (H1 : normalize strasse true false = js "strae") by (vm_compute; reflexivity).
  assert (H2 : spec_strict strasse = [0x73; 0x74; 0x72; 0x61; 0xDF; 0x65])
    by (vm_compute; reflexivity).
  split; [exact H1|]. split; [exact H2|]. rewrite H1, H2. discriminate.
Qed.

(** ** White space: [replace(/\s+/g, " ")] and [trim] *)

Lemma trimStart_split (s : jsstring) :
  exists u, s = u ++ trimStart s.
Proof.
  induction s as [|c t [u IH]]; [now exists []|]. cbn [trimStart].
  destruct (is_white_space c).
  - exists (c :: u). cbn [app]. now rewrite <- IH.
  - now exists [].
Qed.

Lemma trimStart_fixed (s : jsstring) : stops is_white_space s -> trimStart s = s.
Proof. destruct s as [|c t]; [reflexivity|]. cbn [stops trimStart]. now intros ->. Qed.

Lemma collapse_from_stops (b : bool) (s : jsstring) :
  stops is_white_space s -> collapse_from b s = collapse_from false s.
Proof. destruct s as [|c t]; [reflexivity|]. cbn [stops collapse_from]. now intros ->. Qed.

Lemma collapse_from_trimStart (s : jsstring) :
  collapse_from true s = collapse_from false (trimStart s).
Proof.
  induction s as [|c t IH]; [reflexivity|]. cbn [trimStart collapse_from].
  destruct (is_white_space c) eqn:E; [exact IH|].
  cbn [collapse_from]. now rewrite E.
Qed.

Lemma match_white_space_run (c : Z) (t : jsstring) :
  match_here [Plus is_white_space] (c :: t)
  = if is_white_space c then Some (trimStart t) else None.
Proof.
  cbn [match_here]. destruct (is_white_space c); [|reflexivity].
  apply match_star_white_space.
Qed.

Lemma replace_all_white_space (n : nat) :
  forall s, (length s <= n)%nat ->
  replace_all [Plus is_white_space] (js " ") s = collapse_from false s.
Proof.
  induction n as [|n IH]; intros [|c t] Hn; try reflexivity; cbn [length] in Hn; [lia|].
  pose proof (match_white_space_run c t) as M. cbn [collapse_from].
  destruct (is_white_space c) eqn:E.
  - destruct (trimStart_split t) as [u Hu]. rewrite collapse_from_trimStart.
    remember (trimStart t) as rest eqn:Hrest. clear Hrest. subst t.
    rewrite length_app in Hn. rewrite <- IH by lia.
    now rewrite (replace_all_match _ _ _ _ _ M).
  - rewrite (replace_all_nomatch _ _ _ _ M). f_equal. apply IH. lia.
Qed.

Lemma collapse_admissible (s : jsstring) :
  admissible InWord (collapse_from false s) = true
  /\ admissible AfterSpace (collapse_from true s) = true.
Proof.
  induction s as [|c t [IH1 IH2]]; [now split|]. cbn [collapse_from].
  destruct (is_white_space c) eqn:E.
  - split; [|exact IH2]. cbn [admissible]. now rewrite IH2.
  - cbn [admissible]. rewrite E. now split.
Qed.

Lemma admissible_after_space (s : jsstring) :
  admissible AfterSpace s = true -> stops is_white_space s /\ admissible AtStart s = true.
Proof.
  destruct s as [|c t]; [now split|]. cbn [admissible stops].
  destruct (is_white_space c); [|now split].
  rewrite andb_false_r. discriminate.
Qed.

Lemma admissible_trimStart (s : jsstring) :
  admissible InWord s = true -> admissible AtStart (trimStart s) = true.
Proof.
  destruct s as [|c t]; [reflexivity|]. cbn [admissible trimStart].
  destruct (is_white_space c) eqn:E.
  - intros H. apply andb_true_iff in H. destruct H as [_ H].
    apply admissible_after_space in H. destruct H as [H1 H2].
    now rewrite (trimStart_fixed _ H1).
  - cbn [admissible]. now rewrite E.
Qed.

Lemma trimStart_snoc (l : jsstring) (c : Z) :
  trimStart (l ++ [c])
  = match trimStart l with
    | [] => if is_white_space c then [] else [c]
    | r => r ++ [c]
    end.
Proof.
  induction l as [|d l IH]; cbn [app trimStart].
  - now destruct (is_white_space c).
  - destruct (is_white_space d); [exact IH|reflexivity].
Qed.

Lemma trimEnd_cons (c : Z) (t : jsstring) :
  trimEnd (c :: t)
  = match trimEnd t with
    | [] => if is_white_space c then [] else [c]
    | r => c :: r
    end.
Proof.
  unfold trimEnd. cbn [rev]. rewrite trimStart_snoc.
  destruct (trimStart (rev t)) as [|x r].
  - now destruct (is_white_space c).
  - rewrite rev_app_distr. cbn [rev app].
    destruct (rev r ++ [x]) eqn:E; [|reflexivity].
    now apply app_eq_nil in E.
Qed.

Lemma trimEnd_cons_word (c : Z) (t : jsstring) :
  is_white_space c = false -> trimEnd (c :: t) = c :: trimEnd t.
Proof. intros E. rewrite trimEnd_cons, E. now destruct (trimEnd t). Qed.

Lemma admissible_trimEnd (s : jsstring) :
  forall p, admissible p s = true -> trimEnd s = [] \/ tidy_from p (trimEnd s) = true.
Proof.
  induction s as [|c t IH]; intros p H; [now left|]. cbn [admissible] in H.
  destruct (is_white_space c) eqn:E.
  - apply andb_true_iff in H. destruct H as [H Ht].
    rewrite trimEnd_cons, E. destruct (IH _ Ht) as [->|Hr]; [now left|].
    destruct (trimEnd t) as [|x r]; [now left|right].
    cbn [tidy_from] in Hr |- *. now rewrite E, H.
  - right. rewrite (trimEnd_cons_word _ _ E). cbn [tidy_from]. rewrite E.
    destruct (IH _ H) as [->|Hr]; [reflexivity|exact Hr].
Qed.

(** The string that [normalize] lowercases is tidy. *)
Lemma tidy_trim_collapse (s : jsstring) : tidy (trim (collapse_from false s)) = true.
Proof.
  unfold tidy, trim.
  destruct (admissible_trimEnd (trimStart (collapse_from false s)) AtStart) as [->|H].
  - apply admissible_trimStart, collapse_admissible.
  - reflexivity.
  - exact H.
Qed.

Lemma tidy_from_admissible (s : jsstring) :
  forall p, tidy_from p s = true -> admissible p s = true.
Proof.
  induction s as [|c t IH]; intros p H; [reflexivity|]. cbn [tidy_from admissible] in *.
  destruct (is_white_space c).
  - apply andb_true_iff in H. destruct H as [-> H]. now apply IH.
  - now apply IH.
Qed.

(** A tidy string is left as it is by the two steps. *)
Lemma admissible_collapse (s : jsstring) :
  forall p, admissible p s = true -> collapse_from (negb (in_word p)) s = s.
Proof.
  induction s as [|c t IH]; intros p H; [reflexivity|]. cbn [admissible collapse_from] in *.
  destruct (is_white_space c).
  - apply andb_true_iff in H. destruct H as [H Ht]. apply andb_true_iff in H.
    destruct H as [Hc Hp]. rewrite Hp. cbn [negb]. apply Z.eqb_eq in Hc. subst c.
    f_equal. exact (IH AfterSpace Ht).
  - f_equal. exact (IH InWord H).
Qed.

Lemma tidy_stops (s : jsstring) : tidy s = true -> stops is_white_space s.
Proof.
  destruct s as [|c t]; [easy|]. unfold tidy. cbn [tidy_from stops].
  destruct (is_white_space c); [|reflexivity]. rewrite andb_false_r. discriminate.
Qed.

Lemma tidy_collapse (s : jsstring) : tidy s = true -> collapse_from false s = s.
Proof.
  intros H. rewrite <- (collapse_from_stops true) by now apply tidy_stops.
  apply (admissible_collapse s AtStart). now apply tidy_from_admissible.
Qed.

Lemma tidy_from_trimEnd (s : jsstring) :
  forall p, tidy_from p s = true -> trimEnd s = s.
Proof.
  induction s as [|c t IH]; intros p H; [reflexivity|]. cbn [tidy_from] in H.
  destruct (is_white_space c) eqn:E.
  - apply andb_true_iff in H. destruct H as [_ H].
    rewrite trimEnd_cons, (IH _ H). destruct t; [discriminate H|reflexivity].
  - rewrite (trimEnd_cons_word _ _ E). f_equal. exact (IH _ H).
Qed.

Lemma tidy_trim (s : jsstring) : tidy s = true -> trim s = s.
Proof.
  intros H. unfold trim. rewrite (trimStart_fixed _ (tidy_stops _ H)).
  exact (tidy_from_trimEnd _ _ H).
Qed.

(** Words may change, the string stays tidy. *)
Lemma tidy_from_word (u x : jsstring) :
  Forall (fun c => is_white_space c = false) u ->
  tidy_from InWord (u ++ x) = tidy_from InWord x.
Proof.
  induction 1 as [|c u Hc Hu IH]; [reflexivity|]. cbn [app tidy_from]. now rewrite Hc.
Qed.

Lemma tidy_from_word_start (p : position) (u x : jsstring) :
  u <> [] -> Forall (fun c => is_white_space c = false) u ->
  tidy_from p (u ++ x) = tidy_from InWord x.
Proof.
  intros Hne Hu. destruct Hu as [|c u Hc Hu]; [contradiction|].
  cbn [app tidy_from]. rewrite Hc. now apply tidy_from_word.
Qed.

Lemma same_spacing_tidy (x y : list Z) :
  same_spacing x y -> forall p, tidy_from p x = true -> tidy_from p y = true.
Proof.
  induction 1 as [|c x y Hc Hxy IH|u v x y Hu Hv Fu Fv Hxy IH]; intros p H.
  - exact H.
  - cbn [tidy_from] in *. rewrite Hc in *. apply andb_true_iff in H. destruct H as [-> H].
    now apply IH.
  - rewrite (tidy_from_word_start p u x Hu Fu) in H.
    rewrite (tidy_from_word_start p v y Hv Fv). now apply IH.
Qed.

Lemma same_spacing_cons (c : Z) (x y : list Z) :
  same_spacing x y -> same_spacing (c :: x) (c :: y).
Proof.
  intros H. destruct (is_white_space c) eqn:E.
  - now constructor.
  - apply (same_spacing_word [c] [c]); [discriminate|discriminate| | |exact H];
      now repeat constructor.
Qed.

Lemma surrogate_not_white_space (c : Z) :
  0xD800 <= c <= 0xDFFF \/ 0x10000 <= c -> is_white_space c = false.
Proof. unfold is_white_space, between. lia. Qed.

Lemma same_spacing_code_points (s : jsstring) : same_spacing s (code_points s).
Proof.
  induction s as [|h|h l t E IH|h l t E IH] using code_points_ind.
  - constructor.
  - apply same_spacing_cons. constructor.
  - rewrite code_points_cons2, E.
    apply andb_true_iff in E. unfold is_high_surrogate, is_low_surrogate in E.
    apply (same_spacing_word [h; l] [0x10000 + (h - 0xD800) * 0x400 + (l - 0xDC00)]);
      [discriminate|discriminate| | |exact IH];
      repeat constructor; apply surrogate_not_white_space; lia.
  - rewrite code_points_cons2, E. now apply same_spacing_cons.
Qed.

Lemma same_spacing_code_units (l : list Z) : same_spacing l (code_units l).
Proof.
  induction l as [|c t IH]; [constructor|].
  unfold code_units. cbn [flat_map].
  destruct (code_units_of_cases c) as [->|(h & lo & -> & Hh & Hl & Hc)].
  - now apply same_spacing_cons.
  - unfold is_high_surrogate in Hh. unfold is_low_surrogate in Hl.
    apply (same_spacing_word [c] [h; lo]); [discriminate|discriminate| | |exact IH];
      repeat constructor; apply surrogate_not_white_space; lia.
Qed.

(** White space has no lowercase mapping, and no mapping gives white space
    or nothing. *)
Lemma lower_code_point_white_space (c : Z) :
  is_white_space c = true -> lower_code_point c = [c].
Proof.
  intros H. unfold lower_code_point. destruct (assoc c lowercase_table) as [l|] eqn:E.
  - table_fact E lowercase_table (fun e => negb (is_white_space (fst e))).
    cbn [fst] in E. rewrite H in E. discriminate.
  - reflexivity.
Qed.

Lemma lower_code_point_word (c : Z) :
  is_white_space c = false ->
  lower_code_point c <> []
  /\ Forall (fun x => is_white_space x = false) (lower_code_point c).
Proof.
  intros H. unfold lower_code_point. destruct (assoc c lowercase_table) as [l|] eqn:E.
  - table_fact E lowercase_table
      (fun e => some_and_all (fun x => negb (is_white_space x)) (snd e)).
    cbn [snd] in E. destruct l as [|x l]; [discriminate|]. split; [discriminate|].
    cbn [some_and_all] in E.
    rewrite forallb_forall in E. apply Forall_forall. intros y Hy.
    apply E in Hy. now apply negb_true_iff in Hy.
  - split; [discriminate|]. now repeat constructor.
Qed.

Lemma same_spacing_lower_from (l : list Z) :
  forall rev_before, same_spacing l (lower_from rev_before l).
Proof.
  induction l as [|c after IH]; intros rev_before; cbn [lower_from]; [constructor|].
  destruct (is_white_space c) eqn:E.
  - assert (S : (c =? 0x3A3) = false).
    { destruct (c =? 0x3A3) eqn:S; [|reflexivity]. apply Z.eqb_eq in S. subst. discriminate. }
    rewrite S. cbn [andb]. rewrite (lower_code_point_white_space _ E). cbn [app].
    now constructor.
  - apply (same_spacing_word [c]); [discriminate| | | |apply IH].
    + destruct ((c =? 0x3A3) && final_sigma rev_before after); [discriminate|].
      now apply lower_code_point_word.
    + now repeat constructor.
    + destruct ((c =? 0x3A3) && final_sigma rev_before after); [now repeat constructor|].
      now apply lower_code_point_word.
Qed.

Lemma tidy_toLowerCase (s : jsstring) : tidy s = true -> tidy (toLowerCase s) = true.
Proof.
  unfold tidy, toLowerCase. intros H.
  apply (same_spacing_tidy _ _ (same_spacing_code_units _)).
  apply (same_spacing_tidy _ _ (same_spacing_lower_from _ _)).
  now apply (same_spacing_tidy _ _ (same_spacing_code_points _)).
Qed.

(** The replacement of white space by the empty string keeps the characters
    that are not white space. *)
Lemma filter_trimStart (s : jsstring) :
  filter (fun c => negb (is_white_space c)) (trimStart s)
  = filter (fun c => negb (is_white_space c)) s.
Proof.
  induction s as [|c t IH]; [reflexivity|]. cbn [trimStart filter].
  destruct (is_white_space c) eqn:E; [exact IH|]. cbn [filter]. now rewrite E.
Qed.

Lemma replace_all_white_space_nil (n : nat) :
  forall s, (length s <= n)%nat ->
  replace_all [Plus is_white_space] [] s = filter (fun c => negb (is_white_space c)) s.
Proof.
  induction n as [|n IH]; intros [|c t] Hn; try reflexivity; cbn [length] in Hn; [lia|].
  pose proof (match_white_space_run c t) as M. cbn [filter].
  destruct (is_white_space c) eqn:E; cbn [negb].
  - destruct (trimStart_split t) as [u Hu]. rewrite <- filter_trimStart.
    remember (trimStart t) as rest eqn:Hrest. clear Hrest. subst t.
    rewrite length_app in Hn. rewrite <- IH by lia.
    now rewrite (replace_all_match _ _ _ _ _ M).
  - rewrite (replace_all_nomatch _ _ _ _ M). f_equal. apply IH. lia.
Qed.

Lemma removeWhitespace_kept (s : jsstring) :
  removeWhitespace s = filter (fun c => negb (is_white_space c)) s.
Proof.
  unfold removeWhitespace. cbn [String_replace].
  apply (replace_all_white_space_nil (length s)). lia.
Qed.

(** ** Surrogate pairs through [toLowerCase] *)

Lemma well_paired_from_weaken (l : list Z) :
  well_paired_from true l = true -> well_paired_from false l = true.
Proof.
  destruct l as [|c t]; [reflexivity|]. cbn [well_paired_from andb negb].
  intros H. apply andb_true_iff in H. now destruct H as [_ ->].
Qed.

Lemma well_paired_from_any (b : bool) (l : list Z) :
  well_paired_from b l = true -> well_paired_from false l = true.
Proof. destruct b; [apply well_paired_from_weaken|easy]. Qed.

(** The code points of a string are well paired. *)
Lemma well_paired_code_points (s : jsstring) :
  forall b, (b = true -> stops is_low_surrogate s) ->
  well_paired_from b (code_points s) = true.
Proof.
  induction s as [|h|h l t E IH|h l t E IH] using code_points_ind; intros b Hb.
  - reflexivity.
  - cbn [code_points well_paired_from]. destruct b; [|reflexivity].
    cbn [stops] in Hb. now rewrite (Hb eq_refl).
  - rewrite code_points_cons2, E. cbn [well_paired_from].
    apply andb_true_iff in E. unfold is_high_surrogate, is_low_surrogate in E.
    assert (L : is_low_surrogate (0x10000 + (h - 0xD800) * 0x400 + (l - 0xDC00)) = false)
      by (unfold is_low_surrogate; lia).
    assert (H : is_high_surrogate (0x10000 + (h - 0xD800) * 0x400 + (l - 0xDC00)) = false)
      by (unfold is_high_surrogate; lia).
    rewrite L, H, andb_false_r. cbn [negb andb]. apply IH. discriminate.
  - rewrite code_points_cons2, E. cbn [well_paired_from].
    apply andb_true_iff. split.
    + destruct b; [|reflexivity]. cbn [stops] in Hb. now rewrite (Hb eq_refl).
    + apply IH. intros Hh. cbn [stops]. rewrite Hh in E. exact E.
Qed.

Lemma code_points_cons_single (c : Z) (s : jsstring) :
  (is_high_surrogate c = true -> stops is_low_surrogate s) ->
  code_points (c :: s) = c :: code_points s.
Proof.
  destruct s as [|d t]; [reflexivity|]. intros H. rewrite code_points_cons2.
  destruct (is_high_surrogate c) eqn:E; [|reflexivity].
  cbn [stops] in H. now rewrite (H eq_refl).
Qed.

Lemma code_units_stops (l : list Z) :
  stops is_low_surrogate l -> stops is_low_surrogate (code_units l).
Proof.
  destruct l as [|c t]; [easy|]. unfold code_units. cbn [flat_map].
  destruct (code_units_of_cases c) as [->|(h & lo & -> & Hh & _ & _)]; [easy|].
  intros _. cbn [app stops]. unfold is_high_surrogate in Hh. unfold is_low_surrogate. lia.
Qed.

Lemma code_points_pair (c : Z) (s : jsstring) :
  0x10000 <= c <= 0x10FFFF -> code_points (code_units_of c ++ s) = c :: code_points s.
Proof.
  intros H. unfold code_units_of.
  replace ((0x10000 <=? c) && (c <=? 0x10FFFF)) with true by lia.
  cbn [app]. rewrite code_points_cons2.
  assert (0 <= (c - 0x10000) / 0x400 < 0x400).
  { split; [apply Z.div_pos; lia|apply Z.div_lt_upper_bound; lia]. }
  assert (0 <= (c - 0x10000) mod 0x400 < 0x400) by (apply Z.mod_pos_bound; lia).
  replace (is_high_surrogate (0xD800 + (c - 0x10000) / 0x400)) with true
    by (unfold is_high_surrogate; lia).
  replace (is_low_surrogate (0xDC00 + (c - 0x10000) mod 0x400)) with true
    by (unfold is_low_surrogate; lia).
  cbn [andb]. f_equal.
  pose proof (Z.div_mod (c - 0x10000) 0x400). lia.
Qed.

(** Well paired code points are the code points of their code units. *)
Lemma code_points_code_units (l : list Z) :
  well_paired_from false l = true -> code_points (code_units l) = l.
Proof.
  induction l as [|c t IH]; intros H; [reflexivity|].
  cbn [well_paired_from andb negb] in H.
  unfold code_units. cbn [flat_map]. fold (code_units t).
  destruct ((0x10000 <=? c) && (c <=? 0x10FFFF)) eqn:E.
  - rewrite code_points_pair by lia. f_equal. apply IH.
    now apply (well_paired_from_any (is_high_surrogate c)).
  - unfold code_units_of. rewrite E. cbn [app]. rewrite code_points_cons_single.
    + f_equal. apply IH. now apply (well_paired_from_any (is_high_surrogate c)).
    + intros Hh. apply code_units_stops. rewrite Hh in H.
      destruct t as [|d t]; [easy|]. cbn [well_paired_from andb] in H. cbn [stops].
      destruct (is_low_surrogate d); [discriminate|reflexivity].
Qed.

(** A surrogate has no lowercase mapping, and no mapping gives one. *)
Lemma lower_code_point_surrogate (c : Z) :
  is_surrogate c = true -> lower_code_point c = [c].
Proof.
  intros H. unfold lower_code_point. destruct (assoc c lowercase_table) as [l|] eqn:E.
  - table_fact E lowercase_table (fun e => negb (is_surrogate (fst e))).
    cbn [fst] in E. rewrite H in E. discriminate.
  - reflexivity.
Qed.

Lemma lower_code_point_not_surrogate (c : Z) :
  is_surrogate c = false ->
  lower_code_point c <> []
  /\ Forall (fun x => is_surrogate x = false) (lower_code_point c).
Proof.
  intros H. unfold lower_code_point. destruct (assoc c lowercase_table) as [l|] eqn:E.
  - table_fact E lowercase_table
      (fun e => some_and_all (fun x => negb (is_surrogate x)) (snd e)).
    cbn [snd] in E. destruct l as [|x l]; [discriminate|]. split; [discriminate|].
    cbn [some_and_all] in E.
    rewrite forallb_forall in E. apply Forall_forall. intros y Hy.
    apply E in Hy. now apply negb_true_iff in Hy.
  - split; [discriminate|]. now repeat constructor.
Qed.

Lemma well_paired_from_block (u x : list Z) :
  Forall (fun c => is_surrogate c = false) u ->
  forall b, well_paired_from b (u ++ x)
            = well_paired_from (match u with [] => b | _ => false end) x.
Proof.
  induction 1 as [|c u Hc Hu IH]; intros b; [reflexivity|].
  cbn [app well_paired_from]. unfold is_surrogate in Hc. apply orb_false_iff in Hc.
  destruct Hc as [Hh Hl]. rewrite Hh, Hl, andb_false_r. cbn [negb andb].
  rewrite IH. now destruct u.
Qed.

Lemma well_paired_lower_from (l : list Z) :
  forall b rev_before,
    well_paired_from b l = true -> well_paired_from b (lower_from rev_before l) = true.
Proof.
  induction l as [|c after IH]; intros b rev_before H; [reflexivity|].
  cbn [lower_from]. cbn [well_paired_from] in H.
  apply andb_true_iff in H. destruct H as [Hc H].
  destruct (is_surrogate c) eqn:E.
  - assert (S : (c =? 0x3A3) = false).
    { destruct (c =? 0x3A3) eqn:S; [|reflexivity]. apply Z.eqb_eq in S. subst. discriminate. }
    rewrite S. cbn [andb]. rewrite (lower_code_point_surrogate _ E).
    cbn [app well_paired_from]. rewrite Hc. now apply IH.
  - assert (B : exists x u,
               (if (c =? 0x3A3) && final_sigma rev_before after
                then [0x3C2] else lower_code_point c) = x :: u
               /\ Forall (fun c => is_surrogate c = false) (x :: u)).
    { destruct ((c =? 0x3A3) && final_sigma rev_before after).
      - exists 0x3C2, []. split; [reflexivity|]. now repeat constructor.
      - destruct (lower_code_point_not_surrogate _ E) as [Hne Hall].
        destruct (lower_code_point c) as [|x u]; [contradiction|]. eauto. }
    destruct B as (x & u & -> & Hall). rewrite (well_paired_from_block _ _ Hall).
    apply IH. unfold is_surrogate in E. apply orb_false_iff in E. destruct E as [Hh _].
    now rewrite Hh in H.
Qed.

(** ** [toLowerCase] is idempotent *)

Lemma lower_code_point_stable (c : Z) :
  Forall (fun x => has_lowercase x = false) (lower_code_point c).
Proof.
  unfold lower_code_point. destruct (assoc c lowercase_table) as [l|] eqn:E.
  - table_fact E lowercase_table
      (fun e => forallb (fun x => negb (has_lowercase x)) (snd e)).
    cbn [snd] in E.
    rewrite forallb_forall in E. apply Forall_forall. intros x Hx.
    apply E in Hx. now apply negb_true_iff in Hx.
  - constructor; [|constructor]. unfold has_lowercase. now rewrite E.
Qed.

Lemma lower_from_stable (l : list Z) :
  Forall (fun x => has_lowercase x = false) l ->
  forall rev_before, lower_from rev_before l = l.
Proof.
  induction 1 as [|c t Hc Ht IH]; intros rev_before; [reflexivity|].
  cbn [lower_from]. rewrite IH.
  assert (S : (c =? 0x3A3) = false).
  { destruct (c =? 0x3A3) eqn:S; [|reflexivity]. apply Z.eqb_eq in S. subst. discriminate. }
  rewrite S. cbn [andb]. unfold lower_code_point. unfold has_lowercase in Hc.
  now destruct (assoc c lowercase_table).
Qed.

Lemma toLowerCase_idempotent (s : jsstring) : toLowerCase (toLowerCase s) = toLowerCase s.
Proof.
  unfold toLowerCase. rewrite code_points_code_units.
  - rewrite lower_from_stable; [reflexivity|].
    apply (lower_from_Forall (fun _ => True)).
    + intros c _. apply lower_code_point_stable.
    + reflexivity.
    + now apply Forall_forall.
  - apply well_paired_lower_from, well_paired_code_points. discriminate.
Qed.

(** ** [normalize] *)

Lemma Forall_trimStart (P : Z -> Prop) (s : jsstring) :
  Forall P s -> Forall P (trimStart s).
Proof.
  induction 1 as [|c t Hc Ht IH]; [constructor|]. cbn [trimStart].
  destruct (is_white_space c); [exact IH|now constructor].
Qed.

Lemma Forall_trim (P : Z -> Prop) (s : jsstring) : Forall P s -> Forall P (trim s).
Proof.
  intros H. unfold trim, trimEnd.
  now apply Forall_rev, Forall_trimStart, Forall_rev, Forall_trimStart.
Qed.

Lemma Forall_collapse_from (P : Z -> Prop) (s : jsstring) :
  P 0x20 -> Forall P s -> forall b, Forall P (collapse_from b s).
Proof.
  intros Hs. induction 1 as [|c t Hc Ht IH]; intros b; [constructor|]. cbn [collapse_from].
  destruct (is_white_space c); [destruct b|]; try constructor; auto.
Qed.

Lemma filter_fixed {A : Type} (f : A -> bool) (l : list A) :
  Forall (fun x => f x = true) l -> filter f l = l.
Proof. induction 1 as [|x t Hx Ht IH]; [reflexivity|]. cbn [filter]. now rewrite Hx, IH. Qed.

(** *** The letter U+0130 does not survive the decomposition *)

Lemma canonical_decomposition_Forall (P : Z -> bool) (c : Z) :
  forallb (fun e => forallb P (snd e)) canonical_decomposition_table = true ->
  (forall x, 0x1100 <= x -> x <= 0x11FF -> P x = true) ->
  (is_decomposed c = true -> P c = true) ->
  Forall (fun x => P x = true) (canonical_decomposition c).
Proof.
  intros T Hj Hc. unfold canonical_decomposition, is_decomposed, hangul_decomposition in *.
  destruct ((0xAC00 <=? c) && (c <=? 0xD7A3)) eqn:H.
  - assert (0 <= (c - 0xAC00) / 588 < 19).
    { split; [apply Z.div_pos; lia|apply Z.div_lt_upper_bound; lia]. }
    assert (0 <= (c - 0xAC00) mod 588 < 588) by (apply Z.mod_pos_bound; lia).
    assert (0 <= (c - 0xAC00) mod 588 / 28 < 21).
    { split; [apply Z.div_pos; lia|apply Z.div_lt_upper_bound; lia]. }
    assert (0 <= (c - 0xAC00) mod 28 < 28) by (apply Z.mod_pos_bound; lia).
    cbv zeta. destruct ((c - 0xAC00) mod 28 =? 0); repeat constructor; apply Hj; lia.
  - destruct (assoc c canonical_decomposition_table) as [l|] eqn:E.
    + apply (assoc_checked _ _ _ _ T) in E. clear T. cbn [snd] in E.
      rewrite forallb_forall in E. now apply Forall_forall.
    + constructor; [now apply Hc|constructor].
Qed.

Lemma canonical_insert_Forall (P : Z -> Prop) (c : Z) (l : list Z) :
  P c -> Forall P l -> Forall P (canonical_insert c l).
Proof.
  intros Hc. induction 1 as [|d r Hd Hr IH]; cbn [canonical_insert].
  - now repeat constructor.
  - destruct ((0 <? combining_class d) && (combining_class d <? combining_class c));
      repeat constructor; assumption.
Qed.

Lemma canonical_ordering_Forall (P : Z -> Prop) (l : list Z) :
  Forall P l -> Forall P (canonical_ordering l).
Proof.
  induction 1 as [|c t Hc Ht IH]; [constructor|].
  unfold canonical_ordering. cbn [fold_right]. now apply canonical_insert_Forall.
Qed.

Lemma nfd_code_points_Forall (P Q : Z -> Prop) (l : list Z) :
  (forall c, P c -> Forall Q (canonical_decomposition c)) ->
  Forall P l -> Forall Q (nfd_code_points l).
Proof.
  intros Hd H. unfold nfd_code_points.
  apply canonical_ordering_Forall, Forall_flat_map.
  revert H. apply Forall_impl. exact Hd.
Qed.

Lemma nfd_Forall (P : Z -> Prop) (s : jsstring) :
  (forall c, Forall P (canonical_decomposition c)) ->
  (forall c, is_high_surrogate c = true \/ is_low_surrogate c = true -> P c) ->
  Forall P (nfd s).
Proof.
  intros Hd Hs. unfold nfd. apply code_units_Forall; [exact Hs|].
  apply (nfd_code_points_Forall (fun _ => True)); [intros c _; apply Hd|].
  now apply Forall_forall.
Qed.

Lemma nfd_no_dotted_I (s : jsstring) : Forall (fun c => negb (c =? 0x130) = true) (nfd s).
Proof.
  apply nfd_Forall.
  - intros c. apply canonical_decomposition_Forall.
    + vm_compute. reflexivity.
    + intros x H1 H2. lia.
    + intros E. destruct (c =? 0x130) eqn:D; [|reflexivity].
      apply Z.eqb_eq in D. subst c. vm_compute in E. discriminate.
  - unfold is_high_surrogate, is_low_surrogate. intros c. lia.
Qed.

(** *** No combining mark is left *)

(** The one mapping that gives a mark of [U+0300-U+036F] is that of
    U+0130. *)
Lemma lower_code_point_no_mark (c : Z) :
  plain c = true ->
  Forall (fun x => negb (is_combining_mark x) = true) (lower_code_point c).
Proof.
  unfold plain. intros H. apply andb_true_iff in H. destruct H as [Hm Hi].
  unfold lower_code_point. destruct (assoc c lowercase_table) as [l|] eqn:E.
  - table_fact E lowercase_table
      (fun e => (fst e =? 0x130)
                || forallb (fun x => negb (is_combining_mark x)) (snd e)).
    cbn [fst snd] in E.
    apply negb_true_iff in Hi. rewrite Hi in E. cbn [orb] in E.
    rewrite forallb_forall in E. now apply Forall_forall.
  - now repeat constructor.
Qed.

Lemma normalize_unaccented (s : jsstring) :
  normalize s false false = toLowerCase (unaccented s).
Proof.
  rewrite normalize_plain, replace_all_class. unfold unaccented.
  now rewrite (replace_all_white_space _ _ (Nat.le_refl _)).
Qed.

Lemma unaccented_plain (s : jsstring) : Forall (fun c => plain c = true) (unaccented s).
Proof.
  unfold unaccented. apply Forall_trim, Forall_collapse_from; [reflexivity|].
  apply Forall_forall. intros c Hc. apply filter_In in Hc. destruct Hc as [Hin Hm].
  pose proof (nfd_no_dotted_I s) as H. rewrite Forall_forall in H.
  unfold plain. now rewrite Hm, (H c Hin).
Qed.

Lemma normalize_no_mark (s : jsstring) :
  Forall (fun c => negb (is_combining_mark c) = true) (normalize s false false).
Proof.
  rewrite normalize_unaccented.
  apply (toLowerCase_Forall (fun c => plain c = true)).
  - apply lower_code_point_no_mark.
  - reflexivity.
  - unfold is_high_surrogate, is_low_surrogate, is_combining_mark, between. intros c. lia.
  - unfold plain, is_combining_mark, between. intros c. lia.
  - apply unaccented_plain.
Qed.

Lemma normalize_tidy (s : jsstring) : tidy (normalize s false false) = true.
Proof. rewrite normalize_unaccented. apply tidy_toLowerCase, tidy_trim_collapse. Qed.

(** The normalization of a string that the decomposition leaves as it is
    is that string. *)
Lemma normalize_normalized (s : jsstring) :
  nfd (normalize s false false) = normalize s false false ->
  normalize (normalize s false false) false false = normalize s false false.
Proof.
  intros H. rewrite (normalize_unaccented (normalize s false false)).
  unfold unaccented. rewrite H.
  rewrite (filter_fixed _ _ (normalize_no_mark s)).
  rewrite (tidy_collapse _ (normalize_tidy s)), (tidy_trim _ (normalize_tidy s)).
  rewrite normalize_unaccented. apply toLowerCase_idempotent.
Qed.

(** ** Canonical ordering *)

Lemma combining_class_in_nonneg (c : Z) (t : list (Z * Z * Z)) :
  forallb (fun e => 0 <=? snd e) t = true -> 0 <= combining_class_in c t.
Proof.
  induction t as [|[[lo hi] k] t IH]; cbn [forallb combining_class_in snd]; [lia|].
  intros H. apply andb_true_iff in H. destruct H as [Hk Ht].
  destruct ((lo <=? c) && (c <=? hi)); [lia|now apply IH].
Qed.

Lemma combining_class_nonneg (c : Z) : 0 <= combining_class c.
Proof. apply combining_class_in_nonneg. vm_compute. reflexivity. Qed.

Lemma ordered_from_mono (l : list Z) (k k' : Z) :
  k' <= k -> ordered_from k l = true -> ordered_from k' l = true.
Proof.
  destruct l as [|c t]; [reflexivity|]. cbn [ordered_from]. intros Hk H.
  apply andb_true_iff in H. destruct H as [H ->]. rewrite andb_true_r. lia.
Qed.

Lemma canonical_insert_ordered (c : Z) (l : list Z) :
  forall k,
    combining_class c <= 0 \/ k <= combining_class c ->
    ordered_from k l = true -> ordered_from k (canonical_insert c l) = true.
Proof.
  induction l as [|d r IH]; intros k Hc H; cbn [canonical_insert].
  - cbn [ordered_from]. rewrite andb_true_r. lia.
  - cbn [ordered_from] in H. apply andb_true_iff in H. destruct H as [Hd Hr].
    destruct ((0 <? combining_class d) && (combining_class d <? combining_class c)) eqn:E.
    + cbn [ordered_from]. rewrite Hd. cbn [andb]. apply IH; [lia|exact Hr].
    + cbn [ordered_from]. rewrite Hr, andb_true_r. apply andb_true_iff. split; lia.
Qed.

Lemma canonical_ordering_ordered (l : list Z) : ordered_from 0 (canonical_ordering l) = true.
Proof.
  induction l as [|c t IH]; [reflexivity|].
  unfold canonical_ordering. cbn [fold_right]. apply canonical_insert_ordered; [|exact IH].
  pose proof (combining_class_nonneg c). lia.
Qed.

Lemma canonical_ordering_fixed (l : list Z) :
  forall k, ordered_from k l = true -> canonical_ordering l = l.
Proof.
  induction l as [|c t IH]; intros k H; [reflexivity|].
  cbn [ordered_from] in H. apply andb_true_iff in H. destruct H as [_ H].
  unfold canonical_ordering. cbn [fold_right]. fold (canonical_ordering t).
  rewrite (IH _ H). destruct t as [|d r]; [reflexivity|].
  cbn [canonical_insert]. cbn [ordered_from] in H.
  apply andb_true_iff in H. destruct H as [H _].
  replace ((0 <? combining_class d) && (combining_class d <? combining_class c))
    with false by lia.
  reflexivity.
Qed.

(** ** Canonical decomposition *)

Lemma canonical_decomposition_fixed (c : Z) :
  is_decomposed c = true -> canonical_decomposition c = [c].
Proof.
  unfold is_decomposed, canonical_decomposition.
  destruct (hangul_decomposition c); [discriminate|].
  now destruct (assoc c canonical_decomposition_table).
Qed.

Lemma flat_map_decomposition_fixed (l : list Z) :
  Forall (fun c => is_decomposed c = true) l -> flat_map canonical_decomposition l = l.
Proof.
  induction 1 as [|c t Hc Ht IH]; [reflexivity|]. cbn [flat_map].
  now rewrite (canonical_decomposition_fixed _ Hc), IH.
Qed.

(** The decomposition of a code point is decomposed. *)
Lemma canonical_decomposition_decomposed (c : Z) :
  Forall (fun x => is_decomposed x = true) (canonical_decomposition c).
Proof.
  apply canonical_decomposition_Forall.
  - vm_compute. reflexivity.
  - intros x H1 H2. apply (interval_checked is_decomposed 0x1100 0x11FF).
    + vm_compute. reflexivity.
    + unfold between. lia.
  - easy.
Qed.

Lemma nfd_code_points_decomposed (l : list Z) :
  Forall (fun x => is_decomposed x = true) (nfd_code_points l).
Proof.
  apply (nfd_code_points_Forall (fun _ => True)).
  - intros c _. apply canonical_decomposition_decomposed.
  - now apply Forall_forall.
Qed.

Lemma nfd_code_points_fixed (l : list Z) :
  Forall (fun c => is_decomposed c = true) l -> ordered_from 0 l = true ->
  nfd_code_points l = l.
Proof.
  intros Hd Ho. unfold nfd_code_points. rewrite (flat_map_decomposition_fixed _ Hd).
  now apply (canonical_ordering_fixed l 0).
Qed.

(** ** The steps of [normalize] on code points

    The expressions of [normalize] and [trim] look at code units of the
    Basic Multilingual Plane that are no surrogates, so that they do to the
    code units of a list of code points what they do to the list. *)

Lemma code_units_cons (c : Z) (l : list Z) :
  code_units (c :: l) = code_units_of c ++ code_units l.
Proof. reflexivity. Qed.

Lemma filter_code_units (f : Z -> bool) (l : list Z) :
  (forall c, 0xD800 <= c -> f c = true) ->
  filter f (code_units l) = code_units (filter f l).
Proof.
  intros Hf. induction l as [|c t IH]; [reflexivity|].
  rewrite code_units_cons, filter_app, IH. cbn [filter].
  destruct (code_units_of_cases c) as [E|(h & lo & E & Hh & Hl & Hc)]; rewrite E.
  - cbn [filter]. destruct (f c); [|reflexivity]. now rewrite code_units_cons, E.
  - unfold is_high_surrogate in Hh. unfold is_low_surrogate in Hl.
    cbn [filter]. rewrite !Hf by lia. now rewrite code_units_cons, E.
Qed.

Lemma collapse_from_code_units (l : list Z) :
  forall b, collapse_from b (code_units l) = code_units (collapse_from b l).
Proof.
  induction l as [|c t IH]; intros b; [reflexivity|]. rewrite code_units_cons.
  destruct (code_units_of_cases c) as [E|(h & lo & E & Hh & Hl & Hc)]; rewrite E.
  - cbn [app collapse_from]. destruct (is_white_space c).
    + destruct b; rewrite IH; reflexivity.
    + now rewrite IH, code_units_cons, E.
  - unfold is_high_surrogate in Hh. unfold is_low_surrogate in Hl.
    cbn [app collapse_from].
    rewrite (surrogate_not_white_space h), (surrogate_not_white_space lo),
      (surrogate_not_white_space c) by lia.
    now rewrite IH, code_units_cons, E.
Qed.

Lemma trimStart_code_units (l : list Z) : trimStart (code_units l) = code_units (trimStart l).
Proof.
  induction l as [|c t IH]; [reflexivity|]. rewrite code_units_cons.
  destruct (code_units_of_cases c) as [E|(h & lo & E & Hh & Hl & Hc)]; rewrite E.
  - cbn [app trimStart]. destruct (is_white_space c); [exact IH|].
    now rewrite code_units_cons, E.
  - unfold is_high_surrogate in Hh. cbn [app trimStart].
    rewrite (surrogate_not_white_space h), (surrogate_not_white_space c) by lia.
    now rewrite code_units_cons, E.
Qed.

Lemma code_units_nil (l : list Z) : code_units l = [] -> l = [].
Proof.
  destruct l as [|c t]; [reflexivity|]. rewrite code_units_cons.
  destruct (code_units_of_cases c) as [E|(h & lo & E & _)]; rewrite E; discriminate.
Qed.

Lemma trimEnd_code_units (l : list Z) : trimEnd (code_units l) = code_units (trimEnd l).
Proof.
  induction l as [|c t IH]; [reflexivity|]. rewrite code_units_cons.
  destruct (code_units_of_cases c) as [E|(h & lo & E & Hh & Hl & Hc)]; rewrite E.
  - cbn [app]. rewrite !trimEnd_cons, IH.
    destruct (trimEnd t) as [|x r] eqn:T.
    + destruct (is_white_space c); [reflexivity|]. now rewrite code_units_cons, E.
    + destruct (code_units (x :: r)) eqn:U; [now apply code_units_nil in U|].
      now rewrite code_units_cons, E, U.
  - unfold is_high_surrogate in Hh. unfold is_low_surrogate in Hl. cbn [app].
    rewrite !trimEnd_cons_word by (apply surrogate_not_white_space; lia).
    now rewrite IH, code_units_cons, E.
Qed.

Lemma trim_code_units (l : list Z) : trim (code_units l) = code_units (trim l).
Proof. unfold trim. now rewrite trimStart_code_units, trimEnd_code_units. Qed.

(** ** The canonical order through the steps of [normalize] *)

Lemma white_space_checked (P : Z -> bool) (c : Z) :
  forallb P white_space_list = true -> is_white_space c = true -> P c = true.
Proof.
  intros T H. rewrite forallb_forall in T. apply T. unfold white_space_list.
  unfold is_white_space in H. rewrite !in_app_iff. cbn [In].
  destruct (between 0x09 0x0D c) eqn:B1; [left; now apply between_interval|].
  destruct (between 0x2000 0x200A c) eqn:B2;
    [right; right; left; now apply between_interval|].
  rewrite !orb_false_r in H. cbn [orb] in H. lia.
Qed.

Lemma white_space_class (c : Z) : is_white_space c = true -> combining_class c = 0.
Proof.
  intros H. apply Z.eqb_eq.
  apply (white_space_checked (fun c => combining_class c =? 0)); [|exact H].
  vm_compute. reflexivity.
Qed.

Lemma ordered_filter (f : Z -> bool) (l : list Z) :
  (forall c, In c l -> f c = false -> 0 < combining_class c) ->
  forall k, ordered_from k l = true -> ordered_from k (filter f l) = true.
Proof.
  induction l as [|c t IH]; intros Hf k H; [reflexivity|].
  cbn [ordered_from] in H. apply andb_true_iff in H. destruct H as [Hc Ht].
  assert (IH' := IH (fun x Hx => Hf x (or_intror Hx))).
  cbn [filter]. destruct (f c) eqn:E.
  - cbn [ordered_from]. rewrite Hc. now apply IH'.
  - apply (ordered_from_mono _ (combining_class c)); [|now apply IH'].
    pose proof (Hf c (or_introl eq_refl) E). lia.
Qed.

Lemma ordered_collapse (l : list Z) :
  forall k, 0 <= k -> ordered_from k l = true ->
  ordered_from 0 (collapse_from true l) = true
  /\ ordered_from k (collapse_from false l) = true.
Proof.
  induction l as [|c t IH]; intros k Hk H; [now split|].
  cbn [ordered_from] in H. apply andb_true_iff in H. destruct H as [Hc Ht].
  cbn [collapse_from]. destruct (is_white_space c) eqn:E.
  - rewrite (white_space_class _ E) in Ht. destruct (IH 0 (Z.le_refl 0) Ht) as [IH1 _].
    split; [exact IH1|]. cbn [ordered_from].
    replace (combining_class 0x20) with 0 by (vm_compute; reflexivity).
    now rewrite IH1.
  - pose proof (combining_class_nonneg c) as Hn.
    destruct (IH _ Hn Ht) as [_ IH2]. cbn [ordered_from]. rewrite IH2, !andb_true_r.
    split; [lia|exact Hc].
Qed.

Lemma ordered_trimStart (l : list Z) :
  forall k, 0 <= k -> ordered_from k l = true -> ordered_from 0 (trimStart l) = true.
Proof.
  induction l as [|c t IH]; intros k Hk H; [reflexivity|]. cbn [trimStart].
  destruct (is_white_space c) eqn:E.
  - cbn [ordered_from] in H. apply andb_true_iff in H. destruct H as [_ H].
    apply (IH (combining_class c)); [apply combining_class_nonneg|exact H].
  - now apply (ordered_from_mono _ k).
Qed.

Lemma ordered_trimEnd (l : list Z) :
  forall k, ordered_from k l = true -> ordered_from k (trimEnd l) = true.
Proof.
  induction l as [|c t IH]; intros k H; [reflexivity|].
  cbn [ordered_from] in H. apply andb_true_iff in H. destruct H as [Hc Ht].
  rewrite trimEnd_cons. specialize (IH _ Ht). destruct (trimEnd t) as [|x r].
  - destruct (is_white_space c); [reflexivity|]. cbn [ordered_from]. now rewrite Hc.
  - cbn [ordered_from] in IH |- *. now rewrite Hc.
Qed.

Lemma ordered_trim (l : list Z) : ordered_from 0 l = true -> ordered_from 0 (trim l) = true.
Proof.
  intros H. unfold trim. apply ordered_trimEnd.
  now apply (ordered_trimStart l 0).
Qed.

(** A decomposed code point that has a lowercase mapping has class zero,
    and its mapping is made of decomposed code points of class zero. *)
Lemma lower_code_point_decomposed (c : Z) :
  is_decomposed c = true ->
  lower_code_point c = [c]
  \/ combining_class c = 0
     /\ lower_code_point c <> []
     /\ Forall (fun x => is_decomposed x = true /\ combining_class x = 0) (lower_code_point c).
Proof.
  intros H. unfold lower_code_point. destruct (assoc c lowercase_table) as [l|] eqn:E.
  - right.
    table_fact E lowercase_table
      (fun e => negb (is_decomposed (fst e))
                || (combining_class (fst e) =? 0)
                   && some_and_all (fun x => is_decomposed x && (combining_class x =? 0))
                        (snd e)).
    cbn [fst snd] in E. rewrite H in E.
    cbn [negb orb] in E. apply andb_true_iff in E. destruct E as [Ec El].
    split; [lia|]. destruct l as [|x l]; [discriminate|]. split; [discriminate|].
    cbn [some_and_all] in El.
    rewrite forallb_forall in El. apply Forall_forall. intros y Hy.
    apply El in Hy. apply andb_true_iff in Hy. destruct Hy as [Hd Hk]. split; [exact Hd|lia].
  - now left.
Qed.

Lemma ordered_from_starters (u x : list Z) :
  u <> [] -> Forall (fun c => is_decomposed c = true /\ combining_class c = 0) u ->
  forall k, ordered_from k (u ++ x) = ordered_from 0 x.
Proof.
  intros Hne H. induction H as [|c u [_ Hc] Hu IH]; [contradiction|]. intros k.
  cbn [app ordered_from]. rewrite Hc. cbn [Z.leb orb andb].
  destruct u as [|d u]; [reflexivity|]. apply IH. discriminate.
Qed.

Lemma lower_from_decomposed (l : list Z) :
  Forall (fun c => is_decomposed c = true) l ->
  forall k rev_before,
    ordered_from k l = true ->
    Forall (fun c => is_decomposed c = true) (lower_from rev_before l)
    /\ ordered_from k (lower_from rev_before l) = true.
Proof.
  induction 1 as [|c after Hc Hafter IH]; intros k rev_before H; [now split|].
  cbn [ordered_from] in H. apply andb_true_iff in H. destruct H as [Hk Ho].
  destruct (IH _ (c :: rev_before) Ho) as [IHd IHo]. cbn [lower_from].
  destruct ((c =? 0x3A3) && final_sigma rev_before after) eqn:S.
  - apply andb_true_iff in S. destruct S as [S _]. apply Z.eqb_eq in S. subst c.
    replace (combining_class 0x3A3) with 0 in * by (vm_compute; reflexivity).
    split; [constructor; [vm_compute; reflexivity|exact IHd]|].
    cbn [app ordered_from]. replace (combining_class 0x3C2) with 0 by (vm_compute; reflexivity).
    cbn [Z.leb orb andb]. exact IHo.
  - destruct (lower_code_point_decomposed c Hc) as [->|(Hz & Hne & Hall)].
    + split; [now constructor|]. cbn [app ordered_from]. now rewrite Hk.
    + split.
      * apply Forall_app. split; [|exact IHd]. revert Hall. apply Forall_impl. now intros x [].
      * rewrite (ordered_from_starters _ _ Hne Hall). now rewrite Hz in IHo.
Qed.

(** ** The normalization of a well-formed string is decomposed *)

Lemma not_surrogate_well_paired (l : list Z) :
  Forall (fun c => is_surrogate c = false) l -> forall b, well_paired_from b l = true.
Proof.
  induction 1 as [|c t Hc Ht IH]; intros b; [reflexivity|]. cbn [well_paired_from].
  unfold is_surrogate in Hc. apply orb_false_iff in Hc. destruct Hc as [_ Hl].
  now rewrite Hl, andb_false_r, IH.
Qed.

Lemma code_points_scalar_not_joiner (s : jsstring) :
  well_formed s -> ~ In 0x34F s ->
  Forall (fun c => scalar_not_joiner c = true) (code_points s).
Proof.
  intros Hw Hj.
  assert (H : Forall (fun c => negb (c =? 0x34F) = true) (code_points s)).
  { apply code_points_Forall; [intros c Hc; lia|].
    apply Forall_forall. intros c Hc. destruct (c =? 0x34F) eqn:E; [|reflexivity].
    apply Z.eqb_eq in E. now subst. }
  unfold well_formed in Hw. rewrite Forall_forall in *. intros c Hc.
  unfold scalar_not_joiner. now rewrite (Hw c Hc), (H c Hc).
Qed.

Lemma canonical_decomposition_scalar_not_joiner (c : Z) :
  scalar_not_joiner c = true ->
  Forall (fun x => scalar_not_joiner x = true) (canonical_decomposition c).
Proof.
  intros H. apply canonical_decomposition_Forall.
  - vm_compute. reflexivity.
  - intros x H1 H2. unfold scalar_not_joiner, is_surrogate, is_high_surrogate, is_low_surrogate.
    lia.
  - intros _. exact H.
Qed.

Lemma mark_class (c : Z) :
  scalar_not_joiner c = true -> keep_unmarked c = false -> 0 < combining_class c.
Proof.
  unfold scalar_not_joiner, keep_unmarked. intros H K.
  apply negb_false_iff in K. unfold is_combining_mark in K.
  apply (interval_checked (fun c => (c =? 0x34F) || (0 <? combining_class c))) in K;
    [|vm_compute; reflexivity].
  cbv beta in K. lia.
Qed.

Section Unaccented.

Variable s : jsstring.
Hypothesis s_well_formed : well_formed s.
Hypothesis s_no_joiner : ~ In 0x34F s.

Lemma nfd_scalar_not_joiner :
  Forall (fun c => scalar_not_joiner c = true) (nfd_code_points (code_points s)).
Proof.
  apply (nfd_code_points_Forall (fun c => scalar_not_joiner c = true)).
  - apply canonical_decomposition_scalar_not_joiner.
  - now apply code_points_scalar_not_joiner.
Qed.

Lemma unaccented_code_points_Forall (P : Z -> Prop) :
  P 0x20 -> Forall P (nfd_code_points (code_points s)) -> Forall P (unaccented_code_points s).
Proof.
  intros Hs H. unfold unaccented_code_points.
  apply Forall_trim, Forall_collapse_from; [exact Hs|].
  apply Forall_forall. intros c Hc. apply filter_In in Hc. destruct Hc as [Hc _].
  rewrite Forall_forall in H. now apply H.
Qed.

Lemma unaccented_code_points_scalar :
  Forall (fun c => is_surrogate c = false) (unaccented_code_points s).
Proof.
  apply unaccented_code_points_Forall; [reflexivity|].
  pose proof nfd_scalar_not_joiner as H. revert H. apply Forall_impl.
  unfold scalar_not_joiner. intros c H. apply andb_true_iff in H. destruct H as [H _].
  now apply negb_true_iff in H.
Qed.

Lemma unaccented_code_points_decomposed :
  Forall (fun c => is_decomposed c = true) (unaccented_code_points s).
Proof.
  apply unaccented_code_points_Forall; [vm_compute; reflexivity|].
  apply nfd_code_points_decomposed.
Qed.

Lemma unaccented_code_points_ordered : ordered_from 0 (unaccented_code_points s) = true.
Proof.
  unfold unaccented_code_points. apply ordered_trim.
  apply (ordered_collapse _ 0 (Z.le_refl 0)).
  apply ordered_filter; [|apply canonical_ordering_ordered].
  intros c Hc. apply mark_class.
  pose proof nfd_scalar_not_joiner as H. rewrite Forall_forall in H. now apply H.
Qed.

Lemma unaccented_code_units : unaccented s = code_units (unaccented_code_points s).
Proof.
  unfold unaccented, unaccented_code_points, nfd.
  rewrite filter_code_units, collapse_from_code_units, trim_code_units; [reflexivity|].
  intros c Hc. unfold is_combining_mark, between. lia.
Qed.

Lemma normalize_code_units :
  normalize s false false = code_units (lower_from [] (unaccented_code_points s)).
Proof.
  rewrite normalize_unaccented, unaccented_code_units. unfold toLowerCase.
  rewrite code_points_code_units; [reflexivity|].
  apply not_surrogate_well_paired, unaccented_code_points_scalar.
Qed.

(** The normalization of [s] is in canonical decomposed form. *)
Lemma nfd_normalize : nfd (normalize s false false) = normalize s false false.
Proof.
  rewrite normalize_code_units. unfold nfd.
  destruct (lower_from_decomposed _ unaccented_code_points_decomposed 0 []
              unaccented_code_points_ordered) as [Hd Ho].
  rewrite code_points_code_units.
  - now rewrite nfd_code_points_fixed.
  - apply well_paired_lower_from, not_surrogate_well_paired, unaccented_code_points_scalar.
Qed.

End Unaccented.

Lemma well_formed_checked (s : jsstring) :
  forallb (fun c => negb (is_surrogate c)) (code_points s) = true -> well_formed s.
Proof.
  intros H. rewrite forallb_forall in H. apply Forall_forall. intros c Hc.
  now apply negb_true_iff, H.
Qed.

Lemma not_In_checked (c : Z) (s : jsstring) :
  forallb (fun x => negb (x =? c)) s = true -> ~ In c s.
Proof.
  intros H Hin. rewrite forallb_forall in H. apply H in Hin.
  now rewrite Z.eqb_refl in Hin.
Qed.

(** C4, as the code has it: [normalize(normalize(s))] is [normalize(s)]
    for every string [s] whose normalization is in canonical decomposed
    form ([normalize("NFD")] leaves it as it is), and the normalization of
    [s] is in that form when [s] has no lone surrogate and no U+034F. *)
Theorem normalize_idempotent_on_decomposed :
  (forall s,
      nfd (normalize s false false) = normalize s false false ->
      normalize (normalize s false false) false false = normalize s false false)
  /\ (forall s,
        well_formed s -> ~ In 0x34F s ->
        normalize (normalize s false false) false false = normalize s false false).
Proof.
  split; [exact normalize_normalized|].
  intros s Hw Hj. apply normalize_normalized. now apply nfd_normalize.
Qed.

Lemma normalize_idempotent_on_decomposed_witness :
  normalize (normalize amigo false false) false false = normalize amigo false false
  /\ normalize (normalize (js "  Hello   World ") false false) false false
     = normalize (js "  Hello   World ") false false.
Proof.
  split.
  - apply (proj1 normalize_idempotent_on_decomposed amigo). vm_compute. reflexivity.
  - apply (proj2 normalize_idempotent_on_decomposed (js "  Hello   World ")).
    + apply well_formed_checked. vm_compute. reflexivity.
    + apply not_In_checked. vm_compute. reflexivity.
Defined.

(** C4 as the specification states it fails: the normalization of
    [a U+0591 U+034F U+05B0] removes U+034F, which kept the two marks from
    being reordered, and the normalization of the result exchanges them. *)
Theorem normalize_not_idempotent :
  normalize joined_marks false false = [0x61; 0x591; 0x5B0]
  /\ normalize (normalize joined_marks false false) false false = [0x61; 0x5B0; 0x591]
  /\ normalize (normalize joined_marks false false) false false
     <> normalize joined_marks false false.
Proof.
  assert (H1 : normalize joined_marks false false = [0x61; 0x591; 0x5B0])
    by (vm_compute; reflexivity).
  assert (H2 : normalize [0x61; 0x591; 0x5B0] false false = [0x61; 0x5B0; 0x591])
    by (vm_compute; reflexivity).
  rewrite H1, H2. repeat split. discriminate.
Qed.

(** A lone high surrogate and a lone low one with an accent between them:
    the removal of the accent makes a pair of them, U+2F800, which the
    second normalization decomposes. *)
Lemma normalize_split_pair :
  normalize split_pair false false = [0xD87E; 0xDC00]
  /\ normalize (normalize split_pair false false) false false = [0x4E3D].
Proof.
  assert (H1 : normalize split_pair false false = [0xD87E; 0xDC00])
    by (vm_compute; reflexivity).
  rewrite H1. split; [reflexivity|]. vm_compute. reflexivity.
Qed.

(** ** [isAnagram] *)

Lemma lower_from_context_free (l : list Z) :
  ~ In 0x3A3 l -> forall rev_before, lower_from rev_before l = flat_map lower_code_point l.
Proof.
  induction l as [|c t IH]; intros H rev_before; [reflexivity|].
  cbn [lower_from flat_map].
  replace (c =? 0x3A3) with false.
  - cbn [andb]. rewrite IH; [reflexivity|]. intros Hin. apply H. now right.
  - symmetry. apply Z.eqb_neq. intros ->. apply H. now left.
Qed.

Lemma filter_code_units_kept (f : Z -> bool) (l : list Z) :
  (forall c, 0xD800 <= c <= 0xDFFF \/ 0x10000 <= c -> f c = true) ->
  filter f (code_units l) = code_units (filter f l).
Proof.
  intros Hf. induction l as [|c t IH]; [reflexivity|].
  rewrite code_units_cons, filter_app, IH. cbn [filter].
  destruct (code_units_of_cases c) as [E|(h & lo & E & Hh & Hl & Hc)]; rewrite E.
  - cbn [filter]. destruct (f c); [|reflexivity]. now rewrite code_units_cons, E.
  - unfold is_high_surrogate in Hh. unfold is_low_surrogate in Hl.
    cbn [filter]. rewrite !Hf by lia. now rewrite code_units_cons, E.
Qed.

Lemma filter_lower_code_points (l : list Z) :
  filter (fun c => negb (is_white_space c)) (flat_map lower_code_point l)
  = flat_map lower_code_point (filter (fun c => negb (is_white_space c)) l).
Proof.
  induction l as [|c t IH]; [reflexivity|]. cbn [flat_map filter]. rewrite filter_app, IH.
  destruct (is_white_space c) eqn:E; cbn [negb].
  - rewrite (lower_code_point_white_space c E). cbn [filter]. now rewrite E.
  - cbn [flat_map]. f_equal. apply filter_fixed.
    destruct (lower_code_point_word c E) as [_ F]. revert F. apply Forall_impl.
    intros x Hx. now rewrite Hx.
Qed.

Lemma flat_map_code_units (ls : list (list Z)) :
  code_units (concat ls) = flat_map code_units ls.
Proof.
  unfold code_units at 1. induction ls as [|l t IH]; [reflexivity|].
  cbn [concat flat_map]. now rewrite flat_map_app, IH.
Qed.

(** The letters of the lowercase of a string in which no capital sigma
    has to be told final from not final. *)
Lemma toLowerCase_letters (s : jsstring) :
  ~ In 0x3A3 (code_points s) ->
  filter (fun c => negb (is_white_space c)) (toLowerCase s)
  = flat_map code_units (map lower_code_point (letters s)).
Proof.
  intros H. unfold toLowerCase, letters. rewrite (lower_from_context_free _ H).
  rewrite filter_code_units_kept, filter_lower_code_points.
  - now rewrite flat_map_concat_map, flat_map_code_units.
  - intros c Hc. now rewrite (surrogate_not_white_space c Hc).
Qed.

(** C8, as the specification defines [isAnagram]: a string is no anagram
    of itself; two strings are anagrams when they are different and the
    code units of their lowercases that are not white space are the same in
    another order, and only then; and so are two different strings without
    capital sigma the letters of which are the same in another order, the
    case of a letter apart. *)
Theorem isAnagram_permutation :
  (forall a, isAnagram a a = false)
  /\ (forall a b,
        isAnagram a b = true
        <-> a <> b
            /\ Permutation (filter (fun c => negb (is_white_space c)) (toLowerCase a))
                           (filter (fun c => negb (is_white_space c)) (toLowerCase b)))
  /\ (forall a b,
        ~ In 0x3A3 (code_points a) -> ~ In 0x3A3 (code_points b) ->
        letter_permutation a b -> a <> b ->
        isAnagram a b = true).
Proof.
  assert (A : forall a b,
             isAnagram a b = true
             <-> a <> b
                 /\ Permutation (filter (fun c => negb (is_white_space c)) (toLowerCase a))
                                (filter (fun c => negb (is_white_space c)) (toLowerCase b))).
  { intros a b. unfold isAnagram, sorted_characters. rewrite !removeWhitespace_kept.
    rewrite andb_true_iff, negb_true_iff, string_eqb_eq. split.
    - intros [E N]. split.
      + intros ->. now rewrite (proj2 (string_eqb_eq b b) eq_refl) in N.
      + rewrite (stable_sort_perm Z.leb (filter _ (toLowerCase a))), E.
        symmetry. apply stable_sort_perm.
    - intros [N P]. split; [now apply stable_sort_units_perm|].
      destruct (string_eqb a b) eqn:E; [|reflexivity].
      apply string_eqb_eq in E. contradiction. }
  split; [|split; [exact A|]].
  - intros a. destruct (isAnagram a a) eqn:E; [|reflexivity].
    apply A in E. now destruct E.
  - intros a b Ha Hb P N. apply A. split; [exact N|].
    rewrite (toLowerCase_letters a Ha), (toLowerCase_letters b Hb).
    now apply Permutation_flat_map.
Qed.

Lemma isAnagram_permutation_witness :
  isAnagram (js "Hi") (js "i h") = true.
Proof.
  apply (proj2 (proj2 isAnagram_permutation) (js "Hi") (js "i h")).
  - apply not_In_checked. vm_compute. reflexivity.
  - apply not_In_checked. vm_compute. reflexivity.
  - unfold letter_permutation. vm_compute. apply perm_swap.
  - discriminate.
Defined.

(** C8 as the specification states it fails: the capitals alpha and sigma
    are the same two letters in the two orders, and the lowercase of the
    sigma is the final one behind the alpha and the other one before it, so
    that the two strings are no anagrams. *)
Theorem isAnagram_final_sigma :
  letter_permutation alpha_sigma sigma_alpha
  /\ alpha_sigma <> sigma_alpha
  /\ toLowerCase alpha_sigma = [0x3B1; 0x3C2]
  /\ toLowerCase sigma_alpha = [0x3C3; 0x3B1]
  /\ isAnagram alpha_sigma sigma_alpha = false.
Proof.
  split; [|split; [discriminate|repeat split; vm_compute; reflexivity]].
  unfold letter_permutation. vm_compute. apply perm_swap.
Qed.

(** * The other functions *)

(** ** The tests of the repository

    What [src/tests/mod.ts] asserts of the functions embedded above holds
    of the embedding, where the test calls the function as [src/mod.ts]
    has it: the tests of [truncate] and of [isPalindrome] with one more
    argument are those of a later version. *)

Example test_toUpperCaseFirst : toUpperCaseFirst (js "javaScript") = js "JavaScript".
Proof. vm_compute. reflexivity. Qed.

Example test_toLowerCaseFirst : toLowerCaseFirst (js "JavaScript") = js "javaScript".
Proof. vm_compute. reflexivity. Qed.

Example test_capitalizeWords :
  capitalizeWords (js "javaScript is cool") = js "JavaScript Is Cool".
Proof. vm_compute. reflexivity. Qed.

Example test_toTitleCase :
  toTitleCase (js "javaScript or typeScript, who's the best?")
  = js "JavaScript or TypeScript, Who's the Best?".
Proof. vm_compute. reflexivity. Qed.

Example test_reverseString : reverseString (js "yes sir!") = js "!ris sey".
Proof. vm_compute. reflexivity. Qed.

Example test_removeWhitespace : removeWhitespace (js "j a v a s c r i p t") = js "javascript".
Proof. vm_compute. reflexivity. Qed.

Example test_truncate :
  truncate
    (js "Fun fact: This package was made for the sole purpose of testing new features"
     ++ js " for F**kingNode version 3.0, including a release command"
     ++ js " - for releasing this to JSR!")
    16
  = js "Fun fact: This p...".
Proof. vm_compute. reflexivity. Qed.

Example test_getLastChar :
  getLastChar (js "hi!") = js "!" /\ getLastChar (js "line break" ++ [0x0A]) = [0x0A].
Proof. split; vm_compute; reflexivity. Qed.

Example test_spaceString :
  spaceString V8_maximum_length (js "hi chat") 2 4 = Returned (js "  hi chat    ").
Proof. vm_compute. reflexivity. Qed.

(** The third call is expected to give [false] by the tests, which give
    [isPalindrome] a second argument for the strict comparison; the
    [isPalindrome] of [src/mod.ts] always compares strictly. *)
Example test_isPalindrome :
  isPalindrome (js "Hannah") = true
  /\ isPalindrome (js "not a palindrome") = false
  /\ isPalindrome (js "Do geese see God?") = true.
Proof. repeat split; vm_compute; reflexivity. Qed.

Example test_softlyNormalizeArray :
  softlyNormalizeArray abnormalStringArray false
  = Normal [js "h" ++ [0xC9] ++ js "lLo"; js "w" ++ [0xF6] ++ js "Rld"; js "123_abc"]
  /\ softlyNormalizeArray abnormalStringArray true
     = Normal [js "h" ++ [0xE9] ++ js "llo"; js "w" ++ [0xF6] ++ js "rld"; js "123_abc"].
Proof. split; vm_compute; reflexivity. Qed.

Example test_kominator :
  kominator (js "alpha,bravo,charlie") None = [js "alpha"; js "bravo"; js "charlie"]
  /\ kominator (js "alpha#bravo#charlie") (Some (js "#"))
     = [js "alpha"; js "bravo"; js "charlie"].
Proof. split; vm_compute; reflexivity. Qed.

(** ** [split] and [join] *)

Lemma join_units (s : jsstring) : join [] (map (fun c => [c]) s) = s.
Proof.
  induction s as [|c t IH]; [reflexivity|]. cbn [map].
  destruct t as [|d t]; [reflexivity|].
  rewrite join_cons by discriminate. cbn [app]. now rewrite IH.
Qed.

Lemma strip_prefix_Some (p s rest : jsstring) :
  strip_prefix p s = Some rest <-> s = p ++ rest.
Proof.
  revert s. induction p as [|a p IH]; intros s; cbn [strip_prefix app].
  - split; congruence.
  - destruct s as [|c t]; [split; discriminate|].
    destruct (a =? c) eqn:E.
    + apply Z.eqb_eq in E. subst c. rewrite IH. split; congruence.
    + apply Z.eqb_neq in E. split; [discriminate|congruence].
Qed.

Lemma split_from_skip (sep : jsstring) (u : jsstring) :
  forall piece_rev rest, rest <> [] ->
  split_from sep piece_rev (length u) (u ++ rest) = split_from sep piece_rev O rest.
Proof.
  induction u as [|c u IH]; intros piece_rev rest H; cbn [length app].
  - reflexivity.
  - cbn [split_from]. now apply IH.
Qed.

Lemma split_from_skip_nil (sep : jsstring) (u : jsstring) :
  forall piece_rev, split_from sep piece_rev (length u) u = [rev piece_rev].
Proof.
  induction u as [|c u IH]; intros piece_rev; [reflexivity|]. cbn [length split_from]. apply IH.
Qed.

(** The two equations of [split_from]. *)
Lemma split_from_match (a : Z) (sep piece_rev rest : jsstring) :
  split_from (a :: sep) piece_rev O ((a :: sep) ++ rest)
  = rev piece_rev :: split_from (a :: sep) [] O rest.
Proof.
  cbn [app split_from].
  rewrite (proj2 (strip_prefix_Some (a :: sep) (a :: sep ++ rest) rest) eq_refl).
  f_equal. replace (length (a :: sep) - 1)%nat with (length sep) by (cbn [length]; lia).
  destruct rest as [|c rest].
  - rewrite app_nil_r. apply split_from_skip_nil.
  - now apply split_from_skip.
Qed.

Lemma split_from_nomatch (sep piece_rev : jsstring) (c : Z) (t : jsstring) :
  strip_prefix sep (c :: t) = None ->
  split_from sep piece_rev O (c :: t) = split_from sep (c :: piece_rev) O t.
Proof. cbn [split_from]. now intros ->. Qed.

Lemma split_from_not_nil (sep : jsstring) (s : jsstring) :
  forall piece_rev skip, split_from sep piece_rev skip s <> [].
Proof.
  induction s as [|c t IH]; intros piece_rev skip; cbn [split_from]; [discriminate|].
  destruct skip; [|apply IH]. destruct (strip_prefix sep (c :: t)); [discriminate|apply IH].
Qed.

Lemma join_split_from (a : Z) (sep : jsstring) (n : nat) :
  forall s piece_rev, (length s <= n)%nat ->
  join (a :: sep) (split_from (a :: sep) piece_rev O s) = rev piece_rev ++ s.
Proof.
  induction n as [|n IH]; intros s piece_rev Hn.
  - destruct s; [|cbn [length] in Hn; lia]. cbn. now rewrite app_nil_r.
  - destruct s as [|c t]; [cbn; now rewrite app_nil_r|].
    destruct (strip_prefix (a :: sep) (c :: t)) as [rest|] eqn:E.
    + apply strip_prefix_Some in E. rewrite E, split_from_match.
      rewrite join_cons by apply split_from_not_nil.
      rewrite (IH rest []); [reflexivity|].
      apply (f_equal (@length Z)) in E. cbn [length app] in E, Hn.
      rewrite length_app in E. lia.
    + rewrite (split_from_nomatch _ _ _ _ E), IH by (cbn [length] in Hn; lia).
      cbn [rev]. now rewrite <- app_assoc.
Qed.

(** Joining the pieces of a string with the separator that split it gives
    the string back. *)
Lemma join_split (sep s : jsstring) : join sep (String_split sep s) = s.
Proof.
  destruct sep as [|a sep]; [apply join_units|].
  unfold String_split. now rewrite (join_split_from a sep (length s)).
Qed.

(** A separator of one character: the pieces have not that character. *)
Lemma split_from_piece (c : Z) (p : jsstring) :
  ~ In c p ->
  forall piece_rev rest,
    split_from [c] piece_rev O (p ++ rest) = split_from [c] (rev p ++ piece_rev) O rest.
Proof.
  induction p as [|d p IH]; intros H piece_rev rest; [reflexivity|].
  cbn [app]. rewrite split_from_nomatch.
  - rewrite IH by (intros Hin; apply H; now right). cbn [rev]. now rewrite <- app_assoc.
  - cbn [strip_prefix]. destruct (c =? d) eqn:E; [|reflexivity].
    apply Z.eqb_eq in E. exfalso. apply H. now left.
Qed.

Lemma split_join (c : Z) (pieces : list jsstring) :
  pieces <> [] -> Forall (fun p => ~ In c p) pieces ->
  String_split [c] (join [c] pieces) = pieces.
Proof.
  intros Hne H. unfold String_split.
  assert (G : forall p, ~ In c p -> forall ps, Forall (fun p => ~ In c p) ps ->
              forall q, split_from [c] q O (join [c] (p :: ps)) = (rev q ++ p) :: ps).
  { intros p Hp ps. revert p Hp. induction ps as [|p' ps IH]; intros p Hp Hps q.
    - cbn [join]. rewrite <- (app_nil_r p) at 1. rewrite (split_from_piece c p Hp).
      cbn [split_from]. now rewrite rev_app_distr, rev_involutive.
    - rewrite join_cons by discriminate. rewrite (split_from_piece c p Hp).
      inversion Hps; subst.
      change ([c] ++ join [c] (p' :: ps)) with ([c] ++ join [c] (p' :: ps)).
      rewrite (split_from_match c [] _ (join [c] (p' :: ps))).
      rewrite IH by assumption. now rewrite rev_app_distr, rev_involutive. }
  destruct pieces as [|p ps]; [contradiction|]. inversion H; subst.
  now rewrite G.
Qed.

Lemma split_from_count (c : Z) (s : jsstring) :
  forall piece_rev,
    length (split_from [c] piece_rev O s) = S (count_occ Z.eq_dec s c).
Proof.
  induction s as [|d t IH]; intros piece_rev; [reflexivity|].
  cbn [count_occ]. destruct (Z.eq_dec d c) as [->|Hne].
  - change (c :: t) with ([c] ++ t).
    rewrite (split_from_match c [] piece_rev t). cbn [length]. now rewrite IH.
  - rewrite split_from_nomatch; [apply IH|].
    cbn [strip_prefix]. destruct (c =? d) eqn:E; [|reflexivity].
    apply Z.eqb_eq in E. congruence.
Qed.

Lemma split_from_pieces (c : Z) (s : jsstring) :
  forall piece_rev, ~ In c piece_rev ->
  Forall (fun p => ~ In c p) (split_from [c] piece_rev O s).
Proof.
  induction s as [|d t IH]; intros piece_rev H.
  - cbn [split_from]. constructor; [|constructor]. now rewrite <- in_rev.
  - destruct (Z.eq_dec d c) as [->|Hne].
    + change (c :: t) with ([c] ++ t).
      rewrite (split_from_match c [] piece_rev t). constructor; [now rewrite <- in_rev|].
      apply IH. intros [].
    + rewrite split_from_nomatch.
      * apply IH. intros [E|Hin]; [congruence|contradiction].
      * cbn [strip_prefix]. destruct (c =? d) eqn:E; [|reflexivity].
        apply Z.eqb_eq in E. congruence.
Qed.

(** ** [reverseString] *)

Lemma reverseString_rev (str : jsstring) : reverseString str = rev str.
Proof. unfold reverseString, String_split. now rewrite <- map_rev, join_units. Qed.

(** X1: [reverseString] reverses the UTF-16 code units of the string: it is
    its own inverse, keeps the length, and reverses a concatenation piece by
    piece in the opposite order. *)
Theorem reverseString_involutive :
  forall a b,
    reverseString a = rev a
    /\ reverseString (reverseString a) = a
    /\ len (reverseString a) = len a
    /\ reverseString (a ++ b) = reverseString b ++ reverseString a.
Proof.
  intros a b. rewrite !reverseString_rev. repeat split.
  - apply rev_involutive.
  - unfold len. now rewrite length_rev.
  - apply rev_app_distr.
Qed.

(** ** [removeWhitespace] *)

(** X2: [removeWhitespace] removes the code units that are white space and
    no other, keeps the rest in order, and leaves its own result as it
    is. *)
Theorem removeWhitespace_filter :
  forall str,
    removeWhitespace str = filter (fun c => negb (is_white_space c)) str
    /\ Forall (fun c => is_white_space c = false) (removeWhitespace str)
    /\ removeWhitespace (removeWhitespace str) = removeWhitespace str.
Proof.
  intros str.
  pose proof removeWhitespace_kept as E.
  split; [apply E|]. rewrite !E. split.
  - apply Forall_forall. intros c Hc. apply filter_In in Hc.
    now apply negb_true_iff.
  - apply filter_fixed, Forall_forall. intros c Hc. now apply filter_In in Hc.
Qed.

(** ** [truncate] *)

Lemma len_app (a b : jsstring) : len (a ++ b) = len a + len b.
Proof. unfold len. rewrite length_app. lia. Qed.

Lemma substring_head (s : jsstring) (n : Z) :
  n <= len s -> substring s 0 n = firstn (Z.to_nat n) s.
Proof.
  intros Hn. unfold substring, clamp.
  pose proof (Nat2Z.is_nonneg (length s)). unfold len in *.
  replace (Z.min (Z.max 0 0) (Z.of_nat (length s))) with 0 by lia.
  replace (Z.min (Z.max n 0) (Z.of_nat (length s))) with (Z.max n 0) by lia.
  replace (Z.min 0 (Z.max n 0)) with 0 by lia.
  replace (Z.to_nat (Z.max 0 (Z.max n 0) - 0)) with (Z.to_nat n) by lia.
  reflexivity.
Qed.

(** X3: [truncate] returns the whole string when it has at most [length]
    code units, and otherwise its first [length] code units, none for a
    negative [length], followed by ["..."]: the result has at most three
    code units more than [length], and is longer than the string when the
    string is longer than [length] by less than three. *)
Theorem truncate_bound :
  forall str length,
    (len str <= length -> truncate str length = str)
    /\ (length < len str ->
        truncate str length = firstn (Z.to_nat length) str ++ js "..."
        /\ len (truncate str length) = Z.max length 0 + 3)
    /\ len (truncate str length) <= Z.max length 0 + 3.
Proof.
  intros str n.
  assert (A : len str <= n -> truncate str n = str).
  { intros H. unfold truncate. now replace (len str <=? n) with true by lia. }
  assert (B : n < len str ->
              truncate str n = firstn (Z.to_nat n) str ++ js "..."
              /\ len (truncate str n) = Z.max n 0 + 3).
  { intros H. unfold truncate. replace (len str <=? n) with false by lia.
    rewrite substring_head by lia. split; [reflexivity|].
    rewrite len_app. unfold len at 1. rewrite length_firstn.
    unfold len in H. change (len (js "...")) with 3. lia. }
  split; [exact A|]. split; [exact B|].
  destruct (Z_le_gt_dec (len str) n) as [H|H].
  - rewrite A by exact H. lia.
  - destruct B as [_ B]; lia.
Qed.

Lemma truncate_bound_witness :
  truncate (js "abcd") 3 = firstn (Z.to_nat 3) (js "abcd") ++ js "..."
  /\ len (truncate (js "abcd") 3) = Z.max 3 0 + 3.
Proof. apply (proj1 (proj2 (truncate_bound (js "abcd") 3))). reflexivity. Defined.

(** ** [getLastChar] *)

(** X4: [getLastChar] is the last code unit of the string and the empty
    string for the empty string: behind the string without its last code
    unit it gives the string back. *)
Theorem getLastChar_last :
  forall str, removelast str ++ getLastChar str = str /\ len (getLastChar str) <= 1.
Proof.
  intros str. induction str as [|c l _] using rev_ind.
  - split; [reflexivity|]. cbn. lia.
  - rewrite removelast_last. unfold getLastChar, charAt, len.
    rewrite length_app. cbn [length].
    replace (Z.of_nat (length l + 1) - 1 <? 0) with false by (symmetry; apply Z.ltb_ge; lia).
    replace (Z.to_nat (Z.of_nat (length l + 1) - 1)) with (length l) by lia.
    rewrite nth_error_app2, Nat.sub_diag by lia. cbn. split; [reflexivity|lia].
Qed.

(** ** White space at the ends of a string *)

Lemma trimStart_blank (s : jsstring) :
  Forall (fun c => is_white_space c = true) s -> trimStart s = [].
Proof. induction 1 as [|c t Hc _ IH]; [reflexivity|]. cbn [trimStart]. now rewrite Hc. Qed.

Lemma trimStart_nil (s : jsstring) :
  trimStart s = [] -> Forall (fun c => is_white_space c = true) s.
Proof.
  induction s as [|c t IH]; intros H; [constructor|]. cbn [trimStart] in H.
  destruct (is_white_space c) eqn:E; [|discriminate]. constructor; auto.
Qed.

Lemma trimStart_app (x y : jsstring) :
  trimStart (x ++ y) = match trimStart x with [] => trimStart y | r => r ++ y end.
Proof.
  induction x as [|c x IH]; [reflexivity|]. cbn [app trimStart].
  destruct (is_white_space c); [exact IH|reflexivity].
Qed.

Lemma trimEnd_app_blank (x y : jsstring) :
  Forall (fun c => is_white_space c = true) y -> trimEnd (x ++ y) = trimEnd x.
Proof.
  intros H. unfold trimEnd. rewrite rev_app_distr, trimStart_app.
  now rewrite (trimStart_blank (rev y)) by now apply Forall_rev.
Qed.

Lemma trim_between_blanks (a str b : jsstring) :
  Forall (fun c => is_white_space c = true) a ->
  Forall (fun c => is_white_space c = true) b ->
  trim (a ++ str ++ b) = trim str.
Proof.
  intros Ha Hb. unfold trim. rewrite trimStart_app, (trimStart_blank a Ha), trimStart_app.
  destruct (trimStart str) as [|c r].
  - now rewrite (trimStart_blank b Hb).
  - now apply trimEnd_app_blank.
Qed.

Lemma stops_trimStart (s : jsstring) : stops is_white_space (trimStart s).
Proof.
  induction s as [|c t IH]; [exact I|]. cbn [trimStart].
  destruct (is_white_space c) eqn:E; [exact IH|exact E].
Qed.

Lemma stops_trimEnd (s : jsstring) : stops is_white_space s -> stops is_white_space (trimEnd s).
Proof.
  destruct s as [|c t]; [intros _; exact I|]. cbn [stops]. intros H.
  rewrite (trimEnd_cons_word c t H). exact H.
Qed.

Lemma trimEnd_fixed (s : jsstring) : ends_in_word true s = true -> trimEnd s = s.
Proof.
  induction s as [|c t IH]; [reflexivity|]. cbn [ends_in_word]. intros H.
  rewrite trimEnd_cons. destruct t as [|d t].
  - cbn [ends_in_word] in H. apply negb_true_iff in H. now rewrite H.
  - rewrite (IH H). reflexivity.
Qed.

Lemma ends_in_word_trimEnd (s : jsstring) : ends_in_word true (trimEnd s) = true.
Proof.
  induction s as [|c t IH]; [reflexivity|]. rewrite trimEnd_cons.
  destruct (trimEnd t) as [|d r].
  - destruct (is_white_space c) eqn:E; [reflexivity|]. cbn [ends_in_word]. now rewrite E.
  - exact IH.
Qed.

Lemma trim_fixed (s : jsstring) :
  stops is_white_space s -> ends_in_word true s = true -> trim s = s.
Proof. intros H1 H2. unfold trim. now rewrite (trimStart_fixed s H1), trimEnd_fixed. Qed.

Lemma trim_trimmed (s : jsstring) :
  stops is_white_space (trim s) /\ ends_in_word true (trim s) = true.
Proof.
  unfold trim. split; [apply stops_trimEnd, stops_trimStart|apply ends_in_word_trimEnd].
Qed.

Lemma trim_idempotent (s : jsstring) : trim (trim s) = trim s.
Proof. destruct (trim_trimmed s). now apply trim_fixed. Qed.

Lemma trim_nil (s : jsstring) :
  trim s = [] -> Forall (fun c => is_white_space c = true) s.
Proof.
  unfold trim, trimEnd. intros H.
  assert (E : trimStart (rev (trimStart s)) = []).
  { destruct (trimStart (rev (trimStart s))) as [|c r]; [reflexivity|].
    cbn [rev] in H. now destruct (rev r). }
  apply trimStart_nil, Forall_rev in E. rewrite rev_involutive in E.
  pose proof (stops_trimStart s) as S.
  destruct (trimStart s) as [|c r] eqn:T; [now apply trimStart_nil|].
  inversion E; subst. cbn [stops] in S. congruence.
Qed.

Lemma trim_blank (s : jsstring) :
  Forall (fun c => is_white_space c = true) s -> trim s = [].
Proof. intros H. unfold trim. now rewrite (trimStart_blank s H). Qed.

(** What [same_spacing] keeps. *)
Lemma same_spacing_stops (x y : list Z) :
  same_spacing x y -> stops is_white_space x -> stops is_white_space y.
Proof.
  intros [|c x' y' Hc _|u v x' y' Hu Hv Fu Fv _]; [easy| |].
  - cbn [stops]. congruence.
  - intros _. destruct v as [|d v]; [now elim Hv|]. now inversion Fv.
Qed.

Lemma ends_in_word_app (u x : list Z) :
  u <> [] -> Forall (fun c => is_white_space c = false) u ->
  forall d, ends_in_word d (u ++ x) = ends_in_word true x.
Proof.
  induction u as [|c u IH]; [intros H; now elim H|]. intros _ F d. inversion F as [|? ? Hc Hu]; subst.
  cbn [app ends_in_word]. destruct u as [|c' u].
  - cbn [app]. now rewrite Hc.
  - apply IH; [discriminate|exact Hu].
Qed.

Lemma same_spacing_ends (x y : list Z) :
  same_spacing x y -> forall d, ends_in_word d x = ends_in_word d y.
Proof.
  induction 1 as [|c x y Hc _ IH|u v x y Hu Hv Fu Fv _ IH]; intros d; [reflexivity| |].
  - cbn [ends_in_word]. apply IH.
  - now rewrite !ends_in_word_app.
Qed.

Lemma same_spacing_empty (x : list Z) : same_spacing x [] -> x = [].
Proof.
  intros H. remember [] as e eqn:E.
  destruct H as [|c x' y' Hc _|u v x' y' Hu Hv Fu Fv _]; [reflexivity|discriminate|].
  apply app_eq_nil in E. destruct E. contradiction.
Qed.

Lemma toLowerCase_spacing (s : jsstring) :
  (stops is_white_space s -> stops is_white_space (toLowerCase s))
  /\ (forall d, ends_in_word d (toLowerCase s) = ends_in_word d s)
  /\ (toLowerCase s = [] -> s = []).
Proof.
  pose proof (same_spacing_code_points s) as A.
  pose proof (same_spacing_lower_from (code_points s) []) as B.
  pose proof (same_spacing_code_units (lower_from [] (code_points s))) as C.
  fold (toLowerCase s) in C. repeat split.
  - intros H. eapply same_spacing_stops; [exact C|].
    eapply same_spacing_stops; [exact B|]. eapply same_spacing_stops; eassumption.
  - intros d. now rewrite <- (same_spacing_ends _ _ C), <- (same_spacing_ends _ _ B),
      <- (same_spacing_ends _ _ A).
  - intros E. rewrite E in C. apply same_spacing_empty in C. rewrite C in B.
    apply same_spacing_empty in B. rewrite B in A. now apply same_spacing_empty in A.
Qed.

(** ** [spaceString] *)

Lemma len_nonneg (s : jsstring) : 0 <= len s.
Proof. unfold len. lia. Qed.

Lemma space_repeat (maximum_length n : Z) :
  0 <= n <= maximum_length -> space maximum_length n = Returned (repeat 0x20 (Z.to_nat n)).
Proof.
  intros H. unfold space, String_repeat. destruct (n =? 0) eqn:E.
  - apply Z.eqb_eq in E. now subst n.
  - change (len (js " ")) with 1.
    replace ((n <? 0) || (maximum_length <? 1 * n)) with false by lia.
    f_equal. apply (repeat_string_unit 0x20).
Qed.

Lemma space_range_error (maximum_length n : Z) :
  n < 0 \/ (maximum_length < n /\ n <> 0) -> space maximum_length n = RangeError.
Proof.
  intros H. unfold space, String_repeat. change (len (js " ")) with 1.
  replace (n =? 0) with false by lia.
  now replace ((n <? 0) || (maximum_length <? 1 * n)) with true by lia.
Qed.

Lemma len_spaced (x str y : jsstring) :
  len (concat [x; str; y]) = len x + len str + len y.
Proof. cbn [concat]. rewrite app_nil_r, !len_app. lia. Qed.

Lemma len_spaces (n : Z) : 0 <= n -> len (repeat 0x20 (Z.to_nat n)) = n.
Proof. intros H. unfold len. rewrite repeat_length. lia. Qed.

(** X5: with numbers of spaces that are not negative, and a result that
    is no longer than a string can be, [spaceString] returns the string
    between [spaceBefore] and [spaceAfter] spaces: the result is longer by
    their sum, and trimming it gives what trimming the string gives. *)
Theorem spaceString_spaces :
  forall maximum_length str spaceBefore spaceAfter,
    0 <= spaceBefore -> 0 <= spaceAfter ->
    spaceBefore + len str + spaceAfter <= maximum_length ->
    exists result,
      spaceString maximum_length str spaceBefore spaceAfter = Returned result
      /\ result = repeat 0x20 (Z.to_nat spaceBefore) ++ str ++ repeat 0x20 (Z.to_nat spaceAfter)
      /\ len result = spaceBefore + len str + spaceAfter
      /\ trim result = trim str.
Proof.
  intros maximum_length str a b Ha Hb Hm. pose proof (len_nonneg str) as Hs.
  exists (repeat 0x20 (Z.to_nat a) ++ str ++ repeat 0x20 (Z.to_nat b)).
  split; [|split; [reflexivity|split]].
  - unfold spaceString.
    rewrite (space_repeat maximum_length a), (space_repeat maximum_length b) by lia.
    cbv beta iota. unfold concatenation. rewrite len_spaced, !len_spaces by lia.
    replace (maximum_length <? a + len str + b) with false by lia.
    cbn [concat]. now rewrite app_nil_r.
  - rewrite !len_app. unfold len. rewrite !repeat_length. lia.
  - apply trim_between_blanks; apply Forall_forall; intros c Hc;
      apply repeat_spec in Hc; now subst c.
Qed.

Lemma spaceString_spaces_witness :
  exists result,
    spaceString V8_maximum_length (js "hi chat") 2 4 = Returned result
    /\ result = repeat 0x20 (Z.to_nat 2) ++ js "hi chat" ++ repeat 0x20 (Z.to_nat 4)
    /\ len result = 2 + len (js "hi chat") + 4
    /\ trim result = trim (js "hi chat").
Proof.
  apply (spaceString_spaces V8_maximum_length (js "hi chat") 2 4); vm_compute; discriminate.
Defined.

(** X6: [spaceString] throws a [RangeError] exactly when one of the two
    numbers is negative, or the result would be longer than a string can
    be: [spaceString("x", 2 ** 29, 0)] throws it in V8. *)
Theorem spaceString_range_error :
  (forall maximum_length str spaceBefore spaceAfter,
      spaceString maximum_length str spaceBefore spaceAfter = RangeError
      <-> spaceBefore < 0 \/ spaceAfter < 0
          \/ maximum_length < spaceBefore + len str + spaceAfter)
  /\ spaceString V8_maximum_length (js "x") (2 ^ 29) 0 = RangeError.
Proof.
  split; [|reflexivity].
  intros maximum_length str a b. pose proof (len_nonneg str) as Hs. unfold spaceString.
  destruct (Z_lt_ge_dec a 0) as [Ha|Ha].
  { rewrite (space_range_error maximum_length a) by lia. split; [now left|reflexivity]. }
  destruct (Z_lt_ge_dec maximum_length a) as [Ma|Ma].
  { destruct (Z.eq_dec a 0) as [->|Na].
    - cbn [space Z.eqb]. destruct (Z_lt_ge_dec b 0) as [Hb|Hb].
      + rewrite (space_range_error maximum_length b) by lia. split; [lia|reflexivity].
      + destruct (Z.eq_dec b 0) as [->|Nb].
        * cbn [space Z.eqb]. unfold concatenation.
          rewrite len_spaced. change (len []) with 0.
          replace (0 + len str + 0) with (len str) by lia.
          replace (maximum_length <? len str) with true by lia. split; [lia|reflexivity].
        * rewrite (space_range_error maximum_length b) by lia. split; [lia|reflexivity].
    - rewrite (space_range_error maximum_length a) by lia. split; [lia|reflexivity]. }
  rewrite (space_repeat maximum_length a) by lia.
  destruct (Z_lt_ge_dec b 0) as [Hb|Hb].
  { rewrite (space_range_error maximum_length b) by lia. split; [lia|reflexivity]. }
  destruct (Z_lt_ge_dec maximum_length b) as [Mb|Mb].
  { rewrite (space_range_error maximum_length b) by lia. split; [lia|reflexivity]. }
  rewrite (space_repeat maximum_length b) by lia.
  cbv beta iota. unfold concatenation. rewrite len_spaced, !len_spaces by lia.
  destruct (Z.ltb_spec maximum_length (a + len str + b)); split; try discriminate; try lia.
  reflexivity.
Qed.

(** ** Strings that [normalize] leaves as they are *)

Lemma code_points_fixed (s : jsstring) :
  Forall (fun c => is_high_surrogate c = false) s -> code_points s = s.
Proof.
  induction 1 as [|c t Hc _ IH]; [reflexivity|].
  rewrite code_points_cons_single, IH; [reflexivity|]. congruence.
Qed.

Lemma code_units_fixed (l : list Z) :
  Forall (fun c => (c <? 0x10000) = true) l -> code_units l = l.
Proof.
  induction 1 as [|c t Hc _ IH]; [reflexivity|]. rewrite code_units_cons, IH.
  unfold code_units_of. apply Z.ltb_lt in Hc.
  destruct (Z.leb_spec 0x10000 c); [lia|reflexivity].
Qed.

Lemma ordered_from_starters_only (l : list Z) :
  Forall (fun c => combining_class c = 0) l -> forall k, ordered_from k l = true.
Proof.
  induction 1 as [|c t Hc _ IH]; intros k; [reflexivity|]. cbn [ordered_from].
  now rewrite Hc, IH.
Qed.

Lemma tidy_word (s : jsstring) :
  Forall (fun c => is_white_space c = false) s ->
  forall p, p <> AfterSpace -> tidy_from p s = true.
Proof.
  induction 1 as [|c t Hc _ IH]; intros p Hp.
  - destruct p; [reflexivity|reflexivity|contradiction].
  - cbn [tidy_from]. rewrite Hc. now apply IH.
Qed.

Lemma lower_alnum_checked (P : Z -> bool) (c : Z) :
  forallb P (interval 0x61 0x7A ++ interval 0x30 0x39) = true ->
  is_lower_alnum c = true -> P c = true.
Proof.
  intros T H. rewrite forallb_app in T. apply andb_true_iff in T. destruct T as [T1 T2].
  unfold is_lower_alnum in H. apply orb_true_iff in H.
  destruct H as [H|H]; [exact (interval_checked _ _ _ _ T1 H)|exact (interval_checked _ _ _ _ T2 H)].
Qed.

Lemma Forall_lower_alnum (P : Z -> bool) (w : jsstring) :
  forallb P (interval 0x61 0x7A ++ interval 0x30 0x39) = true ->
  Forall (fun c => is_lower_alnum c = true) w -> Forall (fun c => P c = true) w.
Proof. intros T. apply Forall_impl. intros c. now apply lower_alnum_checked. Qed.

Tactic Notation "alnum_fact" hyp(H) uconstr(P) "as" ident(G) :=
  pose proof (Forall_lower_alnum P _ ltac:(vm_compute; reflexivity) H) as G.

Lemma nfd_lower_alnum (w : jsstring) :
  Forall (fun c => is_lower_alnum c = true) w -> nfd w = w.
Proof.
  intros H. unfold nfd.
  alnum_fact H (fun c => negb (is_high_surrogate c)) as G1.
  alnum_fact H is_decomposed as G2.
  alnum_fact H (fun c => combining_class c =? 0) as G3.
  alnum_fact H (fun c => c <? 0x10000) as G4.
  rewrite code_points_fixed, nfd_code_points_fixed, code_units_fixed; trivial.
  - apply ordered_from_starters_only. revert G3. apply Forall_impl. intros c. apply Z.eqb_eq.
  - revert G1. apply Forall_impl. intros c. apply negb_true_iff.
Qed.

Lemma toLowerCase_lower_alnum (w : jsstring) :
  Forall (fun c => is_lower_alnum c = true) w -> toLowerCase w = w.
Proof.
  intros H. unfold toLowerCase.
  alnum_fact H (fun c => negb (is_high_surrogate c)) as G1.
  alnum_fact H (fun c => negb (has_lowercase c)) as G2.
  alnum_fact H (fun c => c <? 0x10000) as G4.
  rewrite code_points_fixed, lower_from_stable, code_units_fixed; trivial.
  - revert G2. apply Forall_impl. intros c. apply negb_true_iff.
  - revert G1. apply Forall_impl. intros c. apply negb_true_iff.
Qed.

(** A string of the letters [a-z] and the digits [0-9] is its own
    normalization, strict or not. *)
Lemma normalize_lower_alnum (w : jsstring) :
  Forall (fun c => is_lower_alnum c = true) w ->
  normalize w false false = w /\ normalize w true false = w.
Proof.
  intros H.
  assert (E : normalize w false false = w).
  { rewrite normalize_plain, (nfd_lower_alnum w H), replace_all_class.
    alnum_fact H (fun c => negb (is_combining_mark c)) as G1.
    alnum_fact H (fun c => negb (is_white_space c)) as G2.
    rewrite (filter_fixed _ _ G1), (replace_all_white_space (length w)) by lia.
    assert (T : tidy w = true).
    { apply tidy_word; [|discriminate]. revert G2. apply Forall_impl.
      intros c. apply negb_true_iff. }
    rewrite (tidy_collapse w T), (tidy_trim w T). now apply toLowerCase_lower_alnum. }
  split; [exact E|]. rewrite normalize_strict, E. apply filter_fixed.
  alnum_fact H (fun c => negb (is_separator c)) as G. exact G.
Qed.

Lemma normalize_strict_lower_alnum (s : jsstring) :
  Forall (fun c => is_lower_alnum c = true) (normalize s true false).
Proof.
  rewrite normalize_strict. apply Forall_forall. intros c Hc.
  apply filter_In in Hc. destruct Hc as [Hin Hsep].
  rewrite normalize_plain in Hin.
  pose proof (toLowerCase_no_capital
                (trim (replace_all [Plus is_white_space] (js " ")
                         (replace_all [Chr is_combining_mark] [] (nfd s))))) as Hcap.
  rewrite Forall_forall in Hcap. apply Hcap in Hin.
  unfold is_separator, is_non_word, is_word in Hsep. unfold is_lower_alnum.
  rewrite Hin in Hsep. cbn [orb] in Hsep.
  destruct (between 0x61 0x7A c); [reflexivity|].
  destruct (between 0x30 0x39 c); [reflexivity|].
  cbn [orb negb] in Hsep.
  destruct (c =? 0x5F); [|rewrite orb_true_r in Hsep; discriminate].
  rewrite !orb_true_r in Hsep. discriminate.
Qed.

(** ** [stripCliColors] outside escape sequences *)

Lemma escape_sequence_head (parameter : Z -> bool) (e : jsstring) :
  escape_sequence parameter e -> exists r, e = 0x1B :: r.
Proof. intros [ps ims f _ _ _]. eexists. reflexivity. Qed.

Lemma strips_no_escape (s : jsstring) : ~ In 0x1B s -> strips is_parameter s s.
Proof.
  induction s as [|c t IH]; intros H; [constructor|]. apply strips_keep.
  - intros e r He E. destruct (escape_sequence_head _ _ He) as [r' ->].
    cbn [app] in E. apply H. left. congruence.
  - apply IH. intros Hin. apply H. now right.
Qed.

Lemma stripCliColors_no_escape (s : jsstring) : ~ In 0x1B s -> stripCliColors s = s.
Proof.
  intros H. unfold stripCliColors. cbn [String_replace]. symmetry.
  apply (strips_replace_all is_parameter is_parameter_apart). now apply strips_no_escape.
Qed.

Lemma strips_subsequence (parameter : Z -> bool) (s t : jsstring) :
  strips parameter s t -> subsequence t s.
Proof.
  induction 1 as [|e s t _ _ IH|c s t _ _ IH]; [constructor| |now constructor].
  induction e as [|c e IHe]; [exact IH|]. cbn [app]. now constructor.
Qed.

Lemma subsequence_length (t s : jsstring) : subsequence t s -> (length t <= length s)%nat.
Proof. induction 1; cbn [length]; lia. Qed.

(** X7: [stripCliColors] only removes characters: its result is the string
    without some of its characters, never longer than it, and a string
    without the escape character U+001B is returned as it is. *)
Theorem stripCliColors_subsequence :
  forall str,
    subsequence (stripCliColors str) str
    /\ len (stripCliColors str) <= len str
    /\ (~ In 0x1B str -> stripCliColors str = str).
Proof.
  intros str.
  assert (S : subsequence (stripCliColors str) str).
  { unfold stripCliColors. cbn [String_replace].
    apply (strips_subsequence is_parameter).
    apply (replace_all_strips is_parameter is_parameter_apart (length str)). lia. }
  split; [exact S|]. split; [|apply stripCliColors_no_escape].
  apply subsequence_length in S. unfold len. lia.
Qed.

Lemma stripCliColors_subsequence_witness : stripCliColors (js "Red") = js "Red".
Proof.
  apply (proj2 (proj2 (stripCliColors_subsequence (js "Red")))).
  cbn. intros H. repeat (destruct H as [H|H]; [discriminate H|]). exact H.
Defined.

(** ** [normalize] in strict mode, again *)

Lemma normalize_strip (s : jsstring) (strict : bool) :
  normalize s strict true = stripCliColors (normalize s strict false).
Proof. reflexivity. Qed.

Lemma lower_alnum_no_escape (w : jsstring) :
  Forall (fun c => is_lower_alnum c = true) w -> ~ In 0x1B w.
Proof.
  intros H Hin. rewrite Forall_forall in H. apply H in Hin. discriminate.
Qed.

(** X8: in strict mode the option [stripCliColors] of [normalize] changes
    nothing, the escape character and the bracket being removed with the
    other separators before the escape sequences are looked for; and
    [normalize] leaves its strict result as it is, whatever the options of
    the first call and strict again. *)
Theorem normalize_strict_idempotent :
  forall s stripColors stripColors',
    normalize s true stripColors = normalize s true false
    /\ normalize (normalize s true stripColors) true stripColors'
       = normalize s true stripColors
    /\ normalize (normalize s true stripColors) false false
       = normalize s true stripColors.
Proof.
  intros s a b.
  pose proof (normalize_strict_lower_alnum s) as H.
  assert (E : forall x c, Forall (fun c => is_lower_alnum c = true) x -> normalize x true c = x).
  { intros x c Hx. destruct (normalize_lower_alnum x Hx) as [_ E].
    destruct c; [|exact E]. rewrite normalize_strip, E.
    now apply stripCliColors_no_escape, lower_alnum_no_escape. }
  assert (A : normalize s true a = normalize s true false).
  { destruct a; [|reflexivity]. rewrite normalize_strip.
    now apply stripCliColors_no_escape, lower_alnum_no_escape. }
  rewrite A. split; [reflexivity|]. split; [now apply E|].
  now apply normalize_lower_alnum.
Qed.

(** ** [isPalindrome] *)

(** X9: [isPalindrome] compares the strict normalization of the string with
    its reverse: on a string of the letters [a-z] and the digits [0-9] it
    tells whether the string reads the same backwards, and on any string it
    answers as on its strict normalization. *)
Theorem isPalindrome_reverse :
  forall str,
    (Forall (fun c => is_lower_alnum c = true) str ->
     (isPalindrome str = true <-> rev str = str))
    /\ (isPalindrome str = true
        <-> rev (normalize str true false) = normalize str true false)
    /\ isPalindrome (normalize str true false) = isPalindrome str.
Proof.
  intros str.
  assert (P : forall s, isPalindrome s = true
                        <-> rev (normalize s true false) = normalize s true false).
  { intros s. unfold isPalindrome. cbv zeta. rewrite string_eqb_eq, reverseString_rev.
    split; congruence. }
  split; [|split; [apply P|]].
  - intros H. rewrite P. now destruct (normalize_lower_alnum str H) as [_ ->].
  - unfold isPalindrome. cbv zeta.
    now destruct (normalize_lower_alnum _ (normalize_strict_lower_alnum str)) as [_ ->].
Qed.

Lemma isPalindrome_reverse_witness :
  (Forall (fun c => is_lower_alnum c = true) hannah ->
   (isPalindrome hannah = true <-> rev hannah = hannah))
  /\ (isPalindrome hannah = true
      <-> rev (normalize hannah true false) = normalize hannah true false)
  /\ isPalindrome (normalize hannah true false) = isPalindrome hannah.
Proof. apply (isPalindrome_reverse hannah). Defined.

(** ** Blank strings *)

Lemma Forall_filter_keeps {A : Type} (P : A -> Prop) (f : A -> bool) (l : list A) :
  Forall P l -> Forall P (filter f l).
Proof.
  rewrite !Forall_forall. intros H x Hx. apply filter_In in Hx. now apply H.
Qed.

Lemma nfd_blank (s : jsstring) :
  Forall (fun c => is_white_space c = true) s ->
  Forall (fun c => is_white_space c = true) (nfd s).
Proof.
  intros H. unfold nfd.
  assert (H1 : Forall (fun c => is_high_surrogate c = false) s).
  { revert H. apply Forall_impl. intros c Hc. apply negb_true_iff.
    revert Hc. apply (white_space_checked (fun c => negb (is_high_surrogate c))).
    vm_compute. reflexivity. }
  rewrite (code_points_fixed s H1).
  assert (H2 : Forall (fun c => is_white_space c = true) (nfd_code_points s)).
  { apply (nfd_code_points_Forall (fun c => is_white_space c = true)); [|exact H].
    intros c Hc. apply Forall_forall. apply forallb_forall.
    revert Hc. apply (white_space_checked
                        (fun c => forallb is_white_space (canonical_decomposition c))).
    vm_compute. reflexivity. }
  rewrite code_units_fixed; [exact H2|].
  revert H2. apply Forall_impl. intros c.
  apply (white_space_checked (fun c => c <? 0x10000)). vm_compute. reflexivity.
Qed.

(** A string of white space is normalized to the empty string. *)
Lemma normalize_blank (s : jsstring) :
  Forall (fun c => is_white_space c = true) s -> normalize s false false = [].
Proof.
  intros H. rewrite normalize_plain, replace_all_class.
  rewrite (replace_all_white_space (length (filter (fun c => negb (is_combining_mark c)) (nfd s))))
    by lia.
  rewrite trim_blank; [reflexivity|].
  apply Forall_collapse_from; [reflexivity|]. now apply Forall_filter_keeps, nfd_blank.
Qed.

Lemma validate_trim (s : jsstring) : validate (Str s) = true -> trim s <> [].
Proof.
  intros H E. apply validate_Str in H. apply H, normalize_blank. now apply trim_nil.
Qed.

Lemma validate_string (u : UnknownString) :
  validate u = true -> u = Str (string_of u).
Proof. destruct u; try discriminate. reflexivity. Qed.

(** ** The first version of the module ([src/unnamed/part_000]) *)

(** X10: every value that [validate] accepts was accepted by the [validate]
    of the first version of the module, which only trimmed the string; a
    string of one combining accent is accepted by the first version and
    refused now.  The [normalize] of the first version is [normalize]
    without its options. *)
Theorem validate_stricter_than_first_version :
  (forall str, validate str = true -> Part000.validate str = true)
  /\ Part000.validate (Str acute_accent) = true
  /\ validate (Str acute_accent) = false
  /\ (forall s, Part000.normalize s = normalize s false false).
Proof.
  split; [|split; [vm_compute; reflexivity|split; [vm_compute; reflexivity|]]].
  - intros str H. destruct str as [| |s|n]; try discriminate H. apply validate_trim in H.
    cbn [Part000.validate]. destruct (string_eqb (trim s) []) eqn:E; [|reflexivity].
    apply string_eqb_eq in E. contradiction.
  - intros s. now rewrite normalize_plain.
Qed.

Lemma validate_stricter_than_first_version_witness :
  Part000.validate (Str (js "a")) = true.
Proof. apply (proj1 validate_stricter_than_first_version (Str (js "a"))). reflexivity. Defined.

(** ** [softlyNormalizeArray] and [strictlyNormalizeArray] *)

Lemma toLowerCase_trimmed (s : jsstring) :
  s <> [] -> trim s = s ->
  toLowerCase s <> [] /\ trim (toLowerCase s) = toLowerCase s.
Proof.
  intros Hne Ht. destruct (toLowerCase_spacing s) as (A & B & C).
  split; [intros E; now apply Hne, C|].
  destruct (trim_trimmed s) as [T1 T2]. rewrite Ht in T1, T2.
  apply trim_fixed; [now apply A|now rewrite B].
Qed.

(** X11: [softlyNormalizeArray] returns, without throwing, one string for
    each value that [validate] accepts, in order: the trimmed string, in
    lower case when asked for.  None of them is empty, and none begins or
    ends with white space. *)
Theorem softlyNormalizeArray_elements :
  forall strArr lowercase,
    exists result,
      softlyNormalizeArray strArr lowercase = Normal result
      /\ result = map (fun str => if lowercase then toLowerCase (trim (string_of str))
                                  else trim (string_of str))
                      (filter validate strArr)
      /\ Forall (fun e => e <> [] /\ trim e = e) result.
Proof.
  intros strArr lowercase. eexists. split; [|split; [reflexivity|]].
  - unfold softlyNormalizeArray. apply map_throwing_normal.
    intros x Hx. apply filter_In in Hx. destruct Hx as [_ Hx].
    now rewrite (validate_string x Hx).
  - apply Forall_forall. intros e He. apply in_map_iff in He.
    destruct He as (x & <- & Hx). apply filter_In in Hx. destruct Hx as [_ Hx].
    destruct x as [| |s|n]; try discriminate Hx. apply validate_trim in Hx.
    cbn [string_of]. pose proof (trim_idempotent s) as I.
    destruct lowercase; [now apply toLowerCase_trimmed|now split].
Qed.

(** X12: [strictlyNormalizeArray] returns, without throwing, the strict
    normalization of each value that [validate] accepts, a string of the
    letters [a-z] and the digits [0-9]; unlike the elements of
    [normalizeArray] it can be empty, as for ["?!"]. *)
Theorem strictlyNormalizeArray_elements :
  (forall strArr,
      exists result,
        strictlyNormalizeArray strArr = Normal result
        /\ result = map (fun str => normalize (string_of str) true false)
                        (filter validate strArr)
        /\ Forall (Forall (fun c => is_lower_alnum c = true)) result)
  /\ strictlyNormalizeArray [Str question] = Normal [[]].
Proof.
  split; [|vm_compute; reflexivity].
  intros strArr. eexists. split; [|split; [reflexivity|]].
  - unfold strictlyNormalizeArray. apply map_throwing_normal.
    intros x Hx. apply filter_In in Hx. destruct Hx as [_ Hx].
    rewrite (validate_string x Hx) at 1. cbn [normalize_unknown]. f_equal.
    rewrite normalize_strip. apply stripCliColors_no_escape, lower_alnum_no_escape.
    apply normalize_strict_lower_alnum.
  - apply Forall_forall. intros e He. apply in_map_iff in He.
    destruct He as (x & <- & _). apply normalize_strict_lower_alnum.
Qed.

(** ** [kominator] *)

Lemma replace_first_absent (a : Z) (repl s : jsstring) :
  ~ In a s -> replace_first [a] repl s = s.
Proof.
  induction s as [|c t IH]; intros H; [reflexivity|]. cbn [replace_first strip_prefix].
  destruct (a =? c) eqn:E.
  - apply Z.eqb_eq in E. exfalso. apply H. now left.
  - rewrite IH; [reflexivity|]. intros Hin. apply H. now right.
Qed.

Lemma replace_first_head (a : Z) (s : jsstring) : replace_first [a] [] (a :: s) = s.
Proof. cbn [replace_first strip_prefix]. now rewrite Z.eqb_refl. Qed.

Lemma In_trimStart (x : Z) (s : jsstring) : In x (trimStart s) -> In x s.
Proof.
  destruct (trimStart_split s) as [u E]. intros H. rewrite E. apply in_or_app. now right.
Qed.

Lemma In_trim (x : Z) (s : jsstring) : In x (trim s) -> In x s.
Proof.
  unfold trim, trimEnd. intros H. apply in_rev, In_trimStart in H.
  apply in_rev in H. now apply In_trimStart.
Qed.

Lemma In_replace_first (x : Z) (p s : jsstring) : In x (replace_first p [] s) -> In x s.
Proof.
  induction s as [|c t IH]; cbn [replace_first].
  - destruct (strip_prefix p []) as [rest|] eqn:E; [|easy].
    apply strip_prefix_Some in E. symmetry in E. apply app_eq_nil in E.
    destruct E as [_ ->]. easy.
  - destruct (strip_prefix p (c :: t)) as [rest|] eqn:E.
    + apply strip_prefix_Some in E. rewrite E. cbn [app]. intros H.
      apply in_or_app. now right.
    + intros [H|H]; [now left|right; now apply IH].
Qed.

(** X13: [kominator] returns one string more than the separator (of one
    character, as the default [","]) occurs in the string, so one string,
    the empty one, for the empty string.  No string of the result contains
    the separator, and none begins or ends with white space. *)
Theorem kominator_pieces :
  forall str c,
    length (kominator str (Some [c])) = S (count_occ Z.eq_dec str c)
    /\ Forall (fun p => ~ In c p /\ trim p = p) (kominator str (Some [c]))
    /\ kominator str None = kominator str (Some [0x2C]).
Proof.
  intros str c. unfold kominator. split; [|split; [|reflexivity]].
  - rewrite length_map. apply split_from_count.
  - apply Forall_forall. intros p Hp. apply in_map_iff in Hp.
    destruct Hp as (x & <- & Hx). split; [|apply trim_idempotent].
    intros H. apply In_trim, In_replace_first in H.
    pose proof (split_from_pieces c str [] (fun F => F)) as S.
    rewrite Forall_forall in S. exact (S x Hx H).
Qed.

(** X14: [kominator] undoes [join]: strings without the separator and
    without a double quote, none of which begins or ends with white space,
    are given back when they are joined with the separator and the result
    is split. *)
Theorem kominator_join :
  forall c pieces,
    pieces <> [] ->
    Forall (fun p => ~ In c p /\ ~ In 0x22 p /\ trim p = p) pieces ->
    kominator (join [c] pieces) (Some [c]) = pieces.
Proof.
  intros c pieces Hne H. unfold kominator. rewrite split_join.
  - rewrite <- (map_id pieces) at 2. apply map_ext_in. intros p Hp.
    rewrite Forall_forall in H. destruct (H p Hp) as (_ & Hq & Ht).
    now rewrite replace_first_absent.
  - exact Hne.
  - revert H. apply Forall_impl. now intros p (Hc & _).
Qed.

Lemma kominator_join_witness :
  kominator (join [0x2C] [js "a"; js "b c"; []]) (Some [0x2C]) = [js "a"; js "b c"; []].
Proof.
  apply (kominator_join 0x2C [js "a"; js "b c"; []]); [discriminate|].
  repeat constructor; try (vm_compute; reflexivity);
    cbn; intros H; repeat (destruct H as [H|H]; [discriminate H|]); exact H.
Defined.

Lemma ends_in_word_snoc (l : jsstring) (c : Z) :
  forall d, ends_in_word d (l ++ [c]) = negb (is_white_space c).
Proof. induction l as [|a l IH]; intros d; [reflexivity|]. cbn [app ends_in_word]. apply IH. Qed.

(** X15: [kominator] removes the first double quote of each piece only: a
    piece between two double quotes keeps the second. *)
Theorem kominator_keeps_second_quote :
  forall c w,
    c <> 0x22 -> ~ In c w -> ~ In 0x22 w -> stops is_white_space w ->
    kominator ([0x22] ++ w ++ [0x22]) (Some [c]) = [w ++ [0x22]].
Proof.
  intros c w Hc Hw Hq Hs. unfold kominator.
  replace ([0x22] ++ w ++ [0x22]) with (join [c] [[0x22] ++ w ++ [0x22]]) at 1 by reflexivity.
  rewrite split_join; [|discriminate|].
  - cbn [map app]. rewrite replace_first_head. f_equal. apply trim_fixed.
    + destruct w as [|d w]; [reflexivity|exact Hs].
    + now rewrite ends_in_word_snoc.
  - constructor; [|constructor]. cbn [app]. intros [H|H]; [congruence|].
    apply in_app_or in H. destruct H as [H|[H|[]]]; [contradiction|congruence].
Qed.

Lemma kominator_keeps_second_quote_witness :
  kominator ([0x22] ++ js "a" ++ [0x22]) (Some [0x2C]) = [js "a" ++ [0x22]].
Proof.
  apply (kominator_keeps_second_quote 0x2C (js "a")).
  - discriminate.
  - cbn. intros [H|H]; [discriminate H|exact H].
  - cbn. intros [H|H]; [discriminate H|exact H].
  - reflexivity.
Defined.

(** ** [toUpperCase] and [toLowerCase] of one code unit *)

Lemma toUpperCase_unit (c : Z) : toUpperCase [c] = code_units (upper_code_point c).
Proof. unfold toUpperCase. cbn [code_points flat_map]. now rewrite app_nil_r. Qed.

Lemma toLowerCase_unit (c : Z) : toLowerCase [c] = code_units (lower_code_point c).
Proof.
  unfold toLowerCase. cbn [code_points lower_from].
  replace (final_sigma [] []) with false by reflexivity.
  now rewrite andb_false_r, app_nil_r.
Qed.

Lemma charAt_0 (c : Z) (t : jsstring) : charAt (c :: t) 0 = [c].
Proof. reflexivity. Qed.

Lemma slice_from_1 (c : Z) (t : jsstring) : slice_from (c :: t) 1 = t.
Proof. reflexivity. Qed.

Lemma upper_code_point_surrogate (c : Z) :
  is_surrogate c = true -> upper_code_point c = [c].
Proof.
  intros H. unfold upper_code_point. destruct (assoc c uppercase_table) as [l|] eqn:E; [|reflexivity].
  table_fact E uppercase_table (fun e => negb (is_surrogate (fst e))).
  cbn [fst] in E. rewrite H in E. discriminate.
Qed.

Lemma upper_code_point_stable (c : Z) :
  Forall (fun x => has_uppercase x = false) (upper_code_point c).
Proof.
  unfold upper_code_point. destruct (assoc c uppercase_table) as [l|] eqn:E.
  - table_fact E uppercase_table
      (fun e => forallb (fun x => negb (has_uppercase x)) (snd e)).
    cbn [snd] in E. rewrite forallb_forall in E. apply Forall_forall. intros x Hx.
    apply E in Hx. now apply negb_true_iff in Hx.
  - constructor; [|constructor]. unfold has_uppercase. now rewrite E.
Qed.

Lemma upper_code_point_length (c : Z) :
  (1 <= length (code_units (upper_code_point c)) <= 3)%nat.
Proof.
  unfold upper_code_point. destruct (assoc c uppercase_table) as [l|] eqn:E.
  - table_fact E uppercase_table
      (fun e => let n := length (code_units (snd e)) in ((1 <=? n)%nat && (n <=? 3)%nat)).
    cbn [snd] in E. cbv zeta in E. apply andb_true_iff in E. destruct E as [E1 E2].
    apply Nat.leb_le in E1, E2. lia.
  - cbn [code_units flat_map]. unfold code_units_of.
    destruct ((0x10000 <=? c) && (c <=? 0x10FFFF)); cbn; lia.
Qed.

Lemma lower_code_point_length (c : Z) :
  (1 <= length (code_units (lower_code_point c)) <= 2)%nat.
Proof.
  unfold lower_code_point. destruct (assoc c lowercase_table) as [l|] eqn:E.
  - table_fact E lowercase_table
      (fun e => let n := length (code_units (snd e)) in ((1 <=? n)%nat && (n <=? 2)%nat)).
    cbn [snd] in E. cbv zeta in E. apply andb_true_iff in E. destruct E as [E1 E2].
    apply Nat.leb_le in E1, E2. lia.
  - cbn [code_units flat_map]. unfold code_units_of.
    destruct ((0x10000 <=? c) && (c <=? 0x10FFFF)); cbn; lia.
Qed.

(** ** [toUpperCaseFirst] and [toLowerCaseFirst] *)

Section First.

(** A case mapping of code points, and the function that applies it to the
    first code unit of a string. *)
Variable mapping : Z -> list Z.

Hypothesis mapping_stable : forall c x, In x (mapping c) -> mapping x = [x].
Hypothesis mapping_surrogate : forall c, is_surrogate c = true -> mapping c = [c].
Hypothesis mapping_not_empty : forall c, mapping c <> [].

Lemma first_unit_mapped (c : Z) :
  exists d r, code_units (mapping c) = d :: r /\ code_units (mapping d) = [d].
Proof.
  destruct (mapping c) as [|x l] eqn:E; [now elim (mapping_not_empty c)|].
  rewrite code_units_cons.
  destruct (code_units_of_cases x) as [C|(h & lo & C & Hh & Hl & Hx)]; rewrite C.
  - exists x, (code_units l). split; [reflexivity|].
    rewrite (mapping_stable c x) by (rewrite E; now left).
    cbn [code_units flat_map]. now rewrite C.
  - exists h, (lo :: code_units l). split; [reflexivity|].
    rewrite mapping_surrogate by (unfold is_surrogate; now rewrite Hh).
    cbn [code_units flat_map]. unfold code_units_of.
    unfold is_high_surrogate in Hh.
    destruct (Z.leb_spec 0x10000 h); [lia|reflexivity].
Qed.

End First.

Lemma lower_code_point_not_empty (c : Z) : lower_code_point c <> [].
Proof.
  destruct (is_surrogate c) eqn:E.
  - now rewrite lower_code_point_surrogate.
  - now apply lower_code_point_not_surrogate.
Qed.

Lemma lower_code_point_fixed (c x : Z) : In x (lower_code_point c) -> lower_code_point x = [x].
Proof.
  intros H. pose proof (lower_code_point_stable c) as S. rewrite Forall_forall in S.
  apply S in H. unfold has_lowercase in H. unfold lower_code_point.
  now destruct (assoc x lowercase_table).
Qed.

Lemma upper_code_point_not_empty (c : Z) : upper_code_point c <> [].
Proof.
  unfold upper_code_point. destruct (assoc c uppercase_table) as [l|] eqn:E; [|discriminate].
  table_fact E uppercase_table (fun e => match snd e with [] => false | _ => true end).
  cbn [snd] in E. now destruct l.
Qed.

Lemma upper_code_point_fixed (c x : Z) : In x (upper_code_point c) -> upper_code_point x = [x].
Proof.
  intros H. pose proof (upper_code_point_stable c) as S. rewrite Forall_forall in S.
  apply S in H. unfold has_uppercase in H. unfold upper_code_point.
  now destruct (assoc x uppercase_table).
Qed.

(** X16: [toUpperCaseFirst] changes the first code unit only, into its
    uppercase, of one to three code units, the empty string staying empty,
    and leaves its own result as it is.  A first code unit that is a surrogate is left as it is: the first
    letter of a string is not capitalized when it is outside the Basic
    Multilingual Plane. *)
Theorem toUpperCaseFirst_idempotent :
  (forall str, toUpperCaseFirst (toUpperCaseFirst str) = toUpperCaseFirst str)
  /\ (forall c t, toUpperCaseFirst (c :: t) = toUpperCase [c] ++ t)
  /\ (forall c t, is_surrogate c = true -> toUpperCaseFirst (c :: t) = c :: t)
  /\ (forall str, len str <= len (toUpperCaseFirst str) <= len str + 2).
Proof.
  assert (E : forall c t, toUpperCaseFirst (c :: t) = code_units (upper_code_point c) ++ t).
  { intros c t. unfold toUpperCaseFirst. now rewrite charAt_0, slice_from_1, toUpperCase_unit. }
  split; [|split; [|split]].
  4: { intros [|c t].
       - replace (toUpperCaseFirst []) with (@nil Z) by reflexivity. lia.
       - rewrite E, len_app. unfold len. cbn [length].
         pose proof (upper_code_point_length c). lia. }
  - intros [|c t]; [reflexivity|]. rewrite E.
    destruct (first_unit_mapped upper_code_point upper_code_point_fixed
                upper_code_point_surrogate upper_code_point_not_empty c)
      as (d & r & -> & Hd).
    cbn [app]. now rewrite E, Hd.
  - intros c t. now rewrite E, toUpperCase_unit.
  - intros c t H. rewrite E, (upper_code_point_surrogate c H).
    cbn [code_units flat_map]. unfold code_units_of. unfold is_surrogate in H.
    unfold is_high_surrogate, is_low_surrogate in H.
    destruct (Z.leb_spec 0x10000 c); [lia|reflexivity].
Qed.

Lemma toUpperCaseFirst_idempotent_witness :
  toUpperCaseFirst (0xD801 :: 0xDC28 :: js "x") = 0xD801 :: 0xDC28 :: js "x".
Proof.
  apply (proj1 (proj2 (proj2 toUpperCaseFirst_idempotent)) 0xD801 (0xDC28 :: js "x")).
  reflexivity.
Defined.

(** X17: [toLowerCaseFirst] changes the first code unit only, into its
    lowercase, of one or two code units, the empty string staying empty,
    and leaves its own result as it is.  A first code unit that is a
    surrogate is left as it is. *)
Theorem toLowerCaseFirst_idempotent :
  (forall str, toLowerCaseFirst (toLowerCaseFirst str) = toLowerCaseFirst str)
  /\ (forall c t, toLowerCaseFirst (c :: t) = toLowerCase [c] ++ t)
  /\ (forall c t, is_surrogate c = true -> toLowerCaseFirst (c :: t) = c :: t)
  /\ (forall str, len str <= len (toLowerCaseFirst str) <= len str + 1).
Proof.
  assert (E : forall c t, toLowerCaseFirst (c :: t) = code_units (lower_code_point c) ++ t).
  { intros c t. unfold toLowerCaseFirst. now rewrite charAt_0, slice_from_1, toLowerCase_unit. }
  split; [|split; [|split]].
  4: { intros [|c t].
       - replace (toLowerCaseFirst []) with (@nil Z) by reflexivity. lia.
       - rewrite E, len_app. unfold len. cbn [length].
         pose proof (lower_code_point_length c). lia. }
  - intros [|c t]; [reflexivity|]. rewrite E.
    destruct (first_unit_mapped lower_code_point lower_code_point_fixed
                lower_code_point_surrogate lower_code_point_not_empty c)
      as (d & r & -> & Hd).
    cbn [app]. now rewrite E, Hd.
  - intros c t. now rewrite E, toLowerCase_unit.
  - intros c t H. rewrite E, (lower_code_point_surrogate c H).
    cbn [code_units flat_map]. unfold code_units_of. unfold is_surrogate in H.
    unfold is_high_surrogate, is_low_surrogate in H.
    destruct (Z.leb_spec 0x10000 c); [lia|reflexivity].
Qed.

Lemma toLowerCaseFirst_idempotent_witness :
  toLowerCaseFirst (0xD801 :: 0xDC00 :: js "X") = 0xD801 :: 0xDC00 :: js "X".
Proof.
  apply (proj1 (proj2 (proj2 toLowerCaseFirst_idempotent)) 0xD801 (0xDC00 :: js "X")).
  reflexivity.
Defined.

(** ** [capitalizeWords] *)

Lemma word_checked (P : Z -> bool) (c : Z) :
  forallb P (interval 0x41 0x5A ++ interval 0x61 0x7A ++ interval 0x30 0x39 ++ [0x5F]) = true ->
  is_word c = true -> P c = true.
Proof.
  intros T H. rewrite !forallb_app in T.
  apply andb_true_iff in T. destruct T as [T1 T].
  apply andb_true_iff in T. destruct T as [T2 T].
  apply andb_true_iff in T. destruct T as [T3 T4].
  unfold is_word in H. rewrite !orb_true_iff in H. destruct H as [[[H|H]|H]|H].
  - exact (interval_checked _ _ _ _ T1 H).
  - exact (interval_checked _ _ _ _ T2 H).
  - exact (interval_checked _ _ _ _ T3 H).
  - apply Z.eqb_eq in H. subst c. cbn [forallb] in T4. now rewrite andb_true_r in T4.
Qed.

Lemma toUpperCase_word (c : Z) :
  is_word c = true -> toUpperCase [c] = [capitalized false c].
Proof.
  intros H. apply string_eqb_eq. revert H.
  apply (word_checked (fun c => string_eqb (toUpperCase [c]) [capitalized false c])).
  vm_compute. reflexivity.
Qed.

Lemma capitalized_not_word (after_word : bool) (c : Z) :
  is_word c = false -> capitalized after_word c = c.
Proof.
  unfold capitalized, is_word. intros H.
  destruct (between 0x61 0x7A c); [|reflexivity].
  rewrite orb_true_r in H. discriminate.
Qed.

Lemma capitalize_from_capitalized (s : jsstring) :
  forall after_word, capitalize_from after_word s = capitalized_from after_word s.
Proof.
  induction s as [|c t IH]; intros b; [reflexivity|].
  cbn [capitalize_from capitalized_from]. rewrite IH.
  destruct (is_word c) eqn:W; cbn [andb].
  - destruct b; cbn [negb app].
    + unfold capitalized. now rewrite andb_false_r.
    + now rewrite (toUpperCase_word c W).
  - now rewrite (capitalized_not_word b c W).
Qed.

Lemma capitalized_word (after_word : bool) (c : Z) :
  is_word (capitalized after_word c) = is_word c
  /\ capitalized after_word (capitalized after_word c) = capitalized after_word c.
Proof.
  unfold capitalized. destruct (between 0x61 0x7A c && negb after_word) eqn:E.
  - apply andb_true_iff in E. destruct E as [E1 E2]. rewrite E2, andb_true_r.
    unfold is_word, between in *. split.
    + replace ((0x41 <=? c - 0x20) && (c - 0x20 <=? 0x5A)) with true by lia.
      replace ((0x61 <=? c) && (c <=? 0x7A)) with true by lia.
      now rewrite orb_true_r.
    + now replace ((0x61 <=? c - 0x20) && (c - 0x20 <=? 0x7A)) with false by lia.
  - now rewrite E.
Qed.

(** X18: [capitalizeWords] replaces each of the letters [a-z] that is not
    behind a letter of ASCII, a digit or ['_'] by its capital, and changes
    nothing else: a letter with an accent is left as it is and the letter
    behind it is capitalized.  The length is kept, and the result is left
    as it is by [capitalizeWords]. *)
Theorem capitalizeWords_capitalized :
  forall str,
    capitalizeWords str = capitalized_from false str
    /\ len (capitalizeWords str) = len str
    /\ capitalizeWords (capitalizeWords str) = capitalizeWords str.
Proof.
  intros str. unfold capitalizeWords. rewrite !capitalize_from_capitalized.
  split; [reflexivity|]. split.
  - unfold len. f_equal. generalize false.
    induction str as [|c t IH]; intros b; [reflexivity|]. cbn [capitalized_from length].
    now rewrite IH.
  - generalize false. induction str as [|c t IH]; intros b; [reflexivity|].
    cbn [capitalized_from]. destruct (capitalized_word b c) as [-> ->]. now rewrite IH.
Qed.

(** ** [toTitleCase] *)

Lemma upper_code_point_no_space (c : Z) :
  c <> 0x20 -> Forall (fun x => x <> 0x20) (upper_code_point c).
Proof.
  intros H. unfold upper_code_point. destruct (assoc c uppercase_table) as [l|] eqn:E.
  - table_fact E uppercase_table (fun e => forallb (fun x => negb (x =? 0x20)) (snd e)).
    cbn [snd] in E. rewrite forallb_forall in E. apply Forall_forall. intros x Hx.
    apply E in Hx. apply negb_true_iff in Hx. now apply Z.eqb_neq.
  - now repeat constructor.
Qed.

Lemma lower_code_point_no_space (c : Z) :
  c <> 0x20 -> Forall (fun x => x <> 0x20) (lower_code_point c).
Proof.
  intros H. unfold lower_code_point. destruct (assoc c lowercase_table) as [l|] eqn:E.
  - table_fact E lowercase_table (fun e => forallb (fun x => negb (x =? 0x20)) (snd e)).
    cbn [snd] in E. rewrite forallb_forall in E. apply Forall_forall. intros x Hx.
    apply E in Hx. apply negb_true_iff in Hx. now apply Z.eqb_neq.
  - now repeat constructor.
Qed.

Lemma surrogate_no_space (c : Z) :
  is_high_surrogate c = true \/ is_low_surrogate c = true -> c <> 0x20.
Proof. unfold is_high_surrogate, is_low_surrogate. lia. Qed.

Lemma toLowerCase_no_space (s : jsstring) :
  Forall (fun x => x <> 0x20) s -> Forall (fun x => x <> 0x20) (toLowerCase s).
Proof.
  apply (toLowerCase_Forall (fun x => x <> 0x20) (fun x => x <> 0x20)).
  - exact lower_code_point_no_space.
  - discriminate.
  - exact surrogate_no_space.
  - intros c. lia.
Qed.

Lemma toUpperCase_no_space (s : jsstring) :
  Forall (fun x => x <> 0x20) s -> Forall (fun x => x <> 0x20) (toUpperCase s).
Proof.
  intros H. unfold toUpperCase. apply code_units_Forall; [exact surrogate_no_space|].
  apply Forall_flat_map.
  assert (G : Forall (fun x => x <> 0x20) (code_points s)).
  { apply code_points_Forall; [intros c; lia|exact H]. }
  revert G. apply Forall_impl. exact upper_code_point_no_space.
Qed.

Lemma title_word_no_space (word : jsstring) (index : nat) :
  Forall (fun x => x <> 0x20) word -> Forall (fun x => x <> 0x20) (title_word word index).
Proof.
  intros H. unfold title_word.
  destruct (includes smallWords (toLowerCase word) && negb (index =? 0)%nat).
  - now apply toLowerCase_no_space.
  - destruct word as [|c t]; [constructor|]. rewrite charAt_0, slice_from_1.
    inversion H; subst. apply Forall_app. split; [|assumption].
    apply toUpperCase_no_space. now constructor.
Qed.

Lemma In_mapi {A B : Type} (f : A -> nat -> B) (l : list A) (y : B) :
  In y (mapi f l) -> exists x i, In x l /\ y = f x i.
Proof.
  unfold mapi, indexed. intros H. apply in_map_iff in H.
  destruct H as ([x i] & <- & H). apply in_combine_l in H. now exists x, i.
Qed.

Lemma length_mapi {A B : Type} (f : A -> nat -> B) (l : list A) :
  length (mapi f l) = length l.
Proof.
  unfold mapi, indexed. rewrite length_map, length_combine, length_seq. lia.
Qed.

Lemma mapi_cons {A B : Type} (f : A -> nat -> B) (x : A) (l : list A) :
  exists rest, mapi f (x :: l) = f x O :: rest.
Proof. eexists. reflexivity. Qed.

(** X19: [toTitleCase] keeps the words, the pieces between spaces, in their
    places: the words of the result are those of the string, each of them
    lowercased when it is one of [smallWords] and not the first, and with
    its first code unit capitalized, as [toUpperCaseFirst] does, otherwise.
    The first word is always capitalized. *)
Theorem toTitleCase_words :
  forall str,
    String_split (js " ") (toTitleCase str)
    = mapi title_word (String_split (js " ") str)
    /\ length (String_split (js " ") (toTitleCase str))
       = length (String_split (js " ") str)
    /\ exists first rest rest',
        String_split (js " ") str = first :: rest
        /\ String_split (js " ") (toTitleCase str) = toUpperCaseFirst first :: rest'.
Proof.
  intros str.
  assert (E : String_split (js " ") (toTitleCase str)
              = mapi title_word (String_split (js " ") str)).
  { unfold toTitleCase. apply (split_join 0x20).
    - intros N. apply (f_equal (@length jsstring)) in N. rewrite length_mapi in N.
      destruct (String_split (js " ") str) eqn:S; [|discriminate].
      now apply (split_from_not_nil (js " ") str [] O).
    - apply Forall_forall. intros w Hw. apply In_mapi in Hw.
      destruct Hw as (x & i & Hx & ->).
      pose proof (split_from_pieces 0x20 str [] (fun F => F)) as P.
      rewrite Forall_forall in P. specialize (P x Hx).
      assert (G : Forall (fun c => c <> 0x20) (title_word x i)).
      { apply title_word_no_space, Forall_forall. intros c Hc ->. contradiction. }
      rewrite Forall_forall in G. intros Hin. now apply (G _ Hin). }
  split; [exact E|]. split; [now rewrite E, length_mapi|].
  rewrite E. destruct (String_split (js " ") str) as [|first rest] eqn:S.
  - now elim (split_from_not_nil (js " ") str [] O).
  - destruct (mapi_cons title_word first rest) as [rest' ->].
    exists first, rest, rest'. split; [reflexivity|]. f_equal.
    unfold title_word. cbn [Nat.eqb negb]. now rewrite andb_false_r.
Qed.

(** ** What [normalize] leaves in its result *)

(** X20: the steps of [normalize] behind the decomposition leave a
    normalized string as it is: it has no combining mark of
    [U+0300-U+036F], single spaces for its white space and none at its
    ends, and it is in lower case. *)
Theorem normalize_steps_stable :
  forall s,
    String_replace (Global [Chr is_combining_mark]) [] (normalize s false false)
    = normalize s false false
    /\ String_replace (Global [Plus is_white_space]) (js " ") (normalize s false false)
       = normalize s false false
    /\ trim (normalize s false false) = normalize s false false
    /\ toLowerCase (normalize s false false) = normalize s false false.
Proof.
  intros s. pose proof (normalize_tidy s) as T. cbn [String_replace]. repeat split.
  - rewrite replace_all_class. apply filter_fixed, normalize_no_mark.
  - rewrite (replace_all_white_space (length (normalize s false false))) by lia.
    now apply tidy_collapse.
  - now apply tidy_trim.
  - rewrite normalize_plain. apply toLowerCase_idempotent.
Qed.

(** ** The lines of [table] *)

Lemma len_repeat_string_unit (c : Z) (n : Z) : len (repeat_string [c] n) = Z.max n 0.
Proof. rewrite repeat_string_unit. unfold len. rewrite repeat_length. lia. Qed.


Lemma len_join (sep : jsstring) (l : list jsstring) :
  len (join sep l) = total (map len l) + len sep * Z.of_nat (length l - 1).
Proof.
  induction l as [|x t IH]; [cbn; lia|]. destruct t as [|y t].
  - cbn. lia.
  - rewrite join_cons by discriminate. rewrite !len_app, IH.
    cbn [map total fold_right length]. fold (total (map len t)).
    replace (Z.of_nat (S (S (length t)) - 1)) with (1 + Z.of_nat (S (length t) - 1)) by lia.
    lia.
Qed.



Lemma sum_map_ext {A : Type} (a b : A -> Z) (l : list A) :
  (forall x, In x l -> a x = b x) -> total (map a l) = total (map b l).
Proof. intros H. f_equal. now apply map_ext_in. Qed.

(** The widths of the columns are not negative, as long as their headers
    at least and as wide as their cells are counted. *)
Lemma column_width_bounds (prototype : record) (strArr : list record) (header : jsstring) :
  let w := Math_max (len header)
             (map (fun row => counted_width (completed [] (cell_string (get prototype row header))))
                  strArr) in
  len header <= w
  /\ forall row, In row strArr ->
       counted_width (completed [] (cell_string (get prototype row header))) <= w.
Proof.
  intros w.
  destruct (Math_max_is_maximum
              (map (fun row => counted_width (completed [] (cell_string (get prototype row header))))
                   strArr) (len header)) as [_ H].
  rewrite Forall_forall in H. split; [apply H; now left|].
  intros row Hrow. apply H. right.
  exact (in_map (fun row => counted_width (completed [] (cell_string (get prototype row header))))
           strArr row Hrow).
Qed.

Lemma len_createSeparator (prototype : record) (strArr : list record) (widths : list Z)
  (left middle right : jsstring) :
  columnWidths prototype strArr = Normal widths ->
  len (createSeparator widths left middle right)
  = len left + total (map (fun w => w + 2) widths)
    + len middle * Z.of_nat (length (headers_of strArr) - 1) + len right.
Proof.
  intros H. unfold createSeparator.
  rewrite !len_app, len_join, !length_map, map_map.
  rewrite (columnWidths_length _ _ _ H).
  rewrite (sum_map_ext (fun w => len (repeat_string chars_x (w + 2))) (fun w => w + 2)); [lia|].
  intros w Hw. unfold chars_x. rewrite len_repeat_string_unit.
  rewrite (columnWidths_widths _ _ _ H) in Hw. apply in_map_iff in Hw.
  destruct Hw as (h & <- & _).
  pose proof (column_width_bounds prototype strArr h) as [B _]. pose proof (len_nonneg h). lia.
Qed.



(** X21: the separator lines of [table] have the characters of their ends,
    [w + 2] characters for a column of width [w] and one separator between
    two columns: the top, middle and bottom lines, whose ends and
    separators are single characters, have the same length. *)
Theorem createSeparator_length :
  forall prototype strArr widths left middle right,
    columnWidths prototype strArr = Normal widths ->
    len (createSeparator widths left middle right)
    = len left + total (map (fun w => w + 2) widths)
      + len middle * Z.of_nat (length (headers_of strArr) - 1) + len right.
Proof. exact len_createSeparator. Qed.

Lemma createSeparator_length_witness :
  len (createSeparator [8; 3] chars_xlUp chars_xDown chars_xrUp)
  = len chars_xlUp + total (map (fun w => w + 2) [8; 3])
    + len chars_xDown * Z.of_nat (length (headers_of red_people) - 1) + len chars_xrUp.
Proof.
  apply (createSeparator_length V8_prototype red_people [8; 3]). vm_compute. reflexivity.
Defined.



(** ** [sortAlphabetically] on an array in order *)

Lemma stable_sort_sorted_fixed {A : Type} (le : A -> A -> bool) (l : list A) :
  StronglySorted (fun a b => le a b = true) l -> stable_sort le l = l.
Proof.
  unfold stable_sort. induction 1 as [|x t Ht IH Hx]; [reflexivity|].
  cbn [fold_right]. rewrite IH. destruct t as [|y t]; [reflexivity|].
  cbn [sorted_insert]. inversion Hx as [|? ? Hy _]; subst. now rewrite Hy.
Qed.

(** X23: the array that [sortAlphabetically] returns for an array already
    in the order of the normalizations of its strings has the same
    elements in the same places, whatever the collation: strings that the
    collation does not tell apart are not exchanged. *)
Theorem sortAlphabetically_sorted_unchanged :
  forall (localeCompare : jsstring -> jsstring -> Z) (h : store) (strArr : array_ref),
    StronglySorted (not_after localeCompare) (elements h strArr) ->
    elements (snd (sortAlphabetically localeCompare strArr h))
             (fst (sortAlphabetically localeCompare strArr h))
    = elements h strArr.
Proof.
  intros localeCompare h strArr H. unfold sortAlphabetically.
  rewrite elements_allocate_new. unfold toSorted. apply stable_sort_sorted_fixed.
  revert H. apply StronglySorted_weaken. intros a b Hab. unfold not_after in Hab.
  now apply Z.leb_le.
Qed.

Lemma sortAlphabetically_sorted_unchanged_witness :
  elements (snd (sortAlphabetically compare_lengths 0%nat [[js "alpha"; js "delta"; js "charlie"]]))
           (fst (sortAlphabetically compare_lengths 0%nat [[js "alpha"; js "delta"; js "charlie"]]))
  = elements [[js "alpha"; js "delta"; js "charlie"]] 0%nat.
Proof.
  apply (sortAlphabetically_sorted_unchanged compare_lengths
           [[js "alpha"; js "delta"; js "charlie"]] 0%nat).
  cbn [elements nth].
  repeat (constructor; [|repeat constructor; unfold not_after; vm_compute; discriminate]).
  constructor.
Defined.
